(** * Red Phone Agent: policy store, compliance checker, case router,
      scenario matcher and entity extractor

    A shallow embedding of the decision logic of the Red Phone Agent
    (rulesOfEngagement.js, policyChecker.js, caseRouter.js,
    realScenarios.js, messageProcessor.js, historicalCases.js and the
    policy lookups of knowledgeBaseService.js) together with the
    properties stated about it.

    Conventions of the embedding:
    - a JavaScript number is a rational ([Q]) or [NaN]; comparisons are the
      exact ones, and a comparison with [NaN] is false as in JavaScript;
      scores and approval levels, which only ever hold small integers, are
      integers ([Z]);
    - a JavaScript string is a [string] of 8-bit characters;
      [toLowerCase] and the whitespace class are the ASCII ones;
    - an object used as a table is an association list in insertion order
      (the order [Object.entries] enumerates), looked up on its own keys;
    - [undefined] for an optional field is [None].

    The modules up to [EntityExtractors] describe the functions on
    well-formed arguments: numbers where a number is expected, texts in
    the text fields of a draft, categories and priorities that name no
    inherited property.  The module [General] describes the router, the
    checker and the approval lookups on arguments of any shape, with the
    handlers that only such arguments reach. *)

From Stdlib Require Import String Ascii List Bool Arith ZArith QArith Lia Lqa.
Import ListNotations.
Local Open Scope string_scope.
Local Open Scope list_scope.

(* ================================================================== *)
(** ** JavaScript primitives used by the sources *)
(* ================================================================== *)

Module JS.

(** Numbers: a rational, or NaN. *)
Inductive jsnum : Type :=
| NaN : jsnum
| Num : Q -> jsnum.

Definition Qlt_bool (x y : Q) : bool := negb (Qle_bool y x).

(** [a >= b], [a <= b], [a < b], [a > b]; false when an operand is NaN. *)
Definition ge (a b : jsnum) : bool :=
  match a, b with Num x, Num y => Qle_bool y x | _, _ => false end.
Definition le (a b : jsnum) : bool :=
  match a, b with Num x, Num y => Qle_bool x y | _, _ => false end.
Definition lt (a b : jsnum) : bool :=
  match a, b with Num x, Num y => Qlt_bool x y | _, _ => false end.
Definition gt (a b : jsnum) : bool :=
  match a, b with Num x, Num y => Qlt_bool y x | _, _ => false end.

Definition mul (a b : jsnum) : jsnum :=
  match a, b with Num x, Num y => Num (x * y) | _, _ => NaN end.

(** [x || 0] on a number: NaN and 0 are falsy. *)
Definition orZero (a : jsnum) : Q :=
  match a with
  | NaN => 0
  | Num x => if Qeq_bool x 0 then 0 else x
  end.

(** Truthiness of a number. *)
Definition truthyNum (a : jsnum) : bool :=
  match a with NaN => false | Num x => negb (Qeq_bool x 0) end.

(** Characters. *)
Definition isDigit (c : ascii) : bool :=
  (48 <=? nat_of_ascii c)%nat && (nat_of_ascii c <=? 57)%nat.

Definition digitVal (c : ascii) : Z := Z.of_nat (nat_of_ascii c - 48).

(** ASCII members of the regular-expression class [\s] and of the
    characters removed by [trim]. *)
Definition isSpace (c : ascii) : bool :=
  let n := nat_of_ascii c in
  (n =? 32)%nat || ((9 <=? n)%nat && (n <=? 13)%nat).

Definition lowerChar (c : ascii) : ascii :=
  let n := nat_of_ascii c in
  if (65 <=? n)%nat && (n <=? 90)%nat then ascii_of_nat (n + 32) else c.

(** [s.toLowerCase()]. *)
Fixpoint toLowerCase (s : string) : string :=
  match s with
  | EmptyString => EmptyString
  | String c s' => String (lowerChar c) (toLowerCase s')
  end.

(** [s.includes(needle)]. *)
Fixpoint includes (s needle : string) : bool :=
  String.prefix needle s ||
  match s with
  | EmptyString => false
  | String _ s' => includes s' needle
  end.

(** Length of the longest prefix whose characters satisfy [p]. *)
Fixpoint span (p : ascii -> bool) (s : string) : nat :=
  match s with
  | EmptyString => 0
  | String c s' => if p c then S (span p s') else 0
  end.

Fixpoint take (n : nat) (s : string) : string :=
  match n, s with
  | S k, String c s' => String c (take k s')
  | _, _ => EmptyString
  end.

Fixpoint drop (n : nat) (s : string) : string :=
  match n, s with
  | S k, String _ s' => drop k s'
  | _, _ => s
  end.

(** [s.split(sep)] for a one-character separator. *)
Fixpoint split (sep : ascii) (s : string) : list string :=
  match s with
  | EmptyString => [EmptyString]
  | String c s' =>
      if Ascii.eqb c sep then EmptyString :: split sep s'
      else match split sep s' with
           | [] => [String c EmptyString]
           | w :: ws => String c w :: ws
           end
  end.

(** [s.replace(pat, repl)] for a string pattern: the first occurrence. *)
Fixpoint replace (pat repl s : string) : string :=
  if String.prefix pat s then repl ++ drop (String.length pat) s
  else match s with
       | EmptyString => EmptyString
       | String c s' => String c (replace pat repl s')
       end.

(** [s.replace(/[...]/g, '')] for a character class [p]. *)
Fixpoint removeAll (p : ascii -> bool) (s : string) : string :=
  match s with
  | EmptyString => EmptyString
  | String c s' => if p c then removeAll p s' else String c (removeAll p s')
  end.

Fixpoint trimStart (s : string) : string :=
  match s with
  | EmptyString => EmptyString
  | String c s' => if isSpace c then trimStart s' else s
  end.

Fixpoint trimEnd (s : string) : string :=
  match s with
  | EmptyString => EmptyString
  | String c s' =>
      match trimEnd s' with
      | EmptyString => if isSpace c then EmptyString else String c EmptyString
      | t => String c t
      end
  end.

(** [s.trim()]. *)
Definition trim (s : string) : string := trimEnd (trimStart s).

(** Truthiness of a string: non-empty. *)
Definition truthyStr (s : string) : bool :=
  match s with EmptyString => false | _ => true end.

(** Value of a string of decimal digits, most significant first. *)
Fixpoint decimalValue (acc : Z) (s : string) : Z :=
  match s with
  | EmptyString => acc
  | String c s' => decimalValue (10 * acc + digitVal c) s'
  end.

(** [parseInt(s)] on the strings the sources pass to it (table keys and
    captured digit runs): the leading decimal digits, NaN when there is
    none.  Signs, leading blanks and radix prefixes do not occur. *)
Definition parseInt (s : string) : jsnum :=
  let d := span isDigit s in
  if (d =? 0)%nat then NaN
  else Num (inject_Z (decimalValue 0 (take d s))).

(** [parseFloat(s)] on the strings the sources pass to it (regular
    expression matches over digits, [.], and a unit suffix): the longest
    prefix [digits], [digits.digits] or [.digits]; NaN when there is no
    digit.  Signs, exponents and leading blanks do not occur. *)
Definition parseFloat (s : string) : jsnum :=
  let d := span isDigit s in
  let whole := Num (inject_Z (decimalValue 0 (take d s))) in
  match drop d s with
  | String c r =>
      if Ascii.eqb c "."%char then
        let f := span isDigit r in
        if (d =? 0)%nat && (f =? 0)%nat then NaN
        else if (f =? 0)%nat then whole
        else Num (Qred (Qmake (decimalValue 0 (take d s ++ take f r))
                              (Pos.pow 10 (Pos.of_nat f))))
      else if (d =? 0)%nat then NaN else whole
  | EmptyString => if (d =? 0)%nat then NaN else whole
  end.

(** [parseFloat(x)] on a numeric field that may be absent. *)
Definition parseFloatField (x : option Q) : jsnum :=
  match x with Some q => Num q | None => NaN end.

(** Own-key lookup [obj[key]] in a table. *)
Fixpoint lookup {A : Type} (key : string) (obj : list (string * A)) : option A :=
  match obj with
  | [] => None
  | (k, v) :: rest => if String.eqb key k then Some v else lookup key rest
  end.

(** [table[key] || fallback] on a table of numbers, for a key that may be
    undefined and that is no name of an inherited property such as
    ["constructor"] ([General.lookupOr] has those keys). *)
Definition lookupOr (table : list (string * Q)) (key : option string) (fallback : Q)
  : Q :=
  match key with
  | Some k =>
      match lookup k table with
      | Some v => if Qeq_bool v 0 then fallback else v
      | None => fallback
      end
  | None => fallback
  end.

(** [[...new Set(xs)]]: the first occurrence of each element, in order. *)
Fixpoint unique (xs : list string) : list string :=
  match xs with
  | [] => []
  | x :: rest => x :: filter (fun y => negb (String.eqb x y)) (unique rest)
  end.

(** [obj[key] = v]: overwrite in place, or append a new key. *)
Fixpoint assign {A : Type} (key : string) (v : A) (obj : list (string * A))
  : list (string * A) :=
  match obj with
  | [] => [(key, v)]
  | (k, w) :: rest =>
      if String.eqb key k then (k, v) :: rest else (k, w) :: assign key v rest
  end.

End JS.

(* ================================================================== *)
(** ** Rules of engagement: the policy knowledge store *)
(* ================================================================== *)

Module ROE.
Import JS.

Record DiscountEntry : Type := {
  max : Q;
  typical : Q;
  autoApproved : Q
}.

Definition entry (m t a : Z) : DiscountEntry :=
  {| max := inject_Z m; typical := inject_Z t; autoApproved := inject_Z a |}.

(** [rulesOfEngagement.discountPolicies.standard]. *)
Definition standard : list (string * list (string * DiscountEntry)) :=
  [ ("newBusiness",
      [ ("enterprise", entry 20 15 10);
        ("midmarket", entry 15 10 7);
        ("smb", entry 10 5 5);
        ("largeEnterprise", entry 25 20 15);
        ("globalAccounts", entry 30 25 20) ]);
    ("renewal",
      [ ("enterprise", entry 15 10 8);
        ("midmarket", entry 12 8 5);
        ("smb", entry 8 3 3);
        ("largeEnterprise", entry 20 15 12);
        ("globalAccounts", entry 25 20 15) ]);
    ("addon",
      [ ("all", entry 5 0 5) ]) ].

(** [rulesOfEngagement.discountPolicies.regional], the
    [additionalDiscount] of each region. *)
Definition regional : list (string * Q) :=
  [ ("namer", 0); ("latam", 5); ("emea", 3); ("apac", 7) ]%Q.

(** The object [getDiscountPolicy] returns: the spread entry and the two
    derived fields. *)
Record DiscountPolicy : Type := {
  standardDiscount : DiscountEntry;
  regionalAdjustment : Q;
  effectiveMax : Q
}.

Definition getDiscountPolicy (dealType segment : string) (region : option string)
  : option DiscountPolicy :=
  let region := match region with Some r => r | None => "namer" end in
  let standardDiscount :=
    match lookup dealType standard with
    | Some bySegment => lookup segment bySegment
    | None => None
    end in
  let regionalAdjustment :=
    orZero (match lookup region regional with
            | Some a => Num a
            | None => NaN
            end) in
  match standardDiscount with
  | Some sd =>
      Some {| standardDiscount := sd;
              regionalAdjustment := regionalAdjustment;
              effectiveMax := (max sd + regionalAdjustment)%Q |}
  | None => None
  end.

Record Approval : Type := {
  approver : string;
  timeframe : string
}.

(** [rulesOfEngagement.approvalWorkflow.discountApproval]. *)
Definition discountApprovalTable : list (string * Approval) :=
  [ ("0-10%", {| approver := "Auto-approved"; timeframe := "Immediate" |});
    ("11-20%", {| approver := "Sales Manager"; timeframe := "24 hours" |});
    ("21-30%", {| approver := "Regional Director"; timeframe := "48 hours" |});
    ("31%+", {| approver := "VP Sales + Finance"; timeframe := "72 hours" |}) ].

(** [rulesOfEngagement.approvalWorkflow.dealSizeApproval]. *)
Definition dealSizeApprovalTable : list (string * Approval) :=
  [ ("under50k", {| approver := "Sales Manager"; timeframe := "24 hours" |});
    ("50k-250k", {| approver := "Regional Director"; timeframe := "48 hours" |});
    ("250k-500k", {| approver := "VP Sales"; timeframe := "72 hours" |});
    ("500k+", {| approver := "VP Sales + CEO"; timeframe := "1 week" |}) ].

(** The predicate of the first [find]: does [discountPercent] fall in the
    bracket named [range]? *)
Definition inDiscountRange (discountPercent : Q) (range : string) : bool :=
  if includes range "+" then
    let min := parseInt (hd "" (split "%" range)) in
    ge (Num discountPercent) min
  else
    let bounds := map parseInt (split "-" range) in
    let min := nth 0 bounds NaN in
    let max := nth 1 bounds NaN in
    ge (Num discountPercent) min && le (Num discountPercent) max.

(** The predicate of the second [find]. *)
Definition inSizeRange (dealSize : Q) (range : string) : bool :=
  if includes range "+" then
    let min := mul (parseInt (hd "" (split "k" range))) (Num 1000) in
    ge (Num dealSize) min
  else if includes range "-" then
    let bounds :=
      map (fun r => mul (parseInt (replace "k" "" r)) (Num 1000))
          (split "-" range) in
    let min := nth 0 bounds NaN in
    let max := nth 1 bounds NaN in
    ge (Num dealSize) min && le (Num dealSize) max
  else
    let threshold :=
      mul (parseInt (replace "k" "" (replace "under" "" range))) (Num 1000) in
    lt (Num dealSize) threshold.

(** [highestLevel] is one approval when the two approvers are the same
    (also when both are missing), the pair otherwise. *)
Inductive Highest : Type :=
| Single : option Approval -> Highest
| Both : option Approval -> option Approval -> Highest.

Record ApprovalRequirement : Type := {
  discountApproval : option Approval;
  sizeApproval : option Approval;
  highestLevel : Highest
}.

Definition sameApprover (a b : option Approval) : bool :=
  match a, b with
  | Some x, Some y => String.eqb (approver x) (approver y)
  | None, None => true
  | _, _ => false
  end.

(** [getApprovalRequirement] on two numbers; [General] has it on
    [undefined], [null] and NaN. *)
Definition getApprovalRequirement (discountPercent dealSize : Q)
  : ApprovalRequirement :=
  let discountApproval :=
    option_map snd
      (find (fun e => inDiscountRange discountPercent (fst e))
            discountApprovalTable) in
  let sizeApproval :=
    option_map snd
      (find (fun e => inSizeRange dealSize (fst e)) dealSizeApprovalTable) in
  {| discountApproval := discountApproval;
     sizeApproval := sizeApproval;
     highestLevel :=
       if sameApprover discountApproval sizeApproval
       then Single discountApproval
       else Both discountApproval sizeApproval |}.

End ROE.

(* ================================================================== *)
(** ** Scenario catalog and matcher (realScenarios.js) *)
(* ================================================================== *)

Module Scenarios.
Import JS.

(** A catalog entry.  The prompt, the canned response, the follow-up
    actions and the case template are texts no decision reads. *)
Record Scenario : Type := {
  id : string;
  category : string;
  keywords : list string;
  requiresCase : bool
}.

Definition customerScenarios : list Scenario :=
  [ {| id := "compensation-missing"; category := "Compensation";
       keywords := ["compensation"; "missing"; "commission"; "bookings";
                    "opportunity"];
       requiresCase := false |};
    {| id := "find-invoice"; category := "Billing";
       keywords := ["invoice"; "customer"; "billing"; "download"; "dynamics"];
       requiresCase := false |};
    {| id := "tearup-ep"; category := "Deal Structure";
       keywords := ["tear up"; "tearup"; "ep"; "eligibility"; "roe"];
       requiresCase := true |};
    {| id := "hep-pricing"; category := "Pricing";
       keywords := ["hep"; "pricing"; "solution builder"; "quote"; "spend"];
       requiresCase := true |};
    {| id := "legal-terms"; category := "Legal";
       keywords := ["legal"; "terms"; "contract"; "non-standard"; "order form"];
       requiresCase := true |};
    {| id := "opportunity-stage"; category := "System Issues";
       keywords := ["stage"; "opportunity"; "error"; "closed admin";
                    "disengaged"];
       requiresCase := true |} ].

(** [kw => input.includes(kw.toLowerCase())]. *)
Definition keywordIn (input kw : string) : bool :=
  includes input (toLowerCase kw).

(** [scenario.keywords.filter(kw => ...).length]. *)
Definition score (input : string) (sc : Scenario) : nat :=
  List.length (filter (keywordIn input) (keywords sc)).

(** The callback of [reduce]. *)
Definition better (input : string) (best current : Scenario) : Scenario :=
  let bestScore := score input best in
  let currentScore := score input current in
  if (bestScore <? currentScore)%nat then current else best.

(** [findMatchingScenario] over an explicit catalog.  [reduce] is called
    without an initial value and only on two or more matches, so it
    starts from the first match. *)
Definition findMatchingScenarioIn (catalog : list Scenario) (userInput : string)
  : option Scenario :=
  let input := toLowerCase userInput in
  let matches :=
    filter (fun sc => existsb (keywordIn input) (keywords sc)) catalog in
  if (1 <? List.length matches)%nat then
    match matches with
    | first :: others => Some (fold_left (better input) others first)
    | [] => None
    end
  else hd_error matches.

Definition findMatchingScenario (userInput : string) : option Scenario :=
  findMatchingScenarioIn customerScenarios userInput.

End Scenarios.

(* ================================================================== *)
(** ** Entity extraction (messageProcessor.js) *)
(* ================================================================== *)

Module MessageProcessor.
Import JS.

(** One attempt of [/(\d+(?:\.\d+)?)%/] anchored at the start of [s]: the
    length of the match.  Both digit runs are greedy, and giving back a
    digit never helps because the next thing required ([.] or [%]) is
    not a digit; so the attempt succeeds exactly when the maximal digit
    run, optionally followed by [.] and a maximal non-empty digit run,
    is followed by [%]. *)
Definition percentageAt (s : string) : option nat :=
  let d := span isDigit s in
  if (d =? 0)%nat then None
  else match drop d s with
       | String c r =>
           if Ascii.eqb c "%"%char then Some (d + 1)%nat
           else if Ascii.eqb c "."%char then
             let f := span isDigit r in
             if (f =? 0)%nat then None
             else match drop f r with
                  | String c' _ =>
                      if Ascii.eqb c' "%"%char then Some (d + 1 + f + 1)%nat
                      else None
                  | EmptyString => None
                  end
           else None
       | EmptyString => None
       end.

Definition isDigitOrComma (c : ascii) : bool :=
  isDigit c || Ascii.eqb c ","%char.

Definition isUnitSuffix (c : ascii) : bool :=
  Ascii.eqb c "k"%char || Ascii.eqb c "K"%char ||
  Ascii.eqb c "m"%char || Ascii.eqb c "M"%char.

(** One attempt of [/\$?([\d,]+(?:\.\d{2})?)[kKmM]?/] anchored at the
    start of [s].  Everything after the run [[\d,]+] is optional and
    greedy, so the first choice of every part succeeds. *)
Definition currencyAt (s : string) : option nat :=
  let dollar :=
    match s with
    | String c _ => if Ascii.eqb c "$"%char then 1%nat else 0%nat
    | EmptyString => 0%nat
    end in
  let s1 := drop dollar s in
  let n := span isDigitOrComma s1 in
  if (n =? 0)%nat then None
  else
    let s2 := drop n s1 in
    let cents :=
      match s2 with
      | String c (String a (String b _)) =>
          if Ascii.eqb c "."%char && isDigit a && isDigit b
          then 3%nat else 0%nat
      | _ => 0%nat
      end in
    let s3 := drop cents s2 in
    let unit :=
      match s3 with
      | String c _ => if isUnitSuffix c then 1%nat else 0%nat
      | EmptyString => 0%nat
      end in
    Some (dollar + n + cents + unit)%nat.

(** The matches of a global pattern, left to right: an attempt at every
    position not covered by the previous match ([skip] characters of it
    remain). *)
Fixpoint matchAll (attempt : string -> option nat) (skip : nat) (s : string)
  : list string :=
  match s with
  | EmptyString => []
  | String _ s' =>
      match skip with
      | S k => matchAll attempt k s'
      | O =>
          match attempt s with
          | Some n => take n s :: matchAll attempt (n - 1) s'
          | None => matchAll attempt 0 s'
          end
      end
  end.

(** [message.match(pattern)] for a global pattern: null without match. *)
Definition matchGlobal (attempt : string -> option nat) (message : string)
  : option (list string) :=
  match matchAll attempt 0 message with
  | [] => None
  | ms => Some ms
  end.

(** [entityExtractors.percentage.extract]. *)
Definition extractPercentage (matches : list string) : list jsnum :=
  map (fun m => parseFloat (replace "%" "" m)) matches.

Definition isDollarOrComma (c : ascii) : bool :=
  Ascii.eqb c "$"%char || Ascii.eqb c ","%char.

(** [entityExtractors.currency.extract]. *)
Definition extractCurrency (matches : list string) : list jsnum :=
  map (fun m =>
         let clean := removeAll isDollarOrComma m in
         let num := parseFloat clean in
         if includes (toLowerCase m) "k" then mul num (Num 1000)
         else if includes (toLowerCase m) "m" then mul num (Num 1000000)
         else num)
      matches.

(** The entities object, restricted to the two numeric kinds; a key is
    present only when its pattern matched.  The other extractors
    (timeframe, segment, dealType, region, urgency) fill keys of their
    own and read nothing from these. *)
Record Entities : Type := {
  percentage : option (list jsnum);
  currency : option (list jsnum)
}.

Definition extractAllEntities (message : string) : Entities :=
  {| percentage := option_map extractPercentage (matchGlobal percentageAt message);
     currency := option_map extractCurrency (matchGlobal currencyAt message) |}.

End MessageProcessor.

(* ================================================================== *)
(** ** The case draft shared by the checker and the router *)
(* ================================================================== *)

Module Case.
Import JS.

(** The case under review, as the form sends it.  A text field is its
    text, [None] when it is undefined.  A numeric field is the number it
    holds, [None] when it holds none (undefined, empty, or not numeric).
    A draft whose text fields hold other values is a [General.Draft.t]. *)
Record CaseData : Type := {
  title : option string;
  category : option string;
  priority : option string;
  description : option string;
  dealValue : option Q;
  discountRequested : option Q;
  timeframe : option string;
  competitorInfo : option string;
  customerInfo : option string
}.

(** [field === literal]. *)
Definition same (field : option string) (literal : string) : bool :=
  match field with Some s => String.eqb s literal | None => false end.

(** [field?.toLowerCase() || '']. *)
Definition lowerOrEmpty (field : option string) : string :=
  match field with Some s => toLowerCase s | None => "" end.

(** Truthiness of an optional text. *)
Definition truthyText (field : option string) : bool :=
  match field with Some s => truthyStr s | None => false end.

End Case.

(* ================================================================== *)
(** ** Compliance checker (policyChecker.js) *)
(* ================================================================== *)

Module PolicyChecker.
Import JS Case.

(** A template literal: its fixed texts and the numbers spliced in. *)
Inductive MsgPart : Type :=
| Text : string -> MsgPart
| Value : Q -> MsgPart.

(** A violation or a warning; a recommendation carries [priority] for
    [severity].  The descriptive fields (impact, benefit, the numbers
    repeated from the message) are left out: nothing reads them. *)
Record Finding : Type := {
  type : string;
  severity : string;
  message : list MsgPart
}.

Record CheckResult : Type := {
  checkType : string;
  compliant : bool;
  score : option Z;
  violations : list Finding;
  warnings : list Finding;
  recommendations : list Finding
}.

(** The object every check starts from. *)
Definition fresh (name : string) : CheckResult :=
  {| checkType := name; compliant := true; score := Some 100%Z;
     violations := []; warnings := []; recommendations := [] |}.

Definition setCompliant (b : bool) (r : CheckResult) : CheckResult :=
  {| checkType := checkType r; compliant := b; score := score r;
     violations := violations r; warnings := warnings r;
     recommendations := recommendations r |}.

Definition setScore (n : Z) (r : CheckResult) : CheckResult :=
  {| checkType := checkType r; compliant := compliant r; score := Some n;
     violations := violations r; warnings := warnings r;
     recommendations := recommendations r |}.

Definition pushViolation (f : Finding) (r : CheckResult) : CheckResult :=
  {| checkType := checkType r; compliant := compliant r; score := score r;
     violations := violations r ++ [f]; warnings := warnings r;
     recommendations := recommendations r |}.

Definition pushWarning (f : Finding) (r : CheckResult) : CheckResult :=
  {| checkType := checkType r; compliant := compliant r; score := score r;
     violations := violations r; warnings := warnings r ++ [f];
     recommendations := recommendations r |}.

Definition pushRecommendation (f : Finding) (r : CheckResult) : CheckResult :=
  {| checkType := checkType r; compliant := compliant r; score := score r;
     violations := violations r; warnings := warnings r;
     recommendations := recommendations r ++ [f] |}.

(** [this.complianceRules.minimumRequirements]. *)
Definition minimumSeats : list (string * Q) :=
  [ ("smb", 5); ("midmarket", 25); ("enterprise", 100);
    ("largeEnterprise", 500); ("globalAccounts", 1000) ]%Q.

Definition minimumValue : list (string * Q) :=
  [ ("smb", 5000); ("midmarket", 15000); ("enterprise", 50000);
    ("largeEnterprise", 250000); ("globalAccounts", 500000) ]%Q.

Definition inferSegment (caseData : CaseData) : string :=
  let dealValue := orZero (parseFloatField (dealValue caseData)) in
  let description := lowerOrEmpty (description caseData) in
  let customerInfo := lowerOrEmpty (customerInfo caseData) in
  if includes description "smb" || includes customerInfo "smb" then "smb"
  else if includes description "midmarket" || includes customerInfo "midmarket"
  then "midmarket"
  else if includes description "enterprise" || includes customerInfo "enterprise"
  then "enterprise"
  else if includes description "global" || includes customerInfo "global"
  then "globalAccounts"
  else if Qle_bool 500000 dealValue then "globalAccounts"
  else if Qle_bool 250000 dealValue then "largeEnterprise"
  else if Qle_bool 50000 dealValue then "enterprise"
  else if Qle_bool 15000 dealValue then "midmarket"
  else "smb".

Definition inferDealType (caseData : CaseData) : string :=
  let description := lowerOrEmpty (description caseData) in
  let title := lowerOrEmpty (title caseData) in
  if includes description "renewal" || includes title "renewal" then "renewal"
  else if includes description "add-on" || includes description "addon"
          || includes title "add-on" then "addon"
  else if includes description "upsell" || includes title "upsell" then "upsell"
  else "newBusiness".

Definition discountCompliance (caseData : CaseData) : CheckResult :=
  let result := fresh "discount_compliance" in
  if negb (truthyNum (parseFloatField (discountRequested caseData)))
     || negb (same (category caseData) "pricing")
  then result
  else
    let discountPercent := parseFloatField (discountRequested caseData) in
    let segment := inferSegment caseData in
    let dealType := inferDealType caseData in
    match ROE.getDiscountPolicy dealType segment None with
    | None =>
        pushWarning
          {| type := "policy_lookup"; severity := "medium";
             message := [Text "Unable to determine discount policy for this segment/deal type"] |}
          result
    | Some policy =>
        let limit := ROE.max (ROE.standardDiscount policy) in
        let auto := ROE.autoApproved (ROE.standardDiscount policy) in
        let result :=
          if gt discountPercent (Num limit) then
            pushViolation
              {| type := "discount_limit_exceeded"; severity := "high";
                 message := [Text "Requested "; Value (orZero discountPercent);
                             Text "% exceeds policy limit of "; Value limit;
                             Text "% for "; Text segment; Text " ";
                             Text dealType] |}
              (setScore 20 (setCompliant false result))
          else if gt discountPercent (Num auto) then
            setScore 70
              (pushWarning
                 {| type := "approval_required"; severity := "medium";
                    message := [Value (orZero discountPercent);
                                Text "% discount requires manager approval (auto-approved up to ";
                                Value auto; Text "%)"] |}
                 result)
          else result in
        if Qlt_bool 0 (ROE.regionalAdjustment policy) then
          pushRecommendation
            {| type := "regional_adjustment"; severity := "info";
               message := [Text "Regional adjustment of +";
                           Value (ROE.regionalAdjustment policy);
                           Text "% available (effective limit: ";
                           Value (ROE.effectiveMax policy); Text "%)"] |}
            result
        else result
    end.

(** One attempt of [/(\d+)\s*seats?/] anchored at the start of [s]: the
    text of the capture group. *)
Definition seatsAt (s : string) : option string :=
  let d := span isDigit s in
  if (d =? 0)%nat then None
  else
    let r := drop d s in
    if String.prefix "seat" (drop (span isSpace r) r) then Some (take d s)
    else None.

(** [s.match(pattern)] for a pattern without the global flag: the
    leftmost successful attempt. *)
Fixpoint firstMatch (attempt : string -> option string) (s : string)
  : option string :=
  match attempt s with
  | Some g => Some g
  | None =>
      match s with
      | EmptyString => None
      | String _ s' => firstMatch attempt s'
      end
  end.

Definition minScore (r : CheckResult) (n : Z) : CheckResult :=
  match score r with
  | Some s => setScore (Z.min s n) r
  | None => r
  end.

Definition minimumRequirements (caseData : CaseData) : CheckResult :=
  let result := fresh "minimum_requirements" in
  let segment := inferSegment caseData in
  let dealValue := orZero (parseFloatField (dealValue caseData)) in
  let dealType := inferDealType caseData in
  if String.eqb dealType "addon" then
    pushRecommendation
      {| type := "addon_exemption"; severity := "info";
         message := [Text "Add-on deals are exempt from minimum requirements"] |}
      result
  else
    let result :=
      match lookup segment minimumValue with
      | Some minValue =>
          if negb (Qeq_bool minValue 0) && Qlt_bool 0 dealValue
             && Qlt_bool dealValue minValue
          then
            pushViolation
              {| type := "minimum_value"; severity := "high";
                 message := [Text "Deal value $"; Value dealValue;
                             Text " below "; Text segment;
                             Text " minimum of $"; Value minValue] |}
              (setScore 30 (setCompliant false result))
          else result
      | None => result
      end in
    let description := lowerOrEmpty (description caseData) in
    match firstMatch seatsAt description with
    | Some seats =>
        let requestedSeats := parseInt seats in
        match lookup segment minimumSeats with
        | Some minSeats =>
            if negb (Qeq_bool minSeats 0) && lt requestedSeats (Num minSeats)
            then
              minScore
                (setCompliant false
                   (pushViolation
                      {| type := "minimum_seats"; severity := "high";
                         message := [Text "Requested ";
                                     Value (orZero requestedSeats);
                                     Text " seats below "; Text segment;
                                     Text " minimum of "; Value minSeats] |}
                      result))
                30
            else result
        | None => result
        end
    | None => result
    end.

Definition approvalWorkflow (caseData : CaseData) : CheckResult :=
  let result := fresh "approval_workflow" in
  let discountPercent := orZero (parseFloatField (discountRequested caseData)) in
  let dealValue := orZero (parseFloatField (dealValue caseData)) in
  let result :=
    if Qlt_bool 0 discountPercent && Qlt_bool 0 dealValue then
      let approvalReq := ROE.getApprovalRequirement discountPercent dealValue in
      let result :=
        match ROE.discountApproval approvalReq with
        | Some da =>
            pushRecommendation
              {| type := "approval_path"; severity := "high";
                 message := [Text "Requires "; Text (ROE.approver da);
                             Text " approval ("; Text (ROE.timeframe da);
                             Text ")"] |}
              result
        | None => result
        end in
      match ROE.sizeApproval approvalReq with
      | Some sa =>
          if negb (ROE.sameApprover (Some sa) (ROE.discountApproval approvalReq))
          then
            pushRecommendation
              {| type := "dual_approval"; severity := "high";
                 message := [Text "Deal size also requires ";
                             Text (ROE.approver sa); Text " approval"] |}
              result
          else result
      | None => result
      end
    else result in
  if Qlt_bool 500000 dealValue then
    pushWarning
      {| type := "high_value_deal"; severity := "medium";
         message := [Text "Large deals may require executive and finance approval"] |}
      result
  else result.

Definition dealStructure (caseData : CaseData) : CheckResult :=
  let result := fresh "deal_structure" in
  let description := lowerOrEmpty (description caseData) in
  let result :=
    if includes description "payment terms" || includes description "net 60"
       || includes description "net 90"
    then
      setScore 80
        (pushWarning
           {| type := "payment_terms"; severity := "medium";
              message := [Text "Non-standard payment terms detected"] |}
           result)
    else result in
  let result :=
    if includes description "multi-year" || includes description "3 year"
       || includes description "multiple years"
    then
      pushRecommendation
        {| type := "multi_year_terms"; severity := "medium";
           message := [Text "Multi-year deals may qualify for additional discounts"] |}
        result
    else result in
  if includes description "equity" || includes description "stock"
     || includes description "barter"
  then
    setScore 10
      (setCompliant false
         (pushViolation
            {| type := "non_cash_payment"; severity := "high";
               message := [Text "Non-cash payment structures require special approval"] |}
            result))
  else result.

(** [caseData.competitorInfo && caseData.competitorInfo.trim().length > 0],
    as a condition. *)
Definition hasCompetitor (caseData : CaseData) : bool :=
  match competitorInfo caseData with
  | Some s => truthyStr s && (0 <? String.length (trim s))%nat
  | None => false
  end.

Definition competitivePolicy (caseData : CaseData) : CheckResult :=
  let result := fresh "competitive_policy" in
  let description := lowerOrEmpty (description caseData) in
  let isCompetitive :=
    hasCompetitor caseData || includes description "competitive"
    || includes description "competitor" in
  if isCompetitive then
    let result :=
      pushRecommendation
        {| type := "competitive_documentation"; severity := "medium";
           message := [Text "Document competitive intelligence and win/loss factors"] |}
        (pushRecommendation
           {| type := "competitive_discount"; severity := "high";
              message := [Text "Competitive situations may qualify for additional 5% discount"] |}
           result) in
    if same (priority caseData) "critical" then
      pushRecommendation
        {| type := "expedited_approval"; severity := "high";
           message := [Text "Critical competitive situations qualify for expedited approval"] |}
        result
    else result
  else result.

Definition standardDurations : list (string * Q) :=
  [ ("smb", 30); ("midmarket", 30); ("enterprise", 60);
    ("largeEnterprise", 90); ("globalAccounts", 90) ]%Q.

Definition pilotProgramRules (caseData : CaseData) : CheckResult :=
  let result := fresh "pilot_program" in
  let description := lowerOrEmpty (description caseData) in
  let isPilot :=
    includes description "pilot" || includes description "trial"
    || includes description "poc" in
  if isPilot then
    let segment := inferSegment caseData in
    let standardDuration := lookupOr standardDurations (Some segment) 30 in
    let result :=
      pushRecommendation
        {| type := "pilot_duration"; severity := "medium";
           message := [Text "Standard pilot duration for "; Text segment;
                       Text ": "; Value standardDuration; Text " days"] |}
        result in
    if includes description "6 month" || includes description "extended"
       || includes description "long"
    then
      setScore 70
        (pushWarning
           {| type := "extended_pilot"; severity := "medium";
              message := [Text "Extended pilots (6+ months) require VP approval"] |}
           result)
    else result
  else result.

Definition paymentTerms (caseData : CaseData) : CheckResult :=
  let result := fresh "payment_terms" in
  let description := lowerOrEmpty (description caseData) in
  let result :=
    if includes description "net 60" then
      setScore 80
        (pushWarning
           {| type := "extended_terms"; severity := "medium";
              message := [Text "Net 60 terms require finance approval"] |}
           result)
    else result in
  if includes description "net 90" || includes description "net 120" then
    setScore 40
      (setCompliant false
         (pushViolation
            {| type := "excessive_terms"; severity := "high";
               message := [Text "Payment terms beyond Net 60 require executive approval"] |}
            result))
  else result.

Definition technicalCompliance (caseData : CaseData) : CheckResult :=
  let result := fresh "technical_compliance" in
  if negb (same (category caseData) "technical") then result
  else
    let description := lowerOrEmpty (description caseData) in
    let result :=
      if includes description "custom" || includes description "integration"
         || includes description "api"
      then
        pushRecommendation
          {| type := "development_premium"; severity := "medium";
             message := [Text "Custom development typically includes 15-25% premium"] |}
          (pushWarning
             {| type := "custom_development"; severity := "medium";
                message := [Text "Custom development requests require engineering review"] |}
             result)
      else result in
    if includes description "security" || includes description "compliance"
       || includes description "soc" || includes description "gdpr"
    then
      pushRecommendation
        {| type := "security_review"; severity := "high";
           message := [Text "Security requirements may need certification team review"] |}
        result
    else result.

Definition legalCompliance (caseData : CaseData) : CheckResult :=
  let result := fresh "legal_compliance" in
  if negb (same (category caseData) "legal") then result
  else
    let description := lowerOrEmpty (description caseData) in
    let result :=
      if includes description "contract" || includes description "terms"
         || includes description "msa"
      then
        setScore 60
          (pushWarning
             {| type := "contract_review"; severity := "high";
                message := [Text "Contract modifications require legal team review"] |}
             result)
      else result in
    if includes description "gdpr" || includes description "privacy"
       || includes description "data residency"
    then
      pushRecommendation
        {| type := "privacy_compliance"; severity := "high";
           message := [Text "Data privacy requirements need compliance team input"] |}
        result
    else result.

(** How a call ends: with a value, or with an exception. *)
Inductive completion (A : Type) : Type :=
| Return : A -> completion A
| Throw : string -> completion A.
Arguments Return {A} _.
Arguments Throw {A} _.

(** The checker object: the names in [this.complianceChecks] and what
    [this[checkType](caseData)] does for each name. *)
Record Checker : Type := {
  complianceChecks : list string;
  method : string -> CaseData -> completion CheckResult
}.

Record ApprovalRequirements : Type := {
  level : string;
  approvers : list string;
  timeline : string;
  conditions : list string
}.

Record RiskAssessment : Type := {
  riskLevel : string;
  riskScore : Z;
  riskFactors : list string;
  mitigation : list string
}.

(** The aggregated [results] object.  [precedentAnalysis] is left out: it
    is computed inside a handler of its own from the historical cases and
    no other field reads it. *)
Module Compliance.
Record Results : Type := {
  overallCompliance : string;
  score : Z;
  violations : list Finding;
  warnings : list Finding;
  recommendations : list Finding;
  approvalRequirements : option ApprovalRequirements;
  riskAssessment : option RiskAssessment;
  complianceChecks : list (string * CheckResult)
}.
End Compliance.
Import Compliance (Results).

Definition initialResults : Results :=
  {| Compliance.overallCompliance := "compliant";
     Compliance.score := 100;
     Compliance.violations := [];
     Compliance.warnings := [];
     Compliance.recommendations := [];
     Compliance.approvalRequirements := None;
     Compliance.riskAssessment := None;
     Compliance.complianceChecks := [] |}.

(** The warning pushed by the handler around one check. *)
Definition systemWarning (checkType : string) : Finding :=
  {| type := "system"; severity := "medium";
     message := [Text "Unable to complete "; Text checkType; Text " check"] |}.

(** The body of the loop over [this.complianceChecks], handler included. *)
Definition runCheck (this : Checker) (caseData : CaseData)
           (results : Results) (checkType : string) : Results :=
  match method this checkType caseData with
  | Return checkResult =>
      {| Compliance.overallCompliance := Compliance.overallCompliance results;
         Compliance.score :=
           match score checkResult with
           | Some s => Z.min (Compliance.score results) s
           | None => Compliance.score results
           end;
         Compliance.violations :=
           Compliance.violations results ++ violations checkResult;
         Compliance.warnings :=
           Compliance.warnings results ++ warnings checkResult;
         Compliance.recommendations :=
           Compliance.recommendations results ++ recommendations checkResult;
         Compliance.approvalRequirements := Compliance.approvalRequirements results;
         Compliance.riskAssessment := Compliance.riskAssessment results;
         Compliance.complianceChecks :=
           assign checkType checkResult (Compliance.complianceChecks results) |}
  | Throw _ =>
      {| Compliance.overallCompliance := Compliance.overallCompliance results;
         Compliance.score := Compliance.score results;
         Compliance.violations := Compliance.violations results;
         Compliance.warnings :=
           Compliance.warnings results ++ [systemWarning checkType];
         Compliance.recommendations := Compliance.recommendations results;
         Compliance.approvalRequirements := Compliance.approvalRequirements results;
         Compliance.riskAssessment := Compliance.riskAssessment results;
         Compliance.complianceChecks := Compliance.complianceChecks results |}
  end.

Definition determineOverallCompliance (results : Results) : string :=
  if (0 <? List.length (Compliance.violations results))%nat then
    let highSeverityViolations :=
      filter (fun v => String.eqb (severity v) "high")
             (Compliance.violations results) in
    if (0 <? List.length highSeverityViolations)%nat then "non_compliant"
    else "conditional"
  else if (0 <? List.length (Compliance.warnings results))%nat then "conditional"
  else "compliant".

Definition getApprovalRequirements (caseData : CaseData) (complianceResults : Results)
  : ApprovalRequirements :=
  let dealValue := orZero (parseFloatField (dealValue caseData)) in
  let '(level1, approvers1, timeline1) :=
    if Qlt_bool 500000 dealValue
    then ("executive", ["Sales Manager"; "VP Sales"; "Finance"], "3-5 days")
    else if Qlt_bool 100000 dealValue
    then ("director", ["Sales Manager"; "Regional Director"], "48-72 hours")
    else ("manager", ["Sales Manager"], "24-48 hours") in
  let '(level2, approvers2, conditions2) :=
    if (0 <? List.length (Compliance.violations complianceResults))%nat
    then ("executive",
          if existsb (String.eqb "VP Sales") approvers1 then approvers1
          else approvers1 ++ ["VP Sales"],
          ["Exception approval required for policy violations"])
    else (level1, approvers1, []) in
  let '(approvers3, timeline3) :=
    if same (category caseData) "legal"
    then (approvers2 ++ ["Legal Team"], "5-7 days")
    else (approvers2, timeline1) in
  let approvers4 :=
    if same (category caseData) "technical"
    then approvers3 ++ ["Engineering Manager"]
    else approvers3 in
  {| level := level2; approvers := approvers4; timeline := timeline3;
     conditions := conditions2 |}.

Definition generateRiskMitigation (riskLevel : string) (riskFactors : list string)
  : list string :=
  (if String.eqb riskLevel "high" then
     ["Require executive approval"; "Include legal and finance review";
      "Document all risk factors and mitigation strategies"]
   else if String.eqb riskLevel "medium" then
     ["Require director-level approval";
      "Document business justification thoroughly"]
   else [])
  ++ (if existsb (String.eqb "Policy violations present") riskFactors
      then ["Provide strong exception justification"] else [])
  ++ (if existsb (String.eqb "Competitive situation") riskFactors
      then ["Include competitive intelligence and win/loss analysis"] else []).

Definition assessRisk (caseData : CaseData) (complianceResults : Results)
  : RiskAssessment :=
  let nviol := Z.of_nat (List.length (Compliance.violations complianceResults)) in
  let discountPercent := orZero (parseFloatField (discountRequested caseData)) in
  let dealValue := orZero (parseFloatField (dealValue caseData)) in
  let steps : list (bool * Z * string) :=
    [ ((0 <? nviol)%Z, (nviol * 20)%Z, "Policy violations present");
      (Qlt_bool 25 discountPercent, 15%Z, "High discount percentage");
      (Qlt_bool 500000 dealValue, 10%Z, "Large deal size");
      (truthyText (competitorInfo caseData)
       || match description caseData with
          | Some d => includes (toLowerCase d) "competitive"
          | None => false
          end, 5%Z, "Competitive situation");
      (same (category caseData) "legal" || same (category caseData) "technical",
       10%Z, "Non-standard terms requested") ] in
  let taken := filter (fun st => fst (fst st)) steps in
  let riskScore := fold_left (fun acc st => (acc + snd (fst st))%Z) taken 0%Z in
  let riskFactors := map snd taken in
  let riskLevel :=
    if (40 <=? riskScore)%Z then "high"
    else if (20 <=? riskScore)%Z then "medium"
    else "low" in
  {| riskLevel := riskLevel; riskScore := riskScore; riskFactors := riskFactors;
     mitigation := generateRiskMitigation riskLevel riskFactors |}.

(** What [checkCompliance] returns on a case of texts and numbers.  The
    handler around its whole body is not entered there: outside the loop
    every step is a total function of such a case and of the aggregated
    lists.  [General.checkCompliance] has the handler, which a draft
    with a description that is no text can reach. *)
Record Response : Type := {
  success : bool;
  compliance : Results
}.

Definition checkCompliance (this : Checker) (caseData : CaseData) : Response :=
  let results :=
    fold_left (runCheck this caseData) (complianceChecks this) initialResults in
  let results :=
    {| Compliance.overallCompliance := determineOverallCompliance results;
       Compliance.score := Compliance.score results;
       Compliance.violations := Compliance.violations results;
       Compliance.warnings := Compliance.warnings results;
       Compliance.recommendations := Compliance.recommendations results;
       Compliance.approvalRequirements :=
         Some (getApprovalRequirements caseData results);
       Compliance.riskAssessment := Some (assessRisk caseData results);
       Compliance.complianceChecks := Compliance.complianceChecks results |} in
  {| success := true; compliance := results |}.

(** The methods of the class, by name. *)
Definition methods : list (string * (CaseData -> CheckResult)) :=
  [ ("discountCompliance", discountCompliance);
    ("minimumRequirements", minimumRequirements);
    ("approvalWorkflow", approvalWorkflow);
    ("dealStructure", dealStructure);
    ("competitivePolicy", competitivePolicy);
    ("pilotProgramRules", pilotProgramRules);
    ("paymentTerms", paymentTerms);
    ("technicalCompliance", technicalCompliance);
    ("legalCompliance", legalCompliance) ].

(** The singleton instance. *)
Definition policyChecker : Checker :=
  {| complianceChecks :=
       [ "discountCompliance"; "minimumRequirements"; "approvalWorkflow";
         "dealStructure"; "competitivePolicy"; "pilotProgramRules";
         "paymentTerms"; "technicalCompliance"; "legalCompliance" ];
     method := fun checkType caseData =>
       match lookup checkType methods with
       | Some check => Return (check caseData)
       | None => Throw "this[checkType] is not a function"
       end |}.

End PolicyChecker.

(* ================================================================== *)
(** ** Case router (caseRouter.js) *)
(* ================================================================== *)

Module CaseRouter.
Import JS Case.

Record Analysis : Type := {
  complexity : string;
  complexityScore : Q;
  riskLevel : string;
  factors : list string;
  autoApprovable : bool;
  precedentAvailable : bool
}.

Definition categoryComplexity : list (string * Q) :=
  [ ("pricing", 1); ("dealStructure", 2); ("technical", 3); ("legal", 3);
    ("competitive", 2); ("pilotProgram", 2); ("customerSuccess", 1);
    ("general", 1) ]%Q.

(** The multipliers 1.2 and 1.5 are the rationals 6/5 and 3/2.  They scale
    an integer between 1 and 9, and 0 to 3 is added to the product before
    it is compared with 2, 3, 5 and 8.  In double precision the products
    by 1.5 and 2 are exact, 5 * 1.2 is exactly 6, and every other product
    by 1.2 is off an integer by far more than its rounding error, so the
    comparisons come out as they do on rationals. *)
Definition priorityMultiplier : list (string * Q) :=
  [ ("low", 1); ("medium", 6 # 5); ("high", 3 # 2); ("critical", 2) ]%Q.

(** The text a template literal shows for an optional field. *)
Definition shown (field : option string) : string :=
  match field with Some s => s | None => "undefined" end.

Definition checkForPrecedent (caseData : CaseData) : bool :=
  let commonCategories := ["pricing"; "dealStructure"; "competitive"] in
  existsb (same (category caseData)) commonCategories.

(** [analyzeCaseComplexity] on a case whose category and priority name
    no inherited property; under such a name the score is no number, see
    [General.analyzeCaseComplexity]. *)
Definition analyzeCaseComplexity (caseData : CaseData) : Analysis :=
  let complexityScore := 0%Q in
  let factors : list string := [] in
  let dealValue := orZero (parseFloatField (dealValue caseData)) in
  let '(complexityScore, factors) :=
    if Qlt_bool 500000 dealValue
    then ((complexityScore + 3)%Q, factors ++ ["Large deal size (>$500k)"])
    else if Qlt_bool 100000 dealValue
    then ((complexityScore + 2)%Q, factors ++ ["Significant deal size (>$100k)"])
    else if Qlt_bool 25000 dealValue
    then ((complexityScore + 1)%Q, factors ++ ["Medium deal size (>$25k)"])
    else (complexityScore, factors) in
  let discountPercent := orZero (parseFloatField (discountRequested caseData)) in
  let '(complexityScore, factors) :=
    if Qlt_bool 30 discountPercent
    then ((complexityScore + 3)%Q, factors ++ ["Very high discount request (>30%)"])
    else if Qlt_bool 20 discountPercent
    then ((complexityScore + 2)%Q, factors ++ ["High discount request (>20%)"])
    else if Qlt_bool 10 discountPercent
    then ((complexityScore + 1)%Q, factors ++ ["Moderate discount request (>10%)"])
    else (complexityScore, factors) in
  let complexityScore :=
    (complexityScore + lookupOr categoryComplexity (category caseData) 1)%Q in
  let factors := factors ++ [String.append "Category: " (shown (category caseData))] in
  let complexityScore :=
    (complexityScore * lookupOr priorityMultiplier (priority caseData) 1)%Q in
  let factors :=
    if same (priority caseData) "critical"
    then factors ++ ["Critical priority escalation"] else factors in
  let '(complexityScore, factors) :=
    if match competitorInfo caseData with
       | Some s => truthyStr s && truthyStr (trim s)
       | None => false
       end
    then ((complexityScore + 2)%Q, factors ++ ["Competitive situation"])
    else (complexityScore, factors) in
  let '(complexityScore, factors) :=
    if match description caseData with
       | Some d => truthyStr d && includes (toLowerCase d) "multi-year"
       | None => false
       end
    then ((complexityScore + 1)%Q, factors ++ ["Multi-year terms requested"])
    else (complexityScore, factors) in
  let '(complexity, riskLevel) :=
    if Qle_bool 8 complexityScore then ("very_complex", "high")
    else if Qle_bool 5 complexityScore then ("complex", "medium")
    else if Qle_bool 3 complexityScore then ("moderate", "medium")
    else ("simple", "low") in
  {| complexity := complexity;
     complexityScore := complexityScore;
     riskLevel := riskLevel;
     factors := factors;
     autoApprovable := Qle_bool complexityScore 2 && Qle_bool discountPercent 10;
     precedentAvailable := checkForPrecedent caseData |}.

Record ApprovalLevel : Type := {
  primaryApprover : string;
  secondaryApprover : option string;
  level : Z;
  timeline : string;
  requiresFinanceApproval : bool;
  requiresLegalReview : bool
}.

Definition determineApprovalLevel (caseData : CaseData) (analysis : Analysis)
  : ApprovalLevel :=
  let dealValue := orZero (parseFloatField (dealValue caseData)) in
  let discountPercent := orZero (parseFloatField (discountRequested caseData)) in
  let approvalReq :=
    if Qlt_bool 0 discountPercent && Qlt_bool 0 dealValue
    then Some (ROE.getApprovalRequirement discountPercent dealValue)
    else None in
  let '(primaryApprover, level, timeline) := ("Sales Manager", 2%Z, "24 hours") in
  let '(primaryApprover, level, timeline) :=
    if autoApprovable analysis then ("Auto-approved", 1%Z, "Immediate")
    else
      match match approvalReq with
            | Some req => ROE.discountApproval req
            | None => None
            end with
      | Some discountApproval =>
          let primaryApprover := ROE.approver discountApproval in
          let timeline := ROE.timeframe discountApproval in
          let level :=
            if includes primaryApprover "VP" && includes primaryApprover "Finance"
            then 5%Z
            else if includes primaryApprover "VP" then 4%Z
            else if includes primaryApprover "Director" then 3%Z
            else if includes primaryApprover "Manager" then 2%Z
            else level in
          (primaryApprover, level, timeline)
      | None =>
          if same (category caseData) "technical" then
            if Qlt_bool 250000 dealValue
            then ("VP Engineering", 4%Z, "72 hours")
            else ("Engineering Manager", 3%Z, "48 hours")
          else if same (category caseData) "legal" then
            ("Legal + Sales Director", 4%Z, "1 week")
          else if same (category caseData) "competitive" then
            if same (priority caseData) "critical"
            then ("VP Sales", 4%Z, "4 hours")
            else if Qlt_bool 20 discountPercent
            then ("Regional Director", 3%Z, "48 hours")
            else (primaryApprover, level, timeline)
          else if same (category caseData) "customerSuccess" then
            ("CS Director", 3%Z, "48 hours")
          else
            if Qlt_bool 500000 dealValue
            then ("VP Sales", 4%Z, "72 hours")
            else if Qlt_bool 100000 dealValue
            then ("Regional Director", 3%Z, "48 hours")
            else (primaryApprover, level, timeline)
      end in
  let secondaryApprover :=
    if String.eqb (riskLevel analysis) "high" || (4 <=? level)%Z then
      if same (category caseData) "legal" then Some "General Counsel"
      else if Qlt_bool 500000 dealValue then Some "CEO"
      else if includes primaryApprover "Finance" then Some "CFO"
      else None
    else None in
  {| primaryApprover := primaryApprover;
     secondaryApprover := secondaryApprover;
     level := level;
     timeline := timeline;
     requiresFinanceApproval :=
       includes primaryApprover "Finance" || Qlt_bool 500000 dealValue;
     requiresLegalReview :=
       same (category caseData) "legal" || String.eqb (riskLevel analysis) "high" |}.

Record Team : Type := {
  primary : string;
  secondary : string;
  escalation : string
}.

(** [this.routingRules.teams]. *)
Definition teams : list (string * Team) :=
  [ ("pricing", {| primary := "Sales Manager"; secondary := "Regional Director";
                   escalation := "VP Sales + Finance" |});
    ("technical", {| primary := "Solutions Engineer";
                     secondary := "Engineering Manager";
                     escalation := "VP Engineering" |});
    ("legal", {| primary := "Legal Team"; secondary := "Legal + Sales Director";
                 escalation := "General Counsel" |});
    ("competitive", {| primary := "Sales Manager"; secondary := "Regional Director";
                       escalation := "VP Sales" |});
    ("customerSuccess", {| primary := "Customer Success Manager";
                           secondary := "CS Director";
                           escalation := "VP Customer Success" |}) ].

Definition categoryTeamMap : list (string * string) :=
  [ ("pricing", "pricing"); ("dealStructure", "pricing");
    ("technical", "technical"); ("legal", "legal");
    ("competitive", "competitive"); ("pilotProgram", "pricing");
    ("customerSuccess", "customerSuccess"); ("general", "pricing") ].

Record TeamAssignment : Type := {
  primaryTeam : string;
  supportingTeams : list string;
  escalationTeam : string
}.

Definition pricingTeam : Team :=
  {| primary := "Sales Manager"; secondary := "Regional Director";
     escalation := "VP Sales + Finance" |}.

Definition assignTeam (caseData : CaseData) (analysis : Analysis) : TeamAssignment :=
  let primaryTeamType :=
    match category caseData with
    | Some c =>
        match lookup c categoryTeamMap with
        | Some t => t
        | None => "pricing"
        end
    | None => "pricing"
    end in
  let primaryTeam :=
    match lookup primaryTeamType teams with
    | Some t => t
    | None => pricingTeam
    end in
  let supportingTeams :=
    (if String.eqb (riskLevel analysis) "high" then ["Legal Team"] else [])
    ++ (if gt (parseFloatField (dealValue caseData)) (Num 250000)
        then ["Finance Team"] else [])
    ++ (if truthyText (competitorInfo caseData) then ["Product Marketing"] else [])
    ++ (if same (category caseData) "technical"
        then ["Solutions Engineering"] else []) in
  {| primaryTeam := primary primaryTeam;
     supportingTeams := unique supportingTeams;
     escalationTeam := escalation primaryTeam |}.

Definition priorityScore : list (string * Q) :=
  [ ("low", 1); ("medium", 2); ("high", 3); ("critical", 4) ]%Q.

Record Urgency : Type := {
  urgencyLevel : string;
  urgencyScore : Q
}.

Definition assessUrgency (caseData : CaseData) (analysis : Analysis) : Urgency :=
  let urgencyScore := lookupOr priorityScore (priority caseData) 2 in
  let dealValue := orZero (parseFloatField (dealValue caseData)) in
  let urgencyScore :=
    if Qlt_bool 500000 dealValue then (urgencyScore + 2)%Q
    else if Qlt_bool 100000 dealValue then (urgencyScore + 1)%Q
    else urgencyScore in
  let urgencyScore :=
    if truthyText (competitorInfo caseData) then (urgencyScore + 2)%Q
    else urgencyScore in
  let urgencyScore :=
    if truthyText (timeframe caseData) then
      let timeframe := lowerOrEmpty (timeframe caseData) in
      if includes timeframe "urgent" || includes timeframe "asap"
         || includes timeframe "immediate"
      then (urgencyScore + 2)%Q
      else if includes timeframe "week" || includes timeframe "soon"
      then (urgencyScore + 1)%Q
      else urgencyScore
    else urgencyScore in
  let urgencyScore :=
    if truthyText (description caseData)
       && includes (lowerOrEmpty (description caseData)) "renewal"
       && includes (lowerOrEmpty (description caseData)) "risk"
    then (urgencyScore + 2)%Q
    else urgencyScore in
  let level :=
    if Qle_bool 7 urgencyScore then "critical"
    else if Qle_bool 5 urgencyScore then "high"
    else if Qle_bool 3 urgencyScore then "medium"
    else "low" in
  {| urgencyLevel := level; urgencyScore := urgencyScore |}.

Definition buildEscalationPath (caseData : CaseData) (analysis : Analysis)
  : list string :=
  let dealValue := orZero (parseFloatField (dealValue caseData)) in
  if String.eqb (complexity analysis) "simple" then
    ["Sales Manager"]
    ++ (if Qlt_bool 100000 dealValue then ["Regional Director"] else [])
  else
    ["Sales Manager"; "Regional Director"]
    ++ (if Qlt_bool 250000 dealValue || String.eqb (riskLevel analysis) "high"
        then ["VP Sales"] else [])
    ++ (if Qlt_bool 500000 dealValue || same (category caseData) "legal"
        then ["VP Sales + CEO"] else []).

(** The routing decision.  The recommendation texts and the routing
    rationale are rendered from the same analysis and feed nothing
    back; they are left out.  [routeCase] below is the function on a
    case of texts and numbers whose category and priority name no
    inherited property: its handler is not entered there.
    [General.routeCase] has the handler and the other drafts. *)
Module Routing.
Record t : Type := {
  primaryApprover : string;
  secondaryApprover : option string;
  team : string;
  supportingTeams : list string;
  approvalLevel : Z;
  expectedTimeline : string;
  urgency : string;
  escalationPath : list string
}.
End Routing.

Module Summary.
Record t : Type := {
  complexity : string;
  riskLevel : string;
  precedentAvailable : bool;
  autoApprovable : bool
}.
End Summary.

Record RouteResult : Type := {
  success : bool;
  routing : Routing.t;
  analysis : Summary.t
}.

Definition routeCase (caseData : CaseData) : RouteResult :=
  let analysis := analyzeCaseComplexity caseData in
  let approvalRequirement := determineApprovalLevel caseData analysis in
  let teamAssignment := assignTeam caseData analysis in
  let urgencyAssessment := assessUrgency caseData analysis in
  {| success := true;
     routing :=
       {| Routing.primaryApprover := primaryApprover approvalRequirement;
          Routing.secondaryApprover := secondaryApprover approvalRequirement;
          Routing.team := primaryTeam teamAssignment;
          Routing.supportingTeams := supportingTeams teamAssignment;
          Routing.approvalLevel := level approvalRequirement;
          Routing.expectedTimeline := timeline approvalRequirement;
          Routing.urgency := urgencyLevel urgencyAssessment;
          Routing.escalationPath := buildEscalationPath caseData analysis |};
     analysis :=
       {| Summary.complexity := complexity analysis;
          Summary.riskLevel := riskLevel analysis;
          Summary.precedentAvailable := precedentAvailable analysis;
          Summary.autoApprovable := autoApprovable analysis |} |}.

End CaseRouter.

(* ================================================================== *)
(** ** Concrete cases used as examples *)
(* ================================================================== *)

Module Examples.
Import Case.

(** [discountRequested=5, dealValue=20000, category="pricing",
    priority="low"]. *)
Definition smallPricingCase : CaseData :=
  {| title := None; category := Some "pricing"; priority := Some "low";
     description := None; dealValue := Some 20000%Q;
     discountRequested := Some 5%Q; timeframe := None;
     competitorInfo := None; customerInfo := None |}.

(** A legal case of 600000 with a 5% discount and low priority. *)
Definition largeLegalCase : CaseData :=
  {| title := None; category := Some "legal"; priority := Some "low";
     description := None; dealValue := Some 600000%Q;
     discountRequested := Some 5%Q; timeframe := None;
     competitorInfo := None; customerInfo := None |}.

(** A pricing case of 600000 without discount. *)
Definition largePricingCase : CaseData :=
  {| title := None; category := Some "pricing"; priority := Some "low";
     description := None; dealValue := Some 600000%Q;
     discountRequested := None; timeframe := None;
     competitorInfo := None; customerInfo := None |}.

End Examples.

From Stdlib Require Import Qabs.

(* ================================================================== *)
(** ** Historical cases (historicalCases.js) *)
(* ================================================================== *)

Module HistoricalCases.
Import JS.

(** A resolved case.  Of its fields the search below reads the deal
    type, the segment, the region and the deal value; the precedent
    analysis reads the outcome.  The narrative fields are left out.
    The list [additionalCases] of the same file is not searched. *)
Record HistoricalCase : Type := {
  id : string;
  category : string;
  dealType : string;
  segment : string;
  region : string;
  dealValue : Q;
  outcome : string
}.

Definition historicalCases : list HistoricalCase :=
  [
    {| id := "CASE-2024-001"; category := "Pricing"; dealType := "Renewal";
       segment := "Enterprise"; region := "NAMER"; dealValue := 85000;
       outcome := "Won - Customer renewed for 2 years" |};
    {| id := "CASE-2024-002"; category := "Deal Structure"; dealType := "New Business";
       segment := "SMB"; region := "NAMER"; dealValue := 3600;
       outcome := "Won - Customer expanded to 8 seats within 6 months" |};
    {| id := "CASE-2024-003"; category := "Pilot Programs"; dealType := "New Business";
       segment := "Global Accounts"; region := "Multi-region"; dealValue := 750000;
       outcome := "Won - Converted to $750k annual deal" |};
    {| id := "CASE-2024-004"; category := "Commercial Terms"; dealType := "New Business";
       segment := "Midmarket"; region := "EMEA"; dealValue := 45000;
       outcome := "Won - Deal closed with extended terms" |};
    {| id := "CASE-2024-005"; category := "Pricing"; dealType := "Add-on";
       segment := "Enterprise"; region := "NAMER"; dealValue := 25000;
       outcome := "Won - Customer proceeded with standard pricing" |};
    {| id := "CASE-2024-006"; category := "Technical Requirements"; dealType := "New Business";
       segment := "Large Enterprise"; region := "APAC"; dealValue := 320000;
       outcome := "Won - Deal closed with custom terms" |};
    {| id := "CASE-2024-007"; category := "Pricing"; dealType := "New Business";
       segment := "Enterprise"; region := "NAMER"; dealValue := 180000;
       outcome := "Won - Customer accepted modified terms" |};
    {| id := "CASE-2024-008"; category := "Commercial Terms"; dealType := "New Business";
       segment := "SMB"; region := "LATAM"; dealValue := 12000;
       outcome := "Won - Customer accepted USD with hedging explanation" |};
    {| id := "CASE-2024-009"; category := "Competitive"; dealType := "New Business";
       segment := "Enterprise"; region := "NAMER"; dealValue := 95000;
       outcome := "Won - Successfully displaced competitor" |};
    {| id := "CASE-2024-010"; category := "Channel"; dealType := "New Business";
       segment := "Midmarket"; region := "NAMER"; dealValue := 55000;
       outcome := "Won - Partner successfully closed deal" |};
    {| id := "CASE-2024-011"; category := "Customer Success"; dealType := "Renewal";
       segment := "Enterprise"; region := "NAMER"; dealValue := 72000;
       outcome := "Retained - Customer renewed with improved satisfaction" |};
    {| id := "CASE-2024-012"; category := "Deal Structure"; dealType := "New Business";
       segment := "SMB"; region := "NAMER"; dealValue := 15000;
       outcome := "Lost - Customer found alternative solution" |};
    {| id := "CASE-2024-013"; category := "Compliance"; dealType := "New Business";
       segment := "Large Enterprise"; region := "NAMER"; dealValue := 180000;
       outcome := "Pending - 18-month certification process initiated" |};
    {| id := "CASE-2024-014"; category := "Pricing"; dealType := "New Business";
       segment := "SMB"; region := "NAMER"; dealValue := 8000;
       outcome := "Won - Customer accepted standard non-profit pricing" |};
    {| id := "CASE-2024-015"; category := "Deal Structure"; dealType := "Upsell";
       segment := "Enterprise"; region := "NAMER"; dealValue := 45000;
       outcome := "Won - Customer upgraded to premium tier" |} ]%Q.

(** [Math.abs(caseValue - dealValue) / dealValue < 0.5].  A division by
    zero gives an infinity or NaN, and the comparison is false. *)
Definition withinHalf (caseValue dealValue : Q) : bool :=
  if Qeq_bool dealValue 0 then false
  else Qlt_bool (Qabs (caseValue - dealValue) / dealValue) (1 # 2).

Definition getSimilarCases (dealValue : Q) (dealType segment region : string)
  : list HistoricalCase :=
  filter (fun case_ =>
            String.eqb (HistoricalCases.dealType case_) dealType
            && String.eqb (HistoricalCases.segment case_) segment
            && (String.eqb (HistoricalCases.region case_) region
                || String.eqb (HistoricalCases.region case_) "Multi-region")
            && withinHalf (HistoricalCases.dealValue case_) dealValue)
         historicalCases.

End HistoricalCases.

(* ================================================================== *)
(** ** Precedents of a case draft (policyChecker.js, analyzePrecedents) *)
(* ================================================================== *)

Module Precedents.
Import JS Case.

(** The [similarCases] of [analyzePrecedents]: the search is made with
    the inferred segment and deal type, the deal value (50000 when the
    field is absent or zero) and the region ["namer"], and keeps five
    cases at most. *)
Definition similarCases (caseData : CaseData) : list HistoricalCases.HistoricalCase :=
  let segment := PolicyChecker.inferSegment caseData in
  let dealType := PolicyChecker.inferDealType caseData in
  let dealValue :=
    if truthyNum (parseFloatField (dealValue caseData))
    then orZero (parseFloatField (dealValue caseData))
    else 50000%Q in
  firstn 5 (HistoricalCases.getSimilarCases dealValue dealType segment "namer").

(** The two fields of the analysis that exist whatever the search
    finds.  The statistics over the outcomes are computed from
    [similarCases] only when it is not empty. *)
Definition foundSimilar (caseData : CaseData) : bool :=
  (0 <? List.length (similarCases caseData))%nat.

Definition caseCount (caseData : CaseData) : nat :=
  List.length (similarCases caseData).

End Precedents.

(* ================================================================== *)
(** ** Quick routing helpers (caseRouter.js) *)
(* ================================================================== *)

Module QuickRoutes.
Import JS Case.

(** The router's own [inferSegment]: by deal value only. *)
Definition inferSegment (caseData : CaseData) : string :=
  let dealValue := orZero (parseFloatField (dealValue caseData)) in
  if Qle_bool 500000 dealValue then "globalAccounts"
  else if Qle_bool 250000 dealValue then "largeEnterprise"
  else if Qle_bool 50000 dealValue then "enterprise"
  else if Qle_bool 15000 dealValue then "midmarket"
  else "smb".

(** [policy?.max || 'Unknown']. *)
Inductive Limit : Type :=
| Percent : Q -> Limit
| Unknown : Limit.

(** The answer of [getRouteForDiscountRequest].  [policy && ...] is
    [null] without a policy: [None]. *)
Module DiscountRoute.
Record t : Type := {
  isWithinPolicy : option bool;
  autoApproved : option bool;
  requiredApprover : string;
  timeline : string;
  policyLimit : Limit
}.
End DiscountRoute.

(** [text || fallback] on a string that may be undefined. *)
Definition orText (text : option string) (fallback : string) : string :=
  match text with
  | Some s => if truthyStr s then s else fallback
  | None => fallback
  end.

Definition getRouteForDiscountRequest (discountPercent dealValue : Q)
           (segment : option string) : DiscountRoute.t :=
  let segment := match segment with Some s => s | None => "enterprise" end in
  let policy := ROE.getDiscountPolicy "newBusiness" segment None in
  let approval := ROE.getApprovalRequirement discountPercent dealValue in
  {| DiscountRoute.isWithinPolicy :=
       option_map (fun p => Qle_bool discountPercent
                                     (ROE.max (ROE.standardDiscount p))) policy;
     DiscountRoute.autoApproved :=
       option_map (fun p => Qle_bool discountPercent
                                     (ROE.autoApproved (ROE.standardDiscount p)))
                  policy;
     DiscountRoute.requiredApprover :=
       orText (option_map ROE.approver (ROE.discountApproval approval))
              "Sales Manager";
     DiscountRoute.timeline :=
       orText (option_map ROE.timeframe (ROE.discountApproval approval))
              "24 hours";
     DiscountRoute.policyLimit :=
       match policy with
       | Some p =>
           if Qeq_bool (ROE.max (ROE.standardDiscount p)) 0 then Unknown
           else Percent (ROE.max (ROE.standardDiscount p))
       | None => Unknown
       end |}.

Module SizeRoute.
Record t : Type := {
  requiredApprover : string;
  timeline : string;
  requiresFinance : bool;
  requiresExecutive : bool
}.
End SizeRoute.

(** [getRouteForDealSize] on a number; [General] has it on [undefined],
    [null] and NaN, where the fallbacks are used. *)
Definition getRouteForDealSize (dealValue : Q) : SizeRoute.t :=
  let approval := ROE.getApprovalRequirement 0 dealValue in
  {| SizeRoute.requiredApprover :=
       orText (option_map ROE.approver (ROE.sizeApproval approval)) "Sales Manager";
     SizeRoute.timeline :=
       orText (option_map ROE.timeframe (ROE.sizeApproval approval)) "24 hours";
     SizeRoute.requiresFinance := Qlt_bool 250000 dealValue;
     SizeRoute.requiresExecutive := Qlt_bool 500000 dealValue |}.

End QuickRoutes.

(* ================================================================== *)
(** ** Deal types (rulesOfEngagement.js) *)
(* ================================================================== *)

Module DealTypes.
Import JS.

Record Minimum : Type := {
  seats : Q;
  value : Q
}.

(** [minimumCommitment] is a table by segment for new business and
    renewals, and a sentence for add-ons and upsells. *)
Inductive Commitment : Type :=
| BySegment : list (string * Minimum) -> Commitment
| Sentence : string -> Commitment.

Record DealType : Type := {
  definition : string;
  minimumCommitment : Commitment;
  approvalRequired : string
}.

(** [rulesOfEngagement.dealTypes]. *)
Definition dealTypes : list (string * DealType) :=
  [ ("newBusiness",
      {| definition := "First-time customer acquisition with new logo";
         minimumCommitment :=
           BySegment
             [ ("enterprise", {| seats := 100; value := 50000 |});
               ("midmarket", {| seats := 25; value := 15000 |});
               ("smb", {| seats := 5; value := 5000 |});
               ("largeEnterprise", {| seats := 500; value := 250000 |});
               ("globalAccounts", {| seats := 1000; value := 500000 |}) ];
         approvalRequired := "Manager approval for all new business deals" |});
    ("renewal",
      {| definition := "Existing customer contract extension or expansion";
         minimumCommitment :=
           BySegment
             [ ("enterprise", {| seats := 75; value := 40000 |});
               ("midmarket", {| seats := 20; value := 12000 |});
               ("smb", {| seats := 3; value := 3000 |});
               ("largeEnterprise", {| seats := 400; value := 200000 |});
               ("globalAccounts", {| seats := 800; value := 400000 |}) ];
         approvalRequired := "Auto-approved if within standard terms" |});
    ("addon",
      {| definition := "Additional seats or modules to existing contract";
         minimumCommitment := Sentence "No minimum requirement for add-on purchases";
         approvalRequired := "Auto-approved for standard pricing" |});
    ("upsell",
      {| definition := "Upgrade to higher tier or additional features";
         minimumCommitment := Sentence "25% increase from current contract value";
         approvalRequired := "Manager approval for tier upgrades" |}) ]%Q.

Definition getRulesByDealType (dealType : string) : option DealType :=
  lookup dealType dealTypes.

End DealTypes.

(* ================================================================== *)
(** ** Policy lookups of the knowledge base (knowledgeBaseService.js) *)
(* ================================================================== *)

Module KnowledgeBase.
Import JS.
Import PolicyChecker.

(** A line of guidance: a template literal. *)
Definition Line : Type := list MsgPart.

Record PolicyView : Type := {
  segment : string;
  dealType : string;
  region : string;
  maxDiscount : Q;
  typicalDiscount : Q;
  autoApprovedLimit : Q;
  regionalAdjustment : Q;
  effectiveMax : Q
}.

(** What [lookupDiscountPolicy] returns: the policy with its guidance,
    or the message that there is none.  Nothing in its body throws, so
    its handler is never entered. *)
Inductive DiscountLookup : Type :=
| DiscountPolicyFound : PolicyView -> list Line -> DiscountLookup
| NoDiscountPolicy : Line -> DiscountLookup.

Definition generateDiscountGuidance (policy : ROE.DiscountPolicy)
           (dealType segment : string) : list Line :=
  let sd := ROE.standardDiscount policy in
  [ [Text segment; Text " "; Text dealType; Text " deals can receive up to ";
     Value (ROE.max sd); Text "% discount"] ]
  ++ (if Qlt_bool 0 (ROE.autoApproved sd)
      then [ [Text "Discounts up to "; Value (ROE.autoApproved sd);
              Text "% are auto-approved"] ]
      else [])
  ++ (if Qlt_bool (ROE.typical sd) (ROE.max sd)
      then [ [Text "Typical discount is "; Value (ROE.typical sd); Text "%"] ]
      else [])
  ++ (if Qlt_bool 0 (ROE.regionalAdjustment policy)
      then [ [Text "Regional adjustment adds ";
              Value (ROE.regionalAdjustment policy); Text "% to limits"] ]
      else []).

Definition lookupDiscountPolicy (dealType segment : string) (region : option string)
  : DiscountLookup :=
  let region := match region with Some r => r | None => "namer" end in
  match ROE.getDiscountPolicy dealType segment (Some region) with
  | None =>
      NoDiscountPolicy
        [Text "No discount policy found for "; Text segment; Text " ";
         Text dealType; Text " in "; Text region]
  | Some policy =>
      let sd := ROE.standardDiscount policy in
      DiscountPolicyFound
        {| segment := segment;
           dealType := dealType;
           region := region;
           maxDiscount := ROE.max sd;
           typicalDiscount := ROE.typical sd;
           autoApprovedLimit := ROE.autoApproved sd;
           regionalAdjustment :=
             if Qeq_bool (ROE.regionalAdjustment policy) 0 then 0%Q
             else ROE.regionalAdjustment policy;
           effectiveMax :=
             if Qeq_bool (ROE.effectiveMax policy) 0 then ROE.max sd
             else ROE.effectiveMax policy |}
        (generateDiscountGuidance policy dealType segment)
  end.

(** [generateApprovalGuidance].  When [highestLevel] is the pair, the
    approver of each member is read; a missing member makes that a
    TypeError. *)
Definition generateApprovalGuidance (requirements : ROE.ApprovalRequirement)
           (discountPercent dealSize : Q) : completion (list Line) :=
  let guidance :=
    match ROE.discountApproval requirements with
    | Some da =>
        [ [Value discountPercent; Text "% discount requires ";
           Text (ROE.approver da); Text " approval"];
          [Text "Expected timeframe: "; Text (ROE.timeframe da)] ]
    | None => []
    end in
  let guidance :=
    match ROE.sizeApproval requirements with
    | Some sa =>
        if match ROE.discountApproval requirements with
           | Some da => negb (String.eqb (ROE.approver sa) (ROE.approver da))
           | None => true
           end
        then guidance ++ [ [Text "$"; Value dealSize; Text " deal size requires ";
                            Text (ROE.approver sa); Text " approval"] ]
        else guidance
    | None => guidance
    end in
  match ROE.highestLevel requirements with
  | ROE.Both (Some a) (Some b) =>
      Return (guidance ++
              [ [Text "This deal requires approval from both: ";
                 Text (ROE.approver a); Text " and "; Text (ROE.approver b)] ])
  | ROE.Both _ _ =>
      Throw "Cannot read properties of undefined (reading 'approver')"
  | ROE.Single _ => Return guidance
  end.

Inductive ApprovalLookup : Type :=
| ApprovalsFound :
    option ROE.Approval -> option ROE.Approval -> ROE.Highest -> list Line ->
    ApprovalLookup
| NoApprovals : string -> ApprovalLookup
| ApprovalLookupFailed : string -> ApprovalLookup.

(** [lookupApprovalRequirements] on two numbers; [General] has it on
    [undefined], [null] and NaN, which is what [quickPolicyLookup]
    passes on when a parameter is not given. *)
Definition lookupApprovalRequirements (discountPercent dealSize : Q)
  : ApprovalLookup :=
  let requirements := ROE.getApprovalRequirement discountPercent dealSize in
  match ROE.discountApproval requirements, ROE.sizeApproval requirements with
  | None, None => NoApprovals "No specific approval requirements found"
  | _, _ =>
      match generateApprovalGuidance requirements discountPercent dealSize with
      | Return guidance =>
          ApprovalsFound (ROE.discountApproval requirements)
                         (ROE.sizeApproval requirements)
                         (ROE.highestLevel requirements) guidance
      | Throw _ => ApprovalLookupFailed "Error looking up approval requirements"
      end
  end.

(** A canonical array index: a decimal numeral without a leading zero. *)
Definition isIndex (key : string) : bool :=
  match key with
  | EmptyString => false
  | String c rest =>
      (span isDigit key =? String.length key)%nat
      && (negb (Ascii.eqb c "0"%char) || (String.length rest =? 0)%nat)
  end.

(** [text[key]] has a value when [key] is ["length"] or an index inside
    the text. *)
Definition stringHasProperty (text key : string) : bool :=
  String.eqb key "length"
  || (isIndex key
      && (Z.of_nat (String.length text) >? decimalValue 0 key)%Z).

Inductive MinimumLookup : Type :=
| MinimumFound : DealTypes.Minimum -> list Line -> MinimumLookup
| NoMinimum : Line -> MinimumLookup
| MinimumLookupFailed : string -> MinimumLookup.

Definition lookupMinimumRequirements (dealType segment : string) : MinimumLookup :=
  match DealTypes.getRulesByDealType dealType with
  | None => NoMinimum [Text "No minimum requirements found for "; Text dealType]
  | Some dealInfo =>
      match DealTypes.minimumCommitment dealInfo with
      | DealTypes.Sentence text =>
          if negb (truthyStr text)
          then NoMinimum [Text "No minimum requirements found for "; Text dealType]
          else if stringHasProperty text segment
          then MinimumLookupFailed "Error looking up minimum requirements"
          else NoMinimum [Text "No minimum requirements found for ";
                          Text segment; Text " "; Text dealType]
      | DealTypes.BySegment table =>
          match lookup segment table with
          | None => NoMinimum [Text "No minimum requirements found for ";
                               Text segment; Text " "; Text dealType]
          | Some requirements =>
              MinimumFound requirements
                ([ [Text segment; Text " "; Text dealType;
                    Text " requires minimum ";
                    Value (DealTypes.seats requirements); Text " seats"];
                   [Text "Minimum deal value: $";
                    Value (DealTypes.value requirements)] ]
                 ++ (if String.eqb dealType "addon"
                     then [ [Text "Note: Add-on deals have no minimum requirements"] ]
                     else []))
          end
      end
  end.

End KnowledgeBase.

(* ================================================================== *)
(** ** The other entity extractors and what reads the entities
       (messageProcessor.js) *)
(* ================================================================== *)

Module EntityExtractors.
Import JS.

(** One attempt of an alternation of literals with the [i] flag,
    anchored at the start of [s]: the first alternative that the text
    starts with, whatever its case, and the length of the match.  The
    literals are in lower case. *)
Fixpoint alternativeAt (alternatives : list string) (s : string) : option nat :=
  match alternatives with
  | [] => None
  | a :: rest =>
      if String.prefix a (toLowerCase s) then Some (String.length a)
      else alternativeAt rest s
  end.

Definition segmentWords : list string :=
  [ "smb"; "small business"; "midmarket"; "mid-market"; "enterprise";
    "large enterprise"; "global account"; "fortune" ].

Definition dealTypeWords : list string :=
  [ "new business"; "renewal"; "add-on"; "addon"; "upsell"; "expansion" ].

Definition regionWords : list string :=
  [ "namer"; "north america"; "us"; "usa"; "emea"; "europe"; "european";
    "apac"; "asia"; "pacific"; "latam"; "latin america"; "brazil"; "mexico" ].

Definition urgencyWords : list string :=
  [ "urgent"; "asap"; "immediately"; "emergency"; "critical"; "soon"; "rush";
    "deadline" ].

Definition unitWords : list string := [ "day"; "week"; "month"; "year" ].

(** [entityExtractors.segment.extract]. *)
Definition extractSegment (matches : list string) : list string :=
  map (fun m =>
         let lower := toLowerCase m in
         if includes lower "smb" || includes lower "small" then "smb"
         else if includes lower "midmarket" || includes lower "mid-market"
         then "midmarket"
         else if includes lower "large" || includes lower "fortune"
         then "largeEnterprise"
         else if includes lower "global" then "globalAccounts"
         else "enterprise")
      matches.

(** [entityExtractors.dealType.extract]. *)
Definition extractDealType (matches : list string) : list string :=
  map (fun m =>
         let lower := toLowerCase m in
         if includes lower "renewal" then "renewal"
         else if includes lower "add" || includes lower "addon" then "addon"
         else if includes lower "upsell" || includes lower "expansion" then "upsell"
         else "newBusiness")
      matches.

(** [entityExtractors.region.extract]. *)
Definition extractRegion (matches : list string) : list string :=
  map (fun m =>
         let lower := toLowerCase m in
         if includes lower "emea" || includes lower "europe" then "emea"
         else if includes lower "apac" || includes lower "asia"
                 || includes lower "pacific" then "apac"
         else if includes lower "latam" || includes lower "latin"
                 || includes lower "brazil" || includes lower "mexico" then "latam"
         else "namer")
      matches.

Definition urgencyMap : list (string * string) :=
  [ ("emergency", "critical"); ("critical", "critical"); ("urgent", "high");
    ("asap", "high"); ("immediately", "high"); ("soon", "medium");
    ("rush", "high"); ("deadline", "medium") ].

(** [entityExtractors.urgency.extract]. *)
Definition extractUrgency (matches : list string) : list string :=
  map (fun m =>
         match lookup (toLowerCase m) urgencyMap with
         | Some level => if truthyStr level then level else "medium"
         | None => "medium"
         end)
      matches.

(** One attempt of [/(\d+)\s*(day|week|month|year)s?/i] anchored at the
    start of [s]: the length of the match and its two groups.  The digit
    run and the blanks are greedy, and giving back a digit or a blank
    never helps, because a unit starts with a letter. *)
Definition timeframeAt (s : string) : option (nat * (string * string)) :=
  let d := span isDigit s in
  if (d =? 0)%nat then None
  else
    let r := drop d s in
    let w := span isSpace r in
    let r' := drop w r in
    match alternativeAt unitWords r' with
    | None => None
    | Some u =>
        let plural :=
          match drop u r' with
          | String c _ => if Ascii.eqb (lowerChar c) "s"%char then 1%nat else 0%nat
          | EmptyString => 0%nat
          end in
        Some ((d + w + u + plural)%nat, (take d s, take u r'))
    end.

(** [text.match(pattern)] without the [g] flag: the groups of the
    leftmost successful attempt, null when there is none. *)
Fixpoint firstGroups (s : string) : option (string * string) :=
  match timeframeAt s with
  | Some (_, groups) => Some groups
  | None =>
      match s with
      | EmptyString => None
      | String _ s' => firstGroups s'
      end
  end.

Record Timeframe : Type := {
  value : jsnum;
  unit : string
}.

(** [entityExtractors.timeframe.extract]: every match is matched again
    for its groups; destructuring a null result is a TypeError. *)
Fixpoint extractTimeframe (matches : list string)
  : PolicyChecker.completion (list Timeframe) :=
  match matches with
  | [] => PolicyChecker.Return []
  | m :: rest =>
      match firstGroups m with
      | None => PolicyChecker.Throw "object null is not iterable"
      | Some (num, unit) =>
          match extractTimeframe rest with
          | PolicyChecker.Return tfs =>
              PolicyChecker.Return
                ({| value := parseInt num; unit := toLowerCase unit |} :: tfs)
          | PolicyChecker.Throw e => PolicyChecker.Throw e
          end
      end
  end.

(** The entities object with all its keys; a key is present only when
    its pattern matched. *)
Record Entities : Type := {
  percentage : option (list jsnum);
  currency : option (list jsnum);
  timeframe : option (list Timeframe);
  segment : option (list string);
  dealType : option (list string);
  region : option (list string);
  urgency : option (list string)
}.

Definition words (alternatives : list string) (message : string)
  : option (list string) :=
  MessageProcessor.matchGlobal (alternativeAt alternatives) message.

Definition extractAllEntities (message : string)
  : PolicyChecker.completion Entities :=
  let numeric := MessageProcessor.extractAllEntities message in
  let timeframes :=
    match MessageProcessor.matchGlobal
            (fun s => option_map fst (timeframeAt s)) message with
    | None => PolicyChecker.Return None
    | Some matches =>
        match extractTimeframe matches with
        | PolicyChecker.Return tfs => PolicyChecker.Return (Some tfs)
        | PolicyChecker.Throw e => PolicyChecker.Throw e
        end
    end in
  match timeframes with
  | PolicyChecker.Throw e => PolicyChecker.Throw e
  | PolicyChecker.Return timeframe =>
      PolicyChecker.Return
        {| percentage := MessageProcessor.percentage numeric;
           currency := MessageProcessor.currency numeric;
           timeframe := timeframe;
           segment := option_map extractSegment (words segmentWords message);
           dealType := option_map extractDealType (words dealTypeWords message);
           region := option_map extractRegion (words regionWords message);
           urgency := option_map extractUrgency (words urgencyWords message) |}
  end.

Record BusinessContext : Type := {
  hasDealDetails : bool;
  hasFinancialInfo : bool;
  hasTimeConstraints : bool;
  hasCompetitiveElement : bool;
  hasCustomerInfo : bool
}.

(** Truthiness of a key of the entities: present or not. *)
Definition present {A : Type} (key : option A) : bool :=
  match key with Some _ => true | None => false end.

Definition analyzeBusinessContext (message : string) (entities : Entities)
  : BusinessContext :=
  {| hasDealDetails :=
       present (segment entities) || present (dealType entities)
       || present (region entities);
     hasFinancialInfo :=
       present (percentage entities) || present (currency entities);
     hasTimeConstraints :=
       present (timeframe entities) || present (urgency entities);
     hasCompetitiveElement :=
       includes (toLowerCase message) "competitor"
       || includes (toLowerCase message) "competitive"
       || includes (toLowerCase message) "threat";
     hasCustomerInfo :=
       includes (toLowerCase message) "customer"
       || includes (toLowerCase message) "client"
       || includes (toLowerCase message) "account" |}.

(** [this.responseTypes]. *)
Inductive ResponseType : Type :=
| SELF_SERVICE
| CASE_CREATION
| POLICY_LOOKUP
| GUIDANCE_REQUEST
| PRECEDENT_SEARCH
| ESCALATION_NEEDED.

Definition isCaseCreation (intent : ResponseType) : bool :=
  match intent with CASE_CREATION => true | _ => false end.

Definition isEscalation (intent : ResponseType) : bool :=
  match intent with ESCALATION_NEEDED => true | _ => false end.

Definition shouldSuggestCaseCreation (intent : ResponseType) (entities : Entities)
           (businessContext : BusinessContext) : bool :=
  if isCaseCreation intent then true
  else if match percentage entities with
          | Some ps => existsb (fun p => gt p (Num 25)) ps
          | None => false
          end then true
  else if hasCompetitiveElement businessContext && hasFinancialInfo businessContext
  then true
  else if match urgency entities with
          | Some us => existsb (String.eqb "critical") us
          | None => false
          end && hasDealDetails businessContext then true
  else if isEscalation intent then true
  else false.

End EntityExtractors.

(* ================================================================== *)
(** ** The same functions on arguments of any shape *)
(* ================================================================== *)

(** The modules above describe the functions on well-formed arguments:
    numbers where a number is expected, texts in the text fields of a
    draft, categories and priorities that are no names of inherited
    properties; and on these the handlers around [routeCase] and
    [checkCompliance] are never entered.  [General] describes the
    functions without these assumptions, handlers included:
    - an argument that should be a number may be [undefined], [null] or
      NaN;
    - a key may be the name of a property every object inherits, such as
      ["constructor"], under which a table literal holds a function;
    - a text field of a draft may hold a value that is no text (a number,
      a boolean, an object or an array read from JSON).
    The category and the priority of a draft are texts, any text, or
    missing, and its numeric fields are as in [Case].  On well-formed
    arguments the definitions agree with the ones above (lemmas
    [..._agree]). *)

Module General.
Import JS.
Import PolicyChecker (completion, Return, Throw, MsgPart, Text, Value).

(** *** Sequencing of steps that may throw *)

Definition bind {A B : Type} (step : completion A) (rest : A -> completion B)
  : completion B :=
  match step with
  | Return a => rest a
  | Throw e => Throw e
  end.

Local Notation "x <- step ;; rest" := (bind step (fun x => rest))
  (at level 61, step at next level, right associativity).

(** *** Values passed where a number is expected *)

Inductive value : Type :=
| Undefined : value
| Null : value
| Number : jsnum -> value.

(** The number a value converts to in a comparison. *)
Definition toNumber (v : value) : jsnum :=
  match v with
  | Undefined => NaN
  | Null => Num 0
  | Number n => n
  end.

(** What a template literal shows for a value. *)
Definition shownValue (v : value) : MsgPart :=
  match v with
  | Undefined => Text "undefined"
  | Null => Text "null"
  | Number NaN => Text "NaN"
  | Number (Num q) => Value q
  end.

(** [v.toLocaleString()]: [undefined] and [null] have no properties. *)
Definition toLocaleString (v : value) : completion MsgPart :=
  match v with
  | Undefined =>
      Throw "Cannot read properties of undefined (reading 'toLocaleString')"
  | Null => Throw "Cannot read properties of null (reading 'toLocaleString')"
  | Number NaN => Return (Text "NaN")
  | Number (Num q) => Return (Value q)
  end.

(** *** Approval requirements (rulesOfEngagement.js) *)

Definition inDiscountRange (discountPercent : value) (range : string) : bool :=
  if includes range "+" then
    let min := parseInt (hd "" (split "%" range)) in
    ge (toNumber discountPercent) min
  else
    let bounds := map parseInt (split "-" range) in
    let min := nth 0 bounds NaN in
    let max := nth 1 bounds NaN in
    ge (toNumber discountPercent) min && le (toNumber discountPercent) max.

Definition inSizeRange (dealSize : value) (range : string) : bool :=
  if includes range "+" then
    let min := mul (parseInt (hd "" (split "k" range))) (Num 1000) in
    ge (toNumber dealSize) min
  else if includes range "-" then
    let bounds :=
      map (fun r => mul (parseInt (replace "k" "" r)) (Num 1000))
          (split "-" range) in
    let min := nth 0 bounds NaN in
    let max := nth 1 bounds NaN in
    ge (toNumber dealSize) min && le (toNumber dealSize) max
  else
    let threshold :=
      mul (parseInt (replace "k" "" (replace "under" "" range))) (Num 1000) in
    lt (toNumber dealSize) threshold.

Definition getApprovalRequirement (discountPercent dealSize : value)
  : ROE.ApprovalRequirement :=
  let discountApproval :=
    option_map snd
      (find (fun e => inDiscountRange discountPercent (fst e))
            ROE.discountApprovalTable) in
  let sizeApproval :=
    option_map snd
      (find (fun e => inSizeRange dealSize (fst e)) ROE.dealSizeApprovalTable) in
  {| ROE.discountApproval := discountApproval;
     ROE.sizeApproval := sizeApproval;
     ROE.highestLevel :=
       if ROE.sameApprover discountApproval sizeApproval
       then ROE.Single discountApproval
       else ROE.Both discountApproval sizeApproval |}.

(** *** The quick route for a deal size (caseRouter.js) *)

Definition getRouteForDealSize (dealValue : value) : QuickRoutes.SizeRoute.t :=
  let approval := getApprovalRequirement (Number (Num 0)) dealValue in
  {| QuickRoutes.SizeRoute.requiredApprover :=
       QuickRoutes.orText (option_map ROE.approver (ROE.sizeApproval approval))
                          "Sales Manager";
     QuickRoutes.SizeRoute.timeline :=
       QuickRoutes.orText (option_map ROE.timeframe (ROE.sizeApproval approval))
                          "24 hours";
     QuickRoutes.SizeRoute.requiresFinance := gt (toNumber dealValue) (Num 250000);
     QuickRoutes.SizeRoute.requiresExecutive := gt (toNumber dealValue) (Num 500000) |}.

(** *** The approval lookup of the knowledge base
        (knowledgeBaseService.js) *)

Definition generateApprovalGuidance (requirements : ROE.ApprovalRequirement)
           (discountPercent dealSize : value)
  : completion (list KnowledgeBase.Line) :=
  let guidance :=
    match ROE.discountApproval requirements with
    | Some da =>
        [ [shownValue discountPercent; Text "% discount requires ";
           Text (ROE.approver da); Text " approval"];
          [Text "Expected timeframe: "; Text (ROE.timeframe da)] ]
    | None => []
    end in
  guidance <-
    match ROE.sizeApproval requirements with
    | Some sa =>
        if match ROE.discountApproval requirements with
           | Some da => negb (String.eqb (ROE.approver sa) (ROE.approver da))
           | None => true
           end
        then
          size <- toLocaleString dealSize ;;
          Return (guidance ++ [ [Text "$"; size; Text " deal size requires ";
                                 Text (ROE.approver sa); Text " approval"] ])
        else Return guidance
    | None => Return guidance
    end ;;
  match ROE.highestLevel requirements with
  | ROE.Both (Some a) (Some b) =>
      Return (guidance ++
              [ [Text "This deal requires approval from both: ";
                 Text (ROE.approver a); Text " and "; Text (ROE.approver b)] ])
  | ROE.Both _ _ =>
      Throw "Cannot read properties of undefined (reading 'approver')"
  | ROE.Single _ => Return guidance
  end.

Definition lookupApprovalRequirements (discountPercent dealSize : value)
  : KnowledgeBase.ApprovalLookup :=
  let requirements := getApprovalRequirement discountPercent dealSize in
  match ROE.discountApproval requirements, ROE.sizeApproval requirements with
  | None, None =>
      KnowledgeBase.NoApprovals "No specific approval requirements found"
  | _, _ =>
      match generateApprovalGuidance requirements discountPercent dealSize with
      | Return guidance =>
          KnowledgeBase.ApprovalsFound (ROE.discountApproval requirements)
                                       (ROE.sizeApproval requirements)
                                       (ROE.highestLevel requirements) guidance
      | Throw _ =>
          KnowledgeBase.ApprovalLookupFailed
            "Error looking up approval requirements"
      end
  end.

(** [quickPolicyLookup('approval_required', params)]: a parameter that
    is not given is [undefined]. *)
Definition quickApprovalLookup (discountPercent dealSize : option value)
  : KnowledgeBase.ApprovalLookup :=
  lookupApprovalRequirements
    (match discountPercent with Some v => v | None => Undefined end)
    (match dealSize with Some v => v | None => Undefined end).

(** *** Keys that name inherited properties *)

(** The properties of [Object.prototype].  Under such a key every object
    literal holds a function (under [__proto__], the prototype object):
    a truthy value that is neither a number nor a key of a table. *)
Definition inheritedNames : list string :=
  [ "constructor"; "__defineGetter__"; "__defineSetter__"; "hasOwnProperty";
    "__lookupGetter__"; "__lookupSetter__"; "isPrototypeOf";
    "propertyIsEnumerable"; "toString"; "valueOf"; "__proto__";
    "toLocaleString" ].

Definition inherited (key : option string) : bool :=
  match key with
  | Some k => existsb (String.eqb k) inheritedNames
  | None => false
  end.

(** [table[key] || fallback]: a number, or an inherited function. *)
Inductive Weight : Type :=
| Own : Q -> Weight
| Foreign : Weight.

Definition lookupOr (table : list (string * Q)) (key : option string)
           (fallback : Q) : Weight :=
  match key with
  | Some k =>
      match lookup k table with
      | Some v => Own (if Qeq_bool v 0 then fallback else v)
      | None => if inherited key then Foreign else Own fallback
      end
  | None => Own fallback
  end.

(** A running score: a number, or what it is once an inherited function
    got into it: the function itself, or the text that adding to a
    function gives (["3function Object() { [native code] }"]).  Such a
    score stays a text under [+=], and it is no numeral: it multiplies to
    NaN and compares as NaN. *)
Inductive Score : Type :=
| Counted : jsnum -> Score
| Garbled : Score.

(** A score that starts from a weight. *)
Definition held (weight : Weight) : Score :=
  match weight with
  | Own q => Counted (Num q)
  | Foreign => Garbled
  end.

(** [score += weight]. *)
Definition add (score : Score) (weight : Weight) : Score :=
  match score, weight with
  | Counted (Num a), Own b => Counted (Num (a + b))
  | Counted NaN, Own _ => Counted NaN
  | _, _ => Garbled
  end.

(** [score *= weight]: always a number. *)
Definition times (score : Score) (weight : Weight) : jsnum :=
  match score, weight with
  | Counted (Num a), Own b => Num (a * b)
  | _, _ => NaN
  end.

(** The number a score converts to in a comparison. *)
Definition counted (score : Score) : jsnum :=
  match score with
  | Counted n => n
  | Garbled => NaN
  end.

(** [n += q] on a number. *)
Definition plus (n : jsnum) (q : Q) : jsnum :=
  match n with
  | Num a => Num (a + q)
  | NaN => NaN
  end.

(** *** Drafts whose text fields may hold something else *)

(** A text field: missing ([undefined] or [null]), a text, or a value
    that is no text, of which the code can only see whether it is
    truthy: it has no [toLowerCase] and no [trim]. *)
Inductive Field : Type :=
| Missing : Field
| TextOf : string -> Field
| NotText : bool -> Field.

Module Draft.
Record t : Type := {
  title : Field;
  category : option string;
  priority : option string;
  description : Field;
  dealValue : option Q;
  discountRequested : option Q;
  timeframe : Field;
  competitorInfo : Field;
  customerInfo : Field
}.
End Draft.
Import Draft (title, category, priority, description, dealValue,
              discountRequested, timeframe, competitorInfo, customerInfo).

Definition ofText (field : option string) : Field :=
  match field with
  | Some s => TextOf s
  | None => Missing
  end.

(** A draft of texts and numbers. *)
Definition ofCase (c : Case.CaseData) : Draft.t :=
  {| Draft.title := ofText (Case.title c);
     Draft.category := Case.category c;
     Draft.priority := Case.priority c;
     Draft.description := ofText (Case.description c);
     Draft.dealValue := Case.dealValue c;
     Draft.discountRequested := Case.discountRequested c;
     Draft.timeframe := ofText (Case.timeframe c);
     Draft.competitorInfo := ofText (Case.competitorInfo c);
     Draft.customerInfo := ofText (Case.customerInfo c) |}.

(** Truthiness of a field. *)
Definition truthy (field : Field) : bool :=
  match field with
  | Missing => false
  | TextOf s => truthyStr s
  | NotText b => b
  end.

(** [field?.toLowerCase() || '']. *)
Definition lowerOrEmpty (name : string) (field : Field) : completion string :=
  match field with
  | Missing => Return ""
  | TextOf s => Return (toLowerCase s)
  | NotText _ =>
      Throw ("caseData." ++ name ++ "?.toLowerCase is not a function")
  end.

(** [field && field.toLowerCase().includes(needle)], as a condition. *)
Definition andIncludes (name : string) (field : Field) (needle : string)
  : completion bool :=
  match field with
  | Missing => Return false
  | TextOf s => Return (truthyStr s && includes (toLowerCase s) needle)
  | NotText false => Return false
  | NotText true =>
      Throw ("caseData." ++ name ++ ".toLowerCase is not a function")
  end.

(** [field && field.trim()], as a condition. *)
Definition andTrim (name : string) (field : Field) : completion bool :=
  match field with
  | Missing => Return false
  | TextOf s => Return (truthyStr s && truthyStr (trim s))
  | NotText false => Return false
  | NotText true => Throw ("caseData." ++ name ++ ".trim is not a function")
  end.

Definition same (field : option string) (literal : string) : bool :=
  Case.same field literal.

(** *** The router on any draft (caseRouter.js) *)

Record Analysis : Type := {
  complexity : string;
  complexityScore : jsnum;
  riskLevel : string;
  factors : list string;
  autoApprovable : bool;
  precedentAvailable : bool
}.

Definition checkForPrecedent (caseData : Draft.t) : bool :=
  let commonCategories := ["pricing"; "dealStructure"; "competitive"] in
  existsb (same (category caseData)) commonCategories.

Definition analyzeCaseComplexity (caseData : Draft.t) : completion Analysis :=
  let complexityScore := 0%Q in
  let factors : list string := [] in
  let dealValue := orZero (parseFloatField (dealValue caseData)) in
  let '(complexityScore, factors) :=
    if Qlt_bool 500000 dealValue
    then ((complexityScore + 3)%Q, factors ++ ["Large deal size (>$500k)"])
    else if Qlt_bool 100000 dealValue
    then ((complexityScore + 2)%Q, factors ++ ["Significant deal size (>$100k)"])
    else if Qlt_bool 25000 dealValue
    then ((complexityScore + 1)%Q, factors ++ ["Medium deal size (>$25k)"])
    else (complexityScore, factors) in
  let discountPercent := orZero (parseFloatField (discountRequested caseData)) in
  let '(complexityScore, factors) :=
    if Qlt_bool 30 discountPercent
    then ((complexityScore + 3)%Q, factors ++ ["Very high discount request (>30%)"])
    else if Qlt_bool 20 discountPercent
    then ((complexityScore + 2)%Q, factors ++ ["High discount request (>20%)"])
    else if Qlt_bool 10 discountPercent
    then ((complexityScore + 1)%Q, factors ++ ["Moderate discount request (>10%)"])
    else (complexityScore, factors) in
  let complexityScore :=
    add (Counted (Num complexityScore))
        (lookupOr CaseRouter.categoryComplexity (category caseData) 1) in
  let factors :=
    factors ++ [String.append "Category: " (CaseRouter.shown (category caseData))] in
  let complexityScore :=
    times complexityScore
          (lookupOr CaseRouter.priorityMultiplier (priority caseData) 1) in
  let factors :=
    if same (priority caseData) "critical"
    then factors ++ ["Critical priority escalation"] else factors in
  competitive <- andTrim "competitorInfo" (competitorInfo caseData) ;;
  let '(complexityScore, factors) :=
    if competitive
    then (plus complexityScore 2, factors ++ ["Competitive situation"])
    else (complexityScore, factors) in
  multiYear <- andIncludes "description" (description caseData) "multi-year" ;;
  let '(complexityScore, factors) :=
    if multiYear
    then (plus complexityScore 1, factors ++ ["Multi-year terms requested"])
    else (complexityScore, factors) in
  let '(complexity, riskLevel) :=
    if ge complexityScore (Num 8) then ("very_complex", "high")
    else if ge complexityScore (Num 5) then ("complex", "medium")
    else if ge complexityScore (Num 3) then ("moderate", "medium")
    else ("simple", "low") in
  Return {| complexity := complexity;
            complexityScore := complexityScore;
            riskLevel := riskLevel;
            factors := factors;
            autoApprovable :=
              le complexityScore (Num 2) && Qle_bool discountPercent 10;
            precedentAvailable := checkForPrecedent caseData |}.

Definition determineApprovalLevel (caseData : Draft.t) (analysis : Analysis)
  : CaseRouter.ApprovalLevel :=
  let dealValue := orZero (parseFloatField (dealValue caseData)) in
  let discountPercent := orZero (parseFloatField (discountRequested caseData)) in
  let approvalReq :=
    if Qlt_bool 0 discountPercent && Qlt_bool 0 dealValue
    then Some (ROE.getApprovalRequirement discountPercent dealValue)
    else None in
  let '(primaryApprover, level, timeline) := ("Sales Manager", 2%Z, "24 hours") in
  let '(primaryApprover, level, timeline) :=
    if autoApprovable analysis then ("Auto-approved", 1%Z, "Immediate")
    else
      match match approvalReq with
            | Some req => ROE.discountApproval req
            | None => None
            end with
      | Some discountApproval =>
          let primaryApprover := ROE.approver discountApproval in
          let timeline := ROE.timeframe discountApproval in
          let level :=
            if includes primaryApprover "VP" && includes primaryApprover "Finance"
            then 5%Z
            else if includes primaryApprover "VP" then 4%Z
            else if includes primaryApprover "Director" then 3%Z
            else if includes primaryApprover "Manager" then 2%Z
            else level in
          (primaryApprover, level, timeline)
      | None =>
          if same (category caseData) "technical" then
            if Qlt_bool 250000 dealValue
            then ("VP Engineering", 4%Z, "72 hours")
            else ("Engineering Manager", 3%Z, "48 hours")
          else if same (category caseData) "legal" then
            ("Legal + Sales Director", 4%Z, "1 week")
          else if same (category caseData) "competitive" then
            if same (priority caseData) "critical"
            then ("VP Sales", 4%Z, "4 hours")
            else if Qlt_bool 20 discountPercent
            then ("Regional Director", 3%Z, "48 hours")
            else (primaryApprover, level, timeline)
          else if same (category caseData) "customerSuccess" then
            ("CS Director", 3%Z, "48 hours")
          else
            if Qlt_bool 500000 dealValue
            then ("VP Sales", 4%Z, "72 hours")
            else if Qlt_bool 100000 dealValue
            then ("Regional Director", 3%Z, "48 hours")
            else (primaryApprover, level, timeline)
      end in
  let secondaryApprover :=
    if String.eqb (riskLevel analysis) "high" || (4 <=? level)%Z then
      if same (category caseData) "legal" then Some "General Counsel"
      else if Qlt_bool 500000 dealValue then Some "CEO"
      else if includes primaryApprover "Finance" then Some "CFO"
      else None
    else None in
  {| CaseRouter.primaryApprover := primaryApprover;
     CaseRouter.secondaryApprover := secondaryApprover;
     CaseRouter.level := level;
     CaseRouter.timeline := timeline;
     CaseRouter.requiresFinanceApproval :=
       includes primaryApprover "Finance" || Qlt_bool 500000 dealValue;
     CaseRouter.requiresLegalReview :=
       same (category caseData) "legal" || String.eqb (riskLevel analysis) "high" |}.

(** [categoryTeamMap[caseData.category] || 'pricing'] is a team type, or
    an inherited function, and [teams[...]] of a function is undefined:
    reading [primaryTeam.primary] then throws. *)
Definition assignTeam (caseData : Draft.t) (analysis : Analysis)
  : completion CaseRouter.TeamAssignment :=
  let primaryTeamType : option string :=
    match category caseData with
    | Some c =>
        match lookup c CaseRouter.categoryTeamMap with
        | Some t => Some t
        | None => if inherited (Some c) then None else Some "pricing"
        end
    | None => Some "pricing"
    end in
  let primaryTeam :=
    match primaryTeamType with
    | Some t => lookup t CaseRouter.teams
    | None => None
    end in
  let supportingTeams :=
    (if String.eqb (riskLevel analysis) "high" then ["Legal Team"] else [])
    ++ (if gt (parseFloatField (dealValue caseData)) (Num 250000)
        then ["Finance Team"] else [])
    ++ (if truthy (competitorInfo caseData) then ["Product Marketing"] else [])
    ++ (if same (category caseData) "technical"
        then ["Solutions Engineering"] else []) in
  match primaryTeam with
  | Some team =>
      Return {| CaseRouter.primaryTeam := CaseRouter.primary team;
                CaseRouter.supportingTeams := unique supportingTeams;
                CaseRouter.escalationTeam := CaseRouter.escalation team |}
  | None => Throw "Cannot read properties of undefined (reading 'primary')"
  end.

Record Urgency : Type := {
  urgencyLevel : string;
  urgencyScore : Score
}.

Definition assessUrgency (caseData : Draft.t) (analysis : Analysis)
  : completion Urgency :=
  let urgencyScore :=
    held (lookupOr CaseRouter.priorityScore (priority caseData) 2) in
  let dealValue := orZero (parseFloatField (dealValue caseData)) in
  let urgencyScore :=
    if Qlt_bool 500000 dealValue then add urgencyScore (Own 2)
    else if Qlt_bool 100000 dealValue then add urgencyScore (Own 1)
    else urgencyScore in
  let urgencyScore :=
    if truthy (competitorInfo caseData) then add urgencyScore (Own 2)
    else urgencyScore in
  urgencyScore <-
    (if truthy (timeframe caseData) then
       match timeframe caseData with
       | TextOf s =>
           let timeframe := toLowerCase s in
           Return
             (if includes timeframe "urgent" || includes timeframe "asap"
                 || includes timeframe "immediate"
              then add urgencyScore (Own 2)
              else if includes timeframe "week" || includes timeframe "soon"
              then add urgencyScore (Own 1)
              else urgencyScore)
       | _ => Throw "caseData.timeframe.toLowerCase is not a function"
       end
     else Return urgencyScore) ;;
  renewal <- andIncludes "description" (description caseData) "renewal" ;;
  atRisk <-
    (if renewal then andIncludes "description" (description caseData) "risk"
     else Return false) ;;
  let urgencyScore :=
    if renewal && atRisk then add urgencyScore (Own 2) else urgencyScore in
  let level :=
    if ge (counted urgencyScore) (Num 7) then "critical"
    else if ge (counted urgencyScore) (Num 5) then "high"
    else if ge (counted urgencyScore) (Num 3) then "medium"
    else "low" in
  Return {| urgencyLevel := level; urgencyScore := urgencyScore |}.

Definition buildEscalationPath (caseData : Draft.t) (analysis : Analysis)
  : list string :=
  let dealValue := orZero (parseFloatField (dealValue caseData)) in
  if String.eqb (complexity analysis) "simple" then
    ["Sales Manager"]
    ++ (if Qlt_bool 100000 dealValue then ["Regional Director"] else [])
  else
    ["Sales Manager"; "Regional Director"]
    ++ (if Qlt_bool 250000 dealValue || String.eqb (riskLevel analysis) "high"
        then ["VP Sales"] else [])
    ++ (if Qlt_bool 500000 dealValue || same (category caseData) "legal"
        then ["VP Sales + CEO"] else []).

(** The [routing] of [generateFallbackRouting]. *)
Record FallbackRouting : Type := {
  primaryApprover : string;
  team : string;
  approvalLevel : Z;
  expectedTimeline : string;
  urgency : string
}.

Definition generateFallbackRouting : FallbackRouting :=
  {| primaryApprover := "Sales Manager";
     team := "Sales Manager";
     approvalLevel := 2;
     expectedTimeline := "48 hours";
     urgency := "medium" |}.

(** What [routeCase] returns: the decision with [success: true], or,
    from its handler, [success: false] with the error and the fallback
    routing. *)
Inductive RouteResult : Type :=
| Routed : CaseRouter.Routing.t -> CaseRouter.Summary.t -> RouteResult
| Unrouted : string -> FallbackRouting -> RouteResult.

Definition success (answer : RouteResult) : bool :=
  match answer with
  | Routed _ _ => true
  | Unrouted _ _ => false
  end.

(** [generateRecommendations] and [explainRouting], which run between
    [assessUrgency] and the return, read the numbers, the category and
    the truthiness of [competitorInfo] and render texts; they throw on
    no draft and feed nothing back, and are left out. *)
Definition routeCase (caseData : Draft.t) : RouteResult :=
  match
    analysis <- analyzeCaseComplexity caseData ;;
    let approvalRequirement := determineApprovalLevel caseData analysis in
    teamAssignment <- assignTeam caseData analysis ;;
    urgencyAssessment <- assessUrgency caseData analysis ;;
    Return
      (Routed
         {| CaseRouter.Routing.primaryApprover :=
              CaseRouter.primaryApprover approvalRequirement;
            CaseRouter.Routing.secondaryApprover :=
              CaseRouter.secondaryApprover approvalRequirement;
            CaseRouter.Routing.team := CaseRouter.primaryTeam teamAssignment;
            CaseRouter.Routing.supportingTeams :=
              CaseRouter.supportingTeams teamAssignment;
            CaseRouter.Routing.approvalLevel := CaseRouter.level approvalRequirement;
            CaseRouter.Routing.expectedTimeline :=
              CaseRouter.timeline approvalRequirement;
            CaseRouter.Routing.urgency := urgencyLevel urgencyAssessment;
            CaseRouter.Routing.escalationPath :=
              buildEscalationPath caseData analysis |}
         {| CaseRouter.Summary.complexity := complexity analysis;
            CaseRouter.Summary.riskLevel := riskLevel analysis;
            CaseRouter.Summary.precedentAvailable := precedentAvailable analysis;
            CaseRouter.Summary.autoApprovable := autoApprovable analysis |})
  with
  | Return answer => answer
  | Throw error => Unrouted error generateFallbackRouting
  end.

(** *** The checker on any draft (policyChecker.js) *)

Import PolicyChecker (CheckResult, Finding, fresh, setCompliant, setScore,
                      pushViolation, pushWarning, pushRecommendation, minScore).

Definition inferSegment (caseData : Draft.t) : completion string :=
  let dealValue := orZero (parseFloatField (dealValue caseData)) in
  description <- lowerOrEmpty "description" (description caseData) ;;
  customerInfo <- lowerOrEmpty "customerInfo" (customerInfo caseData) ;;
  Return
    (if includes description "smb" || includes customerInfo "smb" then "smb"
     else if includes description "midmarket" || includes customerInfo "midmarket"
     then "midmarket"
     else if includes description "enterprise" || includes customerInfo "enterprise"
     then "enterprise"
     else if includes description "global" || includes customerInfo "global"
     then "globalAccounts"
     else if Qle_bool 500000 dealValue then "globalAccounts"
     else if Qle_bool 250000 dealValue then "largeEnterprise"
     else if Qle_bool 50000 dealValue then "enterprise"
     else if Qle_bool 15000 dealValue then "midmarket"
     else "smb").

Definition inferDealType (caseData : Draft.t) : completion string :=
  description <- lowerOrEmpty "description" (description caseData) ;;
  title <- lowerOrEmpty "title" (title caseData) ;;
  Return
    (if includes description "renewal" || includes title "renewal" then "renewal"
     else if includes description "add-on" || includes description "addon"
             || includes title "add-on" then "addon"
     else if includes description "upsell" || includes title "upsell" then "upsell"
     else "newBusiness").

Definition discountCompliance (caseData : Draft.t) : completion CheckResult :=
  let result := fresh "discount_compliance" in
  if negb (truthyNum (parseFloatField (discountRequested caseData)))
     || negb (same (category caseData) "pricing")
  then Return result
  else
    let discountPercent := parseFloatField (discountRequested caseData) in
    segment <- inferSegment caseData ;;
    dealType <- inferDealType caseData ;;
    match ROE.getDiscountPolicy dealType segment None with
    | None =>
        Return
          (pushWarning
             {| PolicyChecker.type := "policy_lookup";
                PolicyChecker.severity := "medium";
                PolicyChecker.message :=
                  [Text "Unable to determine discount policy for this segment/deal type"] |}
             result)
    | Some policy =>
        let limit := ROE.max (ROE.standardDiscount policy) in
        let auto := ROE.autoApproved (ROE.standardDiscount policy) in
        let result :=
          if gt discountPercent (Num limit) then
            pushViolation
              {| PolicyChecker.type := "discount_limit_exceeded";
                 PolicyChecker.severity := "high";
                 PolicyChecker.message :=
                   [Text "Requested "; Value (orZero discountPercent);
                    Text "% exceeds policy limit of "; Value limit;
                    Text "% for "; Text segment; Text " ";
                    Text dealType] |}
              (setScore 20 (setCompliant false result))
          else if gt discountPercent (Num auto) then
            setScore 70
              (pushWarning
                 {| PolicyChecker.type := "approval_required";
                    PolicyChecker.severity := "medium";
                    PolicyChecker.message :=
                      [Value (orZero discountPercent);
                       Text "% discount requires manager approval (auto-approved up to ";
                       Value auto; Text "%)"] |}
                 result)
          else result in
        Return
          (if Qlt_bool 0 (ROE.regionalAdjustment policy) then
             pushRecommendation
               {| PolicyChecker.type := "regional_adjustment";
                  PolicyChecker.severity := "info";
                  PolicyChecker.message :=
                    [Text "Regional adjustment of +";
                     Value (ROE.regionalAdjustment policy);
                     Text "% available (effective limit: ";
                     Value (ROE.effectiveMax policy); Text "%)"] |}
               result
           else result)
    end.

Definition minimumRequirements (caseData : Draft.t) : completion CheckResult :=
  let result := fresh "minimum_requirements" in
  segment <- inferSegment caseData ;;
  let dealValue := orZero (parseFloatField (dealValue caseData)) in
  dealType <- inferDealType caseData ;;
  if String.eqb dealType "addon" then
    Return
      (pushRecommendation
         {| PolicyChecker.type := "addon_exemption";
            PolicyChecker.severity := "info";
            PolicyChecker.message :=
              [Text "Add-on deals are exempt from minimum requirements"] |}
         result)
  else
    let result :=
      match lookup segment PolicyChecker.minimumValue with
      | Some minValue =>
          if negb (Qeq_bool minValue 0) && Qlt_bool 0 dealValue
             && Qlt_bool dealValue minValue
          then
            pushViolation
              {| PolicyChecker.type := "minimum_value";
                 PolicyChecker.severity := "high";
                 PolicyChecker.message :=
                   [Text "Deal value $"; Value dealValue;
                    Text " below "; Text segment;
                    Text " minimum of $"; Value minValue] |}
              (setScore 30 (setCompliant false result))
          else result
      | None => result
      end in
    description <- lowerOrEmpty "description" (description caseData) ;;
    Return
      match PolicyChecker.firstMatch PolicyChecker.seatsAt description with
      | Some seats =>
          let requestedSeats := parseInt seats in
          match lookup segment PolicyChecker.minimumSeats with
          | Some minSeats =>
              if negb (Qeq_bool minSeats 0) && lt requestedSeats (Num minSeats)
              then
                minScore
                  (setCompliant false
                     (pushViolation
                        {| PolicyChecker.type := "minimum_seats";
                           PolicyChecker.severity := "high";
                           PolicyChecker.message :=
                             [Text "Requested ";
                              Value (orZero requestedSeats);
                              Text " seats below "; Text segment;
                              Text " minimum of "; Value minSeats] |}
                        result))
                  30
              else result
          | None => result
          end
      | None => result
      end.

(** Only the two numeric fields are read. *)
Definition approvalWorkflow (caseData : Draft.t) : completion CheckResult :=
  let result := fresh "approval_workflow" in
  let discountPercent := orZero (parseFloatField (discountRequested caseData)) in
  let dealValue := orZero (parseFloatField (dealValue caseData)) in
  let result :=
    if Qlt_bool 0 discountPercent && Qlt_bool 0 dealValue then
      let approvalReq := ROE.getApprovalRequirement discountPercent dealValue in
      let result :=
        match ROE.discountApproval approvalReq with
        | Some da =>
            pushRecommendation
              {| PolicyChecker.type := "approval_path";
                 PolicyChecker.severity := "high";
                 PolicyChecker.message :=
                   [Text "Requires "; Text (ROE.approver da);
                    Text " approval ("; Text (ROE.timeframe da);
                    Text ")"] |}
              result
        | None => result
        end in
      match ROE.sizeApproval approvalReq with
      | Some sa =>
          if negb (ROE.sameApprover (Some sa) (ROE.discountApproval approvalReq))
          then
            pushRecommendation
              {| PolicyChecker.type := "dual_approval";
                 PolicyChecker.severity := "high";
                 PolicyChecker.message :=
                   [Text "Deal size also requires ";
                    Text (ROE.approver sa); Text " approval"] |}
              result
          else result
      | None => result
      end
    else result in
  Return
    (if Qlt_bool 500000 dealValue then
       pushWarning
         {| PolicyChecker.type := "high_value_deal";
            PolicyChecker.severity := "medium";
            PolicyChecker.message :=
              [Text "Large deals may require executive and finance approval"] |}
         result
     else result).

Definition dealStructure (caseData : Draft.t) : completion CheckResult :=
  let result := fresh "deal_structure" in
  description <- lowerOrEmpty "description" (description caseData) ;;
  let result :=
    if includes description "payment terms" || includes description "net 60"
       || includes description "net 90"
    then
      setScore 80
        (pushWarning
           {| PolicyChecker.type := "payment_terms";
              PolicyChecker.severity := "medium";
              PolicyChecker.message :=
                [Text "Non-standard payment terms detected"] |}
           result)
    else result in
  let result :=
    if includes description "multi-year" || includes description "3 year"
       || includes description "multiple years"
    then
      pushRecommendation
        {| PolicyChecker.type := "multi_year_terms";
           PolicyChecker.severity := "medium";
           PolicyChecker.message :=
             [Text "Multi-year deals may qualify for additional discounts"] |}
        result
    else result in
  Return
    (if includes description "equity" || includes description "stock"
        || includes description "barter"
     then
       setScore 10
         (setCompliant false
            (pushViolation
               {| PolicyChecker.type := "non_cash_payment";
                  PolicyChecker.severity := "high";
                  PolicyChecker.message :=
                    [Text "Non-cash payment structures require special approval"] |}
               result))
     else result).

(** [caseData.competitorInfo && caseData.competitorInfo.trim().length > 0],
    as a condition. *)
Definition hasCompetitor (caseData : Draft.t) : completion bool :=
  match competitorInfo caseData with
  | Missing => Return false
  | TextOf s => Return (truthyStr s && (0 <? String.length (trim s))%nat)
  | NotText false => Return false
  | NotText true => Throw "caseData.competitorInfo.trim is not a function"
  end.

Definition competitivePolicy (caseData : Draft.t) : completion CheckResult :=
  let result := fresh "competitive_policy" in
  hasCompetitor <- hasCompetitor caseData ;;
  description <- lowerOrEmpty "description" (description caseData) ;;
  let isCompetitive :=
    hasCompetitor || includes description "competitive"
    || includes description "competitor" in
  Return
    (if isCompetitive then
       let result :=
         pushRecommendation
           {| PolicyChecker.type := "competitive_documentation";
              PolicyChecker.severity := "medium";
              PolicyChecker.message :=
                [Text "Document competitive intelligence and win/loss factors"] |}
           (pushRecommendation
              {| PolicyChecker.type := "competitive_discount";
                 PolicyChecker.severity := "high";
                 PolicyChecker.message :=
                   [Text "Competitive situations may qualify for additional 5% discount"] |}
              result) in
       if same (priority caseData) "critical" then
         pushRecommendation
           {| PolicyChecker.type := "expedited_approval";
              PolicyChecker.severity := "high";
              PolicyChecker.message :=
                [Text "Critical competitive situations qualify for expedited approval"] |}
           result
       else result
     else result).

Definition pilotProgramRules (caseData : Draft.t) : completion CheckResult :=
  let result := fresh "pilot_program" in
  description <- lowerOrEmpty "description" (description caseData) ;;
  let isPilot :=
    includes description "pilot" || includes description "trial"
    || includes description "poc" in
  if isPilot then
    segment <- inferSegment caseData ;;
    let standardDuration :=
      JS.lookupOr PolicyChecker.standardDurations (Some segment) 30 in
    let result :=
      pushRecommendation
        {| PolicyChecker.type := "pilot_duration";
           PolicyChecker.severity := "medium";
           PolicyChecker.message :=
             [Text "Standard pilot duration for "; Text segment;
              Text ": "; Value standardDuration; Text " days"] |}
        result in
    Return
      (if includes description "6 month" || includes description "extended"
          || includes description "long"
       then
         setScore 70
           (pushWarning
              {| PolicyChecker.type := "extended_pilot";
                 PolicyChecker.severity := "medium";
                 PolicyChecker.message :=
                   [Text "Extended pilots (6+ months) require VP approval"] |}
              result)
       else result)
  else Return result.

Definition paymentTerms (caseData : Draft.t) : completion CheckResult :=
  let result := fresh "payment_terms" in
  description <- lowerOrEmpty "description" (description caseData) ;;
  let result :=
    if includes description "net 60" then
      setScore 80
        (pushWarning
           {| PolicyChecker.type := "extended_terms";
              PolicyChecker.severity := "medium";
              PolicyChecker.message :=
                [Text "Net 60 terms require finance approval"] |}
           result)
    else result in
  Return
    (if includes description "net 90" || includes description "net 120" then
       setScore 40
         (setCompliant false
            (pushViolation
               {| PolicyChecker.type := "excessive_terms";
                  PolicyChecker.severity := "high";
                  PolicyChecker.message :=
                    [Text "Payment terms beyond Net 60 require executive approval"] |}
               result))
     else result).

Definition technicalCompliance (caseData : Draft.t) : completion CheckResult :=
  let result := fresh "technical_compliance" in
  if negb (same (category caseData) "technical") then Return result
  else
    description <- lowerOrEmpty "description" (description caseData) ;;
    let result :=
      if includes description "custom" || includes description "integration"
         || includes description "api"
      then
        pushRecommendation
          {| PolicyChecker.type := "development_premium";
             PolicyChecker.severity := "medium";
             PolicyChecker.message :=
               [Text "Custom development typically includes 15-25% premium"] |}
          (pushWarning
             {| PolicyChecker.type := "custom_development";
                PolicyChecker.severity := "medium";
                PolicyChecker.message :=
                  [Text "Custom development requests require engineering review"] |}
             result)
      else result in
    Return
      (if includes description "security" || includes description "compliance"
          || includes description "soc" || includes description "gdpr"
       then
         pushRecommendation
           {| PolicyChecker.type := "security_review";
              PolicyChecker.severity := "high";
              PolicyChecker.message :=
                [Text "Security requirements may need certification team review"] |}
           result
       else result).

Definition legalCompliance (caseData : Draft.t) : completion CheckResult :=
  let result := fresh "legal_compliance" in
  if negb (same (category caseData) "legal") then Return result
  else
    description <- lowerOrEmpty "description" (description caseData) ;;
    let result :=
      if includes description "contract" || includes description "terms"
         || includes description "msa"
      then
        setScore 60
          (pushWarning
             {| PolicyChecker.type := "contract_review";
                PolicyChecker.severity := "high";
                PolicyChecker.message :=
                  [Text "Contract modifications require legal team review"] |}
             result)
      else result in
    Return
      (if includes description "gdpr" || includes description "privacy"
          || includes description "data residency"
       then
         pushRecommendation
           {| PolicyChecker.type := "privacy_compliance";
              PolicyChecker.severity := "high";
              PolicyChecker.message :=
                [Text "Data privacy requirements need compliance team input"] |}
           result
       else result).

(** The checker object: the names in [this.complianceChecks] and what
    [this[checkType](caseData)] does for each name. *)
Record Checker : Type := {
  complianceChecks : list string;
  method : string -> Draft.t -> completion CheckResult
}.

Import PolicyChecker.Compliance (Results).

(** The body of the loop over [this.complianceChecks], handler included. *)
Definition runCheck (this : Checker) (caseData : Draft.t)
           (results : Results) (checkType : string) : Results :=
  match method this checkType caseData with
  | Return checkResult =>
      {| PolicyChecker.Compliance.overallCompliance :=
           PolicyChecker.Compliance.overallCompliance results;
         PolicyChecker.Compliance.score :=
           match PolicyChecker.score checkResult with
           | Some s => Z.min (PolicyChecker.Compliance.score results) s
           | None => PolicyChecker.Compliance.score results
           end;
         PolicyChecker.Compliance.violations :=
           PolicyChecker.Compliance.violations results
           ++ PolicyChecker.violations checkResult;
         PolicyChecker.Compliance.warnings :=
           PolicyChecker.Compliance.warnings results
           ++ PolicyChecker.warnings checkResult;
         PolicyChecker.Compliance.recommendations :=
           PolicyChecker.Compliance.recommendations results
           ++ PolicyChecker.recommendations checkResult;
         PolicyChecker.Compliance.approvalRequirements :=
           PolicyChecker.Compliance.approvalRequirements results;
         PolicyChecker.Compliance.riskAssessment :=
           PolicyChecker.Compliance.riskAssessment results;
         PolicyChecker.Compliance.complianceChecks :=
           assign checkType checkResult
                  (PolicyChecker.Compliance.complianceChecks results) |}
  | Throw _ =>
      {| PolicyChecker.Compliance.overallCompliance :=
           PolicyChecker.Compliance.overallCompliance results;
         PolicyChecker.Compliance.score := PolicyChecker.Compliance.score results;
         PolicyChecker.Compliance.violations :=
           PolicyChecker.Compliance.violations results;
         PolicyChecker.Compliance.warnings :=
           PolicyChecker.Compliance.warnings results
           ++ [PolicyChecker.systemWarning checkType];
         PolicyChecker.Compliance.recommendations :=
           PolicyChecker.Compliance.recommendations results;
         PolicyChecker.Compliance.approvalRequirements :=
           PolicyChecker.Compliance.approvalRequirements results;
         PolicyChecker.Compliance.riskAssessment :=
           PolicyChecker.Compliance.riskAssessment results;
         PolicyChecker.Compliance.complianceChecks :=
           PolicyChecker.Compliance.complianceChecks results |}
  end.

(** The loop of [checkCompliance]: it ends on every draft. *)
Definition runChecks (this : Checker) (caseData : Draft.t) : Results :=
  fold_left (runCheck this caseData) (complianceChecks this)
            PolicyChecker.initialResults.

(** Only [dealValue] and [category] are read. *)
Definition getApprovalRequirements (caseData : Draft.t)
           (complianceResults : Results) : PolicyChecker.ApprovalRequirements :=
  let dealValue := orZero (parseFloatField (dealValue caseData)) in
  let '(level1, approvers1, timeline1) :=
    if Qlt_bool 500000 dealValue
    then ("executive", ["Sales Manager"; "VP Sales"; "Finance"], "3-5 days")
    else if Qlt_bool 100000 dealValue
    then ("director", ["Sales Manager"; "Regional Director"], "48-72 hours")
    else ("manager", ["Sales Manager"], "24-48 hours") in
  let '(level2, approvers2, conditions2) :=
    if (0 <? List.length (PolicyChecker.Compliance.violations complianceResults))%nat
    then ("executive",
          if existsb (String.eqb "VP Sales") approvers1 then approvers1
          else approvers1 ++ ["VP Sales"],
          ["Exception approval required for policy violations"])
    else (level1, approvers1, []) in
  let '(approvers3, timeline3) :=
    if same (category caseData) "legal"
    then (approvers2 ++ ["Legal Team"], "5-7 days")
    else (approvers2, timeline1) in
  let approvers4 :=
    if same (category caseData) "technical"
    then approvers3 ++ ["Engineering Manager"]
    else approvers3 in
  {| PolicyChecker.level := level2; PolicyChecker.approvers := approvers4;
     PolicyChecker.timeline := timeline3; PolicyChecker.conditions := conditions2 |}.

(** [caseData.competitorInfo
     || caseData.description?.toLowerCase().includes('competitive')], as
    a condition: the description is read only when [competitorInfo] is
    falsy. *)
Definition competitiveSituation (caseData : Draft.t) : completion bool :=
  if truthy (competitorInfo caseData) then Return true
  else
    match description caseData with
    | Missing => Return false
    | TextOf d => Return (includes (toLowerCase d) "competitive")
    | NotText _ =>
        Throw "caseData.description?.toLowerCase is not a function"
    end.

Definition assessRisk (caseData : Draft.t) (complianceResults : Results)
  : completion PolicyChecker.RiskAssessment :=
  let nviol :=
    Z.of_nat (List.length (PolicyChecker.Compliance.violations complianceResults)) in
  let discountPercent := orZero (parseFloatField (discountRequested caseData)) in
  let dealValue := orZero (parseFloatField (dealValue caseData)) in
  competitive <- competitiveSituation caseData ;;
  let steps : list (bool * Z * string) :=
    [ ((0 <? nviol)%Z, (nviol * 20)%Z, "Policy violations present");
      (Qlt_bool 25 discountPercent, 15%Z, "High discount percentage");
      (Qlt_bool 500000 dealValue, 10%Z, "Large deal size");
      (competitive, 5%Z, "Competitive situation");
      (same (category caseData) "legal" || same (category caseData) "technical",
       10%Z, "Non-standard terms requested") ] in
  let taken := filter (fun st => fst (fst st)) steps in
  let riskScore := fold_left (fun acc st => (acc + snd (fst st))%Z) taken 0%Z in
  let riskFactors := map snd taken in
  let riskLevel :=
    if (40 <=? riskScore)%Z then "high"
    else if (20 <=? riskScore)%Z then "medium"
    else "low" in
  Return {| PolicyChecker.riskLevel := riskLevel;
            PolicyChecker.riskScore := riskScore;
            PolicyChecker.riskFactors := riskFactors;
            PolicyChecker.mitigation :=
              PolicyChecker.generateRiskMitigation riskLevel riskFactors |}.

(** [generateFallbackCompliance]. *)
Record Fallback : Type := {
  overallCompliance : string;
  score : Z;
  violations : list Finding;
  warnings : list Finding;
  recommendations : list Finding
}.

Definition generateFallbackCompliance : Fallback :=
  {| overallCompliance := "unknown";
     score := 50;
     violations := [];
     warnings :=
       [ {| PolicyChecker.type := "system_error";
            PolicyChecker.severity := "medium";
            PolicyChecker.message :=
              [Text "Unable to complete compliance check - manual review required"] |} ];
     recommendations :=
       [ {| PolicyChecker.type := "manual_review";
            PolicyChecker.severity := "high";
            PolicyChecker.message :=
              [Text "Submit for manual policy compliance review"] |} ] |}.

(** What [checkCompliance] returns: the aggregated results with
    [success: true], or, from the handler around its whole body,
    [success: false] with the error and the fallback. *)
Inductive Response : Type :=
| Checked : Results -> Response
| Unchecked : string -> Fallback -> Response.

Definition succeeded (answer : Response) : bool :=
  match answer with
  | Checked _ => true
  | Unchecked _ _ => false
  end.

(** After the loop, [determineOverallCompliance] and
    [getApprovalRequirements] read lists and numbers and
    [analyzePrecedents] has a handler of its own; [assessRisk] is the
    step that can throw. *)
Definition checkCompliance (this : Checker) (caseData : Draft.t) : Response :=
  match
    let results := runChecks this caseData in
    let overallCompliance := PolicyChecker.determineOverallCompliance results in
    let approvalRequirements := getApprovalRequirements caseData results in
    riskAssessment <- assessRisk caseData results ;;
    Return
      (Checked
         {| PolicyChecker.Compliance.overallCompliance := overallCompliance;
            PolicyChecker.Compliance.score := PolicyChecker.Compliance.score results;
            PolicyChecker.Compliance.violations :=
              PolicyChecker.Compliance.violations results;
            PolicyChecker.Compliance.warnings :=
              PolicyChecker.Compliance.warnings results;
            PolicyChecker.Compliance.recommendations :=
              PolicyChecker.Compliance.recommendations results;
            PolicyChecker.Compliance.approvalRequirements :=
              Some approvalRequirements;
            PolicyChecker.Compliance.riskAssessment := Some riskAssessment;
            PolicyChecker.Compliance.complianceChecks :=
              PolicyChecker.Compliance.complianceChecks results |})
  with
  | Return answer => answer
  | Throw error => Unchecked error generateFallbackCompliance
  end.

(** The methods of the class, by name. *)
Definition methods : list (string * (Draft.t -> completion CheckResult)) :=
  [ ("discountCompliance", discountCompliance);
    ("minimumRequirements", minimumRequirements);
    ("approvalWorkflow", approvalWorkflow);
    ("dealStructure", dealStructure);
    ("competitivePolicy", competitivePolicy);
    ("pilotProgramRules", pilotProgramRules);
    ("paymentTerms", paymentTerms);
    ("technicalCompliance", technicalCompliance);
    ("legalCompliance", legalCompliance) ].

(** The singleton instance. *)
Definition policyChecker : Checker :=
  {| complianceChecks :=
       [ "discountCompliance"; "minimumRequirements"; "approvalWorkflow";
         "dealStructure"; "competitivePolicy"; "pilotProgramRules";
         "paymentTerms"; "technicalCompliance"; "legalCompliance" ];
     method := fun checkType caseData =>
       match lookup checkType methods with
       | Some check => check caseData
       | None => Throw "this[checkType] is not a function"
       end |}.

End General.

(* ================================================================== *)
(** ** Vocabulary of the properties *)
(* ================================================================== *)

(** The adjustment of a region: its [additionalDiscount], 0 for a region
    the table does not list. *)
Definition regionalDiscountOf (region : option string) : Q :=
  match JS.lookup (match region with Some r => r | None => "namer" end)
                  ROE.regional with
  | Some a => a
  | None => 0%Q
  end.

(** The discount the router works with: the requested one, 0 when the
    field is absent. *)
Definition requestedDiscount (c : Case.CaseData) : Q :=
  match Case.discountRequested c with Some d => d | None => 0%Q end.

(** The value of the deal: 0 when the field is absent. *)
Definition dealValueOf (c : Case.CaseData) : Q :=
  match Case.dealValue c with Some v => v | None => 0%Q end.

(** The results of the checks of [names] that returned. *)
Definition returned (this : PolicyChecker.Checker) (caseData : Case.CaseData)
           (names : list string) : list PolicyChecker.CheckResult :=
  flat_map (fun name =>
              match PolicyChecker.method this name caseData with
              | PolicyChecker.Return r => [r]
              | PolicyChecker.Throw _ => []
              end) names.

(** The score a check contributes, if any. *)
Definition contribution (r : PolicyChecker.CheckResult) : list Z :=
  match PolicyChecker.score r with Some s => [s] | None => [] end.

(** The warnings one name adds: those of its result, or the warning of
    the handler. *)
Definition warningsFrom (this : PolicyChecker.Checker) (caseData : Case.CaseData)
           (name : string) : list PolicyChecker.Finding :=
  match PolicyChecker.method this name caseData with
  | PolicyChecker.Return r => PolicyChecker.warnings r
  | PolicyChecker.Throw _ => [PolicyChecker.systemWarning name]
  end.

(** The scores contributed by the individual checks, in running order. *)
Definition checkScores (c : Case.CaseData) : list Z :=
  flat_map (fun check => contribution (snd check c)) PolicyChecker.methods.

(** The overall status in the words of the specification. *)
Definition overallOf (violations warnings : list PolicyChecker.Finding) : string :=
  if existsb (fun v => String.eqb (PolicyChecker.severity v) "high") violations
  then "non_compliant"
  else match violations, warnings with
       | [], [] => "compliant"
       | _, _ => "conditional"
       end.

(** A case draft with another requested discount, everything else
    unchanged. *)
Definition withDiscount (d : Q) (c : Case.CaseData) : Case.CaseData :=
  {| Case.title := Case.title c; Case.category := Case.category c;
     Case.priority := Case.priority c; Case.description := Case.description c;
     Case.dealValue := Case.dealValue c; Case.discountRequested := Some d;
     Case.timeframe := Case.timeframe c;
     Case.competitorInfo := Case.competitorInfo c;
     Case.customerInfo := Case.customerInfo c |}.

(** Severities in increasing order; 0 stands for no violation. *)
Definition severityRank (severity : string) : nat :=
  if String.eqb severity "high" then 3
  else if String.eqb severity "medium" then 2
  else if String.eqb severity "low" then 1
  else 0.

Definition maxSeverity (findings : list PolicyChecker.Finding) : nat :=
  fold_right (fun f m => Nat.max (severityRank (PolicyChecker.severity f)) m)
             0%nat findings.

(** The number of keywords of a scenario that occur in the lower-cased
    utterance. *)
Definition keywordCount (utterance : string) (sc : Scenarios.Scenario) : nat :=
  List.length
    (filter (fun kw => JS.includes (JS.toLowerCase utterance) kw)
            (Scenarios.keywords sc)).

(** All characters of [s] satisfy [p]. *)
Fixpoint all (p : ascii -> bool) (s : string) : bool :=
  match s with
  | EmptyString => true
  | String c s' => p c && all p s'
  end.

(** The last character of a text. *)
Fixpoint lastChar (s : string) : option ascii :=
  match s with
  | EmptyString => None
  | String c EmptyString => Some c
  | String _ s' => lastChar s'
  end.

(** The text in front of a numeral does not run into it: it does not end
    with a digit or with a decimal point. *)
Definition standsAlone (pre : string) : bool :=
  match lastChar pre with
  | Some c => negb (JS.isDigit c) && negb (Ascii.eqb c "."%char)
  | None => true
  end.

(** The numerals the percentage pattern captures: digits, or digits, a
    point and digits. *)
Definition decimalNumeral (numeral : string) : Prop :=
  exists ds,
    all JS.isDigit ds = true /\ ds <> "" /\
    (numeral = ds \/
     exists fs, all JS.isDigit fs = true /\ fs <> "" /\
                numeral = (ds ++ String "."%char fs)%string).

(** The text in front of a numeral does not run into it as far as the
    currency pattern is concerned: it does not end with a digit, a comma
    or a decimal point. *)
Definition standsAloneAmount (pre : string) : bool :=
  match lastChar pre with
  | Some c =>
      negb (JS.isDigit c) && negb (Ascii.eqb c ","%char)
      && negb (Ascii.eqb c "."%char)
  | None => true
  end.

(** *** Vocabulary of the further properties *)

(** The approval the deal-size table gives for a deal size. *)
Definition sizeBracket (size : Q) : ROE.Approval :=
  if JS.Qlt_bool size 50000
  then {| ROE.approver := "Sales Manager"; ROE.timeframe := "24 hours" |}
  else if Qle_bool size 250000
  then {| ROE.approver := "Regional Director"; ROE.timeframe := "48 hours" |}
  else if Qle_bool size 500000
  then {| ROE.approver := "VP Sales"; ROE.timeframe := "72 hours" |}
  else {| ROE.approver := "VP Sales + CEO"; ROE.timeframe := "1 week" |}.

(** The points the complexity analysis gives for the deal value. *)
Definition sizePoints (v : Q) : Q :=
  if JS.Qlt_bool 500000 v then 3
  else if JS.Qlt_bool 100000 v then 2
  else if JS.Qlt_bool 25000 v then 1 else 0.

(** The points it gives for the requested discount. *)
Definition discountPoints (d : Q) : Q :=
  if JS.Qlt_bool 30 d then 3
  else if JS.Qlt_bool 20 d then 2
  else if JS.Qlt_bool 10 d then 1 else 0.

(** The draft names a competitor: the field is not blank. *)
Definition competitorNamed (c : Case.CaseData) : bool :=
  match Case.competitorInfo c with
  | Some s => JS.truthyStr s && JS.truthyStr (JS.trim s)
  | None => false
  end.

(** The description asks for multi-year terms. *)
Definition multiYear (c : Case.CaseData) : bool :=
  match Case.description c with
  | Some d => JS.truthyStr d && JS.includes (JS.toLowerCase d) "multi-year"
  | None => false
  end.

(** The level the router reads off a discount-based approver's name. *)
Definition approverLevel (approver : string) : Z :=
  if JS.includes approver "VP" && JS.includes approver "Finance" then 5
  else if JS.includes approver "VP" then 4
  else if JS.includes approver "Director" then 3
  else if JS.includes approver "Manager" then 2
  else 2.


(** A technical case that asks for 35%. *)
Definition technicalCase35 : Case.CaseData :=
  {| Case.title := None; Case.category := Some "technical";
     Case.priority := Some "medium"; Case.description := None;
     Case.dealValue := Some 80000%Q; Case.discountRequested := Some 35%Q;
     Case.timeframe := None; Case.competitorInfo := None;
     Case.customerInfo := None |}.




(** A case draft with another requested discount and another deal
    value, everything else unchanged. *)
Definition withTerms (d v : Q) (c : Case.CaseData) : Case.CaseData :=
  {| Case.title := Case.title c; Case.category := Case.category c;
     Case.priority := Case.priority c; Case.description := Case.description c;
     Case.dealValue := Some v; Case.discountRequested := Some d;
     Case.timeframe := Case.timeframe c;
     Case.competitorInfo := Case.competitorInfo c;
     Case.customerInfo := Case.customerInfo c |}.

(** What every check keeps between its flag, its findings and its score. *)
Definition consistent (r : PolicyChecker.CheckResult) : Prop :=
  (PolicyChecker.compliant r = true <-> PolicyChecker.violations r = []) /\
  Forall (fun v => PolicyChecker.severity v = "high") (PolicyChecker.violations r) /\
  exists s, PolicyChecker.score r = Some s /\
            (10 <= s <= 100)%Z /\
            (PolicyChecker.violations r <> [] -> (s <= 40)%Z) /\
            (PolicyChecker.violations r = [] -> (60 <= s)%Z) /\
            (PolicyChecker.violations r = [] -> PolicyChecker.warnings r = [] ->
             s = 100%Z).

(** A draft that asks for Net 90 payment terms. *)
Definition net90Case : Case.CaseData :=
  {| Case.title := None; Case.category := Some "general";
     Case.priority := Some "low";
     Case.description := Some "Customer asks for Net 90 payment";
     Case.dealValue := Some 20000%Q; Case.discountRequested := None;
     Case.timeframe := None; Case.competitorInfo := None;
     Case.customerInfo := None |}.

(** The competitive signal of the risk assessment. *)
Definition competitiveSignal (c : Case.CaseData) : bool :=
  Case.truthyText (Case.competitorInfo c)
  || match Case.description c with
     | Some d => JS.includes (JS.toLowerCase d) "competitive"
     | None => false
     end.

(** The points a signal adds to the risk score. *)
Definition points (b : bool) (n : Z) : Z := if b then n else 0%Z.

(** A small pricing case that asks for 50%. *)
Definition steepDiscountCase : Case.CaseData :=
  {| Case.title := None; Case.category := Some "pricing";
     Case.priority := Some "low"; Case.description := None;
     Case.dealValue := Some 20000%Q; Case.discountRequested := Some 50%Q;
     Case.timeframe := None; Case.competitorInfo := None;
     Case.customerInfo := None |}.

(** An upsell that asks for 90%. *)
Definition upsellCase : Case.CaseData :=
  {| Case.title := Some "Upsell for an existing customer";
     Case.category := Some "pricing"; Case.priority := Some "low";
     Case.description := None;
     Case.dealValue := Some 20000%Q; Case.discountRequested := Some 90%Q;
     Case.timeframe := None; Case.competitorInfo := None;
     Case.customerInfo := None |}.

(** The singleton with its checks listed in the reverse order. *)
Definition reversedChecker : PolicyChecker.Checker :=
  {| PolicyChecker.complianceChecks :=
       rev (PolicyChecker.complianceChecks PolicyChecker.policyChecker);
     PolicyChecker.method := PolicyChecker.method PolicyChecker.policyChecker |}.

(** No character of [s] is a digit or a comma. *)
Definition noAmountChar (s : string) : bool :=
  all (fun c => negb (MessageProcessor.isDigitOrComma c)) s.

(** No character of [s] is a digit. *)
Definition noDigit (s : string) : bool :=
  all (fun c => negb (JS.isDigit c)) s.

(** The factor a unit suffix stands for. *)
Definition unitFactor (u : ascii) : Q :=
  if Ascii.eqb (JS.lowerChar u) "k"%char then 1000 else 1000000.

(** The draft names a segment in its description or its customer
    information: one of the words the checker looks for. *)
Definition mentionsSegment (c : Case.CaseData) : bool :=
  let description := Case.lowerOrEmpty (Case.description c) in
  let customerInfo := Case.lowerOrEmpty (Case.customerInfo c) in
  existsb (fun word => JS.includes description word || JS.includes customerInfo word)
          ["smb"; "midmarket"; "enterprise"; "global"].

(** A finding of the given type is among the findings. *)
Definition reports (kind : string) (findings : list PolicyChecker.Finding) : Prop :=
  exists f, In f findings /\ PolicyChecker.type f = kind.

(** A deal of 3600. *)
Definition tinyDeal : Case.CaseData :=
  {| Case.title := None; Case.category := Some "pricing";
     Case.priority := Some "low"; Case.description := None;
     Case.dealValue := Some 3600%Q; Case.discountRequested := None;
     Case.timeframe := None; Case.competitorInfo := None;
     Case.customerInfo := None |}.

(** The renewal of an enterprise customer for 45000. *)
Definition enterpriseRenewal : Case.CaseData :=
  {| Case.title := Some "Renewal"; Case.category := Some "pricing";
     Case.priority := Some "low";
     Case.description := Some "Enterprise customer renewal";
     Case.dealValue := Some 45000%Q; Case.discountRequested := None;
     Case.timeframe := None; Case.competitorInfo := None;
     Case.customerInfo := None |}.

(** The discount lies in one of the brackets of the approval table. *)
Definition inBracket (d : Q) : Prop :=
  (0 <= d <= 10 \/ 11 <= d <= 20 \/ 21 <= d <= 30 \/ 31 <= d)%Q.

(** A small deal that asks for 15%. *)
Definition apacDeal : Case.CaseData :=
  {| Case.title := None; Case.category := Some "pricing";
     Case.priority := Some "low"; Case.description := None;
     Case.dealValue := Some 8000%Q; Case.discountRequested := Some 15%Q;
     Case.timeframe := None; Case.competitorInfo := None;
     Case.customerInfo := Some "APAC reseller" |}.

(** One of the words occurs in the message, whatever its case. *)
Definition mentions (wordList : list string) (message : string) : bool :=
  existsb (fun w => JS.includes (JS.toLowerCase message) w) wordList.

(** The values under a key of the entities, none when the key is absent. *)
Definition valuesOf {A : Type} (key : option (list A)) : list A :=
  match key with Some vs => vs | None => [] end.

(** *** Vocabulary of the properties on arguments of any shape *)

(** The deal value and the requested discount of a draft: 0 when the
    field holds no number. *)
Definition draftValue (d : General.Draft.t) : Q :=
  match General.Draft.dealValue d with Some v => v | None => 0%Q end.

Definition draftDiscount (d : General.Draft.t) : Q :=
  match General.Draft.discountRequested d with Some x => x | None => 0%Q end.

(** A field holds a truthy value that is no text: 42, [true], an object. *)
Definition strayValue (field : General.Field) : bool :=
  match field with
  | General.NotText true => true
  | _ => false
  end.

(** A field holds a value that is no text, truthy or not. *)
Definition noText (field : General.Field) : bool :=
  match field with
  | General.NotText _ => true
  | _ => false
  end.

(** The drafts the router cannot route. *)
Definition unroutable (d : General.Draft.t) : bool :=
  strayValue (General.Draft.competitorInfo d)
  || strayValue (General.Draft.description d)
  || General.inherited (General.Draft.category d)
  || strayValue (General.Draft.timeframe d).

(** The draft names a competitor: a text that is not blank. *)
Definition namesCompetitor (d : General.Draft.t) : bool :=
  match General.Draft.competitorInfo d with
  | General.TextOf s => JS.truthyStr s && JS.truthyStr (JS.trim s)
  | _ => false
  end.

(** The description of the draft asks for multi-year terms. *)
Definition asksMultiYear (d : General.Draft.t) : bool :=
  match General.Draft.description d with
  | General.TextOf s => JS.truthyStr s && JS.includes (JS.toLowerCase s) "multi-year"
  | _ => false
  end.

(** The complexity score in the words of the specification: the points
    for deal size, discount and category, times the multiplier of the
    priority, plus 2 for a named competitor and 1 for multi-year terms;
    no number when the category or the priority names an inherited
    property. *)
Definition complexityOf (d : General.Draft.t) : JS.jsnum :=
  if General.inherited (General.Draft.category d)
     || General.inherited (General.Draft.priority d)
  then JS.NaN
  else JS.Num ((sizePoints (draftValue d) + discountPoints (draftDiscount d)
                + JS.lookupOr CaseRouter.categoryComplexity
                              (General.Draft.category d) 1)
               * JS.lookupOr CaseRouter.priorityMultiplier
                             (General.Draft.priority d) 1
               + (if namesCompetitor d then 2 else 0)
               + (if asksMultiYear d then 1 else 0))%Q.

(** Two numbers are the same number. *)
Definition sameNumber (a b : JS.jsnum) : Prop :=
  match a, b with
  | JS.NaN, JS.NaN => True
  | JS.Num x, JS.Num y => (x == y)%Q
  | _, _ => False
  end.

(** [n <= q] holds: [n] is a number, and at most [q]. *)
Definition atMost (n : JS.jsnum) (q : Q) : Prop :=
  match n with
  | JS.Num x => (x <= q)%Q
  | JS.NaN => False
  end.

(** The value is a number in one of the brackets of the discount table. *)
Definition inSomeBracket (v : General.value) : Prop :=
  exists d, General.toNumber v = JS.Num d /\ inBracket d.

(** The router reports the draft auto-approvable. *)
Definition reportsAutoApprovable (d : General.Draft.t) : Prop :=
  exists routing analysis,
    General.routeCase d = General.Routed routing analysis /\
    CaseRouter.Summary.autoApprovable analysis = true.

(** [discountRequested=5, dealValue=20000, category="pricing",
    priority="low"], as the form sends it. *)
Definition smallPricingDraft : General.Draft.t :=
  General.ofCase Examples.smallPricingCase.

(** A draft whose description is the number 42. *)
Definition numberAsDescription : General.Draft.t :=
  {| General.Draft.title := General.TextOf "Question";
     General.Draft.category := Some "general";
     General.Draft.priority := Some "low";
     General.Draft.description := General.NotText true;
     General.Draft.dealValue := Some 20000%Q;
     General.Draft.discountRequested := None;
     General.Draft.timeframe := General.Missing;
     General.Draft.competitorInfo := General.Missing;
     General.Draft.customerInfo := General.Missing |}.

(** The same draft with a competitor named. *)
Definition numberAsDescriptionWithCompetitor : General.Draft.t :=
  {| General.Draft.title := General.TextOf "Question";
     General.Draft.category := Some "general";
     General.Draft.priority := Some "low";
     General.Draft.description := General.NotText true;
     General.Draft.dealValue := Some 20000%Q;
     General.Draft.discountRequested := None;
     General.Draft.timeframe := General.Missing;
     General.Draft.competitorInfo := General.TextOf "Acme";
     General.Draft.customerInfo := General.Missing |}.

(** A technical draft that asks for 35%. *)
Definition technicalDraft35 : General.Draft.t := General.ofCase technicalCase35.

(** A pricing draft of 600000 filed under the priority "constructor". *)
Definition constructorPriority : General.Draft.t :=
  {| General.Draft.title := General.Missing;
     General.Draft.category := Some "pricing";
     General.Draft.priority := Some "constructor";
     General.Draft.description := General.Missing;
     General.Draft.dealValue := Some 600000%Q;
     General.Draft.discountRequested := None;
     General.Draft.timeframe := General.Missing;
     General.Draft.competitorInfo := General.Missing;
     General.Draft.customerInfo := General.Missing |}.

(** The results of the checks of [names] that returned. *)
Definition returnedOn (this : General.Checker) (caseData : General.Draft.t)
           (names : list string) : list PolicyChecker.CheckResult :=
  flat_map (fun name =>
              match General.method this name caseData with
              | PolicyChecker.Return r => [r]
              | PolicyChecker.Throw _ => []
              end) names.

(** The warnings one name adds: those of its result, or the warning of
    the handler. *)
Definition warningsOn (this : General.Checker) (caseData : General.Draft.t)
           (name : string) : list PolicyChecker.Finding :=
  match General.method this name caseData with
  | PolicyChecker.Return r => PolicyChecker.warnings r
  | PolicyChecker.Throw _ => [PolicyChecker.systemWarning name]
  end.

(** The step after the loop that can throw does: the draft names no
    competitor and its description is no text. *)
Definition riskUnassessable (d : General.Draft.t) : bool :=
  negb (General.truthy (General.Draft.competitorInfo d))
  && noText (General.Draft.description d).

(** The complexity and the risk level of a score. *)
Definition tierOf (score : JS.jsnum) : string * string :=
  if JS.ge score (JS.Num 8) then ("very_complex", "high")
  else if JS.ge score (JS.Num 5) then ("complex", "medium")
  else if JS.ge score (JS.Num 3) then ("moderate", "medium")
  else ("simple", "low").

(** The score as the analysis computes it, step by step. *)
Definition runningScore (d : General.Draft.t) : JS.jsnum :=
  let v := JS.orZero (JS.parseFloatField (General.Draft.dealValue d)) in
  let p := JS.orZero (JS.parseFloatField (General.Draft.discountRequested d)) in
  let s :=
    (if JS.Qlt_bool 500000 v then 0 + 3
     else if JS.Qlt_bool 100000 v then 0 + 2
     else if JS.Qlt_bool 25000 v then 0 + 1 else 0)%Q in
  let s :=
    (if JS.Qlt_bool 30 p then s + 3
     else if JS.Qlt_bool 20 p then s + 2
     else if JS.Qlt_bool 10 p then s + 1 else s)%Q in
  let s :=
    General.times
      (General.add (General.Counted (JS.Num s))
         (General.lookupOr CaseRouter.categoryComplexity
                           (General.Draft.category d) 1))
      (General.lookupOr CaseRouter.priorityMultiplier
                        (General.Draft.priority d) 1) in
  let s := if namesCompetitor d then General.plus s 2 else s in
  if asksMultiYear d then General.plus s 1 else s.

(** The analysis of [CaseRouter], read as an analysis on any draft. *)
Definition analysisOf (a : CaseRouter.Analysis) : General.Analysis :=
  {| General.complexity := CaseRouter.complexity a;
     General.complexityScore := JS.Num (CaseRouter.complexityScore a);
     General.riskLevel := CaseRouter.riskLevel a;
     General.factors := CaseRouter.factors a;
     General.autoApprovable := CaseRouter.autoApprovable a;
     General.precedentAvailable := CaseRouter.precedentAvailable a |}.

(** A case whose category and priority name no inherited property. *)
Definition ordinaryNames (c : Case.CaseData) : bool :=
  negb (General.inherited (Case.category c))
  && negb (General.inherited (Case.priority c)).

(* ================================================================== *)
(** ** Properties *)
(* ================================================================== *)

(** *** Comparisons on rationals *)

Lemma Qlt_bool_iff (x y : Q) : JS.Qlt_bool x y = true <-> (x < y)%Q.
Proof.
  unfold JS.Qlt_bool. rewrite negb_true_iff.
  split; intro H.
  - apply Qnot_le_lt. intro L. apply Qle_bool_iff in L. congruence.
  - destruct (Qle_bool y x) eqn:E; [| reflexivity].
    apply Qle_bool_iff in E. apply Qle_not_lt in E. contradiction.
Qed.

Lemma Qlt_bool_false_iff (x y : Q) : JS.Qlt_bool x y = false <-> (y <= x)%Q.
Proof.
  unfold JS.Qlt_bool. rewrite negb_false_iff. apply Qle_bool_iff.
Qed.

Lemma Qle_bool_false_iff (x y : Q) : Qle_bool x y = false <-> (y < x)%Q.
Proof.
  split; intro H.
  - apply Qnot_le_lt. intro L. apply Qle_bool_iff in L. congruence.
  - destruct (Qle_bool x y) eqn:E; [| reflexivity].
    apply Qle_bool_iff in E. apply Qle_not_lt in E. contradiction.
Qed.

(** Turn every boolean comparison in the context into its proposition. *)
Ltac reflectQ :=
  repeat match goal with
    | H : JS.Qlt_bool _ _ = true |- _ => apply Qlt_bool_iff in H
    | H : JS.Qlt_bool _ _ = false |- _ => apply Qlt_bool_false_iff in H
    | H : Qle_bool _ _ = true |- _ => apply Qle_bool_iff in H
    | H : Qle_bool _ _ = false |- _ => apply Qle_bool_false_iff in H
    | H : Qeq_bool _ _ = true |- _ => apply Qeq_bool_iff in H
    | H : Qeq_bool _ _ = false |- _ => apply Qeq_bool_neq in H
    end.

Lemma orZero_Num (q : Q) : (JS.orZero (JS.Num q) == q)%Q.
Proof.
  unfold JS.orZero. destruct (Qeq_bool q 0) eqn:E; [| reflexivity].
  apply Qeq_bool_iff in E. symmetry. exact E.
Qed.

(** *** Tables *)

Lemma lookup_In {A : Type} (key : string) (obj : list (string * A)) (v : A) :
  JS.lookup key obj = Some v -> In (key, v) obj.
Proof.
  induction obj as [| [k w] rest IH]; simpl; [discriminate |].
  destruct (String.eqb_spec key k) as [-> | _].
  - intro H. injection H as ->. now left.
  - intro H. right. now apply IH.
Qed.

(** Every stored discount entry, with its keys. *)
Lemma standard_entries (dealType segment : string) (sd : ROE.DiscountEntry) :
  (exists bySegment,
      JS.lookup dealType ROE.standard = Some bySegment /\
      JS.lookup segment bySegment = Some sd) ->
  In (dealType, segment, sd)
     [ ("newBusiness", "enterprise", ROE.entry 20 15 10);
       ("newBusiness", "midmarket", ROE.entry 15 10 7);
       ("newBusiness", "smb", ROE.entry 10 5 5);
       ("newBusiness", "largeEnterprise", ROE.entry 25 20 15);
       ("newBusiness", "globalAccounts", ROE.entry 30 25 20);
       ("renewal", "enterprise", ROE.entry 15 10 8);
       ("renewal", "midmarket", ROE.entry 12 8 5);
       ("renewal", "smb", ROE.entry 8 3 3);
       ("renewal", "largeEnterprise", ROE.entry 20 15 12);
       ("renewal", "globalAccounts", ROE.entry 25 20 15);
       ("addon", "all", ROE.entry 5 0 5) ].
Proof.
  intros (bySegment & Hd & Hs).
  apply lookup_In in Hd. simpl in Hd.
  repeat (destruct Hd as [Hd | Hd]; [injection Hd as <- <- |]);
    try contradiction;
    apply lookup_In in Hs; simpl in Hs;
    repeat (destruct Hs as [Hs | Hs]; [injection Hs as <- <- |]);
    try contradiction; simpl; tauto.
Qed.

Lemma getDiscountPolicy_Some (dealType segment : string) (region : option string)
      (p : ROE.DiscountPolicy) :
  ROE.getDiscountPolicy dealType segment region = Some p ->
  (exists bySegment,
      JS.lookup dealType ROE.standard = Some bySegment /\
      JS.lookup segment bySegment = Some (ROE.standardDiscount p)) /\
  ROE.effectiveMax p
  = (ROE.max (ROE.standardDiscount p) + ROE.regionalAdjustment p)%Q.
Proof.
  unfold ROE.getDiscountPolicy.
  destruct (JS.lookup dealType ROE.standard) as [bySegment |] eqn:Hd;
    [| discriminate].
  destruct (JS.lookup segment bySegment) as [sd |] eqn:Hs; [| discriminate].
  intro H. injection H as <-. simpl. split; [| reflexivity].
  exists bySegment. split; [reflexivity | exact Hs].
Qed.

Lemma regionalAdjustment_spec (dealType segment : string) (region : option string)
      (p : ROE.DiscountPolicy) :
  ROE.getDiscountPolicy dealType segment region = Some p ->
  (ROE.regionalAdjustment p == regionalDiscountOf region)%Q.
Proof.
  unfold ROE.getDiscountPolicy, regionalDiscountOf. cbv zeta.
  set (o := JS.lookup (match region with Some r => r | None => "namer" end)
                      ROE.regional).
  clearbody o.
  destruct (JS.lookup dealType ROE.standard) as [bySegment |]; [| discriminate].
  destruct (JS.lookup segment bySegment) as [sd |]; [| discriminate].
  intro H. injection H as <-. cbn [ROE.regionalAdjustment].
  destruct o as [a |]; [apply orZero_Num | reflexivity].
Qed.

(** C1, as stated, fails on the add-on entry: [getDiscountPolicy('addon',
    'all')] is a stored entry whose auto-approved limit 5 is above its
    typical discount 0. *)
Lemma discount_policy_order_counterexample :
  exists p,
    ROE.getDiscountPolicy "addon" "all" (Some "namer") = Some p /\
    ~ (ROE.autoApproved (ROE.standardDiscount p)
       <= ROE.typical (ROE.standardDiscount p))%Q.
Proof.
  eexists. split; [reflexivity |].
  simpl. intro H. apply Qle_bool_iff in H. discriminate H.
Qed.

(** C1 (amended): for every (dealType, segment, region) whose entry is
    stored, the typical discount and the auto-approved limit are both at
    most the maximum discount; the auto-approved limit is at most the
    typical discount for every entry other than the add-on one; and
    [effectiveMax] is the maximum discount plus [regionalAdjustment],
    which is the region's additional discount. *)
Theorem discount_policy_invariant
        (dealType segment : string) (region : option string)
        (p : ROE.DiscountPolicy) :
  ROE.getDiscountPolicy dealType segment region = Some p ->
  let sd := ROE.standardDiscount p in
  (ROE.typical sd <= ROE.max sd)%Q /\
  (ROE.autoApproved sd <= ROE.max sd)%Q /\
  (dealType <> "addon" -> (ROE.autoApproved sd <= ROE.typical sd)%Q) /\
  ROE.effectiveMax p = (ROE.max sd + ROE.regionalAdjustment p)%Q /\
  (ROE.regionalAdjustment p == regionalDiscountOf region)%Q.
Proof.
  intros H sd.
  pose proof (regionalAdjustment_spec _ _ _ _ H) as Hr.
  apply getDiscountPolicy_Some in H. destruct H as [Hin He].
  apply standard_entries in Hin. fold sd in Hin. simpl in Hin.
  repeat split; try assumption;
    repeat (destruct Hin as [Hin | Hin];
            [injection Hin as <- <- <-; try (intros; unfold Qle; simpl; lia);
             try (intro Hne; now elim Hne) |]);
    try contradiction.
Qed.

Lemma discount_policy_invariant_witness :
  exists p,
    ROE.getDiscountPolicy "renewal" "smb" (Some "apac") = Some p /\
    (ROE.autoApproved (ROE.standardDiscount p)
     <= ROE.typical (ROE.standardDiscount p))%Q /\
    (ROE.effectiveMax p == 15)%Q.
Proof.
  eexists. split; [reflexivity |].
  pose proof (discount_policy_invariant "renewal" "smb" (Some "apac") _ eq_refl)
    as (_ & _ & Hat & He & _).
  split.
  - apply Hat. discriminate.
  - rewrite He. reflexivity.
Defined.

(** *** Approval brackets *)

(** What the keys of the discount table parse to. *)
Lemma inDiscountRange_brackets (d : Q) :
  ROE.inDiscountRange d "0-10%" = Qle_bool 0 d && Qle_bool d 10 /\
  ROE.inDiscountRange d "11-20%" = Qle_bool 11 d && Qle_bool d 20 /\
  ROE.inDiscountRange d "21-30%" = Qle_bool 21 d && Qle_bool d 30 /\
  ROE.inDiscountRange d "31%+" = Qle_bool 31 d.
Proof. repeat split. Qed.

Lemma discountApproval_brackets (d size : Q) :
  ROE.discountApproval (ROE.getApprovalRequirement d size)
  = if Qle_bool 0 d && Qle_bool d 10
    then Some {| ROE.approver := "Auto-approved"; ROE.timeframe := "Immediate" |}
    else if Qle_bool 11 d && Qle_bool d 20
    then Some {| ROE.approver := "Sales Manager"; ROE.timeframe := "24 hours" |}
    else if Qle_bool 21 d && Qle_bool d 30
    then Some {| ROE.approver := "Regional Director"; ROE.timeframe := "48 hours" |}
    else if Qle_bool 31 d
    then Some {| ROE.approver := "VP Sales + Finance"; ROE.timeframe := "72 hours" |}
    else None.
Proof.
  unfold ROE.getApprovalRequirement. cbn [ROE.discountApproval].
  unfold ROE.discountApprovalTable. cbn [find fst].
  destruct (inDiscountRange_brackets d) as (-> & -> & -> & ->).
  repeat match goal with
         | |- context [if ?b then _ else _] => destruct b
         end; reflexivity.
Qed.

(** C9: a discount strictly inside one of the gaps between the integer
    brackets (10 to 11, 20 to 21, 30 to 31) resolves to no discount-based
    approval, whatever the deal size. *)
Theorem fractional_discount_has_no_bracket (discountPercent dealSize : Q) :
  (10 < discountPercent < 11 \/ 20 < discountPercent < 21 \/
   30 < discountPercent < 31)%Q ->
  ROE.discountApproval (ROE.getApprovalRequirement discountPercent dealSize) = None.
Proof.
  intro Hgap. rewrite discountApproval_brackets.
  assert (H31 : Qle_bool 31 discountPercent = false)
    by (apply Qle_bool_false_iff; lra).
  rewrite H31.
  destruct Hgap as [[Hl Hu] | [[Hl Hu] | [Hl Hu]]].
  - assert (H10 : Qle_bool discountPercent 10 = false)
      by (apply Qle_bool_false_iff; lra).
    assert (H11 : Qle_bool 11 discountPercent = false)
      by (apply Qle_bool_false_iff; lra).
    assert (H21 : Qle_bool 21 discountPercent = false)
      by (apply Qle_bool_false_iff; lra).
    now rewrite H10, H11, H21, andb_false_r.
  - assert (H10 : Qle_bool discountPercent 10 = false)
      by (apply Qle_bool_false_iff; lra).
    assert (H20 : Qle_bool discountPercent 20 = false)
      by (apply Qle_bool_false_iff; lra).
    assert (H21 : Qle_bool 21 discountPercent = false)
      by (apply Qle_bool_false_iff; lra).
    now rewrite H10, H20, H21, !andb_false_r.
  - assert (H10 : Qle_bool discountPercent 10 = false)
      by (apply Qle_bool_false_iff; lra).
    assert (H20 : Qle_bool discountPercent 20 = false)
      by (apply Qle_bool_false_iff; lra).
    assert (H30 : Qle_bool discountPercent 30 = false)
      by (apply Qle_bool_false_iff; lra).
    now rewrite H10, H20, H30, !andb_false_r.
Qed.

Lemma fractional_discount_has_no_bracket_witness :
  (10 < 21 # 2 < 11)%Q /\
  ROE.discountApproval (ROE.getApprovalRequirement (21 # 2) 60000) = None.
Proof.
  assert (H : (10 < 21 # 2 < 11)%Q) by (split; reflexivity).
  split; [exact H |].
  apply (fractional_discount_has_no_bracket (21 # 2) 60000). left. exact H.
Defined.

(** *** Routing *)

Lemma discountPercent_requested (c : Case.CaseData) :
  (JS.orZero (JS.parseFloatField (Case.discountRequested c)) == requestedDiscount c)%Q.
Proof.
  unfold requestedDiscount. destruct (Case.discountRequested c) as [d |]; simpl.
  - apply orZero_Num.
  - reflexivity.
Qed.

Lemma autoApprovable_spec (c : Case.CaseData) :
  CaseRouter.autoApprovable (CaseRouter.analyzeCaseComplexity c)
  = Qle_bool (CaseRouter.complexityScore (CaseRouter.analyzeCaseComplexity c)) 2
    && Qle_bool (JS.orZero (JS.parseFloatField (Case.discountRequested c))) 10.
Proof.
  unfold CaseRouter.analyzeCaseComplexity.
  repeat match goal with
         | |- context [let '(_, _) := (if ?b then _ else _) in _] => destruct b
         end; reflexivity.
Qed.

Lemma dealValue_of (c : Case.CaseData) :
  (JS.orZero (JS.parseFloatField (Case.dealValue c)) == dealValueOf c)%Q.
Proof.
  unfold dealValueOf. destruct (Case.dealValue c) as [v |]; simpl.
  - apply orZero_Num.
  - reflexivity.
Qed.

(** The guard in front of the secondary approver, read off the returned
    level. *)
Lemma secondaryApprover_guard (c : Case.CaseData) (a : CaseRouter.Analysis) :
  let r := CaseRouter.determineApprovalLevel c a in
  CaseRouter.secondaryApprover r
  = if String.eqb (CaseRouter.riskLevel a) "high" || (4 <=? CaseRouter.level r)%Z
    then
      if Case.same (Case.category c) "legal" then Some "General Counsel"
      else if JS.Qlt_bool 500000 (JS.orZero (JS.parseFloatField (Case.dealValue c)))
      then Some "CEO"
      else if JS.includes (CaseRouter.primaryApprover r) "Finance" then Some "CFO"
      else None
    else None.
Proof.
  unfold CaseRouter.determineApprovalLevel.
  repeat match goal with
         | |- context [let '(_, _) := (if ?b then _ else _) in _] => destruct b
         | |- context [let '(_, _) := (match ?o with Some _ => _ | None => _ end) in _] =>
             destruct o
         end; reflexivity.
Qed.

(** C4, as stated, fails: a legal case of 600000 with a 5% discount and
    low priority resolves to the "Auto-approved" discount bracket, keeps
    level 2 and medium risk, and gets no secondary approver. *)
Lemma high_value_secondary_counterexample :
  let r := CaseRouter.routeCase Examples.largeLegalCase in
  Case.dealValue Examples.largeLegalCase = Some 600000%Q /\
  (500000 < 600000)%Q /\
  Case.category Examples.largeLegalCase = Some "legal" /\
  CaseRouter.Routing.approvalLevel (CaseRouter.routing r) = 2%Z /\
  CaseRouter.Summary.riskLevel (CaseRouter.analysis r) = "medium" /\
  CaseRouter.Routing.secondaryApprover (CaseRouter.routing r) = None.
Proof. repeat split. Qed.

(** C4 (amended): for a case with deal value above 500000, the secondary
    approver is present exactly when the risk level is high or the
    approval level is at least 4; it is then "General Counsel" for a legal
    case and "CEO" otherwise. *)
Theorem high_value_secondary_approver (c : Case.CaseData) :
  (500000 < dealValueOf c)%Q ->
  let r := CaseRouter.routeCase c in
  let guard :=
    CaseRouter.Summary.riskLevel (CaseRouter.analysis r) = "high" \/
    (4 <= CaseRouter.Routing.approvalLevel (CaseRouter.routing r))%Z in
  (guard ->
   CaseRouter.Routing.secondaryApprover (CaseRouter.routing r)
   = Some (if Case.same (Case.category c) "legal" then "General Counsel" else "CEO"))
  /\
  (~ guard -> CaseRouter.Routing.secondaryApprover (CaseRouter.routing r) = None).
Proof.
  intros Hv r guard. subst guard r. unfold CaseRouter.routeCase.
  cbn [CaseRouter.routing CaseRouter.analysis CaseRouter.Routing.secondaryApprover
       CaseRouter.Routing.approvalLevel CaseRouter.Summary.riskLevel].
  pose proof (secondaryApprover_guard c (CaseRouter.analyzeCaseComplexity c)) as G.
  cbv zeta in G. rewrite G. clear G.
  assert (Hb : JS.Qlt_bool 500000
                 (JS.orZero (JS.parseFloatField (Case.dealValue c))) = true).
  { apply Qlt_bool_iff. rewrite dealValue_of. exact Hv. }
  rewrite Hb.
  set (a := CaseRouter.analyzeCaseComplexity c).
  set (lv := CaseRouter.level (CaseRouter.determineApprovalLevel c a)).
  destruct (String.eqb_spec (CaseRouter.riskLevel a) "high") as [Hr | Hr];
    destruct (Z.leb_spec 4 lv) as [Hl | Hl]; cbn [orb].
  all: split; intro Hg.
  all: try (destruct (Case.same (Case.category c) "legal"); reflexivity).
  all: try (exfalso; apply Hg; tauto).
  destruct Hg as [Hg | Hg]; [contradiction | lia].
Qed.

Lemma high_value_secondary_approver_witness :
  (500000 < dealValueOf Examples.largePricingCase)%Q /\
  CaseRouter.Routing.secondaryApprover
    (CaseRouter.routing (CaseRouter.routeCase Examples.largePricingCase))
  = Some "CEO".
Proof.
  assert (Hv : (500000 < dealValueOf Examples.largePricingCase)%Q) by reflexivity.
  split; [exact Hv |].
  apply (proj1 (high_value_secondary_approver Examples.largePricingCase Hv)).
  right. vm_compute. discriminate.
Defined.

(** *** The aggregation loop of the checker *)

Section Aggregation.
Import PolicyChecker.
Variable this : Checker.
Variable caseData : Case.CaseData.

Lemma fold_right_min_acc (l : list Z) (a s : Z) :
  fold_right Z.min (Z.min a s) l = Z.min s (fold_right Z.min a l).
Proof. induction l as [| x l IH]; simpl; [lia | rewrite IH; lia]. Qed.

Lemma returned_cons (n : string) (names : list string) :
  returned this caseData (n :: names)
  = match method this n caseData with
    | Return r => r :: returned this caseData names
    | Throw _ => returned this caseData names
    end.
Proof.
  unfold returned. cbn [flat_map].
  destruct (method this n caseData); reflexivity.
Qed.

Lemma loop_score (names : list string) (res : Compliance.Results) :
  Compliance.score (fold_left (runCheck this caseData) names res)
  = fold_right Z.min (Compliance.score res)
               (flat_map contribution (returned this caseData names)).
Proof.
  revert res. induction names as [| n names IH]; intro res; [reflexivity |].
  cbn [fold_left]. rewrite IH, returned_cons. unfold runCheck.
  destruct (method this n caseData) as [r | e]; cbn [Compliance.score flat_map];
    [| reflexivity].
  unfold contribution at 2.
  destruct (score r) as [s |]; cbn [app fold_right]; [| reflexivity].
  apply fold_right_min_acc.
Qed.

Lemma loop_violations (names : list string) (res : Compliance.Results) :
  Compliance.violations (fold_left (runCheck this caseData) names res)
  = Compliance.violations res ++ flat_map violations (returned this caseData names).
Proof.
  revert res. induction names as [| n names IH]; intro res.
  - simpl. now rewrite app_nil_r.
  - cbn [fold_left]. rewrite IH, returned_cons. unfold runCheck.
    destruct (method this n caseData) as [r | e];
      cbn [Compliance.violations flat_map]; [| reflexivity].
    now rewrite app_assoc.
Qed.

Lemma loop_warnings (names : list string) (res : Compliance.Results) :
  Compliance.warnings (fold_left (runCheck this caseData) names res)
  = Compliance.warnings res ++ flat_map (warningsFrom this caseData) names.
Proof.
  revert res. induction names as [| n names IH]; intro res.
  - simpl. now rewrite app_nil_r.
  - cbn [fold_left flat_map]. rewrite IH. unfold runCheck, warningsFrom at 2.
    destruct (method this n caseData) as [r | e];
      cbn [Compliance.warnings]; now rewrite app_assoc.
Qed.

Lemma loop_recommendations (names : list string) (res : Compliance.Results) :
  Compliance.recommendations (fold_left (runCheck this caseData) names res)
  = Compliance.recommendations res ++ flat_map recommendations (returned this caseData names).
Proof.
  revert res. induction names as [| n names IH]; intro res.
  - simpl. now rewrite app_nil_r.
  - cbn [fold_left]. rewrite IH, returned_cons. unfold runCheck.
    destruct (method this n caseData) as [r | e];
      cbn [Compliance.recommendations flat_map]; [| reflexivity].
    now rewrite app_assoc.
Qed.

Lemma lookup_assign_same {A : Type} (k : string) (v : A) (obj : list (string * A)) :
  JS.lookup k (JS.assign k v obj) = Some v.
Proof.
  induction obj as [| [k' w] rest IH]; simpl.
  - now rewrite String.eqb_refl.
  - destruct (String.eqb k k') eqn:E; simpl; rewrite E; [reflexivity | exact IH].
Qed.

Lemma lookup_assign_other {A : Type} (k k' : string) (v : A)
      (obj : list (string * A)) :
  k <> k' -> JS.lookup k (JS.assign k' v obj) = JS.lookup k obj.
Proof.
  intro Hne. induction obj as [| [k0 w] rest IH]; simpl.
  - apply String.eqb_neq in Hne. now rewrite Hne.
  - destruct (String.eqb k' k0) eqn:E; simpl.
    + apply String.eqb_eq in E. subst k0.
      apply String.eqb_neq in Hne. now rewrite Hne.
    + destruct (String.eqb k k0); [reflexivity | exact IH].
Qed.

(** The fields of the answer, read off the loop. *)
Lemma checkCompliance_score :
  Compliance.score (compliance (checkCompliance this caseData))
  = fold_right Z.min 100%Z
      (flat_map contribution (returned this caseData (complianceChecks this))).
Proof. unfold checkCompliance. apply loop_score. Qed.

Lemma checkCompliance_violations :
  Compliance.violations (compliance (checkCompliance this caseData))
  = flat_map violations (returned this caseData (complianceChecks this)).
Proof. unfold checkCompliance. apply loop_violations. Qed.

Lemma checkCompliance_warnings :
  Compliance.warnings (compliance (checkCompliance this caseData))
  = flat_map (warningsFrom this caseData) (complianceChecks this).
Proof. unfold checkCompliance. apply loop_warnings. Qed.

Lemma checkCompliance_recommendations :
  Compliance.recommendations (compliance (checkCompliance this caseData))
  = flat_map recommendations (returned this caseData (complianceChecks this)).
Proof. unfold checkCompliance. apply loop_recommendations. Qed.

Lemma checkCompliance_overall :
  Compliance.overallCompliance (compliance (checkCompliance this caseData))
  = determineOverallCompliance
      (fold_left (runCheck this caseData) (complianceChecks this) initialResults).
Proof. reflexivity. Qed.

End Aggregation.

(** The nine checks of the singleton all return. *)
Lemma policyChecker_returned (c : Case.CaseData) :
  returned PolicyChecker.policyChecker c
           (PolicyChecker.complianceChecks PolicyChecker.policyChecker)
  = map (fun check => snd check c) PolicyChecker.methods.
Proof. reflexivity. Qed.

Lemma policyChecker_warnings (c : Case.CaseData) :
  flat_map (warningsFrom PolicyChecker.policyChecker c)
           (PolicyChecker.complianceChecks PolicyChecker.policyChecker)
  = flat_map (fun check => PolicyChecker.warnings (snd check c))
             PolicyChecker.methods.
Proof. reflexivity. Qed.

(** *** Score and overall status of the checker *)

Lemma compliance_score (c : Case.CaseData) :
  PolicyChecker.Compliance.score
    (PolicyChecker.compliance
       (PolicyChecker.checkCompliance PolicyChecker.policyChecker c))
  = fold_right Z.min 100%Z (checkScores c).
Proof.
  rewrite checkCompliance_score, policyChecker_returned. unfold checkScores.
  rewrite flat_map_concat_map, map_map, <- flat_map_concat_map. reflexivity.
Qed.

Lemma compliance_violations (c : Case.CaseData) :
  PolicyChecker.Compliance.violations
    (PolicyChecker.compliance
       (PolicyChecker.checkCompliance PolicyChecker.policyChecker c))
  = flat_map (fun check => PolicyChecker.violations (snd check c))
             PolicyChecker.methods.
Proof.
  rewrite checkCompliance_violations, policyChecker_returned.
  rewrite flat_map_concat_map, map_map, <- flat_map_concat_map. reflexivity.
Qed.

Lemma compliance_warnings (c : Case.CaseData) :
  PolicyChecker.Compliance.warnings
    (PolicyChecker.compliance
       (PolicyChecker.checkCompliance PolicyChecker.policyChecker c))
  = flat_map (fun check => PolicyChecker.warnings (snd check c))
             PolicyChecker.methods.
Proof.
  rewrite checkCompliance_warnings, policyChecker_warnings. reflexivity.
Qed.

Lemma existsb_filter_length {A : Type} (p : A -> bool) (l : list A) :
  (0 <? List.length (filter p l))%nat = existsb p l.
Proof.
  induction l as [| x l IH]; [reflexivity |].
  simpl. destruct (p x); simpl; [reflexivity | exact IH].
Qed.

Lemma determineOverallCompliance_spec (res : PolicyChecker.Compliance.Results) :
  PolicyChecker.determineOverallCompliance res
  = overallOf (PolicyChecker.Compliance.violations res)
              (PolicyChecker.Compliance.warnings res).
Proof.
  unfold PolicyChecker.determineOverallCompliance, overallOf.
  rewrite existsb_filter_length.
  destruct (PolicyChecker.Compliance.violations res) as [| v vs].
  - destruct (PolicyChecker.Compliance.warnings res); reflexivity.
  - cbn [List.length Nat.ltb Nat.leb].
    destruct (existsb _ (v :: vs)); reflexivity.
Qed.

(** Destruct every condition a check branches on. *)
Ltac branches :=
  repeat match goal with
    | |- context [if ?b then _ else _] => destruct b eqn:?
    | |- context [match ?o with Some _ => _ | None => _ end] => destruct o eqn:?
    end.

Lemma every_check_scores (c : Case.CaseData) :
  Forall (fun check => exists s, contribution (snd check c) = [s])
         PolicyChecker.methods.
Proof.
  assert (H : forall r s, PolicyChecker.score r = Some s -> contribution r = [s])
    by (intros r s Hs; unfold contribution; now rewrite Hs).
  unfold PolicyChecker.methods.
  repeat (apply Forall_cons;
          [cbn [snd];
           match goal with
           | |- exists s, contribution ?r = [s] =>
               cut (exists s, PolicyChecker.score r = Some s);
               [intros [s Hs]; exists s; now apply H | clear H]
           end |]); [.. | apply Forall_nil].
  - unfold PolicyChecker.discountCompliance. branches; eexists; reflexivity.
  - unfold PolicyChecker.minimumRequirements. branches; eexists; reflexivity.
  - unfold PolicyChecker.approvalWorkflow. branches; eexists; reflexivity.
  - unfold PolicyChecker.dealStructure. branches; eexists; reflexivity.
  - unfold PolicyChecker.competitivePolicy. branches; eexists; reflexivity.
  - unfold PolicyChecker.pilotProgramRules. branches; eexists; reflexivity.
  - unfold PolicyChecker.paymentTerms. branches; eexists; reflexivity.
  - unfold PolicyChecker.technicalCompliance. branches; eexists; reflexivity.
  - unfold PolicyChecker.legalCompliance. branches; eexists; reflexivity.
Qed.

Lemma flat_map_singletons {A B : Type} (f : A -> list B) (l : list A) :
  Forall (fun x => exists y, f x = [y]) l ->
  List.length (flat_map f l) = List.length l.
Proof.
  induction 1 as [| x l [y Hy] _ IH]; [reflexivity |].
  cbn [flat_map]. rewrite Hy. simpl. now rewrite IH.
Qed.

Lemma fold_right_min_spec (l : list Z) (a : Z) :
  let m := fold_right Z.min a l in
  (m <= a)%Z /\ (forall s, In s l -> (m <= s)%Z) /\ (m = a \/ In m l).
Proof.
  induction l as [| x l (Ha & Hall & Hin)]; simpl.
  - split; [lia |]. split; [intros s [] | now left].
  - split; [lia |]. split.
    + intros s [<- | Hs]; [lia |]. specialize (Hall s Hs). lia.
    + destruct (Z.min_spec x (fold_right Z.min a l)) as [[_ ->] | [_ ->]].
      * right. now left.
      * destruct Hin as [-> | Hin]; [now left | right; now right].
Qed.

(** C2: the nine checks each contribute a score; the overall score is the
    least of 100 and those scores (it is below 100 and below each of
    them, and it is 100 or one of them); and the overall status is
    "non_compliant" when an aggregated violation has severity "high",
    else "conditional" when there is a violation or a warning, else
    "compliant". *)
Theorem overall_score_and_status (c : Case.CaseData) :
  let result :=
    PolicyChecker.compliance
      (PolicyChecker.checkCompliance PolicyChecker.policyChecker c) in
  let overall := PolicyChecker.Compliance.score result in
  List.length (checkScores c) = 9%nat /\
  overall = fold_right Z.min 100%Z (checkScores c) /\
  (overall <= 100)%Z /\
  (forall s, In s (checkScores c) -> (overall <= s)%Z) /\
  (overall = 100%Z \/ In overall (checkScores c)) /\
  PolicyChecker.Compliance.violations result
  = flat_map (fun check => PolicyChecker.violations (snd check c))
             PolicyChecker.methods /\
  PolicyChecker.Compliance.warnings result
  = flat_map (fun check => PolicyChecker.warnings (snd check c))
             PolicyChecker.methods /\
  PolicyChecker.Compliance.overallCompliance result
  = overallOf (PolicyChecker.Compliance.violations result)
              (PolicyChecker.Compliance.warnings result).
Proof.
  intros result overall. subst overall result.
  rewrite compliance_score, compliance_violations, compliance_warnings.
  pose proof (fold_right_min_spec (checkScores c) 100) as (H1 & H2 & H3).
  repeat split; try assumption.
  - unfold checkScores.
    rewrite (flat_map_singletons _ _ (every_check_scores c)). reflexivity.
  - rewrite checkCompliance_overall, determineOverallCompliance_spec.
    rewrite loop_violations, loop_warnings, policyChecker_returned,
      policyChecker_warnings.
    rewrite flat_map_concat_map, map_map, <- flat_map_concat_map. reflexivity.
Qed.

(** *** Raising the requested discount *)

Lemma maxSeverity_app (xs ys : list PolicyChecker.Finding) :
  maxSeverity (xs ++ ys) = Nat.max (maxSeverity xs) (maxSeverity ys).
Proof.
  induction xs as [| x xs IH]; [reflexivity |].
  simpl. rewrite IH. lia.
Qed.

Lemma policy_limits_positive (dealType segment : string) (region : option string)
      (p : ROE.DiscountPolicy) :
  ROE.getDiscountPolicy dealType segment region = Some p ->
  (0 < ROE.max (ROE.standardDiscount p))%Q /\
  (0 < ROE.autoApproved (ROE.standardDiscount p))%Q.
Proof.
  intro H. apply getDiscountPolicy_Some in H. destruct H as [Hin _].
  apply standard_entries in Hin. simpl in Hin.
  repeat (destruct Hin as [Hin | Hin];
          [injection Hin as _ _ <-; split; reflexivity |]).
  contradiction.
Qed.

(** The checks that do not read the requested discount. *)
Lemma checks_ignore_discount (d d' : Q) (c : Case.CaseData) :
  map (fun check => snd check (withDiscount d c))
      (skipn 3 PolicyChecker.methods)
  = map (fun check => snd check (withDiscount d' c))
        (skipn 3 PolicyChecker.methods) /\
  PolicyChecker.minimumRequirements (withDiscount d c)
  = PolicyChecker.minimumRequirements (withDiscount d' c).
Proof. split; reflexivity. Qed.

(** The approval-workflow check reads it, but only to recommend. *)
Lemma approvalWorkflow_neutral (c : Case.CaseData) :
  PolicyChecker.score (PolicyChecker.approvalWorkflow c) = Some 100%Z /\
  PolicyChecker.violations (PolicyChecker.approvalWorkflow c) = [].
Proof.
  unfold PolicyChecker.approvalWorkflow. branches; split; reflexivity.
Qed.

Lemma discountCompliance_monotone (c : Case.CaseData) (d1 d2 : Q) :
  (d1 < d2)%Q ->
  exists s1 s2,
    PolicyChecker.score (PolicyChecker.discountCompliance (withDiscount d1 c))
    = Some s1 /\
    PolicyChecker.score (PolicyChecker.discountCompliance (withDiscount d2 c))
    = Some s2 /\
    (s2 <= s1)%Z /\
    (maxSeverity
       (PolicyChecker.violations
          (PolicyChecker.discountCompliance (withDiscount d1 c)))
     <= maxSeverity
          (PolicyChecker.violations
             (PolicyChecker.discountCompliance (withDiscount d2 c))))%nat.
Proof.
  intro Hlt. unfold PolicyChecker.discountCompliance.
  change (PolicyChecker.inferSegment (withDiscount d1 c))
    with (PolicyChecker.inferSegment c).
  change (PolicyChecker.inferSegment (withDiscount d2 c))
    with (PolicyChecker.inferSegment c).
  change (PolicyChecker.inferDealType (withDiscount d1 c))
    with (PolicyChecker.inferDealType c).
  change (PolicyChecker.inferDealType (withDiscount d2 c))
    with (PolicyChecker.inferDealType c).
  cbn [withDiscount Case.discountRequested Case.category
       JS.parseFloatField JS.truthyNum JS.gt].
  rewrite !negb_involutive.
  destruct (Case.same (Case.category c) "pricing");
    [| rewrite !orb_true_r; exists 100%Z, 100%Z; repeat split; simpl; lia].
  rewrite !orb_false_r.
  destruct (ROE.getDiscountPolicy (PolicyChecker.inferDealType c)
                                  (PolicyChecker.inferSegment c) None)
    as [p |] eqn:Hp.
  - destruct (policy_limits_positive _ _ _ _ Hp) as [Hmax Hauto].
    destruct (Qeq_bool d1 0) eqn:?; destruct (Qeq_bool d2 0) eqn:?;
      destruct (JS.Qlt_bool (ROE.max (ROE.standardDiscount p)) d1) eqn:?;
      destruct (JS.Qlt_bool (ROE.max (ROE.standardDiscount p)) d2) eqn:?;
      destruct (JS.Qlt_bool (ROE.autoApproved (ROE.standardDiscount p)) d1) eqn:?;
      destruct (JS.Qlt_bool (ROE.autoApproved (ROE.standardDiscount p)) d2) eqn:?;
      destruct (JS.Qlt_bool 0 (ROE.regionalAdjustment p));
      reflectQ; try (exfalso; lra);
      eexists; eexists; (split; [reflexivity |]); (split; [reflexivity |]);
      split; simpl; lia.
  - destruct (Qeq_bool d1 0); destruct (Qeq_bool d2 0);
      exists 100%Z, 100%Z; repeat split; simpl; lia.
Qed.

Lemma methods_split {B : Type} (f : PolicyChecker.CheckResult -> list B)
      (c : Case.CaseData) :
  flat_map (fun check => f (snd check c)) PolicyChecker.methods
  = f (PolicyChecker.discountCompliance c)
    ++ f (PolicyChecker.minimumRequirements c)
    ++ f (PolicyChecker.approvalWorkflow c)
    ++ flat_map f (map (fun check => snd check c) (skipn 3 PolicyChecker.methods)).
Proof.
  unfold PolicyChecker.methods. cbn [flat_map map skipn snd].
  now rewrite !app_nil_r.
Qed.

(** C5: of two case drafts that differ only in the requested discount,
    the one with the strictly larger discount gets a score that is not
    higher and a highest violation severity that is not lower. *)
Theorem raising_discount_never_improves (c : Case.CaseData) (d1 d2 : Q) :
  (d1 < d2)%Q ->
  let r1 :=
    PolicyChecker.compliance
      (PolicyChecker.checkCompliance PolicyChecker.policyChecker
                                     (withDiscount d1 c)) in
  let r2 :=
    PolicyChecker.compliance
      (PolicyChecker.checkCompliance PolicyChecker.policyChecker
                                     (withDiscount d2 c)) in
  (PolicyChecker.Compliance.score r2 <= PolicyChecker.Compliance.score r1)%Z /\
  (maxSeverity (PolicyChecker.Compliance.violations r1)
   <= maxSeverity (PolicyChecker.Compliance.violations r2))%nat.
Proof.
  intros Hlt r1 r2. subst r1 r2.
  rewrite !compliance_score, !compliance_violations. unfold checkScores.
  rewrite !methods_split.
  destruct (checks_ignore_discount d1 d2 c) as [Hrest Hmin].
  rewrite Hrest, Hmin.
  destruct (discountCompliance_monotone c d1 d2 Hlt) as (s1 & s2 & H1 & H2 & Hs & Hv).
  unfold contribution at 1 5. rewrite H1, H2.
  rewrite !maxSeverity_app.
  destruct (approvalWorkflow_neutral (withDiscount d1 c)) as [_ ->].
  destruct (approvalWorkflow_neutral (withDiscount d2 c)) as [_ ->].
  split.
  - unfold contribution at 2 5.
    destruct (approvalWorkflow_neutral (withDiscount d1 c)) as [-> _].
    destruct (approvalWorkflow_neutral (withDiscount d2 c)) as [-> _].
    rewrite !fold_right_app. cbn [fold_right].
    match goal with
    | |- (Z.min s2 ?x <= Z.min s1 ?x)%Z => generalize x; intro; lia
    end.
  - lia.
Qed.

Lemma raising_discount_never_improves_witness :
  (8 < 25)%Q /\
  (PolicyChecker.Compliance.score
     (PolicyChecker.compliance
        (PolicyChecker.checkCompliance PolicyChecker.policyChecker
           (withDiscount 25 Examples.smallPricingCase)))
   <= PolicyChecker.Compliance.score
        (PolicyChecker.compliance
           (PolicyChecker.checkCompliance PolicyChecker.policyChecker
              (withDiscount 8 Examples.smallPricingCase))))%Z.
Proof.
  assert (H : (8 < 25)%Q) by reflexivity.
  split; [exact H |].
  exact (proj1 (raising_discount_never_improves Examples.smallPricingCase 8 25 H)).
Defined.

(** *** Scenario matching *)

Section Matcher.
Import Scenarios.
Variable input : string.

Lemma score_positive (sc : Scenario) :
  existsb (keywordIn input) (keywords sc) = (0 <? score input sc)%nat.
Proof. unfold score. symmetry. apply existsb_filter_length. Qed.

(** [reduce] keeps the first scenario of the highest score. *)
Lemma reduce_keeps_first_best (todo before after : list Scenario) (best : Scenario) :
  (forall x, In x before -> (score input x < score input best)%nat) ->
  (forall x, In x after -> (score input x <= score input best)%nat) ->
  exists before' after',
    before ++ best :: after ++ todo
    = before' ++ fold_left (better input) todo best :: after' /\
    (forall x, In x before' ->
               (score input x < score input (fold_left (better input) todo best))%nat) /\
    (forall x, In x after' ->
               (score input x <= score input (fold_left (better input) todo best))%nat).
Proof.
  revert before after best.
  induction todo as [| t todo IH]; intros before after best Hb Ha.
  - exists before, after. rewrite app_nil_r. now repeat split.
  - cbn [fold_left]. unfold better at 2 4 6.
    destruct (Nat.ltb_spec (score input best) (score input t)) as [Hlt | Hge].
    + destruct (IH (before ++ best :: after) [] t) as (b' & a' & Heq & Hb' & Ha').
      * intros x Hx. apply in_app_or in Hx.
        destruct Hx as [Hx | [<- | Hx]];
          [specialize (Hb x Hx) | | specialize (Ha x Hx)]; lia.
      * intros x [].
      * exists b', a'. split; [| now split].
        rewrite <- Heq. cbn [app]. now rewrite <- app_assoc.
    + destruct (IH before (after ++ [t]) best) as (b' & a' & Heq & Hb' & Ha').
      * exact Hb.
      * intros x Hx. apply in_app_or in Hx.
        destruct Hx as [Hx | [<- | []]]; [now apply Ha | exact Hge].
      * exists b', a'. split; [| now split].
        rewrite <- Heq. now rewrite <- app_assoc.
Qed.

(** A split of the matches is the trace of a split of the catalog. *)
Lemma filter_split {A : Type} (p : A -> bool) (l b' a' : list A) (x : A) :
  filter p l = b' ++ x :: a' ->
  exists b a, l = b ++ x :: a /\ filter p b = b' /\ filter p a = a'.
Proof.
  revert b'. induction l as [| y l IH]; intros b' H.
  - destruct b'; discriminate.
  - cbn [filter] in H. destruct (p y) eqn:Hy.
    + destruct b' as [| z b'].
      * injection H as -> H. exists [], l. cbn [filter app]. now repeat split.
      * injection H as -> H. destruct (IH _ H) as (b & a & -> & Hb & Ha).
        exists (z :: b), a. cbn [filter app]. rewrite Hy, Hb. now repeat split.
    + destruct (IH _ H) as (b & a & -> & Hb & Ha).
      exists (y :: b), a. cbn [filter app]. rewrite Hy. now repeat split.
Qed.

(** The matcher over any catalog, on an input already in lower case. *)
Lemma matcher_spec (catalog : list Scenario) :
  let matches :=
    filter (fun sc => existsb (keywordIn input) (keywords sc)) catalog in
  match (if (1 <? List.length matches)%nat
         then match matches with
              | first :: others => Some (fold_left (better input) others first)
              | [] => None
              end
         else hd_error matches) with
  | None => forall sc, In sc catalog -> score input sc = 0%nat
  | Some best =>
      (1 <= score input best)%nat /\
      exists before after,
        catalog = before ++ best :: after /\
        (forall sc, In sc before -> (score input sc < score input best)%nat) /\
        (forall sc, In sc after -> (score input sc <= score input best)%nat)
  end.
Proof.
  intro matches.
  assert (Hq : forall sc, In sc matches -> (1 <= score input sc)%nat).
  { intros sc Hsc. apply filter_In in Hsc. destruct Hsc as [_ Hsc].
    rewrite score_positive in Hsc. apply Nat.ltb_lt in Hsc. lia. }
  assert (Hn : forall sc l, filter (fun sc => existsb (keywordIn input) (keywords sc)) l = [] ->
                       In sc l -> score input sc = 0%nat).
  { intros sc l Hl Hsc.
    destruct (existsb (keywordIn input) (keywords sc)) eqn:E.
    - assert (Hin : In sc (filter (fun sc => existsb (keywordIn input) (keywords sc)) l))
        by (apply filter_In; now split).
      rewrite Hl in Hin. destruct Hin.
    - rewrite score_positive in E. apply Nat.ltb_ge in E. lia. }
  assert (Hlift : forall best b' a',
             matches = b' ++ best :: a' ->
             (forall x, In x b' -> (score input x < score input best)%nat) ->
             (forall x, In x a' -> (score input x <= score input best)%nat) ->
             (1 <= score input best)%nat /\
             exists before after,
               catalog = before ++ best :: after /\
               (forall sc, In sc before -> (score input sc < score input best)%nat) /\
               (forall sc, In sc after -> (score input sc <= score input best)%nat)).
  { intros best b' a' Heq Hb Ha.
    assert (Hbest : (1 <= score input best)%nat).
    { apply Hq. rewrite Heq. apply in_or_app. right. now left. }
    split; [exact Hbest |].
    destruct (filter_split _ _ _ _ _ Heq) as (b & a & -> & Hfb & Hfa).
    exists b, a. split; [reflexivity |]. split; intros sc Hsc.
    - destruct (existsb (keywordIn input) (keywords sc)) eqn:E.
      + apply Hb. rewrite <- Hfb. apply filter_In. now split.
      + rewrite score_positive in E. apply Nat.ltb_ge in E. lia.
    - destruct (existsb (keywordIn input) (keywords sc)) eqn:E.
      + apply Ha. rewrite <- Hfa. apply filter_In. now split.
      + rewrite score_positive in E. apply Nat.ltb_ge in E. lia. }
  destruct matches as [| first others] eqn:Hm.
  - cbn [List.length Nat.ltb Nat.leb hd_error]. intros sc Hsc.
    now apply (Hn sc catalog).
  - destruct others as [| second others].
    + cbn [List.length Nat.ltb Nat.leb hd_error].
      apply (Hlift first [] []); [reflexivity | intros x [] | intros x []].
    + replace (1 <? List.length (first :: second :: others))%nat with true
        by reflexivity.
      destruct (reduce_keeps_first_best (second :: others) [] [] first)
        as (b' & a' & Heq & Hb & Ha); [intros x [] | intros x [] |].
      cbn [app] in Heq. now apply (Hlift _ b' a').
Qed.

End Matcher.

Lemma filter_ext_in_length {A : Type} (p q : A -> bool) (l : list A) :
  (forall x, In x l -> p x = q x) ->
  List.length (filter p l) = List.length (filter q l).
Proof.
  intro H. now rewrite (filter_ext_in _ _ _ H).
Qed.

(** The catalog keywords are written in lower case, so lower-casing them
    changes nothing. *)
Lemma catalog_score (utterance : string) (sc : Scenarios.Scenario) :
  In sc Scenarios.customerScenarios ->
  Scenarios.score (JS.toLowerCase utterance) sc = keywordCount utterance sc.
Proof.
  intro Hsc. unfold Scenarios.score, keywordCount, Scenarios.keywordIn.
  apply filter_ext_in_length. intros kw Hkw.
  assert (Hlow : JS.toLowerCase kw = kw); [| now rewrite Hlow].
  simpl in Hsc.
  repeat (destruct Hsc as [<- | Hsc];
          [simpl in Hkw;
           repeat (destruct Hkw as [<- | Hkw]; [reflexivity |]);
           contradiction |]).
  contradiction.
Qed.

(** C6: the matcher returns null exactly when no catalog scenario has a
    keyword in the lower-cased utterance; otherwise it returns a scenario
    with at least one such keyword whose count is the highest, every
    scenario listed before it having a strictly smaller count. *)
Theorem matcher_returns_first_best (utterance : string) :
  match Scenarios.findMatchingScenario utterance with
  | None =>
      forall sc, In sc Scenarios.customerScenarios ->
                 keywordCount utterance sc = 0%nat
  | Some best =>
      (1 <= keywordCount utterance best)%nat /\
      exists before after,
        Scenarios.customerScenarios = before ++ best :: after /\
        (forall sc, In sc before ->
                    (keywordCount utterance sc < keywordCount utterance best)%nat) /\
        (forall sc, In sc after ->
                    (keywordCount utterance sc <= keywordCount utterance best)%nat)
  end.
Proof.
  pose proof (matcher_spec (JS.toLowerCase utterance) Scenarios.customerScenarios)
    as H.
  cbv zeta in H.
  unfold Scenarios.findMatchingScenario, Scenarios.findMatchingScenarioIn.
  cbv zeta.
  destruct (if (1 <? _)%nat then _ else _) as [best |].
  - destruct H as (Hbest & before & after & Heq & Hb & Ha).
    assert (Hin : forall sc, In sc (before ++ best :: after) ->
                             In sc Scenarios.customerScenarios)
      by (intros sc Hsc; now rewrite Heq).
    rewrite <- (catalog_score utterance best)
      by (apply Hin, in_or_app; right; now left).
    split; [exact Hbest |].
    exists before, after. split; [exact Heq |]. split; intros sc Hsc.
    + rewrite <- (catalog_score utterance sc) by (apply Hin, in_or_app; now left).
      now apply Hb.
    + rewrite <- (catalog_score utterance sc)
        by (apply Hin, in_or_app; right; now right).
      now apply Ha.
  - intros sc Hsc. rewrite <- (catalog_score utterance sc) by exact Hsc.
    now apply H.
Qed.

(** *** Strings *)

Section Strings.
Import JS.
Local Open Scope string_scope.

Lemma append_nil_r (s : string) : s ++ "" = s.
Proof. induction s as [| c s IH]; simpl; [reflexivity | now rewrite IH]. Qed.

Lemma append_assoc (a b c : string) : (a ++ b) ++ c = a ++ b ++ c.
Proof. induction a as [| x a IH]; simpl; [reflexivity | now rewrite IH]. Qed.

Lemma length_append (a b : string) :
  String.length (a ++ b) = (String.length a + String.length b)%nat.
Proof. induction a as [| x a IH]; simpl; [reflexivity | now rewrite IH]. Qed.

Lemma span_le (p : ascii -> bool) (s : string) :
  (span p s <= String.length s)%nat.
Proof.
  induction s as [| c s IH]; simpl; [lia |]. destruct (p c); simpl; lia.
Qed.

(** A character outside the class ends the run. *)
Lemma span_stop (p : ascii -> bool) (q : string) (c : ascii) (r : string) :
  p c = false -> span p (q ++ String c r) = span p q.
Proof.
  intro Hc. induction q as [| x q IH]; simpl.
  - now rewrite Hc.
  - destruct (p x); [now rewrite IH | reflexivity].
Qed.

Lemma span_all (p : ascii -> bool) (s : string) (c : ascii) (r : string) :
  all p s = true -> p c = false ->
  span p (s ++ String c r) = String.length s.
Proof.
  intros Hs Hc. induction s as [| x s IH]; simpl in *.
  - now rewrite Hc.
  - apply andb_true_iff in Hs. destruct Hs as [-> Hs]. now rewrite IH.
Qed.

Lemma span_all_end (p : ascii -> bool) (s : string) :
  all p s = true -> span p s = String.length s.
Proof.
  intro Hs. induction s as [| x s IH]; simpl in *; [reflexivity |].
  apply andb_true_iff in Hs. destruct Hs as [-> Hs]. now rewrite IH.
Qed.

Lemma all_take_span (p : ascii -> bool) (s : string) :
  all p (take (span p s) s) = true.
Proof.
  induction s as [| c s IH]; simpl; [reflexivity |].
  destruct (p c) eqn:Hc; simpl; [now rewrite Hc, IH | reflexivity].
Qed.

Lemma drop_append (n : nat) (q r : string) :
  (n <= String.length q)%nat -> drop n (q ++ r) = drop n q ++ r.
Proof.
  revert q. induction n as [| n IH]; intros q Hn.
  - now destruct q.
  - destruct q as [| x q]; simpl in *; [lia |]. apply IH. lia.
Qed.

Lemma drop_length (s r : string) : drop (String.length s) (s ++ r) = r.
Proof. induction s as [| c s IH]; simpl; [now destruct r | exact IH]. Qed.

Lemma take_length (s r : string) : take (String.length s) (s ++ r) = s.
Proof. induction s as [| c s IH]; simpl; [now destruct r | now rewrite IH]. Qed.

Lemma take_all (s : string) : take (String.length s) s = s.
Proof. induction s as [| c s IH]; simpl; [reflexivity | now rewrite IH]. Qed.

Lemma take_drop (n : nat) (s : string) : take n s ++ drop n s = s.
Proof.
  revert s. induction n as [| n IH]; intro s; [now destruct s |].
  destruct s as [| c s]; simpl; [reflexivity | now rewrite IH].
Qed.

Lemma length_drop (n : nat) (s : string) :
  (n <= String.length s)%nat ->
  String.length s = (n + String.length (drop n s))%nat.
Proof.
  revert s. induction n as [| n IH]; intros s Hn; [now destruct s |].
  destruct s as [| c s]; simpl in *; [lia |]. rewrite <- IH; lia.
Qed.

Lemma length_take (n : nat) (s : string) :
  (n <= String.length s)%nat -> String.length (take n s) = n.
Proof.
  revert s. induction n as [| n IH]; intros s Hn; [now destruct s |].
  destruct s as [| c s]; simpl in *; [lia |]. rewrite IH; lia.
Qed.

(** [take] past a known prefix. *)
Lemma take_append (n : nat) (s r : string) :
  take (String.length s + n) (s ++ r) = s ++ take n r.
Proof. induction s as [| c s IH]; simpl; [reflexivity | now rewrite IH]. Qed.

Lemma take_one (c : ascii) (r : string) : take 1 (String c r) = String c "".
Proof. simpl. now destruct r. Qed.

Lemma all_append (p : ascii -> bool) (a b : string) :
  all p (a ++ b) = all p a && all p b.
Proof.
  induction a as [| x a IH]; simpl; [reflexivity |].
  now rewrite IH, andb_assoc.
Qed.

Lemma all_weaken (p q : ascii -> bool) (s : string) :
  (forall c, p c = true -> q c = true) -> all p s = true -> all q s = true.
Proof.
  intros Hpq. induction s as [| c s IH]; simpl; [reflexivity |].
  intro H. apply andb_true_iff in H. destruct H as [Hc Hs].
  now rewrite (Hpq c Hc), IH.
Qed.


Lemma replace_absent_then (s : string) (k : ascii) (r : string) :
  all (fun c => negb (Ascii.eqb k c)) s = true ->
  replace (String k "") "" (s ++ String k r) = s ++ r.
Proof.
  induction s as [| c s IH]; simpl.
  - intros _. destruct (ascii_dec k k) as [_ | Hne]; [| now elim Hne].
    now destruct r.
  - intro H. apply andb_true_iff in H. destruct H as [Hc Hs].
    apply negb_true_iff in Hc.
    destruct (ascii_dec k c) as [-> | Hne];
      [now rewrite Ascii.eqb_refl in Hc | now rewrite IH].
Qed.

Lemma removeAll_absent (p : ascii -> bool) (s : string) :
  all (fun c => negb (p c)) s = true -> removeAll p s = s.
Proof.
  induction s as [| c s IH]; simpl; [reflexivity |].
  intro H. apply andb_true_iff in H. destruct H as [Hc Hs].
  apply negb_true_iff in Hc. now rewrite Hc, IH.
Qed.

Lemma lowerChar_digit (c : ascii) : isDigit c = true -> lowerChar c = c.
Proof.
  unfold isDigit, lowerChar. intro H.
  apply andb_true_iff in H. destruct H as [_ H]. apply Nat.leb_le in H.
  destruct (Nat.leb_spec 65 (nat_of_ascii c)); [lia | reflexivity].
Qed.

Lemma toLowerCase_digits (s : string) :
  all isDigit s = true -> toLowerCase s = s.
Proof.
  induction s as [| c s IH]; simpl; [reflexivity |].
  intro H. apply andb_true_iff in H. destruct H as [Hc Hs].
  now rewrite (lowerChar_digit c Hc), IH.
Qed.

(** What a digit is not. *)
Lemma digit_is_not (k c : ascii) :
  isDigit k = false -> isDigit c = true -> negb (Ascii.eqb k c) = true.
Proof.
  intros Hk Hc. apply negb_true_iff.
  destruct (Ascii.eqb_spec k c) as [-> | _]; [congruence | reflexivity].
Qed.

Lemma digits_without (k : ascii) (s : string) :
  isDigit k = false -> all isDigit s = true ->
  all (fun c => negb (Ascii.eqb k c)) s = true.
Proof.
  intros Hk. apply all_weaken. intros c Hc. now apply digit_is_not.
Qed.

(** [parseFloat] of a run of digits is its decimal value. *)
Lemma parseFloat_digits (ds : string) :
  all isDigit ds = true -> ds <> "" ->
  parseFloat ds = Num (inject_Z (decimalValue 0 ds)).
Proof.
  intros Hd Hne. unfold parseFloat.
  rewrite (span_all_end _ _ Hd).
  replace (drop (String.length ds) ds) with "".
  - rewrite take_all. destruct ds; [now elim Hne | reflexivity].
  - rewrite <- (append_nil_r ds) at 2. now rewrite drop_length.
Qed.

End Strings.

(** *** Percentages *)

Section Percentages.
Import JS MessageProcessor.
Local Open Scope string_scope.

Lemma lastChar_snoc (q : string) (c : ascii) : lastChar (q ++ String c "") = Some c.
Proof.
  induction q as [| x q IH]; [reflexivity |].
  simpl. destruct (q ++ String c "") eqn:E; [| exact IH].
  destruct q; discriminate.
Qed.

Lemma snoc_cases (s : string) : s = "" \/ exists q c, s = q ++ String c "".
Proof.
  induction s as [| x s [-> | (q & c & ->)]]; [now left | right | right].
  - now exists "", x.
  - now exists (String x q), c.
Qed.

Lemma nonempty_length (s : string) : s <> "" -> (1 <= String.length s)%nat.
Proof. destruct s; [congruence | simpl; lia]. Qed.

(** Soundness of the scan: every reported match is what one attempt
    matched at some position of the text. *)
Lemma matchAll_sound (attempt : string -> option nat) (s : string) (skip : nat)
      (m : string) :
  In m (matchAll attempt skip s) ->
  exists a t n, s = a ++ t /\ attempt t = Some n /\ m = take n t.
Proof.
  revert skip. induction s as [| c s IH]; intros skip Hm; [destruct Hm |].
  cbn [matchAll] in Hm.
  assert (Hrec : forall k, In m (matchAll attempt k s) ->
                      exists a t n, String c s = a ++ t /\
                                    attempt t = Some n /\ m = take n t).
  { intros k Hk. destruct (IH k Hk) as (a & t & n & -> & Ht & Hn).
    now exists (String c a), t, n. }
  destruct skip as [| k]; [| now apply (Hrec k)].
  destruct (attempt (String c s)) as [n |] eqn:E; [| now apply (Hrec 0%nat)].
  destruct Hm as [<- | Hm]; [| now apply (Hrec (n - 1)%nat)].
  now exists "", (String c s), n.
Qed.

Lemma percentageAt_nondigit (c : ascii) (r : string) :
  isDigit c = false -> percentageAt (String c r) = None.
Proof. intro Hc. unfold percentageAt. simpl. now rewrite Hc. Qed.

(** An attempt that starts in front of a character which is neither a
    digit nor a point ends at that character at the latest. *)
Lemma percentageAt_bound (q : string) (c : ascii) (rest : string) (n : nat) :
  isDigit c = false -> Ascii.eqb c "."%char = false ->
  percentageAt (q ++ String c rest) = Some n ->
  (n <= String.length q + 1)%nat.
Proof.
  intros Hc Hdot. unfold percentageAt. rewrite (span_stop _ _ _ _ Hc).
  pose proof (span_le isDigit q) as Hd.
  set (d := span isDigit q) in *.
  destruct (d =? 0)%nat; [discriminate |].
  rewrite (drop_append _ _ _ Hd).
  pose proof (length_drop d q Hd) as Hlen.
  destruct (drop d q) as [| x q2]; cbn [String.append].
  - rewrite Hdot. destruct (Ascii.eqb c "%"); [| discriminate].
    intro H. injection H as <-. simpl in Hlen. lia.
  - simpl in Hlen.
    destruct (Ascii.eqb x "%"); [intro H; injection H as <-; lia |].
    destruct (Ascii.eqb x "."); [| discriminate].
    rewrite (span_stop _ _ _ _ Hc).
    pose proof (span_le isDigit q2) as Hf.
    set (f := span isDigit q2) in *.
    destruct (f =? 0)%nat; [discriminate |].
    destruct (drop f (q2 ++ String c rest)) as [| y r]; [discriminate |].
    destruct (Ascii.eqb y "%"); [| discriminate].
    intro H. injection H as <-. lia.
Qed.

(** Scanning a text that stands alone in front of [rest] ends with the
    scan of [rest]. *)
Lemma matchAll_percentage_prefix (q : string) (c : ascii) (rest : string) :
  isDigit c = false -> Ascii.eqb c "."%char = false ->
  forall skip, (skip <= String.length q + 1)%nat ->
  exists l, matchAll percentageAt skip (q ++ String c rest)
            = (l ++ matchAll percentageAt 0 rest)%list.
Proof.
  intros Hc Hdot. induction q as [| x q IH]; intros skip Hskip.
  - exists []. cbn [String.append matchAll app].
    destruct skip as [| [| k]]; [| reflexivity | simpl in Hskip; lia].
    now rewrite (percentageAt_nondigit _ _ Hc).
  - cbn [String.append matchAll]. simpl in Hskip.
    destruct skip as [| k]; [| apply IH; lia].
    destruct (percentageAt (String x (q ++ String c rest))) as [n |] eqn:E.
    + pose proof (percentageAt_bound (String x q) c rest n Hc Hdot E) as Hn.
      simpl in Hn. destruct (IH (n - 1)%nat) as [l Hl]; [lia |].
      exists (take n (String x (q ++ String c rest)) :: l). now rewrite Hl.
    + apply IH. lia.
Qed.

Lemma percent_is_no_digit : isDigit "%"%char = false.
Proof. reflexivity. Qed.

Lemma percentageAt_hit (ds post : string) :
  all isDigit ds = true -> ds <> "" ->
  percentageAt (ds ++ String "%"%char post) = Some (String.length ds + 1)%nat.
Proof.
  intros Hd Hne. unfold percentageAt.
  rewrite (span_all _ _ _ _ Hd percent_is_no_digit), drop_length.
  pose proof (nonempty_length _ Hne).
  destruct (Nat.eqb_spec (String.length ds) 0); [lia | reflexivity].
Qed.

Lemma matchAll_percentage_hit (ds post : string) :
  all isDigit ds = true -> ds <> "" ->
  In (ds ++ "%") (matchAll percentageAt 0 (ds ++ String "%"%char post)).
Proof.
  intros Hd Hne.
  destruct (ds ++ String "%"%char post) as [| x s] eqn:E;
    [destruct ds; discriminate |].
  cbn [matchAll]. rewrite <- E, (percentageAt_hit _ _ Hd Hne).
  left. rewrite take_append. now destruct post.
Qed.

(** A stand-alone run of digits followed by [%] is matched. *)
Lemma percentage_token_matched (pre ds post : string) :
  all isDigit ds = true -> ds <> "" -> standsAlone pre = true ->
  In (ds ++ "%")
     (matchAll percentageAt 0 (pre ++ ds ++ String "%"%char post)).
Proof.
  intros Hd Hne Hpre.
  destruct (snoc_cases pre) as [-> | (q & c & ->)].
  - now apply matchAll_percentage_hit.
  - unfold standsAlone in Hpre. rewrite lastChar_snoc in Hpre.
    apply andb_true_iff in Hpre. destruct Hpre as [Hc Hdot].
    apply negb_true_iff in Hc, Hdot.
    rewrite append_assoc. cbn [String.append].
    destruct (matchAll_percentage_prefix q c (ds ++ String "%"%char post)
                                         Hc Hdot 0%nat) as [l ->]; [lia |].
    apply in_or_app. right. now apply matchAll_percentage_hit.
Qed.

Lemma percentage_value (ds : string) :
  all isDigit ds = true -> ds <> "" ->
  parseFloat (replace "%" "" (ds ++ "%")) = Num (inject_Z (decimalValue 0 ds)).
Proof.
  intros Hd Hne.
  rewrite (replace_absent_then ds "%"%char ""
             (digits_without _ _ percent_is_no_digit Hd)).
  rewrite append_nil_r. now apply parseFloat_digits.
Qed.

End Percentages.

Section PercentageShape.
Import JS MessageProcessor.
Local Open Scope string_scope.

Lemma span_take_nonempty (p : ascii -> bool) (s : string) :
  span p s <> 0%nat -> take (span p s) s <> "".
Proof.
  destruct s as [| c s]; simpl; [congruence |].
  destruct (p c); [discriminate | congruence].
Qed.

Lemma length_take_span (p : ascii -> bool) (s : string) :
  String.length (take (span p s) s) = span p s.
Proof. apply length_take, span_le. Qed.

(** What a successful attempt has matched: a numeral and the sign. *)
Lemma percentageAt_shape (t : string) (n : nat) :
  percentageAt t = Some n ->
  exists numeral after,
    t = numeral ++ String "%"%char after /\
    take n t = numeral ++ "%" /\
    decimalNumeral numeral.
Proof.
  unfold percentageAt.
  destruct (Nat.eqb_spec (span isDigit t) 0) as [| Hd]; [discriminate |].
  pose proof (take_drop (span isDigit t) t) as Ht.
  pose proof (all_take_span isDigit t) as Hall.
  pose proof (span_take_nonempty isDigit t Hd) as Hne.
  pose proof (length_take_span isDigit t) as Hlen.
  set (ds := take (span isDigit t) t) in *.
  destruct (drop (span isDigit t) t) as [| x r]; [discriminate |].
  destruct (Ascii.eqb_spec x "%"%char) as [-> | _].
  - intro H. injection H as <-.
    exists ds, r. split; [now symmetry |]. split.
    + rewrite <- Ht at 2. rewrite <- Hlen, take_append. now destruct r.
    + exists ds. repeat split; try assumption. now left.
  - destruct (Ascii.eqb_spec x "."%char) as [-> | _]; [| discriminate].
    destruct (Nat.eqb_spec (span isDigit r) 0) as [| Hf]; [discriminate |].
    pose proof (take_drop (span isDigit r) r) as Hr.
    pose proof (all_take_span isDigit r) as Hallf.
    pose proof (span_take_nonempty isDigit r Hf) as Hnef.
    pose proof (length_take_span isDigit r) as Hlenf.
    set (fs := take (span isDigit r) r) in *.
    destruct (drop (span isDigit r) r) as [| y r2]; [discriminate |].
    destruct (Ascii.eqb_spec y "%"%char) as [-> | _]; [| discriminate].
    intro H. injection H as <-.
    assert (Heq : t = (ds ++ String "."%char fs) ++ String "%"%char r2).
    { rewrite <- Ht, <- Hr. rewrite append_assoc. reflexivity. }
    exists (ds ++ String "."%char fs), r2. split; [exact Heq |]. split.
    + rewrite Heq at 2.
      replace (span isDigit t + 1 + span isDigit r + 1)%nat
        with (String.length (ds ++ String "."%char fs) + 1)%nat
        by (rewrite length_append; simpl; lia).
      rewrite take_append. now destruct r2.
    + exists ds. repeat split; try assumption.
      right. exists fs. now repeat split.
Qed.

Lemma point_is_no_digit : isDigit "."%char = false.
Proof. reflexivity. Qed.

Lemma parseFloat_fraction (ds fs : string) :
  all isDigit ds = true -> all isDigit fs = true -> fs <> "" ->
  exists q, parseFloat (ds ++ String "."%char fs) = Num q.
Proof.
  intros Hd Hf Hne. unfold parseFloat.
  rewrite (span_all _ _ _ _ Hd point_is_no_digit), drop_length.
  cbn [Ascii.eqb Bool.eqb]. rewrite (span_all_end _ _ Hf).
  pose proof (nonempty_length _ Hne).
  destruct (Nat.eqb_spec (String.length fs) 0); [lia |].
  rewrite andb_false_r. eexists. reflexivity.
Qed.

Lemma decimalNumeral_value (numeral : string) :
  decimalNumeral numeral ->
  parseFloat (replace "%" "" (numeral ++ "%")) = parseFloat numeral /\
  exists q, parseFloat numeral = Num q.
Proof.
  intros (ds & Hd & Hne & [-> | (fs & Hf & Hnef & ->)]).
  - split.
    + rewrite (replace_absent_then ds "%"%char ""
                 (digits_without _ _ percent_is_no_digit Hd)).
      now rewrite append_nil_r.
    + eexists. now apply parseFloat_digits.
  - split; [| now apply parseFloat_fraction].
    rewrite (replace_absent_then (ds ++ String "."%char fs) "%"%char "").
    + now rewrite append_nil_r.
    + rewrite all_append. cbn [all].
      rewrite (digits_without _ _ percent_is_no_digit Hd),
        (digits_without _ _ percent_is_no_digit Hf). reflexivity.
Qed.

(** Every reported percentage is the value of a numeral that the text
    shows immediately in front of a percent sign. *)
Lemma percentage_sound (text : string) (vs : list jsnum) (v : jsnum) :
  percentage (extractAllEntities text) = Some vs -> In v vs ->
  exists before numeral after,
    text = before ++ numeral ++ String "%"%char after /\
    decimalNumeral numeral /\
    v = parseFloat numeral /\
    exists q, v = Num q.
Proof.
  unfold extractAllEntities, matchGlobal. cbn [percentage].
  intros Hvs Hv.
  assert (Hin : In v (extractPercentage (matchAll percentageAt 0 text))).
  { destruct (matchAll percentageAt 0 text); [discriminate |].
    cbn [option_map] in Hvs. injection Hvs as <-. exact Hv. }
  unfold extractPercentage in Hin. apply in_map_iff in Hin.
  destruct Hin as (m & <- & Hm).
  apply matchAll_sound in Hm. destruct Hm as (a & t & n & -> & Ht & ->).
  apply percentageAt_shape in Ht.
  destruct Ht as (numeral & after & -> & -> & Hnum).
  destruct (decimalNumeral_value numeral Hnum) as [Hrep Hq].
  exists a, numeral, after. rewrite Hrep. now repeat split.
Qed.

End PercentageShape.

(** C7: when the text shows a run of digits NN, not itself the tail of a
    longer numeral, immediately followed by a percent sign, the
    percentage entities are present and contain the number NN (what
    [parseFloat] makes of the digits); and every percentage entity of any
    text is the number value of a numeral that the text shows immediately
    in front of a percent sign. *)
Theorem percentage_needs_percent_sign (pre digits post : string) :
  all JS.isDigit digits = true ->
  digits <> "" ->
  standsAlone pre = true ->
  (exists vs,
      MessageProcessor.percentage
        (MessageProcessor.extractAllEntities
           (pre ++ digits ++ String "%"%char post)%string) = Some vs /\
      JS.parseFloat digits = JS.Num (inject_Z (JS.decimalValue 0 digits)) /\
      In (JS.parseFloat digits) vs) /\
  (forall text vs v,
      MessageProcessor.percentage (MessageProcessor.extractAllEntities text) = Some vs ->
      In v vs ->
      exists before numeral after,
        text = (before ++ numeral ++ String "%"%char after)%string /\
        decimalNumeral numeral /\
        v = JS.parseFloat numeral /\
        exists q, v = JS.Num q).
Proof.
  intros Hd Hne Hpre. split; [| exact percentage_sound].
  pose proof (percentage_token_matched pre digits post Hd Hne Hpre) as Hin.
  unfold MessageProcessor.extractAllEntities, MessageProcessor.matchGlobal.
  cbn [MessageProcessor.percentage].
  destruct (MessageProcessor.matchAll MessageProcessor.percentageAt 0
              (pre ++ digits ++ String "%"%char post)%string) as [| m ms] eqn:E;
    [destruct Hin |].
  eexists. split; [reflexivity |].
  split; [now apply parseFloat_digits |].
  pose proof (percentage_value digits Hd Hne) as Hval.
  rewrite <- (parseFloat_digits digits Hd Hne) in Hval. rewrite <- Hval.
  unfold MessageProcessor.extractPercentage.
  exact (in_map (fun m => JS.parseFloat (JS.replace "%" "" m)) _ _ Hin).
Qed.

Lemma percentage_needs_percent_sign_witness :
  all JS.isDigit "15" = true /\ "15" <> "" /\ standsAlone "give " = true /\
  exists vs,
    MessageProcessor.percentage
      (MessageProcessor.extractAllEntities "give 15% off 20 seats") = Some vs /\
    In (JS.parseFloat "15") vs.
Proof.
  assert (Hd : all JS.isDigit "15" = true) by reflexivity.
  assert (Hne : "15" <> "") by discriminate.
  assert (Hpre : standsAlone "give " = true) by reflexivity.
  repeat (split; [assumption |]).
  destruct (percentage_needs_percent_sign "give " "15" " off 20 seats" Hd Hne Hpre)
    as [(vs & Hvs & _ & Hin) _].
  exists vs. split; [exact Hvs | exact Hin].
Defined.

(** *** Currency amounts *)

Section Currency.
Import JS MessageProcessor.
Local Open Scope string_scope.

Lemma drop_0 (s : string) : drop 0 s = s.
Proof. now destruct s. Qed.

Lemma no_dollar_first (s r : string) :
  all isDigit s = true -> s <> "" ->
  match s ++ r with
  | String x _ => if Ascii.eqb x "$"%char then 1%nat else 0%nat
  | EmptyString => 0%nat
  end = 0%nat.
Proof.
  destruct s as [| a s]; [congruence |]. cbn [String.append all].
  intros H _. apply andb_true_iff in H. destruct H as [H _].
  destruct (Ascii.eqb_spec a "$"%char) as [-> | _]; [discriminate | reflexivity].
Qed.

Variable c : ascii.
Hypothesis c_no_digit : isDigit c = false.
Hypothesis c_no_comma : Ascii.eqb c ","%char = false.
Hypothesis c_no_point : Ascii.eqb c "."%char = false.

Lemma c_ends_run : isDigitOrComma c = false.
Proof. unfold isDigitOrComma. now rewrite c_no_digit, c_no_comma. Qed.

(** The optional cents need three characters in front of [c]. *)
Lemma cents_bound (q2 rest : string) :
  (match q2 ++ String c rest with
   | String c0 (String a (String b _)) =>
       if Ascii.eqb c0 "."%char && isDigit a && isDigit b then 3 else 0
   | _ => 0
   end <= String.length q2)%nat.
Proof.
  destruct q2 as [| c0 [| a [| b q5]]]; cbn [String.append String.length].
  - destruct rest as [| a [| b r]]; try lia. rewrite c_no_point. simpl. lia.
  - destruct rest as [| b r]; try lia.
    rewrite c_no_digit, andb_false_r. simpl. lia.
  - rewrite c_no_digit, andb_false_r. lia.
  - destruct (Ascii.eqb c0 "." && isDigit a && isDigit b); lia.
Qed.

(** An attempt that starts in front of [c] ends at [c] at the latest. *)
Lemma currencyAt_bound (x : ascii) (q rest : string) (n : nat) :
  currencyAt (String x (q ++ String c rest)) = Some n ->
  (n <= String.length q + 2)%nat.
Proof.
  unfold currencyAt.
  set (dollar := if Ascii.eqb x "$"%char then 1%nat else 0%nat).
  assert (Hs1 : exists q1,
             drop dollar (String x (q ++ String c rest)) = q1 ++ String c rest /\
             (dollar + String.length q1 = String.length q + 1)%nat).
  { subst dollar. destruct (Ascii.eqb x "$").
    - exists q. split; [now destruct q | lia].
    - exists (String x q). split; [reflexivity | simpl; lia]. }
  destruct Hs1 as (q1 & -> & Hq1).
  rewrite (span_stop _ _ _ _ c_ends_run).
  pose proof (span_le isDigitOrComma q1) as Hn1.
  set (n1 := span isDigitOrComma q1) in *.
  destruct (n1 =? 0)%nat; [discriminate |].
  rewrite (drop_append _ _ _ Hn1).
  pose proof (length_drop n1 q1 Hn1) as Hq2.
  set (q2 := drop n1 q1) in *.
  pose proof (cents_bound q2 rest) as Hcents.
  set (cents := match q2 ++ String c rest with
                | String c0 (String a (String b _)) =>
                    if Ascii.eqb c0 "."%char && isDigit a && isDigit b
                    then 3%nat else 0%nat
                | _ => 0%nat
                end) in *.
  match goal with
  | |- Some (_ + _ + _ + ?u)%nat = Some n -> _ =>
      assert (Hu : (u <= 1)%nat);
      [ destruct (drop cents (q2 ++ String c rest)) as [| y r];
        [lia | destruct (isUnitSuffix y); lia]
      | intro H; injection H as <-; lia ]
  end.
Qed.

Variable digits post : string.
Hypothesis digits_ok : all isDigit digits = true.
Hypothesis digits_nonempty : digits <> "".







End Currency.

Section CurrencyValue.
Import JS MessageProcessor.
Local Open Scope string_scope.

Lemma digit_is_no_separator (a : ascii) :
  isDigit a = true -> negb (isDollarOrComma a) = true.
Proof.
  intro Ha. unfold isDollarOrComma. apply negb_true_iff, orb_false_iff.
  split.
  - destruct (Ascii.eqb_spec a "$"%char) as [-> | _]; [discriminate | reflexivity].
  - destruct (Ascii.eqb_spec a ","%char) as [-> | _]; [discriminate | reflexivity].
Qed.


Lemma extractCurrency_In (m : string) (ms : list string) (v : jsnum) :
  In m ms -> extractCurrency [m] = [v] -> In v (extractCurrency ms).
Proof.
  unfold extractCurrency. cbn [map]. intros Hin Hv. injection Hv as <-.
  exact (in_map _ _ _ Hin).
Qed.



End CurrencyValue.



(** *** Percentages that are no amounts *)


(* ================================================================== *)
(** ** Further properties: routing, verdicts, lookups and entities *)
(* ================================================================== *)

From Stdlib Require Import Permutation.

Lemma inSizeRange_brackets (size : Q) :
  ROE.inSizeRange size "under50k" = JS.Qlt_bool size 50000 /\
  ROE.inSizeRange size "50k-250k" = Qle_bool 50000 size && Qle_bool size 250000 /\
  ROE.inSizeRange size "250k-500k" = Qle_bool 250000 size && Qle_bool size 500000 /\
  ROE.inSizeRange size "500k+" = Qle_bool 500000 size.
Proof. repeat split. Qed.

(** *** Comparisons, once more *)

Ltac qcase b := destruct b eqn:?; reflectQ; try (exfalso; lra).

Lemma Qlt_bool_compat_r (k x y : Q) : (x == y)%Q -> JS.Qlt_bool k x = JS.Qlt_bool k y.
Proof.
  intro H. destruct (JS.Qlt_bool k x) eqn:E1, (JS.Qlt_bool k y) eqn:E2;
    try reflexivity; reflectQ; rewrite H in E1; lra.
Qed.

Lemma Qle_bool_compat_l (k x y : Q) : (x == y)%Q -> Qle_bool x k = Qle_bool y k.
Proof.
  intro H. destruct (Qle_bool x k) eqn:E1, (Qle_bool y k) eqn:E2;
    try reflexivity; reflectQ; rewrite H in E1; lra.
Qed.

Lemma Qle_bool_compat_r (k x y : Q) : (x == y)%Q -> Qle_bool k x = Qle_bool k y.
Proof.
  intro H. destruct (Qle_bool k x) eqn:E1, (Qle_bool k y) eqn:E2;
    try reflexivity; reflectQ; rewrite H in E1; lra.
Qed.

(** *** Complexity of a case *)

Lemma dealValue_lt (c : Case.CaseData) (k : Q) :
  JS.Qlt_bool k (JS.orZero (JS.parseFloatField (Case.dealValue c)))
  = JS.Qlt_bool k (dealValueOf c).
Proof. apply Qlt_bool_compat_r, dealValue_of. Qed.

Lemma discount_lt (c : Case.CaseData) (k : Q) :
  JS.Qlt_bool k (JS.orZero (JS.parseFloatField (Case.discountRequested c)))
  = JS.Qlt_bool k (requestedDiscount c).
Proof. apply Qlt_bool_compat_r, discountPercent_requested. Qed.

Lemma complexityScore_formula (c : Case.CaseData) :
  (CaseRouter.complexityScore (CaseRouter.analyzeCaseComplexity c)
   == (sizePoints (dealValueOf c) + discountPoints (requestedDiscount c)
       + JS.lookupOr CaseRouter.categoryComplexity (Case.category c) 1)
      * JS.lookupOr CaseRouter.priorityMultiplier (Case.priority c) 1
      + (if competitorNamed c then 2 else 0)
      + (if multiYear c then 1 else 0))%Q.
Proof.
  unfold CaseRouter.analyzeCaseComplexity, sizePoints, discountPoints,
    competitorNamed, multiYear.
  rewrite !dealValue_lt, !discount_lt.
  repeat match goal with
         | |- context [let '(_, _) := (if ?b then _ else _) in _] => destruct b
         end; cbn [CaseRouter.complexityScore]; ring.
Qed.

Ltac table_cases :=
  repeat match goal with
    | |- context [String.eqb ?a ?b] => destruct (String.eqb a b)
    end.

Lemma categoryComplexity_range (k : option string) :
  (1 <= JS.lookupOr CaseRouter.categoryComplexity k 1 <= 3)%Q.
Proof.
  unfold JS.lookupOr, CaseRouter.categoryComplexity. destruct k as [k |].
  - cbn [JS.lookup]. table_cases; cbn; split; lra.
  - split; lra.
Qed.

Lemma priorityMultiplier_range (k : option string) :
  (1 <= JS.lookupOr CaseRouter.priorityMultiplier k 1 <= 2)%Q.
Proof.
  unfold JS.lookupOr, CaseRouter.priorityMultiplier. destruct k as [k |].
  - cbn [JS.lookup]. table_cases; cbn; split; lra.
  - split; lra.
Qed.

Lemma sizePoints_range (v : Q) : (0 <= sizePoints v <= 3)%Q.
Proof. unfold sizePoints. repeat destruct (JS.Qlt_bool _ _); split; lra. Qed.

Lemma discountPoints_range (d : Q) : (0 <= discountPoints d <= 3)%Q.
Proof. unfold discountPoints. repeat destruct (JS.Qlt_bool _ _); split; lra. Qed.

Lemma complexityScore_lower (c : Case.CaseData) :
  (sizePoints (dealValueOf c) + discountPoints (requestedDiscount c)
   + JS.lookupOr CaseRouter.categoryComplexity (Case.category c) 1
   + (if competitorNamed c then 2 else 0)
   <= CaseRouter.complexityScore (CaseRouter.analyzeCaseComplexity c))%Q.
Proof.
  rewrite complexityScore_formula.
  pose proof (categoryComplexity_range (Case.category c)).
  pose proof (priorityMultiplier_range (Case.priority c)).
  pose proof (sizePoints_range (dealValueOf c)).
  pose proof (discountPoints_range (requestedDiscount c)).
  destruct (competitorNamed c), (multiYear c); nra.
Qed.

Lemma analysis_tiers (c : Case.CaseData) :
  let a := CaseRouter.analyzeCaseComplexity c in
  let s := CaseRouter.complexityScore a in
  CaseRouter.riskLevel a
  = (if Qle_bool 8 s then "high" else if Qle_bool 5 s then "medium"
     else if Qle_bool 3 s then "medium" else "low") /\
  CaseRouter.complexity a
  = (if Qle_bool 8 s then "very_complex" else if Qle_bool 5 s then "complex"
     else if Qle_bool 3 s then "moderate" else "simple").
Proof.
  unfold CaseRouter.analyzeCaseComplexity.
  do 4 (match goal with
        | |- context [let '(_, _) := ?e in _] => destruct e as [? ?]
        end).
  repeat match goal with
         | |- context [let '(_, _) := (if ?b then _ else _) in _] => destruct b eqn:?
         end;
    cbn [CaseRouter.riskLevel CaseRouter.complexity CaseRouter.complexityScore];
    repeat match goal with
      | H : Qle_bool _ _ = _ |- _ => rewrite H; clear H
      end; split; reflexivity.
Qed.

Lemma same_true (field : option string) (literal : string) :
  Case.same field literal = true <-> field = Some literal.
Proof.
  unfold Case.same. destruct field as [s |].
  - rewrite String.eqb_eq. split; congruence.
  - split; discriminate.
Qed.

Lemma special_categories (c : Case.CaseData) :
  Case.same (Case.category c) "technical" || Case.same (Case.category c) "legal" = true ->
  JS.lookupOr CaseRouter.categoryComplexity (Case.category c) 1 = 3%Q.
Proof.
  intro H. apply orb_true_iff in H.
  destruct H as [H | H]; apply same_true in H; rewrite H; reflexivity.
Qed.

Lemma sizePoints_large (v : Q) : (100000 < v)%Q -> (2 <= sizePoints v)%Q.
Proof.
  intro H. unfold sizePoints.
  destruct (JS.Qlt_bool 500000 v); [lra |].
  destruct (JS.Qlt_bool 100000 v) eqn:E; [lra | reflectQ; lra].
Qed.

Lemma sizePoints_huge (v : Q) : (500000 < v)%Q -> sizePoints v = 3%Q.
Proof.
  intro H. unfold sizePoints.
  destruct (JS.Qlt_bool 500000 v) eqn:E; [reflexivity | reflectQ; lra].
Qed.

(** X1: a case the analysis marks auto-approvable is routed to
    "Auto-approved" at level 1 with the timeline "Immediate", without a
    second approver and with "Sales Manager" as its whole escalation
    path; it is simple and of low risk, its deal value is at most
    100000, its category is neither technical nor legal, and it names
    no competitor. *)
Theorem auto_approvable_routing (c : Case.CaseData) :
  CaseRouter.Summary.autoApprovable (CaseRouter.analysis (CaseRouter.routeCase c)) = true ->
  let r := CaseRouter.routing (CaseRouter.routeCase c) in
  let a := CaseRouter.analysis (CaseRouter.routeCase c) in
  CaseRouter.Routing.primaryApprover r = "Auto-approved" /\
  CaseRouter.Routing.approvalLevel r = 1%Z /\
  CaseRouter.Routing.expectedTimeline r = "Immediate" /\
  CaseRouter.Routing.secondaryApprover r = None /\
  CaseRouter.Routing.escalationPath r = ["Sales Manager"] /\
  CaseRouter.Summary.complexity a = "simple" /\
  CaseRouter.Summary.riskLevel a = "low" /\
  (dealValueOf c <= 100000)%Q /\
  Case.same (Case.category c) "technical" = false /\
  Case.same (Case.category c) "legal" = false /\
  competitorNamed c = false.
Proof.
  intros Hauto r a. subst r a. unfold CaseRouter.routeCase in *.
  cbn [CaseRouter.analysis CaseRouter.routing CaseRouter.Summary.autoApprovable
       CaseRouter.Summary.complexity CaseRouter.Summary.riskLevel
       CaseRouter.Routing.primaryApprover CaseRouter.Routing.approvalLevel
       CaseRouter.Routing.expectedTimeline CaseRouter.Routing.secondaryApprover
       CaseRouter.Routing.escalationPath] in *.
  pose proof Hauto as Hs. rewrite autoApprovable_spec in Hs.
  apply andb_true_iff in Hs. destruct Hs as [Hs _]. apply Qle_bool_iff in Hs.
  pose proof (complexityScore_lower c) as Hlow.
  pose proof (categoryComplexity_range (Case.category c)) as Hcat.
  pose proof (sizePoints_range (dealValueOf c)) as Hsz.
  pose proof (discountPoints_range (requestedDiscount c)) as Hdp.
  destruct (analysis_tiers c) as [Hrisk Hcx]. cbv zeta in Hrisk, Hcx.
  set (an := CaseRouter.analyzeCaseComplexity c) in *.
  assert (H8 : Qle_bool 8 (CaseRouter.complexityScore an) = false)
    by (apply Qle_bool_false_iff; lra).
  assert (H5 : Qle_bool 5 (CaseRouter.complexityScore an) = false)
    by (apply Qle_bool_false_iff; lra).
  assert (H3 : Qle_bool 3 (CaseRouter.complexityScore an) = false)
    by (apply Qle_bool_false_iff; lra).
  rewrite H8, H5, H3 in Hrisk, Hcx.
  assert (Hdv : (dealValueOf c <= 100000)%Q).
  { apply Qnot_lt_le. intro Hbig. pose proof (sizePoints_large _ Hbig).
    destruct (competitorNamed c); lra. }
  assert (Hcomp : competitorNamed c = false).
  { destruct (competitorNamed c); [lra | reflexivity]. }
  assert (Hspecial : Case.same (Case.category c) "technical"
                     || Case.same (Case.category c) "legal" = false).
  { destruct (_ || _) eqn:E; [| reflexivity].
    rewrite (special_categories c E) in Hlow. rewrite Hcomp in Hlow. lra. }
  apply orb_false_iff in Hspecial. destruct Hspecial as [Htech Hlegal].
  unfold CaseRouter.determineApprovalLevel, CaseRouter.buildEscalationPath.
  cbv zeta. rewrite Hauto, Hrisk, Hcx, !dealValue_lt.
  assert (Hnot : JS.Qlt_bool 100000 (dealValueOf c) = false)
    by (apply Qlt_bool_false_iff; exact Hdv).
  rewrite Hnot.
  cbn [CaseRouter.primaryApprover CaseRouter.level CaseRouter.timeline
       CaseRouter.secondaryApprover String.eqb Ascii.eqb Bool.eqb orb Z.leb
       Z.compare Pos.compare Pos.compare_cont app].
  repeat split; assumption.
Qed.

Lemma auto_approvable_routing_witness :
  CaseRouter.Summary.autoApprovable
    (CaseRouter.analysis (CaseRouter.routeCase Examples.smallPricingCase)) = true /\
  CaseRouter.Routing.primaryApprover
    (CaseRouter.routing (CaseRouter.routeCase Examples.smallPricingCase))
  = "Auto-approved".
Proof.
  assert (H : CaseRouter.Summary.autoApprovable
                (CaseRouter.analysis (CaseRouter.routeCase Examples.smallPricingCase))
              = true) by (vm_compute; reflexivity).
  split; [exact H |].
  exact (proj1 (auto_approvable_routing Examples.smallPricingCase H)).
Defined.

(** *** Routing by discount bracket *)

Lemma discountApproval_compat (d d' size size' : Q) :
  (d == d')%Q ->
  ROE.discountApproval (ROE.getApprovalRequirement d size)
  = ROE.discountApproval (ROE.getApprovalRequirement d' size').
Proof.
  intro H. rewrite !discountApproval_brackets.
  rewrite !(Qle_bool_compat_r _ _ _ H), !(Qle_bool_compat_l _ _ _ H). reflexivity.
Qed.

Lemma Qlt_bool_true (x y : Q) : (x < y)%Q -> JS.Qlt_bool x y = true.
Proof. intro H. apply Qlt_bool_iff. exact H. Qed.

Lemma Qle_bool_true (x y : Q) : (x <= y)%Q -> Qle_bool x y = true.
Proof. intro H. apply Qle_bool_iff. exact H. Qed.

Lemma Qle_bool_false (x y : Q) : (y < x)%Q -> Qle_bool x y = false.
Proof. intro H. apply Qle_bool_false_iff. exact H. Qed.



Lemma bracket_of (d size : Q) :
  ((11 <= d <= 20)%Q ->
   ROE.discountApproval (ROE.getApprovalRequirement d size)
   = Some {| ROE.approver := "Sales Manager"; ROE.timeframe := "24 hours" |}) /\
  ((21 <= d <= 30)%Q ->
   ROE.discountApproval (ROE.getApprovalRequirement d size)
   = Some {| ROE.approver := "Regional Director"; ROE.timeframe := "48 hours" |}) /\
  ((31 <= d)%Q ->
   ROE.discountApproval (ROE.getApprovalRequirement d size)
   = Some {| ROE.approver := "VP Sales + Finance"; ROE.timeframe := "72 hours" |}) /\
  ((0 <= d <= 10)%Q ->
   ROE.discountApproval (ROE.getApprovalRequirement d size)
   = Some {| ROE.approver := "Auto-approved"; ROE.timeframe := "Immediate" |}).
Proof.
  rewrite discountApproval_brackets.
  repeat split; intros [? ?] || intros ?.
  - rewrite (Qle_bool_false d 10), (Qle_bool_true 11 d), (Qle_bool_true d 20)
      by lra.
    now rewrite andb_false_r.
  - rewrite (Qle_bool_false d 10), (Qle_bool_false d 20), (Qle_bool_true 21 d),
      (Qle_bool_true d 30) by lra.
    now rewrite !andb_false_r.
  - rewrite (Qle_bool_false d 10), (Qle_bool_false d 20), (Qle_bool_false d 30),
      (Qle_bool_true 31 d) by lra.
    now rewrite !andb_false_r.
  - now rewrite (Qle_bool_true 0 d), (Qle_bool_true d 10) by lra.
Qed.




(** *** Escalation, urgency and levels *)





Lemma discountApproval_listed (d size : Q) (A : ROE.Approval) :
  ROE.discountApproval (ROE.getApprovalRequirement d size) = Some A ->
  In (ROE.approver A)
     ["Auto-approved"; "Sales Manager"; "Regional Director"; "VP Sales + Finance"].
Proof.
  rewrite discountApproval_brackets.
  repeat match goal with
         | |- context [if ?b then _ else _] => destruct b
         end; intros H; inversion H; subst; cbn; tauto.
Qed.

(** X6: the approval level of a routed case lies between 1 and 5; it is
    1 exactly for the auto-approvable cases, and 5 exactly when the
    approver is "VP Sales + Finance". *)
Theorem approval_level_range (c : Case.CaseData) :
  let r := CaseRouter.routeCase c in
  (1 <= CaseRouter.Routing.approvalLevel (CaseRouter.routing r) <= 5)%Z /\
  (CaseRouter.Routing.approvalLevel (CaseRouter.routing r) = 1%Z
   <-> CaseRouter.Summary.autoApprovable (CaseRouter.analysis r) = true) /\
  (CaseRouter.Routing.approvalLevel (CaseRouter.routing r) = 5%Z
   <-> CaseRouter.Routing.primaryApprover (CaseRouter.routing r) = "VP Sales + Finance").
Proof.
  cbv zeta. unfold CaseRouter.routeCase.
  cbn [CaseRouter.routing CaseRouter.analysis CaseRouter.Summary.autoApprovable
       CaseRouter.Routing.primaryApprover CaseRouter.Routing.approvalLevel].
  set (an := CaseRouter.analyzeCaseComplexity c). clearbody an.
  unfold CaseRouter.determineApprovalLevel. cbv zeta.
  destruct (CaseRouter.autoApprovable an).
  { cbn [CaseRouter.level CaseRouter.primaryApprover].
    repeat split; try lia; try discriminate. }
  match goal with
  | |- context [match ?o with Some _ => _ | None => _ end] => destruct o as [A |] eqn:HA
  end.
  - assert (Hin : In (ROE.approver A)
        ["Auto-approved"; "Sales Manager"; "Regional Director"; "VP Sales + Finance"]).
    { destruct (_ && _) in HA; [| discriminate].
      apply discountApproval_listed in HA. exact HA. }
    cbn [CaseRouter.level CaseRouter.primaryApprover].
    cbn [In] in Hin.
    destruct Hin as [<- | [<- | [<- | [<- | []]]]];
      vm_compute; repeat split; intros; congruence.
  - repeat match goal with
           | |- context [if ?b then _ else _] => destruct b
           end;
      cbn [CaseRouter.level CaseRouter.primaryApprover];
      repeat split; try lia; try discriminate.
Qed.

(** *** Smaller terms *)

Lemma sizePoints_monotone (v v' : Q) :
  (v' <= v)%Q -> (sizePoints v' <= sizePoints v)%Q.
Proof.
  intro H. unfold sizePoints.
  qcase (JS.Qlt_bool 500000 v'); qcase (JS.Qlt_bool 100000 v');
    qcase (JS.Qlt_bool 25000 v'); qcase (JS.Qlt_bool 500000 v);
    qcase (JS.Qlt_bool 100000 v); qcase (JS.Qlt_bool 25000 v); lra.
Qed.

Lemma discountPoints_monotone (d d' : Q) :
  (d' <= d)%Q -> (discountPoints d' <= discountPoints d)%Q.
Proof.
  intro H. unfold discountPoints.
  qcase (JS.Qlt_bool 30 d'); qcase (JS.Qlt_bool 20 d');
    qcase (JS.Qlt_bool 10 d'); qcase (JS.Qlt_bool 30 d);
    qcase (JS.Qlt_bool 20 d); qcase (JS.Qlt_bool 10 d); lra.
Qed.

(** X7: lowering the requested discount or the deal value of a draft
    never raises its complexity score, and keeps an auto-approvable
    draft auto-approvable. *)
Theorem smaller_terms_stay_auto_approvable (c : Case.CaseData) (d v : Q) :
  (d <= requestedDiscount c)%Q ->
  (v <= dealValueOf c)%Q ->
  (CaseRouter.complexityScore (CaseRouter.analyzeCaseComplexity (withTerms d v c))
   <= CaseRouter.complexityScore (CaseRouter.analyzeCaseComplexity c))%Q /\
  (CaseRouter.Summary.autoApprovable (CaseRouter.analysis (CaseRouter.routeCase c))
   = true ->
   CaseRouter.Summary.autoApprovable
     (CaseRouter.analysis (CaseRouter.routeCase (withTerms d v c))) = true).
Proof.
  intros Hd Hv.
  assert (Hscore :
    (CaseRouter.complexityScore (CaseRouter.analyzeCaseComplexity (withTerms d v c))
     <= CaseRouter.complexityScore (CaseRouter.analyzeCaseComplexity c))%Q).
  { rewrite (complexityScore_formula c), (complexityScore_formula (withTerms d v c)).
    change (dealValueOf (withTerms d v c)) with v.
    change (requestedDiscount (withTerms d v c)) with d.
    change (competitorNamed (withTerms d v c)) with (competitorNamed c).
    change (multiYear (withTerms d v c)) with (multiYear c).
    cbn [Case.category Case.priority withTerms].
    pose proof (sizePoints_monotone _ _ Hv).
    pose proof (discountPoints_monotone _ _ Hd).
    pose proof (priorityMultiplier_range (Case.priority c)).
    set (m := JS.lookupOr CaseRouter.priorityMultiplier (Case.priority c) 1) in *.
    set (k := JS.lookupOr CaseRouter.categoryComplexity (Case.category c) 1) in *.
    clearbody m k.
    destruct (competitorNamed c), (multiYear c); nra. }
  split; [exact Hscore |].
  unfold CaseRouter.routeCase.
  cbn [CaseRouter.analysis CaseRouter.Summary.autoApprovable].
  rewrite !autoApprovable_spec, !andb_true_iff, !Qle_bool_iff.
  rewrite (discountPercent_requested c), (discountPercent_requested (withTerms d v c)).
  change (requestedDiscount (withTerms d v c)) with d.
  intros [H1 H2]. split; lra.
Qed.

Lemma smaller_terms_stay_auto_approvable_witness :
  CaseRouter.Summary.autoApprovable
    (CaseRouter.analysis
       (CaseRouter.routeCase (withTerms 2 10000 Examples.smallPricingCase))) = true.
Proof.
  apply (smaller_terms_stay_auto_approvable Examples.smallPricingCase 2 10000).
  - unfold Qle. cbn. lia.
  - unfold Qle. cbn. lia.
  - vm_compute. reflexivity.
Defined.

(** *** The approval tables *)

Lemma sizeApproval_bracket (d size : Q) :
  ROE.sizeApproval (ROE.getApprovalRequirement d size) = Some (sizeBracket size).
Proof.
  unfold ROE.getApprovalRequirement. cbn [ROE.sizeApproval].
  unfold ROE.dealSizeApprovalTable. cbn [find fst].
  destruct (inSizeRange_brackets size) as (-> & -> & -> & ->).
  unfold sizeBracket.
  destruct (JS.Qlt_bool size 50000) eqn:H1; [reflexivity |].
  destruct (Qle_bool 50000 size) eqn:H2; [| reflectQ; lra].
  destruct (Qle_bool size 250000) eqn:H3; [reflexivity |].
  destruct (Qle_bool 250000 size) eqn:H4; [| reflectQ; lra].
  destruct (Qle_bool size 500000) eqn:H5; [reflexivity |].
  destruct (Qle_bool 500000 size) eqn:H6; [reflexivity | reflectQ; lra].
Qed.

Lemma highestLevel_unfold (d size : Q) :
  ROE.highestLevel (ROE.getApprovalRequirement d size)
  = if ROE.sameApprover (ROE.discountApproval (ROE.getApprovalRequirement d size))
                        (ROE.sizeApproval (ROE.getApprovalRequirement d size))
    then ROE.Single (ROE.discountApproval (ROE.getApprovalRequirement d size))
    else ROE.Both (ROE.discountApproval (ROE.getApprovalRequirement d size))
                  (ROE.sizeApproval (ROE.getApprovalRequirement d size)).
Proof. reflexivity. Qed.

(** On numbers the deal-size table answers for every deal size, and
    [highestLevel] is the single discount approval exactly when both
    tables name the same approver, that is for 11 to 20% below 50000
    and for 21 to 30% between 50000 and 250000; in every other case it
    is the pair of both approvals, the first of which may be missing. *)
Lemma highestLevel_of_numbers (d size : Q) :
  let req := ROE.getApprovalRequirement d size in
  (ROE.highestLevel req = ROE.Single (ROE.discountApproval req)
   <-> (11 <= d <= 20 /\ size < 50000)%Q
       \/ (21 <= d <= 30 /\ 50000 <= size <= 250000)%Q) /\
  (ROE.highestLevel req = ROE.Single (ROE.discountApproval req)
   \/ ROE.highestLevel req
      = ROE.Both (ROE.discountApproval req) (Some (sizeBracket size))) /\
  ROE.sizeApproval req = Some (sizeBracket size).
Proof.
  cbv zeta. rewrite highestLevel_unfold, sizeApproval_bracket, discountApproval_brackets.
  unfold sizeBracket.
  qcase (Qle_bool 0 d); qcase (Qle_bool d 10); qcase (Qle_bool 11 d);
    qcase (Qle_bool d 20); qcase (Qle_bool 21 d); qcase (Qle_bool d 30);
    qcase (Qle_bool 31 d); qcase (JS.Qlt_bool size 50000);
    qcase (Qle_bool size 250000); qcase (Qle_bool size 500000);
    cbn [andb ROE.sameApprover ROE.approver String.eqb Ascii.eqb Bool.eqb];
    (split; [split; [intros H; first [discriminate H | lra | exfalso; lra]
                    | intros H; first [reflexivity | exfalso; lra]]
            | split; [first [left; reflexivity | right; reflexivity]
                     | reflexivity]]).
Qed.

(** *** The checks and the overall verdict *)

Ltac consistency :=
  unfold consistent;
  cbn [PolicyChecker.compliant PolicyChecker.violations PolicyChecker.warnings
       PolicyChecker.score PolicyChecker.fresh PolicyChecker.setScore
       PolicyChecker.setCompliant PolicyChecker.pushViolation
       PolicyChecker.pushWarning PolicyChecker.pushRecommendation
       PolicyChecker.minScore app PolicyChecker.severity];
  split; [split; intros; congruence |];
  split; [repeat constructor |];
  eexists; split; [reflexivity |];
  repeat split; intros; try lia; try congruence.

Lemma checks_consistent (c : Case.CaseData) :
  Forall (fun check => consistent (snd check c)) PolicyChecker.methods.
Proof.
  unfold PolicyChecker.methods.
  repeat (apply Forall_cons; [cbn [snd] |]); [.. | apply Forall_nil].
  - unfold PolicyChecker.discountCompliance. branches; consistency.
  - unfold PolicyChecker.minimumRequirements. branches; consistency.
  - unfold PolicyChecker.approvalWorkflow. branches; consistency.
  - unfold PolicyChecker.dealStructure. branches; consistency.
  - unfold PolicyChecker.competitivePolicy. branches; consistency.
  - unfold PolicyChecker.pilotProgramRules. branches; consistency.
  - unfold PolicyChecker.paymentTerms. branches; consistency.
  - unfold PolicyChecker.technicalCompliance. branches; consistency.
  - unfold PolicyChecker.legalCompliance. branches; consistency.
Qed.

Lemma policyChecker_checks (c : Case.CaseData) :
  PolicyChecker.Compliance.complianceChecks
    (PolicyChecker.compliance
       (PolicyChecker.checkCompliance PolicyChecker.policyChecker c))
  = map (fun check => (fst check, snd check c)) PolicyChecker.methods.
Proof. reflexivity. Qed.

(** X9: every check result reported under [complianceChecks] is
    consistent: its flag is true exactly when it lists no violation,
    each of its violations has the severity "high", and its score lies
    between 10 and 100, is at most 40 with a violation, at least 60
    without one, and 100 when it lists neither violation nor warning. *)
Theorem reported_checks_are_consistent (c : Case.CaseData) (name : string)
        (r : PolicyChecker.CheckResult) :
  JS.lookup name
    (PolicyChecker.Compliance.complianceChecks
       (PolicyChecker.compliance
          (PolicyChecker.checkCompliance PolicyChecker.policyChecker c)))
  = Some r ->
  consistent r.
Proof.
  rewrite policyChecker_checks. intro H. apply lookup_In in H.
  apply in_map_iff in H. destruct H as [check [Heq Hin]].
  injection Heq as _ <-.
  pose proof (checks_consistent c) as Hall. rewrite Forall_forall in Hall.
  exact (Hall check Hin).
Qed.

Lemma reported_checks_are_consistent_witness :
  consistent (PolicyChecker.paymentTerms net90Case) /\
  PolicyChecker.score (PolicyChecker.paymentTerms net90Case) = Some 40%Z.
Proof.
  split; [| reflexivity].
  apply (reported_checks_are_consistent net90Case "paymentTerms"). reflexivity.
Defined.

Lemma consistent_aggregate (rs : list PolicyChecker.CheckResult) :
  Forall consistent rs ->
  let m := fold_right Z.min 100%Z (flat_map contribution rs) in
  let V := flat_map PolicyChecker.violations rs in
  let W := flat_map PolicyChecker.warnings rs in
  (10 <= m <= 100)%Z /\
  (V <> [] -> (m <= 40)%Z) /\
  (V = [] -> (60 <= m)%Z) /\
  (V = [] -> W = [] -> m = 100%Z) /\
  Forall (fun v => PolicyChecker.severity v = "high") V.
Proof.
  induction 1 as [| r rs Hr _ IH]; cbn [flat_map fold_right].
  - cbv zeta. repeat split; try lia; try congruence. constructor.
  - cbv zeta in *. destruct IH as (I1 & I2 & I3 & I4 & I5).
    destruct Hr as (_ & Hhigh & s & Hs & Hrange & Hviol & Hnone & Hclean).
    replace (contribution r) with [s] by (unfold contribution; now rewrite Hs).
    cbn [app fold_right].
    set (m := fold_right Z.min 100%Z (flat_map contribution rs)) in *.
    clearbody m.
    repeat split.
    + clear - Hrange I1. lia.
    + clear - Hrange I1. lia.
    + intros HV. destruct (PolicyChecker.violations r) as [| v vs] eqn:E.
      * cbn [app] in HV. specialize (I2 HV). clear - I2. lia.
      * assert (Hle : (s <= 40)%Z) by (apply Hviol; discriminate). clear - Hle. lia.
    + intros HV. apply app_eq_nil in HV. destruct HV as [HV1 HV2].
      specialize (Hnone HV1). specialize (I3 HV2). clear - Hnone I3. lia.
    + intros HV HW. apply app_eq_nil in HV. destruct HV as [HV1 HV2].
      apply app_eq_nil in HW. destruct HW as [HW1 HW2].
      specialize (Hclean HV1 HW1). specialize (I4 HV2 HW2). clear - Hclean I4. lia.
    + apply Forall_app. split; assumption.
Qed.

Lemma overallOf_high (V W : list PolicyChecker.Finding) :
  Forall (fun v => PolicyChecker.severity v = "high") V ->
  overallOf V W
  = match V, W with
    | _ :: _, _ => "non_compliant"
    | [], _ :: _ => "conditional"
    | [], [] => "compliant"
    end.
Proof.
  intros H. unfold overallOf. destruct V as [| v vs].
  - destruct W; reflexivity.
  - inversion H as [| ? ? Hv _]; subst. cbn [existsb]. rewrite Hv. reflexivity.
Qed.

(** X10: for the singleton, the overall status is "non_compliant"
    exactly when there is a violation, which is exactly when the score
    is at most 40; it is "conditional" exactly when there are warnings
    and no violation, and the score is then at least 60; and it is
    "compliant" exactly when there is neither, with the score 100. *)
Theorem status_follows_violations (c : Case.CaseData) :
  let result :=
    PolicyChecker.compliance
      (PolicyChecker.checkCompliance PolicyChecker.policyChecker c) in
  let status := PolicyChecker.Compliance.overallCompliance result in
  let overall := PolicyChecker.Compliance.score result in
  let V := PolicyChecker.Compliance.violations result in
  let W := PolicyChecker.Compliance.warnings result in
  (10 <= overall <= 100)%Z /\
  (status = "non_compliant" <-> V <> []) /\
  (status = "non_compliant" <-> (overall <= 40)%Z) /\
  (status = "conditional" <-> V = [] /\ W <> []) /\
  (status = "conditional" -> (60 <= overall)%Z) /\
  (status = "compliant" <-> V = [] /\ W = []) /\
  (status = "compliant" -> overall = 100%Z).
Proof.
  intros result status overall V W. subst status overall V W result.
  rewrite checkCompliance_overall, determineOverallCompliance_spec.
  rewrite loop_violations, loop_warnings, policyChecker_returned,
    policyChecker_warnings.
  rewrite compliance_score, compliance_violations, compliance_warnings.
  cbn [PolicyChecker.Compliance.violations PolicyChecker.Compliance.warnings
       PolicyChecker.initialResults app].
  assert (Hall : Forall consistent (map (fun check => snd check c) PolicyChecker.methods)).
  { apply Forall_map. apply checks_consistent. }
  apply consistent_aggregate in Hall. cbv zeta in Hall.
  unfold checkScores.
  rewrite !(flat_map_concat_map _ PolicyChecker.methods).
  rewrite !flat_map_concat_map, !map_map in Hall.
  rewrite !flat_map_concat_map, !map_map.
  set (m := fold_right Z.min 100%Z _) in *.
  set (V := concat (map (fun x => PolicyChecker.violations (snd x c)) _)) in *.
  set (W := concat (map (fun x => PolicyChecker.warnings (snd x c)) _)) in *.
  clearbody m. destruct Hall as (H1 & H2 & H3 & H4 & H5).
  rewrite (overallOf_high V W H5).
  destruct V as [| v vs]; [destruct W as [| w ws] |].
  - specialize (H3 eq_refl). specialize (H4 eq_refl eq_refl). clear H2 H5.
    repeat split; intros; try lia; try congruence; try tauto;
      try (exfalso; lia); try (destruct H; congruence).
  - specialize (H3 eq_refl). clear H2 H4 H5.
    repeat split; intros; try lia; try congruence; try tauto;
      try (exfalso; lia); try (destruct H; congruence).
  - assert (Hle : (m <= 40)%Z) by (apply H2; discriminate). clear H2 H3 H4 H5.
    repeat split; intros; try lia; try congruence; try tauto;
      try (exfalso; lia); try (destruct H; congruence).
Qed.

(** *** Risk and approvers of the checker *)

Lemma assessRisk_score (c : Case.CaseData) (res : PolicyChecker.Compliance.Results) :
  PolicyChecker.riskScore (PolicyChecker.assessRisk c res)
  = (20 * Z.of_nat (List.length (PolicyChecker.Compliance.violations res))
     + points (JS.Qlt_bool 25 (requestedDiscount c)) 15
     + points (JS.Qlt_bool 500000 (dealValueOf c)) 10
     + points (competitiveSignal c) 5
     + points (Case.same (Case.category c) "legal"
               || Case.same (Case.category c) "technical") 10)%Z.
Proof.
  unfold PolicyChecker.assessRisk. cbv zeta.
  cbn [PolicyChecker.riskScore]. rewrite dealValue_lt, discount_lt.
  fold (competitiveSignal c).
  set (n := Z.of_nat _).
  assert (Hn : (0 <= n)%Z) by apply Nat2Z.is_nonneg.
  destruct (0 <? n)%Z eqn:E0;
    destruct (JS.Qlt_bool 25 (requestedDiscount c));
    destruct (JS.Qlt_bool 500000 (dealValueOf c));
    destruct (competitiveSignal c);
    destruct (Case.same (Case.category c) "legal" || Case.same (Case.category c) "technical");
    cbn [filter fst snd fold_left points]; lia.
Qed.

Lemma assessRisk_level (c : Case.CaseData) (res : PolicyChecker.Compliance.Results) :
  PolicyChecker.riskLevel (PolicyChecker.assessRisk c res)
  = if (40 <=? PolicyChecker.riskScore (PolicyChecker.assessRisk c res))%Z then "high"
    else if (20 <=? PolicyChecker.riskScore (PolicyChecker.assessRisk c res))%Z
         then "medium" else "low".
Proof. reflexivity. Qed.

(** X11: two violations or more make the risk "high" and a single one
    rules out "low"; without a violation the risk score is at most 40,
    and the risk is "high" only when the discount exceeds 25%, the deal
    exceeds 500000, the case is competitive and its category is legal or
    technical, all four together. *)
Theorem risk_level_from_violations (c : Case.CaseData)
        (res : PolicyChecker.Compliance.Results) :
  let ra := PolicyChecker.assessRisk c res in
  let n := List.length (PolicyChecker.Compliance.violations res) in
  (2 <= n -> PolicyChecker.riskLevel ra = "high")%nat /\
  (1 <= n -> PolicyChecker.riskLevel ra <> "low")%nat /\
  (n = 0%nat ->
   (PolicyChecker.riskScore ra <= 40)%Z /\
   (PolicyChecker.riskLevel ra = "high"
    <-> JS.Qlt_bool 25 (requestedDiscount c) = true /\
        JS.Qlt_bool 500000 (dealValueOf c) = true /\
        competitiveSignal c = true /\
        Case.same (Case.category c) "legal"
        || Case.same (Case.category c) "technical" = true)).
Proof.
  cbv zeta. rewrite assessRisk_level, assessRisk_score.
  set (n := List.length _).
  destruct (JS.Qlt_bool 25 (requestedDiscount c));
    destruct (JS.Qlt_bool 500000 (dealValueOf c));
    destruct (competitiveSignal c);
    destruct (Case.same (Case.category c) "legal" || Case.same (Case.category c) "technical");
    cbn [points]; repeat split; intros;
    repeat match goal with
           | |- context [(?a <=? ?b)%Z] => destruct (Z.leb_spec a b)
           | H : context [(?a <=? ?b)%Z] |- _ => destruct (Z.leb_spec a b)
           end; try reflexivity; try discriminate; try lia;
    try (exfalso; lia); try (subst n; lia).
Qed.

Ltac string_facts :=
  repeat match goal with
         | H : _ \/ _ |- _ => destruct H
         | H : _ /\ _ |- _ => destruct H
         | H : False |- _ => destruct H
         | H : @eq string _ _ |- _ => discriminate H
         | H : @eq bool _ _ |- _ => discriminate H
         | H : @eq (list _) _ _ |- _ => discriminate H
         | H : ?x <> ?x |- _ => now elim H
         end.

(** X12: the approval requirements of the checker: the level is
    "executive" exactly for a deal above 500000 or a violation; the
    approvers start with "Sales Manager" and hold no name twice; a
    violation adds "VP Sales" and the exception condition; "Legal Team"
    is an approver exactly for legal cases, which also get the timeline
    "5-7 days", and "Engineering Manager" exactly for technical ones. *)
Theorem checker_approvers (c : Case.CaseData)
        (res : PolicyChecker.Compliance.Results) :
  let a := PolicyChecker.getApprovalRequirements c res in
  let V := PolicyChecker.Compliance.violations res in
  (PolicyChecker.level a = "executive"
   <-> (500000 < dealValueOf c)%Q \/ V <> []) /\
  hd_error (PolicyChecker.approvers a) = Some "Sales Manager" /\
  NoDup (PolicyChecker.approvers a) /\
  (V <> [] -> In "VP Sales" (PolicyChecker.approvers a) /\
              PolicyChecker.conditions a
              = ["Exception approval required for policy violations"]) /\
  (V = [] -> PolicyChecker.conditions a = []) /\
  (In "Legal Team" (PolicyChecker.approvers a) <-> Case.category c = Some "legal") /\
  (In "Engineering Manager" (PolicyChecker.approvers a)
   <-> Case.category c = Some "technical") /\
  (PolicyChecker.timeline a = "5-7 days" <-> Case.category c = Some "legal").
Proof.
  cbv zeta. unfold PolicyChecker.getApprovalRequirements. cbv zeta.
  rewrite !dealValue_lt. rewrite <- !same_true, <- Qlt_bool_iff.
  assert (Hexcl : Case.same (Case.category c) "legal" = true ->
                  Case.same (Case.category c) "technical" = false).
  { rewrite same_true. intros ->. reflexivity. }
  destruct (PolicyChecker.Compliance.violations res) as [| v vs];
    cbn [List.length Nat.ltb Nat.leb];
    destruct (JS.Qlt_bool 500000 (dealValueOf c));
    destruct (JS.Qlt_bool 100000 (dealValueOf c));
    destruct (Case.same (Case.category c) "legal") eqn:EL;
    destruct (Case.same (Case.category c) "technical") eqn:ET;
    try (specialize (Hexcl eq_refl); discriminate Hexcl); clear Hexcl;
    cbn [existsb String.eqb Ascii.eqb Bool.eqb orb app
         PolicyChecker.level PolicyChecker.approvers PolicyChecker.timeline
         PolicyChecker.conditions hd_error In];
    repeat split; intros; string_facts; try reflexivity; try tauto;
    try discriminate;
    try (repeat constructor; cbn [In]; intros ?; string_facts).
Qed.


Lemma violations_flagged (c : Case.CaseData) (res : PolicyChecker.Compliance.Results) :
  PolicyChecker.Compliance.violations res <> [] ->
  In "Policy violations present"
     (PolicyChecker.riskFactors (PolicyChecker.assessRisk c res)) /\
  In "Provide strong exception justification"
     (PolicyChecker.mitigation (PolicyChecker.assessRisk c res)).
Proof.
  intro HV. unfold PolicyChecker.assessRisk. cbv zeta.
  cbn [PolicyChecker.riskFactors PolicyChecker.mitigation].
  assert (Hn : (0 <? Z.of_nat (List.length (PolicyChecker.Compliance.violations res)))%Z
               = true).
  { destruct (PolicyChecker.Compliance.violations res); [now elim HV | reflexivity]. }
  rewrite Hn. cbn [filter fst snd map]. split; [now left |].
  unfold PolicyChecker.generateRiskMitigation.
  cbn [existsb]. rewrite String.eqb_refl. cbn [orb].
  apply in_or_app. right. apply in_or_app. left. now left.
Qed.

Lemma violations_escalate (c : Case.CaseData) (res : PolicyChecker.Compliance.Results) :
  PolicyChecker.Compliance.violations res <> [] ->
  PolicyChecker.level (PolicyChecker.getApprovalRequirements c res) = "executive" /\
  In "VP Sales" (PolicyChecker.approvers (PolicyChecker.getApprovalRequirements c res)) /\
  PolicyChecker.conditions (PolicyChecker.getApprovalRequirements c res)
  = ["Exception approval required for policy violations"].
Proof.
  intro HV. unfold PolicyChecker.getApprovalRequirements. cbv zeta.
  destruct (PolicyChecker.Compliance.violations res); [now elim HV |].
  cbn [List.length Nat.ltb Nat.leb].
  destruct (JS.Qlt_bool 500000 _); [| destruct (JS.Qlt_bool 100000 _)];
    destruct (Case.same (Case.category c) "legal");
    destruct (Case.same (Case.category c) "technical");
    cbn; repeat split; tauto.
Qed.

Lemma violations_raise_risk (c : Case.CaseData) (res : PolicyChecker.Compliance.Results) :
  PolicyChecker.Compliance.violations res <> [] ->
  PolicyChecker.riskLevel (PolicyChecker.assessRisk c res) <> "low".
Proof.
  intro HV. rewrite assessRisk_level, assessRisk_score.
  assert (Hn : (1 <= Z.of_nat (List.length (PolicyChecker.Compliance.violations res)))%Z).
  { destruct (PolicyChecker.Compliance.violations res); [now elim HV | cbn; lia]. }
  set (n := Z.of_nat _) in *. clearbody n.
  assert (Hp : forall b k, (0 <= k)%Z -> (0 <= points b k)%Z)
    by (intros [] k Hk; cbn; lia).
  pose proof (Hp (JS.Qlt_bool 25 (requestedDiscount c)) 15%Z ltac:(lia)).
  pose proof (Hp (JS.Qlt_bool 500000 (dealValueOf c)) 10%Z ltac:(lia)).
  pose proof (Hp (competitiveSignal c) 5%Z ltac:(lia)).
  pose proof (Hp (Case.same (Case.category c) "legal"
                  || Case.same (Case.category c) "technical") 10%Z ltac:(lia)).
  clear Hp.
  repeat match goal with
         | |- context [(?a <=? ?b)%Z] => destruct (Z.leb_spec a b)
         end; try discriminate. lia.
Qed.

Lemma policyChecker_status (c : Case.CaseData) :
  let loop :=
    fold_left (PolicyChecker.runCheck PolicyChecker.policyChecker c)
              (PolicyChecker.complianceChecks PolicyChecker.policyChecker)
              PolicyChecker.initialResults in
  PolicyChecker.determineOverallCompliance loop
  = match PolicyChecker.Compliance.violations loop,
          PolicyChecker.Compliance.warnings loop with
    | _ :: _, _ => "non_compliant"
    | [], _ :: _ => "conditional"
    | [], [] => "compliant"
    end.
Proof.
  cbv zeta. rewrite determineOverallCompliance_spec. apply overallOf_high.
  rewrite loop_violations, policyChecker_returned.
  cbn [PolicyChecker.Compliance.violations PolicyChecker.initialResults app].
  assert (Hall : Forall consistent (map (fun check => snd check c) PolicyChecker.methods)).
  { apply Forall_map. apply checks_consistent. }
  apply consistent_aggregate in Hall. cbv zeta in Hall. apply Hall.
Qed.

(** X13: a draft the singleton finds "non_compliant" needs an
    "executive" approval with "VP Sales" among the approvers and the
    exception condition, its risk is not "low", and the risk assessment
    names the violations and asks for an exception justification. *)
Theorem non_compliant_needs_executive (c : Case.CaseData) :
  let result :=
    PolicyChecker.compliance
      (PolicyChecker.checkCompliance PolicyChecker.policyChecker c) in
  PolicyChecker.Compliance.overallCompliance result = "non_compliant" ->
  exists a ra,
    PolicyChecker.Compliance.approvalRequirements result = Some a /\
    PolicyChecker.Compliance.riskAssessment result = Some ra /\
    PolicyChecker.level a = "executive" /\
    In "VP Sales" (PolicyChecker.approvers a) /\
    PolicyChecker.conditions a
    = ["Exception approval required for policy violations"] /\
    PolicyChecker.riskLevel ra <> "low" /\
    In "Policy violations present" (PolicyChecker.riskFactors ra) /\
    In "Provide strong exception justification" (PolicyChecker.mitigation ra).
Proof.
  cbv zeta. rewrite checkCompliance_overall, policyChecker_status.
  unfold PolicyChecker.checkCompliance.
  cbn [PolicyChecker.compliance PolicyChecker.Compliance.approvalRequirements
       PolicyChecker.Compliance.riskAssessment].
  set (loop := fold_left _ _ _).
  intro Hs.
  assert (HV : PolicyChecker.Compliance.violations loop <> []).
  { destruct (PolicyChecker.Compliance.violations loop); [| discriminate].
    destruct (PolicyChecker.Compliance.warnings loop); discriminate. }
  clearbody loop. clear Hs.
  eexists. eexists. split; [reflexivity |]. split; [reflexivity |].
  destruct (violations_escalate c loop HV) as (Hl & Hin & Hcond).
  destruct (violations_flagged c loop HV) as [Hf Hm].
  do 3 (split; [assumption |]). split; [| split; assumption].
  apply violations_raise_risk. exact HV.
Qed.

Lemma non_compliant_needs_executive_witness :
  exists a,
    PolicyChecker.Compliance.approvalRequirements
      (PolicyChecker.compliance
         (PolicyChecker.checkCompliance PolicyChecker.policyChecker steepDiscountCase))
    = Some a /\
    PolicyChecker.level a = "executive".
Proof.
  destruct (non_compliant_needs_executive steepDiscountCase)
    as (a & ra & Ha & _ & Hl & _).
  - vm_compute. reflexivity.
  - exists a. split; assumption.
Defined.

(** *** What the discount check does not see *)

Lemma inferSegment_listed (c : Case.CaseData) :
  In (PolicyChecker.inferSegment c)
     ["smb"; "midmarket"; "enterprise"; "largeEnterprise"; "globalAccounts"].
Proof.
  unfold PolicyChecker.inferSegment. cbv zeta. branches; cbn; tauto.
Qed.

Lemma inferDealType_listed (c : Case.CaseData) :
  In (PolicyChecker.inferDealType c) ["renewal"; "addon"; "upsell"; "newBusiness"].
Proof.
  unfold PolicyChecker.inferDealType. cbv zeta. branches; cbn; tauto.
Qed.

Lemma no_policy_for_addon_upsell (c : Case.CaseData) (region : option string) :
  PolicyChecker.inferDealType c = "addon" \/ PolicyChecker.inferDealType c = "upsell" ->
  ROE.getDiscountPolicy (PolicyChecker.inferDealType c) (PolicyChecker.inferSegment c)
                        region = None.
Proof.
  intros H. pose proof (inferSegment_listed c) as Hs. cbn [In] in Hs.
  destruct H as [-> | ->];
    destruct Hs as [<- | [<- | [<- | [<- | [<- | []]]]]]; reflexivity.
Qed.

(** X14: for a draft whose text makes it an add-on or an upsell, the
    discount check finds no policy: it reports no violation and keeps
    the score 100 whatever the discount, with the single warning
    "policy_lookup" when the check applies. *)
Theorem addon_upsell_discount_unchecked (c : Case.CaseData) :
  PolicyChecker.inferDealType c = "addon" \/ PolicyChecker.inferDealType c = "upsell" ->
  let r := PolicyChecker.discountCompliance c in
  PolicyChecker.violations r = [] /\
  PolicyChecker.compliant r = true /\
  PolicyChecker.score r = Some 100%Z /\
  (JS.truthyNum (JS.parseFloatField (Case.discountRequested c)) = true ->
   Case.category c = Some "pricing" ->
   map PolicyChecker.type (PolicyChecker.warnings r) = ["policy_lookup"]).
Proof.
  intros H r. subst r. unfold PolicyChecker.discountCompliance. cbv zeta.
  rewrite (no_policy_for_addon_upsell c None H).
  destruct (negb _ || negb _) eqn:E.
  - repeat split. intros Ht Hc. apply same_true in Hc. rewrite Ht, Hc in E.
    discriminate.
  - repeat split.
Qed.

Lemma addon_upsell_discount_unchecked_witness :
  (JS.Num 90 = JS.parseFloatField (Case.discountRequested upsellCase)) /\
  PolicyChecker.violations (PolicyChecker.discountCompliance upsellCase) = [] /\
  PolicyChecker.score (PolicyChecker.discountCompliance upsellCase) = Some 100%Z.
Proof.
  split; [reflexivity |].
  assert (H : PolicyChecker.inferDealType upsellCase = "addon"
              \/ PolicyChecker.inferDealType upsellCase = "upsell")
    by (right; vm_compute; reflexivity).
  pose proof (addon_upsell_discount_unchecked upsellCase H) as (Hv & _ & Hs & _).
  split; assumption.
Defined.

Ltac no_regional :=
  cbn [PolicyChecker.recommendations PolicyChecker.fresh PolicyChecker.setScore
       PolicyChecker.setCompliant PolicyChecker.pushViolation
       PolicyChecker.pushWarning PolicyChecker.pushRecommendation
       PolicyChecker.minScore app];
  repeat (apply Forall_cons; [cbn [PolicyChecker.type]; discriminate |]);
  apply Forall_nil.

Lemma minScore_recommendations (r : PolicyChecker.CheckResult) (n : Z) :
  PolicyChecker.recommendations (PolicyChecker.minScore r n)
  = PolicyChecker.recommendations r.
Proof. unfold PolicyChecker.minScore. destruct (PolicyChecker.score r); reflexivity. Qed.

Lemma discountCompliance_recommends_nothing (c : Case.CaseData) :
  PolicyChecker.recommendations (PolicyChecker.discountCompliance c) = [].
Proof.
  unfold PolicyChecker.discountCompliance. cbv zeta.
  destruct (negb _ || negb _); [reflexivity |].
  destruct (ROE.getDiscountPolicy _ _ None) as [p |] eqn:Hp; [| reflexivity].
  pose proof (regionalAdjustment_spec _ _ _ _ Hp) as Hr.
  assert (Hz : JS.Qlt_bool 0 (ROE.regionalAdjustment p) = false).
  { apply Qlt_bool_false_iff. rewrite Hr. cbn. lra. }
  rewrite Hz. branches; reflexivity.
Qed.

(** X15: the checker looks the policy up without a region, that is for
    the default region "namer", whose adjustment is 0: the discount
    check never recommends anything, and no recommendation of the
    aggregated result is a "regional_adjustment". *)
Theorem regional_adjustment_never_recommended (c : Case.CaseData) :
  PolicyChecker.recommendations (PolicyChecker.discountCompliance c) = [] /\
  Forall (fun f => PolicyChecker.type f <> "regional_adjustment")
         (PolicyChecker.Compliance.recommendations
            (PolicyChecker.compliance
               (PolicyChecker.checkCompliance PolicyChecker.policyChecker c))).
Proof.
  split; [apply discountCompliance_recommends_nothing |].
  rewrite checkCompliance_recommendations, policyChecker_returned.
  unfold PolicyChecker.methods. cbn [map snd flat_map].
  rewrite discountCompliance_recommends_nothing. cbn [app].
  repeat (apply Forall_app; split); [.. | apply Forall_nil].
  - unfold PolicyChecker.minimumRequirements. branches;
      rewrite ?minScore_recommendations; no_regional.
  - unfold PolicyChecker.approvalWorkflow. branches; no_regional.
  - unfold PolicyChecker.dealStructure. branches; no_regional.
  - unfold PolicyChecker.competitivePolicy. branches; no_regional.
  - unfold PolicyChecker.pilotProgramRules. branches; no_regional.
  - unfold PolicyChecker.paymentTerms. branches; no_regional.
  - unfold PolicyChecker.technicalCompliance. branches; no_regional.
  - unfold PolicyChecker.legalCompliance. branches; no_regional.
Qed.

(** *** The order of the checks *)

Section CheckOrder.
Import PolicyChecker.

Lemma fold_right_min_perm (l l' : list Z) (a : Z) :
  Permutation l l' -> fold_right Z.min a l = fold_right Z.min a l'.
Proof.
  induction 1 as [| x l l' _ IH | x y l | l l' l'' _ IH1 _ IH2]; cbn [fold_right].
  - reflexivity.
  - now rewrite IH.
  - lia.
  - now rewrite IH1.
Qed.

Lemma existsb_perm {A : Type} (p : A -> bool) (l l' : list A) :
  Permutation l l' -> existsb p l = existsb p l'.
Proof.
  induction 1 as [| x l l' _ IH | x y l | l l' l'' _ IH1 _ IH2]; cbn [existsb].
  - reflexivity.
  - now rewrite IH.
  - now destruct (p x), (p y).
  - now rewrite IH1.
Qed.

Lemma overallOf_perm (V V' W W' : list Finding) :
  Permutation V V' -> Permutation W W' -> overallOf V W = overallOf V' W'.
Proof.
  intros HV HW. unfold overallOf. rewrite (existsb_perm _ _ _ HV).
  destruct (existsb _ V'); [reflexivity |].
  destruct V as [| v V].
  - apply Permutation_nil in HV. subst V'. destruct W as [| w W].
    + apply Permutation_nil in HW. now subst W'.
    + destruct W'; [| reflexivity]. apply Permutation_sym, Permutation_nil in HW.
      discriminate HW.
  - destruct V'; [| reflexivity]. apply Permutation_sym, Permutation_nil in HV.
    discriminate HV.
Qed.

Lemma getApprovalRequirements_length (c : Case.CaseData)
      (res res' : Compliance.Results) :
  List.length (Compliance.violations res) = List.length (Compliance.violations res') ->
  getApprovalRequirements c res = getApprovalRequirements c res'.
Proof. intro H. unfold getApprovalRequirements. now rewrite H. Qed.

Lemma assessRisk_length (c : Case.CaseData) (res res' : Compliance.Results) :
  List.length (Compliance.violations res) = List.length (Compliance.violations res') ->
  assessRisk c res = assessRisk c res'.
Proof. intro H. unfold assessRisk. now rewrite H. Qed.

Variables this this' : Checker.
Variable c : Case.CaseData.
Hypothesis same_methods : forall name, method this name c = method this' name c.
Hypothesis same_checks : Permutation (complianceChecks this) (complianceChecks this').

Lemma returned_perm :
  Permutation (returned this c (complianceChecks this))
              (returned this' c (complianceChecks this')).
Proof.
  unfold returned.
  rewrite (flat_map_ext _ (fun name => match method this' name c with
                                        | Return r => [r]
                                        | Throw _ => []
                                        end)).
  - now apply Permutation_flat_map.
  - intro name. now rewrite same_methods.
Qed.

Lemma warnings_perm :
  Permutation (flat_map (warningsFrom this c) (complianceChecks this))
              (flat_map (warningsFrom this' c) (complianceChecks this')).
Proof.
  rewrite (flat_map_ext _ (warningsFrom this' c)).
  - now apply Permutation_flat_map.
  - intro name. unfold warningsFrom. now rewrite same_methods.
Qed.

Lemma flat_map_perm {A B : Type} (f : A -> list B) (l l' : list A) :
  Permutation l l' -> Permutation (flat_map f l) (flat_map f l').
Proof. apply Permutation_flat_map. Qed.

End CheckOrder.

(** X16: the order in which the checks are listed does not matter: two
    checkers with the same methods whose lists are permutations of each
    other give the same score, the same status, the same approval
    requirements and the same risk assessment, and the same violations,
    warnings and recommendations up to their order. *)
Theorem check_order_is_irrelevant (this this' : PolicyChecker.Checker)
        (c : Case.CaseData) :
  (forall name, PolicyChecker.method this name c = PolicyChecker.method this' name c) ->
  Permutation (PolicyChecker.complianceChecks this)
              (PolicyChecker.complianceChecks this') ->
  let r := PolicyChecker.compliance (PolicyChecker.checkCompliance this c) in
  let r' := PolicyChecker.compliance (PolicyChecker.checkCompliance this' c) in
  PolicyChecker.Compliance.score r = PolicyChecker.Compliance.score r' /\
  PolicyChecker.Compliance.overallCompliance r
  = PolicyChecker.Compliance.overallCompliance r' /\
  Permutation (PolicyChecker.Compliance.violations r)
              (PolicyChecker.Compliance.violations r') /\
  Permutation (PolicyChecker.Compliance.warnings r)
              (PolicyChecker.Compliance.warnings r') /\
  Permutation (PolicyChecker.Compliance.recommendations r)
              (PolicyChecker.Compliance.recommendations r') /\
  PolicyChecker.Compliance.approvalRequirements r
  = PolicyChecker.Compliance.approvalRequirements r' /\
  PolicyChecker.Compliance.riskAssessment r
  = PolicyChecker.Compliance.riskAssessment r'.
Proof.
  intros Hm Hp r r'. subst r r'.
  pose proof (returned_perm this this' c Hm Hp) as Hret.
  pose proof (warnings_perm this this' c Hm Hp) as Hw.
  assert (HV : Permutation
                 (flat_map PolicyChecker.violations
                           (returned this c (PolicyChecker.complianceChecks this)))
                 (flat_map PolicyChecker.violations
                           (returned this' c (PolicyChecker.complianceChecks this'))))
    by now apply flat_map_perm.
  rewrite !checkCompliance_score, !checkCompliance_violations,
    !checkCompliance_warnings, !checkCompliance_recommendations,
    !checkCompliance_overall, !determineOverallCompliance_spec,
    !loop_violations, !loop_warnings.
  cbn [PolicyChecker.Compliance.violations PolicyChecker.Compliance.warnings
       PolicyChecker.initialResults app].
  split; [apply fold_right_min_perm; now apply flat_map_perm |].
  split; [now apply overallOf_perm |].
  split; [exact HV |]. split; [exact Hw |].
  split; [now apply flat_map_perm |].
  unfold PolicyChecker.checkCompliance.
  cbn [PolicyChecker.compliance PolicyChecker.Compliance.approvalRequirements
       PolicyChecker.Compliance.riskAssessment].
  assert (Hlen : List.length
                   (PolicyChecker.Compliance.violations
                      (fold_left (PolicyChecker.runCheck this c)
                                 (PolicyChecker.complianceChecks this)
                                 PolicyChecker.initialResults))
                 = List.length
                     (PolicyChecker.Compliance.violations
                        (fold_left (PolicyChecker.runCheck this' c)
                                   (PolicyChecker.complianceChecks this')
                                   PolicyChecker.initialResults))).
  { rewrite !loop_violations. cbn [PolicyChecker.Compliance.violations
                                    PolicyChecker.initialResults app].
    now apply Permutation_length. }
  split; f_equal.
  - now apply getApprovalRequirements_length.
  - now apply assessRisk_length.
Qed.

Lemma check_order_is_irrelevant_witness :
  PolicyChecker.Compliance.score
    (PolicyChecker.compliance
       (PolicyChecker.checkCompliance PolicyChecker.policyChecker steepDiscountCase))
  = PolicyChecker.Compliance.score
      (PolicyChecker.compliance
         (PolicyChecker.checkCompliance reversedChecker steepDiscountCase)).
Proof.
  apply (check_order_is_irrelevant PolicyChecker.policyChecker reversedChecker
           steepDiscountCase).
  - reflexivity.
  - apply Permutation_rev.
Defined.

(** *** More on currency amounts *)

Section CurrencyPresence.
Import JS MessageProcessor.

Lemma currencyAt_head (c : ascii) (s : string) :
  isDigitOrComma c = true -> currencyAt (String c s) <> None.
Proof.
  intro Hc. unfold currencyAt.
  assert (Hd : Ascii.eqb c "$"%char = false).
  { destruct (Ascii.eqb_spec c "$"%char) as [-> | _]; [discriminate | reflexivity]. }
  rewrite Hd. cbn [drop span]. rewrite Hc. cbn [Nat.eqb]. discriminate.
Qed.

Lemma currencyAt_none (s : string) :
  noAmountChar s = true -> currencyAt s = None.
Proof.
  unfold noAmountChar, currencyAt. intro H.
  destruct s as [| c s]; [reflexivity |].
  cbn [all] in H. apply andb_true_iff in H. destruct H as [Hc Hs].
  apply negb_true_iff in Hc.
  destruct (Ascii.eqb c "$"%char).
  - cbn [drop]. destruct s as [| x s]; [reflexivity |].
    cbn [all] in Hs. apply andb_true_iff in Hs. destruct Hs as [Hx _].
    apply negb_true_iff in Hx. cbn [span]. now rewrite Hx.
  - cbn [drop span]. now rewrite Hc.
Qed.

Lemma matchAll_currency_none (s : string) (skip : nat) :
  noAmountChar s = true -> matchAll currencyAt skip s = [].
Proof.
  revert skip. induction s as [| c s IH]; intros skip H; [reflexivity |].
  cbn [matchAll]. pose proof (currencyAt_none _ H) as Hn.
  unfold noAmountChar in H. cbn [all] in H. apply andb_true_iff in H.
  destruct H as [_ Hs].
  destruct skip as [| k]; [rewrite Hn |]; now apply IH.
Qed.

Lemma matchAll_currency_some (s : string) :
  noAmountChar s = false -> matchAll currencyAt 0 s <> [].
Proof.
  induction s as [| c s IH]; [discriminate |].
  unfold noAmountChar. cbn [all matchAll]. intro H.
  destruct (currencyAt (String c s)) as [n |] eqn:E; [discriminate |].
  destruct (isDigitOrComma c) eqn:Hc.
  - exfalso. exact (currencyAt_head c s Hc E).
  - cbn [negb andb] in H. now apply IH.
Qed.

Lemma take_noDigit (n : nat) (s : string) :
  noDigit s = true -> noDigit (take n s) = true.
Proof.
  unfold noDigit. revert s. induction n as [| n IH]; intros s H.
  - now destruct s.
  - destruct s as [| c s]; [reflexivity |]. cbn [take all] in *.
    apply andb_true_iff in H. destruct H as [-> Hs]. now rewrite IH.
Qed.

Lemma removeAll_noDigit (p : ascii -> bool) (s : string) :
  noDigit s = true -> noDigit (removeAll p s) = true.
Proof.
  unfold noDigit. induction s as [| c s IH]; [reflexivity |].
  cbn [all removeAll]. intro H. apply andb_true_iff in H. destruct H as [Hc Hs].
  destruct (p c); [now apply IH |]. cbn [all]. now rewrite Hc, IH.
Qed.

Lemma span_noDigit (s : string) : noDigit s = true -> span isDigit s = 0%nat.
Proof.
  unfold noDigit. destruct s as [| c s]; [reflexivity |]. cbn [all span].
  intro H. apply andb_true_iff in H. destruct H as [Hc _].
  apply negb_true_iff in Hc. now rewrite Hc.
Qed.

Lemma parseFloat_noDigit (s : string) : noDigit s = true -> parseFloat s = NaN.
Proof.
  intro H. unfold parseFloat. rewrite (span_noDigit s H).
  destruct s as [| c r]; [reflexivity |]. cbn [drop Nat.eqb andb].
  destruct (Ascii.eqb c "."%char); [| reflexivity].
  unfold noDigit in H. cbn [all] in H. apply andb_true_iff in H.
  destruct H as [_ Hr]. now rewrite (span_noDigit r Hr).
Qed.

Lemma amount_noDigit (m : string) :
  noDigit m = true -> extractCurrency [m] = [NaN].
Proof.
  intro H. unfold extractCurrency. cbn [map].
  rewrite (parseFloat_noDigit _ (removeAll_noDigit _ _ H)). cbn [mul].
  destruct (includes _ "k"); [reflexivity |]. destruct (includes _ "m"); reflexivity.
Qed.

Lemma noDigit_append (a b : string) :
  noDigit (a ++ b)%string = noDigit a && noDigit b.
Proof. apply all_append. Qed.

End CurrencyPresence.

(** X17: the currency key is absent exactly when the text holds neither
    a digit nor a comma; and in a text without digits every currency
    entity is NaN (a lone comma is matched as an amount). *)
Theorem currency_needs_digit_or_comma (text : string) :
  (MessageProcessor.currency (MessageProcessor.extractAllEntities text) = None
   <-> noAmountChar text = true) /\
  (noDigit text = true ->
   forall vs v,
     MessageProcessor.currency (MessageProcessor.extractAllEntities text) = Some vs ->
     In v vs -> v = JS.NaN).
Proof.
  unfold MessageProcessor.extractAllEntities, MessageProcessor.matchGlobal.
  cbn [MessageProcessor.currency]. split.
  - destruct (noAmountChar text) eqn:H.
    + rewrite (matchAll_currency_none text 0 H). split; reflexivity.
    + pose proof (matchAll_currency_some text H) as Hne.
      destruct (MessageProcessor.matchAll _ 0 text); [now elim Hne |].
      split; discriminate.
  - intros Hno vs v Hvs Hv.
    destruct (MessageProcessor.matchAll MessageProcessor.currencyAt 0 text)
      as [| m ms] eqn:E; [discriminate |].
    assert (Heq : vs = MessageProcessor.extractCurrency (m :: ms))
      by (cbn [option_map] in Hvs; congruence).
    subst vs. clear Hvs.
    unfold MessageProcessor.extractCurrency in Hv. apply in_map_iff in Hv.
    destruct Hv as (m' & Hval & Hin). rewrite <- E in Hin.
    apply matchAll_sound in Hin. destruct Hin as (a & t & n & -> & _ & ->).
    rewrite noDigit_append in Hno. apply andb_true_iff in Hno.
    destruct Hno as [_ Ht].
    pose proof (amount_noDigit _ (take_noDigit n t Ht)) as Hnan.
    unfold MessageProcessor.extractCurrency in Hnan. cbn [map] in Hnan.
    injection Hnan as Hnan. congruence.
Qed.

Section CurrencySuffix.
Import JS MessageProcessor.
Local Open Scope string_scope.

Variable u : ascii.
Hypothesis u_unit : isUnitSuffix u = true.

Lemma unit_cases : u = "k"%char \/ u = "K"%char \/ u = "m"%char \/ u = "M"%char.
Proof.
  unfold isUnitSuffix in u_unit.
  destruct (Ascii.eqb_spec u "k"%char); [tauto |].
  destruct (Ascii.eqb_spec u "K"%char); [tauto |].
  destruct (Ascii.eqb_spec u "m"%char); [tauto |].
  destruct (Ascii.eqb_spec u "M"%char); [tauto | discriminate].
Qed.

Lemma unit_ends_run : isDigitOrComma u = false.
Proof. destruct unit_cases as [-> | [-> | [-> | ->]]]; reflexivity. Qed.

Lemma unit_no_digit : isDigit u = false.
Proof. destruct unit_cases as [-> | [-> | [-> | ->]]]; reflexivity. Qed.

Lemma unit_no_point : Ascii.eqb u "."%char = false.
Proof. destruct unit_cases as [-> | [-> | [-> | ->]]]; reflexivity. Qed.

Variable digits post : string.
Hypothesis digits_ok : all isDigit digits = true.
Hypothesis digits_nonempty : digits <> "".

Lemma digits_run : all isDigitOrComma digits = true.
Proof.
  apply (all_weaken isDigit); [| exact digits_ok].
  intros a Ha. unfold isDigitOrComma. now rewrite Ha.
Qed.

Lemma no_cents_after_unit :
  match String u post with
  | String c0 (String a (String b _)) =>
      if Ascii.eqb c0 "."%char && isDigit a && isDigit b then 3%nat else 0%nat
  | _ => 0%nat
  end = 0%nat.
Proof.
  destruct post as [| a [| b r]]; try reflexivity. now rewrite unit_no_point.
Qed.

(** The amount matched from the first digit takes the suffix along. *)
Lemma suffixed_hit :
  currencyAt (digits ++ String u post) = Some (String.length digits + 1)%nat.
Proof.
  unfold currencyAt.
  rewrite (no_dollar_first _ _ digits_ok digits_nonempty), drop_0.
  rewrite (span_all _ _ _ _ digits_run unit_ends_run), drop_length.
  pose proof (nonempty_length _ digits_nonempty).
  destruct (Nat.eqb_spec (String.length digits) 0); [lia |].
  rewrite no_cents_after_unit, drop_0, u_unit. f_equal. lia.
Qed.

Lemma suffixed_hit_dollar :
  currencyAt (String "$"%char (digits ++ String u post))
  = Some (1 + String.length digits + 1)%nat.
Proof.
  unfold currencyAt. cbn [Ascii.eqb Bool.eqb drop].
  replace (drop 1 (String "$"%char (digits ++ String u post)))
    with (digits ++ String u post)
    by (destruct digits; [now elim digits_nonempty | reflexivity]).
  rewrite (span_all _ _ _ _ digits_run unit_ends_run), drop_length.
  pose proof (nonempty_length _ digits_nonempty).
  destruct (Nat.eqb_spec (String.length digits) 0); [lia |].
  rewrite no_cents_after_unit, drop_0, u_unit. f_equal. lia.
Qed.

Lemma take_suffixed :
  take (String.length digits + 1) (digits ++ String u post) = digits ++ String u "".
Proof. rewrite take_append. now rewrite take_one. Qed.

Lemma matchAll_suffixed_hit :
  In (digits ++ String u "") (matchAll currencyAt 0 (digits ++ String u post)).
Proof.
  destruct (digits ++ String u post) as [| x s] eqn:E;
    [destruct digits; discriminate |].
  cbn [matchAll]. rewrite <- E, suffixed_hit. left. apply take_suffixed.
Qed.

Variable c : ascii.
Hypothesis c_no_digit : isDigit c = false.
Hypothesis c_no_comma : Ascii.eqb c ","%char = false.
Hypothesis c_no_point : Ascii.eqb c "."%char = false.

(** Scanning from inside a text that ends with [c] reaches the digits
    and their suffix, with the dollar sign when [c] is one. *)
Lemma matchAll_suffixed_prefix (q : string) :
  forall skip, (skip <= String.length q + 1)%nat ->
  exists m,
    In m (matchAll currencyAt skip (q ++ String c (digits ++ String u post))) /\
    (m = digits ++ String u "" \/ m = String "$"%char (digits ++ String u "")).
Proof.
  induction q as [| x q IH]; intros skip Hskip.
  - cbn [String.append matchAll].
    destruct skip as [| [| k]]; [| | simpl in Hskip; lia].
    + destruct (Ascii.eqb_spec c "$"%char) as [-> | Hne].
      * rewrite suffixed_hit_dollar. exists (String "$"%char (digits ++ String u "")).
        split; [| now right]. left.
        cbn [Nat.add take]. now rewrite take_suffixed.
      * assert (Hnone : currencyAt (String c (digits ++ String u post)) = None).
        { unfold currencyAt. apply Ascii.eqb_neq in Hne. rewrite Hne.
          cbn [drop span]. unfold isDigitOrComma.
          now rewrite c_no_digit, c_no_comma. }
        rewrite Hnone. exists (digits ++ String u ""). split; [| now left].
        apply matchAll_suffixed_hit.
    + exists (digits ++ String u ""). split; [| now left].
      apply matchAll_suffixed_hit.
  - cbn [String.append matchAll]. simpl in Hskip.
    destruct skip as [| k]; [| apply IH; lia].
    destruct (currencyAt (String x (q ++ String c (digits ++ String u post))))
      as [n |] eqn:E.
    + pose proof (currencyAt_bound c c_no_digit c_no_comma c_no_point x q _ n E)
        as Hn.
      destruct (IH (n - 1)%nat) as (m & Hm & Hform); [lia |].
      exists m. split; [now right | exact Hform].
    + apply IH. lia.
Qed.

End CurrencySuffix.

Section SuffixValue.
Import JS MessageProcessor.
Local Open Scope string_scope.

Lemma includes_last (a : string) (k x : ascii) :
  all (fun c => negb (Ascii.eqb k c)) a = true ->
  includes (a ++ String x "") (String k "") = Ascii.eqb k x.
Proof.
  induction a as [| c a IH]; intro H.
  - cbn. destruct (ascii_dec k x) as [-> | Hne].
    + now rewrite Ascii.eqb_refl.
    + apply Ascii.eqb_neq in Hne. now rewrite Hne.
  - cbn [all] in H. apply andb_true_iff in H. destruct H as [Hc Ha].
    apply negb_true_iff, Ascii.eqb_neq in Hc.
    cbn [String.append includes String.prefix].
    destruct (ascii_dec k c) as [-> | _]; [now elim Hc |].
    cbn [orb]. now apply IH.
Qed.

Lemma toLowerCase_append (a b : string) :
  toLowerCase (a ++ b) = toLowerCase a ++ toLowerCase b.
Proof. induction a as [| c a IH]; cbn; [reflexivity | now rewrite IH]. Qed.

Variable u : ascii.
Hypothesis u_unit : isUnitSuffix u = true.
Variable digits : string.
Hypothesis digits_ok : all isDigit digits = true.
Hypothesis digits_nonempty : digits <> "".

Lemma parseFloat_suffixed :
  parseFloat (digits ++ String u "") = Num (inject_Z (decimalValue 0 digits)).
Proof.
  unfold parseFloat.
  rewrite (span_all _ _ _ _ digits_ok (unit_no_digit u u_unit)).
  rewrite drop_length, take_length, (unit_no_point u u_unit).
  pose proof (nonempty_length _ digits_nonempty).
  destruct (Nat.eqb_spec (String.length digits) 0); [lia | reflexivity].
Qed.

Lemma clean_suffixed :
  removeAll isDollarOrComma (digits ++ String u "") = digits ++ String u "".
Proof.
  apply removeAll_absent. rewrite all_append. apply andb_true_iff. split.
  - apply (all_weaken isDigit); [| exact digits_ok]. exact digit_is_no_separator.
  - destruct (unit_cases u u_unit) as [-> | [-> | [-> | ->]]]; reflexivity.
Qed.

Lemma suffixed_includes (k : ascii) :
  isDigit k = false -> Ascii.eqb k "$"%char = false ->
  includes (toLowerCase (digits ++ String u "")) (String k "")
  = Ascii.eqb k (lowerChar u) /\
  includes (toLowerCase (String "$"%char (digits ++ String u ""))) (String k "")
  = Ascii.eqb k (lowerChar u).
Proof.
  intros Hk Hdollar.
  assert (H : includes (toLowerCase (digits ++ String u "")) (String k "")
              = Ascii.eqb k (lowerChar u)).
  { rewrite toLowerCase_append, (toLowerCase_digits _ digits_ok).
    cbn [toLowerCase]. apply includes_last. now apply digits_without. }
  split; [exact H |].
  cbn [toLowerCase includes String.prefix].
  change (lowerChar "$"%char) with "$"%char.
  destruct (ascii_dec k "$"%char) as [-> | _]; [discriminate Hdollar |].
  cbn [orb]. exact H.
Qed.

(** The amount extracted from digits with a unit suffix. *)
Lemma amount_of_suffixed :
  extractCurrency [digits ++ String u ""]
  = [Num (inject_Z (decimalValue 0 digits) * unitFactor u)] /\
  extractCurrency [String "$"%char (digits ++ String u "")]
  = [Num (inject_Z (decimalValue 0 digits) * unitFactor u)].
Proof.
  destruct (suffixed_includes "k"%char eq_refl eq_refl) as [Hk Hk'].
  destruct (suffixed_includes "m"%char eq_refl eq_refl) as [Hm Hm'].
  unfold extractCurrency. cbn [map].
  rewrite Hk, Hk', Hm, Hm'.
  cbn [removeAll]. change (isDollarOrComma "$"%char) with true. cbv iota.
  rewrite clean_suffixed, parseFloat_suffixed. unfold unitFactor.
  rewrite (Ascii.eqb_sym (lowerChar u)).
  destruct (unit_cases u u_unit) as [-> | [-> | [-> | ->]]]; split; reflexivity.
Qed.

End SuffixValue.

(** X18: a stand-alone run of digits NN followed by [k], [K], [m] or
    [M] is reported among the currency entities as NN times 1000 for
    [k] and [K], and as NN times 1000000 for [m] and [M], whatever
    follows the suffix. *)
Theorem currency_suffix_scales (pre digits post : string) (u : ascii) :
  all JS.isDigit digits = true ->
  digits <> "" ->
  standsAloneAmount pre = true ->
  MessageProcessor.isUnitSuffix u = true ->
  exists amounts,
    MessageProcessor.currency
      (MessageProcessor.extractAllEntities (pre ++ digits ++ String u post)%string)
    = Some amounts /\
    In (JS.Num (inject_Z (JS.decimalValue 0 digits) * unitFactor u)) amounts.
Proof.
  intros Hd Hne Hpre Hu.
  assert (Hm : exists m,
             In m (MessageProcessor.matchAll MessageProcessor.currencyAt 0
                     (pre ++ digits ++ String u post)%string) /\
             (m = (digits ++ String u "")%string
              \/ m = String "$"%char (digits ++ String u "")%string)).
  { destruct (snoc_cases pre) as [-> | (q & c & ->)].
    - exists (digits ++ String u "")%string. split; [| now left].
      now apply matchAll_suffixed_hit.
    - unfold standsAloneAmount in Hpre. rewrite lastChar_snoc in Hpre.
      apply andb_true_iff in Hpre. destruct Hpre as [Hpre Hpoint].
      apply andb_true_iff in Hpre. destruct Hpre as [Hc Hcomma].
      apply negb_true_iff in Hc, Hcomma, Hpoint.
      rewrite append_assoc. cbn [String.append].
      apply (matchAll_suffixed_prefix u Hu digits post Hd Hne c Hc Hcomma Hpoint
               q 0%nat).
      lia. }
  destruct Hm as (m & Hin & Hform).
  unfold MessageProcessor.extractAllEntities, MessageProcessor.matchGlobal.
  cbn [MessageProcessor.currency].
  destruct (MessageProcessor.matchAll MessageProcessor.currencyAt 0 _)
    as [| a amounts]; [destruct Hin |].
  eexists. split; [reflexivity |].
  destruct (amount_of_suffixed u Hu digits Hd Hne) as [Hplain Hdollar].
  apply (extractCurrency_In m); [exact Hin |].
  destruct Hform as [-> | ->]; assumption.
Qed.

Lemma currency_suffix_scales_witness :
  exists amounts,
    MessageProcessor.currency
      (MessageProcessor.extractAllEntities "The budget is $50k this year")
    = Some amounts /\
    In (JS.Num (inject_Z 50 * 1000)) amounts.
Proof.
  apply (currency_suffix_scales "The budget is $" "50" " this year" "k"%char);
    reflexivity || discriminate.
Defined.

(** *** Precedents *)

Lemma getSimilarCases_names (dealValue : Q) (dealType segment region : string)
      (hc : HistoricalCases.HistoricalCase) :
  In hc (HistoricalCases.getSimilarCases dealValue dealType segment region) ->
  In dealType ["Renewal"; "New Business"; "Add-on"; "Upsell"] /\
  In segment ["Enterprise"; "SMB"; "Global Accounts"; "Midmarket"; "Large Enterprise"].
Proof.
  unfold HistoricalCases.getSimilarCases. intro H. apply filter_In in H.
  destruct H as [Hin Hp].
  apply andb_true_iff in Hp. destruct Hp as [Hp _].
  apply andb_true_iff in Hp. destruct Hp as [Hp _].
  apply andb_true_iff in Hp. destruct Hp as [Hd Hs].
  apply String.eqb_eq in Hd, Hs. subst dealType segment.
  unfold HistoricalCases.historicalCases in Hin. cbn [In] in Hin.
  repeat (destruct Hin as [<- | Hin]; [cbn; tauto |]). destruct Hin.
Qed.

(** X19: the precedent analysis of the checker never finds a similar
    case: it searches with the deal types and segments it infers, in
    lower case, and the historical cases spell them otherwise. *)
Theorem precedent_search_finds_nothing (c : Case.CaseData) :
  Precedents.similarCases c = [] /\
  Precedents.foundSimilar c = false /\
  Precedents.caseCount c = 0%nat.
Proof.
  assert (H : Precedents.similarCases c = []).
  { unfold Precedents.similarCases. cbv zeta.
    set (dv := if JS.truthyNum _ then _ else _). clearbody dv.
    destruct (HistoricalCases.getSimilarCases dv (PolicyChecker.inferDealType c)
                (PolicyChecker.inferSegment c) "namer") as [| hc rest] eqn:E;
      [reflexivity |].
    assert (Hin : In hc (HistoricalCases.getSimilarCases dv
                           (PolicyChecker.inferDealType c)
                           (PolicyChecker.inferSegment c) "namer"))
      by (rewrite E; now left).
    apply getSimilarCases_names in Hin. destruct Hin as [Hd _].
    pose proof (inferDealType_listed c) as Hl. cbn [In] in Hd, Hl.
    exfalso.
    destruct Hl as [Hl | [Hl | [Hl | [Hl | []]]]]; rewrite <- Hl in Hd;
      repeat (destruct Hd as [Hd | Hd]; [discriminate Hd |]); exact Hd. }
  unfold Precedents.foundSimilar, Precedents.caseCount. rewrite H.
  repeat split.
Qed.

(** *** Quick routes *)

Lemma orText_some (s fallback : string) :
  s <> "" -> QuickRoutes.orText (Some s) fallback = s.
Proof. intro H. destruct s; [now elim H | reflexivity]. Qed.

Lemma sizeBracket_named (size : Q) :
  ROE.approver (sizeBracket size) <> "" /\ ROE.timeframe (sizeBracket size) <> "".
Proof.
  unfold sizeBracket.
  destruct (JS.Qlt_bool size 50000); [split; discriminate |].
  destruct (Qle_bool size 250000); [split; discriminate |].
  destruct (Qle_bool size 500000); split; discriminate.
Qed.

(** For a number, the quick route for a deal size names the approver
    and the timeline of the deal-size table, never the fallback; it
    requires an executive exactly when that approver is
    "VP Sales + CEO", and finance exactly when it is "VP Sales" or
    "VP Sales + CEO". *)
Lemma sizeRoute_of_numbers (dealValue : Q) :
  let r := QuickRoutes.getRouteForDealSize dealValue in
  QuickRoutes.SizeRoute.requiredApprover r = ROE.approver (sizeBracket dealValue) /\
  QuickRoutes.SizeRoute.timeline r = ROE.timeframe (sizeBracket dealValue) /\
  (QuickRoutes.SizeRoute.requiresExecutive r = true
   <-> QuickRoutes.SizeRoute.requiredApprover r = "VP Sales + CEO") /\
  (QuickRoutes.SizeRoute.requiresFinance r = true
   <-> QuickRoutes.SizeRoute.requiredApprover r = "VP Sales"
       \/ QuickRoutes.SizeRoute.requiredApprover r = "VP Sales + CEO").
Proof.
  cbv zeta. unfold QuickRoutes.getRouteForDealSize. cbv zeta.
  cbn [QuickRoutes.SizeRoute.requiredApprover QuickRoutes.SizeRoute.timeline
       QuickRoutes.SizeRoute.requiresExecutive QuickRoutes.SizeRoute.requiresFinance].
  rewrite sizeApproval_bracket. cbn [option_map].
  destruct (sizeBracket_named dealValue) as [Ha Ht].
  rewrite (orText_some _ _ Ha), (orText_some _ _ Ht).
  split; [reflexivity |]. split; [reflexivity |].
  unfold sizeBracket.
  qcase (JS.Qlt_bool dealValue 50000); qcase (Qle_bool dealValue 250000);
    qcase (Qle_bool dealValue 500000);
    qcase (JS.Qlt_bool 250000 dealValue); qcase (JS.Qlt_bool 500000 dealValue);
    cbn [ROE.approver]; repeat split; intros H;
    try reflexivity; try discriminate H; try (exfalso; lra);
    try (destruct H as [H | H]; discriminate H);
    try (now left); try (now right).
Qed.

Lemma approver_auto_iff (d size : Q) :
  (0 <= d)%Q ->
  (QuickRoutes.orText
     (option_map ROE.approver
        (ROE.discountApproval (ROE.getApprovalRequirement d size)))
     "Sales Manager" = "Auto-approved" <-> (d <= 10)%Q).
Proof.
  intro H0. rewrite discountApproval_brackets.
  qcase (Qle_bool 0 d); qcase (Qle_bool d 10); cbn [andb option_map].
  - split; [intros _; assumption | reflexivity].
  - qcase (Qle_bool 11 d); qcase (Qle_bool d 20); qcase (Qle_bool 21 d);
      qcase (Qle_bool d 30); qcase (Qle_bool 31 d);
      cbn [andb option_map QuickRoutes.orText ROE.approver JS.truthyStr];
      (split; [intros H; discriminate H | intros H; exfalso; lra]).
Qed.

(** X21: in the quick route for a discount, for a segment with a new
    business policy and a discount that is not negative, the flag
    [autoApproved] is set although the required approver is not
    "Auto-approved" exactly when the discount lies above 10 and within
    the auto-approved limit of the segment. *)
Theorem auto_flag_disagrees_iff (discountPercent dealValue : Q) (segment : string)
        (policy : ROE.DiscountPolicy) :
  (0 <= discountPercent)%Q ->
  ROE.getDiscountPolicy "newBusiness" segment None = Some policy ->
  let r := QuickRoutes.getRouteForDiscountRequest discountPercent dealValue
                                                  (Some segment) in
  (QuickRoutes.DiscountRoute.autoApproved r = Some true /\
   QuickRoutes.DiscountRoute.requiredApprover r <> "Auto-approved")
  <-> (10 < discountPercent <= ROE.autoApproved (ROE.standardDiscount policy))%Q.
Proof.
  intros H0 Hp. cbv zeta. unfold QuickRoutes.getRouteForDiscountRequest. cbv zeta.
  cbn [QuickRoutes.DiscountRoute.autoApproved
       QuickRoutes.DiscountRoute.requiredApprover].
  rewrite Hp. cbn [option_map].
  pose proof (approver_auto_iff discountPercent dealValue H0) as Hiff.
  cbn [option_map] in Hiff.
  split.
  - intros [Ha Hr]. injection Ha as Ha. apply Qle_bool_iff in Ha.
    split; [| exact Ha]. apply Qnot_le_lt. intro Hle. apply Hr, Hiff, Hle.
  - intros [H10 HL]. split.
    + f_equal. apply Qle_bool_iff. exact HL.
    + intro Hr. apply Hiff in Hr. lra.
Qed.

Lemma auto_flag_disagrees_iff_witness :
  QuickRoutes.DiscountRoute.autoApproved
    (QuickRoutes.getRouteForDiscountRequest 15 800000 (Some "globalAccounts"))
  = Some true /\
  QuickRoutes.DiscountRoute.requiredApprover
    (QuickRoutes.getRouteForDiscountRequest 15 800000 (Some "globalAccounts"))
  <> "Auto-approved".
Proof.
  apply (auto_flag_disagrees_iff 15 800000 "globalAccounts"
           {| ROE.standardDiscount := ROE.entry 30 25 20;
              ROE.regionalAdjustment := 0;
              ROE.effectiveMax := (inject_Z 30 + 0)%Q |}).
  - unfold Qle; cbn; lia.
  - reflexivity.
  - split; [reflexivity | unfold Qle; cbn; lia].
Defined.

(** *** Minimum deal values *)

Lemma Qlt_bool_compat_l (k x y : Q) : (x == y)%Q -> JS.Qlt_bool x k = JS.Qlt_bool y k.
Proof.
  intro H. destruct (JS.Qlt_bool x k) eqn:E1, (JS.Qlt_bool y k) eqn:E2;
    try reflexivity; reflectQ; rewrite H in E1; lra.
Qed.

Lemma dealValue_lt_l (c : Case.CaseData) (k : Q) :
  JS.Qlt_bool (JS.orZero (JS.parseFloatField (Case.dealValue c))) k
  = JS.Qlt_bool (dealValueOf c) k.
Proof. apply Qlt_bool_compat_l, dealValue_of. Qed.

Lemma dealValue_le (c : Case.CaseData) (k : Q) :
  Qle_bool k (JS.orZero (JS.parseFloatField (Case.dealValue c)))
  = Qle_bool k (dealValueOf c).
Proof. apply Qle_bool_compat_r, dealValue_of. Qed.

Lemma minScore_violations (r : PolicyChecker.CheckResult) (n : Z) :
  PolicyChecker.violations (PolicyChecker.minScore r n) = PolicyChecker.violations r.
Proof. unfold PolicyChecker.minScore. destruct (PolicyChecker.score r); reflexivity. Qed.

Lemma reports_nil (kind : string) : ~ reports kind [].
Proof. intros [f [[] _]]. Qed.

Lemma reports_cons (kind : string) (f : PolicyChecker.Finding)
      (fs : list PolicyChecker.Finding) :
  reports kind (f :: fs) <-> PolicyChecker.type f = kind \/ reports kind fs.
Proof.
  unfold reports. split.
  - intros [g [[<- | Hin] Hk]]; [now left | right; now exists g].
  - intros [Hk | [g [Hin Hk]]]; [exists f | exists g]; cbn; tauto.
Qed.

(** The minimum-value rule of the checker, whatever the seats say. *)
Lemma minimum_value_rule (c : Case.CaseData) :
  reports "minimum_value"
          (PolicyChecker.violations (PolicyChecker.minimumRequirements c))
  <-> PolicyChecker.inferDealType c <> "addon" /\
      exists m, JS.lookup (PolicyChecker.inferSegment c) PolicyChecker.minimumValue
                = Some m /\
                (0 < dealValueOf c < m)%Q.
Proof.
  unfold PolicyChecker.minimumRequirements. cbv zeta.
  pose proof (dealValue_of c) as Hdv.
  set (dv := JS.orZero (JS.parseFloatField (Case.dealValue c))) in *.
  destruct (String.eqb_spec (PolicyChecker.inferDealType c) "addon") as [Ha | Ha].
  { cbn [PolicyChecker.violations PolicyChecker.pushRecommendation PolicyChecker.fresh].
    split; [intro H; now apply reports_nil in H | intros [H _]; now elim H]. }
  set (seats := match PolicyChecker.firstMatch _ _ with Some _ => _ | None => _ end).
  pose proof (inferSegment_listed c) as Hs. cbn [In] in Hs.
  set (seg := PolicyChecker.inferSegment c) in *.
  assert (Hval : forall m,
             JS.lookup seg PolicyChecker.minimumValue = Some m ->
             negb (Qeq_bool m 0) = true).
  { intros m Hm. clear seats.
    destruct Hs as [<- | [<- | [<- | [<- | [<- | []]]]]];
      cbn in Hm; injection Hm as <-; reflexivity. }
  assert (Hex : exists m, JS.lookup seg PolicyChecker.minimumValue = Some m).
  { clear seats Hval.
    destruct Hs as [<- | [<- | [<- | [<- | [<- | []]]]]]; eexists; reflexivity. }
  destruct Hex as [m Hm]. specialize (Hval m Hm).
  assert (Hviol :
    reports "minimum_value" (PolicyChecker.violations seats)
    <-> JS.Qlt_bool 0 dv && JS.Qlt_bool dv m = true).
  { subst seats. rewrite Hm, Hval. cbn [andb].
    destruct (JS.Qlt_bool 0 dv && JS.Qlt_bool dv m) eqn:Hc;
      destruct (PolicyChecker.firstMatch _ _) as [s |];
      try destruct (JS.lookup seg PolicyChecker.minimumSeats) as [ms |];
      try destruct (negb (Qeq_bool ms 0) && _);
      rewrite ?minScore_violations;
      cbn [PolicyChecker.violations PolicyChecker.pushViolation
           PolicyChecker.setCompliant PolicyChecker.setScore PolicyChecker.fresh app];
      rewrite ?reports_cons; cbn [PolicyChecker.type];
      (split; [intros H; try reflexivity;
               repeat (destruct H as [H | H]; try discriminate H);
               try (now apply reports_nil in H)
              | intros H; try discriminate H; now left]). }
  rewrite Hviol, andb_true_iff, !Qlt_bool_iff. clearbody dv. split.
  - intros [H1 H2]. split; [exact Ha |]. exists m. repeat split; [assumption | lra | lra].
  - intros [_ [m' [Hm' [H1 H2]]]]. rewrite Hm in Hm'. injection Hm' as <-.
    split; lra.
Qed.

Lemma inferSegment_by_value (c : Case.CaseData) :
  mentionsSegment c = false ->
  PolicyChecker.inferSegment c = QuickRoutes.inferSegment c.
Proof.
  unfold mentionsSegment, PolicyChecker.inferSegment, QuickRoutes.inferSegment.
  cbv zeta. cbn [existsb]. rewrite orb_false_r. intro H.
  apply orb_false_iff in H. destruct H as [H1 H].
  apply orb_false_iff in H. destruct H as [H2 H].
  apply orb_false_iff in H. destruct H as [H3 H4].
  rewrite H1, H2, H3, H4. reflexivity.
Qed.

(** X22: when the draft names no segment, the checker infers the
    segment from the deal value as the router does, and the
    minimum-value rule is violated exactly for the deals, other than
    add-ons, worth more than 0 and less than 5000. *)
Theorem segment_from_value_meets_minimum (c : Case.CaseData) :
  mentionsSegment c = false ->
  PolicyChecker.inferSegment c = QuickRoutes.inferSegment c /\
  (reports "minimum_value"
           (PolicyChecker.violations (PolicyChecker.minimumRequirements c))
   <-> PolicyChecker.inferDealType c <> "addon" /\ (0 < dealValueOf c < 5000)%Q).
Proof.
  intro Hno. pose proof (inferSegment_by_value c Hno) as Hseg.
  split; [exact Hseg |].
  rewrite minimum_value_rule, Hseg.
  unfold QuickRoutes.inferSegment. cbv zeta. rewrite !dealValue_le.
  split.
  - intros [Ha [m [Hm Hr]]]. split; [exact Ha |]. revert Hm.
    qcase (Qle_bool 500000 (dealValueOf c)); [cbn; intros [= <-]; lra |].
    qcase (Qle_bool 250000 (dealValueOf c)); [cbn; intros [= <-]; lra |].
    qcase (Qle_bool 50000 (dealValueOf c)); [cbn; intros [= <-]; lra |].
    qcase (Qle_bool 15000 (dealValueOf c)); [cbn; intros [= <-]; lra |].
    cbn. intros [= <-]. lra.
  - intros [Ha Hr]. split; [exact Ha |]. exists 5000%Q.
    rewrite (Qle_bool_false 500000), (Qle_bool_false 250000),
      (Qle_bool_false 50000), (Qle_bool_false 15000) by lra.
    split; [reflexivity | exact Hr].
Qed.


Lemma segment_from_value_meets_minimum_witness :
  PolicyChecker.inferSegment tinyDeal = "smb" /\
  reports "minimum_value"
          (PolicyChecker.violations (PolicyChecker.minimumRequirements tinyDeal)).
Proof.
  destruct (segment_from_value_meets_minimum tinyDeal) as [Hs Hv].
  - reflexivity.
  - split; [reflexivity |]. apply Hv. split; [discriminate |].
    split; reflexivity.
Defined.

(** X23: a renewal is held to the new business minimum: where the
    knowledge base gives a minimum for the renewal and one for new
    business in the inferred segment, the first is the smaller, and the
    checker reports a minimum-value violation exactly for the deal
    values between 0 and the second. *)
Theorem renewal_held_to_new_business_minimum (c : Case.CaseData)
        (renewalMinimum newMinimum : DealTypes.Minimum)
        (g g' : list KnowledgeBase.Line) :
  PolicyChecker.inferDealType c = "renewal" ->
  KnowledgeBase.lookupMinimumRequirements "renewal" (PolicyChecker.inferSegment c)
  = KnowledgeBase.MinimumFound renewalMinimum g ->
  KnowledgeBase.lookupMinimumRequirements "newBusiness" (PolicyChecker.inferSegment c)
  = KnowledgeBase.MinimumFound newMinimum g' ->
  (DealTypes.value renewalMinimum < DealTypes.value newMinimum)%Q /\
  (reports "minimum_value"
           (PolicyChecker.violations (PolicyChecker.minimumRequirements c))
   <-> (0 < dealValueOf c < DealTypes.value newMinimum)%Q).
Proof.
  intros Hd Hr Hn. rewrite minimum_value_rule, Hd.
  pose proof (inferSegment_listed c) as Hs. cbn [In] in Hs.
  destruct Hs as [Hs | [Hs | [Hs | [Hs | [Hs | []]]]]]; rewrite <- Hs in *;
    cbn in Hr, Hn; injection Hr as <- _; injection Hn as <- _;
    cbn [DealTypes.value];
    (split; [reflexivity |]);
    (split; [intros [_ [m [Hm Hrange]]]; cbn in Hm; injection Hm as <-; exact Hrange
            | intros Hrange; split; [discriminate | eexists; split; [reflexivity | exact Hrange]]]).
Qed.


Lemma renewal_held_to_new_business_minimum_witness :
  (40000 <= dealValueOf enterpriseRenewal)%Q /\
  reports "minimum_value"
          (PolicyChecker.violations
             (PolicyChecker.minimumRequirements enterpriseRenewal)).
Proof.
  split; [unfold Qle; cbn; lia |].
  eapply (renewal_held_to_new_business_minimum enterpriseRenewal).
  - vm_compute. reflexivity.
  - vm_compute. reflexivity.
  - vm_compute. reflexivity.
  - split; reflexivity.
Defined.

(** *** Lookups of the knowledge base *)

Lemma discountApproval_resolves (d size : Q) :
  (inBracket d ->
   exists da, ROE.discountApproval (ROE.getApprovalRequirement d size) = Some da) /\
  (~ inBracket d ->
   ROE.discountApproval (ROE.getApprovalRequirement d size) = None).
Proof.
  unfold inBracket. rewrite discountApproval_brackets.
  qcase (Qle_bool 0 d); qcase (Qle_bool d 10); qcase (Qle_bool 11 d);
    qcase (Qle_bool d 20); qcase (Qle_bool 21 d); qcase (Qle_bool d 30);
    qcase (Qle_bool 31 d); cbn [andb];
    (split; [intros H; first [eexists; reflexivity | exfalso; lra]
            | intros H; first [reflexivity | exfalso; apply H; lra]]).
Qed.

Lemma inBracket_decidable (d : Q) : inBracket d \/ ~ inBracket d.
Proof.
  unfold inBracket.
  destruct (Qlt_le_dec d 0); [right; lra |].
  destruct (Qlt_le_dec 10 d); [| left; lra].
  destruct (Qlt_le_dec d 11); [right; lra |].
  destruct (Qlt_le_dec 20 d); [| left; lra].
  destruct (Qlt_le_dec d 21); [right; lra |].
  destruct (Qlt_le_dec 30 d); [| left; lra].
  destruct (Qlt_le_dec d 31); [right; lra | left; lra].
Qed.

Lemma regionalDiscountOf_nonneg (region : option string) :
  (0 <= regionalDiscountOf region)%Q.
Proof.
  unfold regionalDiscountOf.
  destruct (JS.lookup _ ROE.regional) as [a |] eqn:E; [| lra].
  apply lookup_In in E. cbn in E.
  repeat (destruct E as [E | E]; [injection E as _ <-; lra |]). destruct E.
Qed.

Lemma standardDiscount_any_region (dealType segment : string)
      (r r' : option string) (p : ROE.DiscountPolicy) :
  ROE.getDiscountPolicy dealType segment r = Some p ->
  exists p', ROE.getDiscountPolicy dealType segment r' = Some p' /\
             ROE.standardDiscount p' = ROE.standardDiscount p.
Proof.
  unfold ROE.getDiscountPolicy. cbv zeta.
  destruct (match JS.lookup dealType ROE.standard with
            | Some bySegment => JS.lookup segment bySegment
            | None => None
            end) as [sd |]; [| discriminate].
  intro H. injection H as <-. eexists. split; reflexivity.
Qed.

(** X25: where the knowledge base finds the discount policy of a
    pricing draft, the effective maximum it reports is the maximum plus
    the adjustment of the region, but the checker reports
    "discount_limit_exceeded" exactly when the requested discount
    exceeds the maximum itself. *)
Theorem checker_enforces_base_maximum (c : Case.CaseData) (region : option string)
        (p : KnowledgeBase.PolicyView) (g : list KnowledgeBase.Line) :
  Case.category c = Some "pricing" ->
  JS.truthyNum (JS.parseFloatField (Case.discountRequested c)) = true ->
  KnowledgeBase.lookupDiscountPolicy (PolicyChecker.inferDealType c)
                                     (PolicyChecker.inferSegment c) region
  = KnowledgeBase.DiscountPolicyFound p g ->
  (KnowledgeBase.effectiveMax p
   == KnowledgeBase.maxDiscount p + regionalDiscountOf region)%Q /\
  (reports "discount_limit_exceeded"
           (PolicyChecker.violations (PolicyChecker.discountCompliance c))
   <-> (KnowledgeBase.maxDiscount p < requestedDiscount c)%Q).
Proof.
  intros Hcat Htruthy Hlook.
  unfold KnowledgeBase.lookupDiscountPolicy in Hlook. cbv zeta in Hlook.
  set (region' := match region with Some r => r | None => "namer" end) in *.
  destruct (ROE.getDiscountPolicy _ _ (Some region')) as [policy |] eqn:Hp;
    [| discriminate].
  injection Hlook as <- _.
  cbn [KnowledgeBase.effectiveMax KnowledgeBase.maxDiscount].
  pose proof (regionalAdjustment_spec _ _ _ _ Hp) as Hadj.
  assert (Hreg : regionalDiscountOf (Some region') = regionalDiscountOf region)
    by (subst region'; now destruct region).
  rewrite Hreg in Hadj.
  destruct (getDiscountPolicy_Some _ _ _ _ Hp) as [_ Heff].
  destruct (policy_limits_positive _ _ _ _ Hp) as [Hmax _].
  pose proof (regionalDiscountOf_nonneg region) as Hnn.
  split.
  - rewrite Heff. destruct (Qeq_bool _ 0) eqn:E.
    + apply Qeq_bool_iff in E. lra.
    + lra.
  - destruct (standardDiscount_any_region _ _ _ None _ Hp) as (p' & Hp' & Hsd).
    unfold PolicyChecker.discountCompliance. cbv zeta.
    apply same_true in Hcat. rewrite Htruthy, Hcat. cbn [negb orb].
    rewrite Hp', Hsd.
    unfold requestedDiscount.
    destruct (Case.discountRequested c) as [d |]; [| discriminate Htruthy].
    cbn [JS.parseFloatField JS.gt].
    rewrite <- Qlt_bool_iff.
    destruct (JS.Qlt_bool (ROE.max (ROE.standardDiscount policy)) d);
      [| destruct (JS.Qlt_bool (ROE.autoApproved (ROE.standardDiscount policy)) d)];
      destruct (JS.Qlt_bool 0 (ROE.regionalAdjustment p'));
      cbn [PolicyChecker.violations PolicyChecker.pushViolation
           PolicyChecker.pushWarning PolicyChecker.pushRecommendation
           PolicyChecker.setCompliant PolicyChecker.setScore PolicyChecker.fresh app];
      (split; [intros H; first [reflexivity | now apply reports_nil in H]
              | intros H; first [discriminate H
                                | apply reports_cons; left; reflexivity]]).
Qed.

Lemma checker_enforces_base_maximum_witness :
  match KnowledgeBase.lookupDiscountPolicy (PolicyChecker.inferDealType apacDeal)
                                           (PolicyChecker.inferSegment apacDeal)
                                           (Some "apac") with
  | KnowledgeBase.DiscountPolicyFound p _ =>
      (requestedDiscount apacDeal <= KnowledgeBase.effectiveMax p)%Q
  | KnowledgeBase.NoDiscountPolicy _ => False
  end /\
  reports "discount_limit_exceeded"
          (PolicyChecker.violations (PolicyChecker.discountCompliance apacDeal)).
Proof.
  split.
  - vm_compute. discriminate.
  - eapply (checker_enforces_base_maximum apacDeal (Some "apac")).
    + reflexivity.
    + reflexivity.
    + vm_compute. reflexivity.
    + reflexivity.
Defined.

Ltac found_segment :=
  split;
  [ split; [intros _; cbn; tauto | intros _; eexists; eexists; reflexivity]
  | intros m g [= <- <-]; split;
    [reflexivity | first [discriminate | intros _; split; reflexivity]] ].

Ltac by_segment :=
  unfold KnowledgeBase.lookupMinimumRequirements, DealTypes.getRulesByDealType,
    DealTypes.dealTypes;
  cbn [DealTypes.minimumCommitment JS.lookup String.eqb Ascii.eqb Bool.eqb];
  repeat match goal with
         | |- context [String.eqb ?seg ?s] =>
             destruct (String.eqb_spec seg s) as [-> | ?]; [found_segment |]
         end;
  (split; [split | intros m g H; discriminate H]);
  [ intros (m & g & H); discriminate H
  | intros [_ Hin]; cbn [In] in Hin; exfalso;
    destruct Hin as [<- | [<- | [<- | [<- | [<- | []]]]]]; congruence ].

Lemma no_minimum_elsewhere (dealType segment : string) :
  dealType <> "newBusiness" -> dealType <> "renewal" ->
  forall m g,
    KnowledgeBase.lookupMinimumRequirements dealType segment
    <> KnowledgeBase.MinimumFound m g.
Proof.
  intros Hn Hr m g.
  unfold KnowledgeBase.lookupMinimumRequirements, DealTypes.getRulesByDealType,
    DealTypes.dealTypes.
  cbn [JS.lookup]. apply String.eqb_neq in Hn, Hr. rewrite Hn, Hr.
  destruct (String.eqb dealType "addon");
    [cbn [DealTypes.minimumCommitment JS.truthyStr negb];
     destruct (KnowledgeBase.stringHasProperty _ segment); discriminate |].
  destruct (String.eqb dealType "upsell");
    [cbn [DealTypes.minimumCommitment JS.truthyStr negb];
     destruct (KnowledgeBase.stringHasProperty _ segment); discriminate |].
  discriminate.
Qed.

(** X26: the minimum lookup of the knowledge base succeeds exactly for
    new business and renewals in one of the five segments; its guidance
    then has two lines (the note on add-ons never shows), and for new
    business the minimums are those the checker applies. *)
Theorem minimum_lookup_outcome (dealType segment : string) :
  let answer := KnowledgeBase.lookupMinimumRequirements dealType segment in
  ((exists m g, answer = KnowledgeBase.MinimumFound m g)
   <-> (dealType = "newBusiness" \/ dealType = "renewal") /\
       In segment ["enterprise"; "midmarket"; "smb"; "largeEnterprise";
                   "globalAccounts"]) /\
  (forall m g, answer = KnowledgeBase.MinimumFound m g ->
               List.length g = 2%nat /\
               (dealType = "newBusiness" ->
                JS.lookup segment PolicyChecker.minimumSeats = Some (DealTypes.seats m) /\
                JS.lookup segment PolicyChecker.minimumValue
                = Some (DealTypes.value m))).
Proof.
  cbv zeta.
  destruct (String.eqb_spec dealType "newBusiness") as [-> | Hn]; [by_segment |].
  destruct (String.eqb_spec dealType "renewal") as [-> | Hr]; [by_segment |].
  pose proof (no_minimum_elsewhere dealType segment Hn Hr) as Hmiss.
  split; [split |].
  - intros (m & g & H). now apply Hmiss in H.
  - intros [[-> | ->] _]; congruence.
  - intros m g H. now apply Hmiss in H.
Qed.

(** *** The other entities *)

Section Alternations.
Import JS MessageProcessor EntityExtractors.

Lemma prefix_take (a x : string) (k : nat) :
  String.prefix a (take k x) = true -> String.prefix a x = true.
Proof.
  revert x k. induction a as [| c a IH]; intros x k H; [now destruct x |].
  destruct k as [| k]; [destruct x; discriminate H |].
  destruct x as [| y x]; [discriminate H |].
  cbn [take String.prefix] in *.
  destruct (ascii_dec c y); [now apply (IH x k) | discriminate H].
Qed.

Lemma prefix_take_enough (a x : string) (k : nat) :
  String.prefix a x = true -> (String.length a <= k)%nat ->
  String.prefix a (take k x) = true.
Proof.
  revert x k. induction a as [| c a IH]; intros x k H Hk;
    [now destruct (take k x) |].
  destruct x as [| y x]; [discriminate H |].
  destruct k as [| k]; [simpl in Hk; lia |].
  cbn [take String.prefix String.length] in *.
  destruct (ascii_dec c y); [apply IH; [exact H | lia] | discriminate H].
Qed.

Lemma toLowerCase_take (k : nat) (x : string) :
  toLowerCase (take k x) = take k (toLowerCase x).
Proof.
  revert x. induction k as [| k IH]; intro x; [now destruct x |].
  destruct x as [| y x]; [reflexivity |]. cbn [take toLowerCase]. now rewrite IH.
Qed.

Lemma alternativeAt_take (alternatives : list string) (x : string) (u k : nat) :
  alternativeAt alternatives x = Some u -> (u <= k)%nat ->
  alternativeAt alternatives (take k x) = Some u.
Proof.
  induction alternatives as [| a rest IH]; [discriminate |].
  cbn [alternativeAt]. rewrite toLowerCase_take.
  destruct (String.prefix a (toLowerCase x)) eqn:E.
  - intros [= <-] Hk. now rewrite (prefix_take_enough _ _ _ E Hk).
  - intros H Hk.
    destruct (String.prefix a (take k (toLowerCase x))) eqn:E'.
    + apply prefix_take in E'. congruence.
    + now apply IH.
Qed.

Lemma span_take (p : ascii -> bool) (n : nat) (s : string) :
  span p (take n s) = Nat.min n (span p s).
Proof.
  revert s. induction n as [| n IH]; intro s; [now destruct s |].
  destruct s as [| c s]; [reflexivity |]. cbn [take span].
  destruct (p c); [now rewrite IH | reflexivity].
Qed.

Lemma drop_take (d n : nat) (s : string) :
  drop d (take n s) = take (n - d) (drop d s).
Proof.
  revert n s. induction d as [| d IH]; intros n s.
  - now rewrite Nat.sub_0_r, !drop_0.
  - destruct n as [| n]; destruct s as [| c s]; cbn [take drop Nat.sub];
      try reflexivity; try apply IH.
    now destruct (n - d)%nat.
Qed.

(** A match of the timeframe pattern matches again from its start. *)
Lemma timeframeAt_take (t : string) (n : nat) (groups : string * string) :
  timeframeAt t = Some (n, groups) -> timeframeAt (take n t) <> None.
Proof.
  unfold timeframeAt. cbv zeta.
  remember (span isDigit t) as d eqn:Ed.
  destruct (Nat.eqb_spec d 0) as [| Hd]; [discriminate |].
  remember (span isSpace (drop d t)) as w eqn:Ew.
  destruct (alternativeAt unitWords (drop w (drop d t))) as [u |] eqn:E;
    [| discriminate].
  remember (match drop u (drop w (drop d t)) with
            | String c _ => if Ascii.eqb (lowerChar c) "s" then 1%nat else 0%nat
            | EmptyString => 0%nat
            end) as plural eqn:Ep.
  intros [= <- _].
  rewrite span_take, <- Ed.
  replace (Nat.min (d + w + u + plural) d) with d by lia.
  destruct (Nat.eqb_spec d 0) as [| _]; [contradiction |].
  rewrite drop_take, span_take, <- Ew.
  replace (Nat.min (d + w + u + plural - d) w) with w by lia.
  rewrite drop_take.
  rewrite (alternativeAt_take _ _ u _ E) by lia.
  discriminate.
Qed.

Lemma firstGroups_start (s : string) :
  timeframeAt s <> None -> firstGroups s <> None.
Proof.
  intro H. destruct s as [| c s]; cbn [firstGroups];
    destruct (timeframeAt _) as [[n g] |]; congruence.
Qed.

Lemma extractTimeframe_returns (matches : list string) :
  Forall (fun m => firstGroups m <> None) matches ->
  exists tfs, extractTimeframe matches = PolicyChecker.Return tfs.
Proof.
  induction 1 as [| m rest Hm _ [tfs IH]]; [now exists [] |].
  cbn [extractTimeframe].
  destruct (firstGroups m) as [[num unit] |]; [| now elim Hm].
  rewrite IH. eexists. reflexivity.
Qed.

Lemma timeframe_matches_rematch (message : string) (skip : nat) :
  Forall (fun m => firstGroups m <> None)
         (matchAll (fun s => option_map fst (timeframeAt s)) skip message).
Proof.
  apply Forall_forall. intros m Hm. apply matchAll_sound in Hm.
  destruct Hm as (a & t & n & _ & Ht & ->).
  destruct (timeframeAt t) as [[n' g] |] eqn:E; [| discriminate Ht].
  cbn in Ht. injection Ht as ->.
  apply firstGroups_start. exact (timeframeAt_take t n g E).
Qed.

End Alternations.

(** X27: extracting the entities of a message never throws: every
    match of the timeframe pattern matches again when it is read for
    its groups; and the numeric keys of the result are those of the
    numeric extractors. *)
Theorem entities_always_returned (message : string) :
  exists entities,
    EntityExtractors.extractAllEntities message = PolicyChecker.Return entities /\
    EntityExtractors.percentage entities
    = MessageProcessor.percentage (MessageProcessor.extractAllEntities message) /\
    EntityExtractors.currency entities
    = MessageProcessor.currency (MessageProcessor.extractAllEntities message).
Proof.
  unfold EntityExtractors.extractAllEntities. cbv zeta.
  unfold MessageProcessor.matchGlobal at 1.
  pose proof (timeframe_matches_rematch message 0) as Hall.
  destruct (MessageProcessor.matchAll _ 0 message) as [| m ms] eqn:E.
  - eexists. split; [reflexivity |]. split; reflexivity.
  - destruct (extractTimeframe_returns _ Hall) as [tfs ->].
    eexists. split; [reflexivity |]. split; reflexivity.
Qed.

Section WordScan.
Import JS MessageProcessor EntityExtractors.

Variable alternatives : list string.
Hypothesis nonempty : Forall (fun a => a <> "") alternatives.

Lemma alternativeAt_none (s : string) :
  alternativeAt alternatives s = None
  <-> forall a, In a alternatives -> String.prefix a (toLowerCase s) = false.
Proof.
  clear nonempty. induction alternatives as [| a rest IH]; cbn [alternativeAt].
  - split; [intros _ a [] | reflexivity].
  - destruct (String.prefix a (toLowerCase s)) eqn:E.
    + split; [discriminate |]. intro H. specialize (H a (or_introl eq_refl)).
      congruence.
    + rewrite IH. split.
      * intros H b [<- | Hb]; [exact E | now apply H].
      * intros H b Hb. apply H. now right.
Qed.

Lemma includes_cons (c : ascii) (s a : string) :
  includes (String c s) a = String.prefix a (String c s) || includes s a.
Proof. reflexivity. Qed.

Lemma includes_empty (a : string) : a <> "" -> includes "" a = false.
Proof. intro H. destruct a; [now elim H | reflexivity]. Qed.

Lemma words_absent (s : string) (skip : nat) :
  mentions alternatives s = false ->
  matchAll (alternativeAt alternatives) skip s = [].
Proof.
  unfold mentions. revert skip. induction s as [| c s IH]; intros skip H;
    [reflexivity |].
  cbn [matchAll].
  assert (Hall : forall a, In a alternatives ->
                           includes (toLowerCase (String c s)) a = false).
  { intros a Ha. destruct (includes _ a) eqn:E; [| reflexivity].
    rewrite <- H. symmetry. apply existsb_exists. now exists a. }
  assert (Hrest : existsb (fun w => includes (toLowerCase s) w) alternatives = false).
  { destruct (existsb _ _) eqn:E; [| reflexivity].
    apply existsb_exists in E. destruct E as (a & Ha & Hin).
    specialize (Hall a Ha). cbn [toLowerCase] in Hall.
    rewrite includes_cons, Hin, orb_true_r in Hall. discriminate. }
  assert (Hnone : alternativeAt alternatives (String c s) = None).
  { apply alternativeAt_none. intros a Ha. specialize (Hall a Ha).
    cbn [toLowerCase] in Hall |- *. rewrite includes_cons in Hall.
    now apply orb_false_iff in Hall. }
  destruct skip as [| k]; [rewrite Hnone |]; now apply IH.
Qed.

Lemma words_present (s : string) :
  mentions alternatives s = true ->
  matchAll (alternativeAt alternatives) 0 s <> [].
Proof.
  unfold mentions. induction s as [| c s IH]; intro H.
  - apply existsb_exists in H. destruct H as (a & Ha & Hin).
    rewrite Forall_forall in nonempty. cbn [toLowerCase] in Hin.
    rewrite (includes_empty a (nonempty a Ha)) in Hin. discriminate.
  - cbn [matchAll].
    destruct (alternativeAt alternatives (String c s)) as [n |] eqn:E;
      [discriminate |].
    apply IH. apply existsb_exists in H. destruct H as (a & Ha & Hin).
    apply existsb_exists. exists a. split; [exact Ha |].
    cbn [toLowerCase] in Hin. rewrite includes_cons in Hin.
    rewrite alternativeAt_none in E. specialize (E a Ha).
    cbn [toLowerCase] in E. rewrite E in Hin. exact Hin.
Qed.

Lemma words_iff (message : string) :
  present (words alternatives message) = mentions alternatives message.
Proof.
  unfold words, matchGlobal.
  destruct (mentions alternatives message) eqn:E.
  - pose proof (words_present message E) as H.
    destruct (matchAll _ 0 message); [now elim H | reflexivity].
  - now rewrite (words_absent message 0 E).
Qed.

End WordScan.

Lemma word_lists_nonempty :
  Forall (fun a => a <> "") EntityExtractors.segmentWords /\
  Forall (fun a => a <> "") EntityExtractors.dealTypeWords /\
  Forall (fun a => a <> "") EntityExtractors.regionWords /\
  Forall (fun a => a <> "") EntityExtractors.urgencyWords.
Proof. repeat split; repeat constructor; discriminate. Qed.

Lemma entity_presence (message : string) (entities : EntityExtractors.Entities) :
  EntityExtractors.extractAllEntities message = PolicyChecker.Return entities ->
  EntityExtractors.present (EntityExtractors.segment entities)
  = mentions EntityExtractors.segmentWords message /\
  EntityExtractors.present (EntityExtractors.dealType entities)
  = mentions EntityExtractors.dealTypeWords message /\
  EntityExtractors.present (EntityExtractors.region entities)
  = mentions EntityExtractors.regionWords message /\
  EntityExtractors.present (EntityExtractors.urgency entities)
  = mentions EntityExtractors.urgencyWords message.
Proof.
  destruct word_lists_nonempty as (Hs & Hd & Hr & Hu).
  unfold EntityExtractors.extractAllEntities. cbv zeta.
  destruct (match MessageProcessor.matchGlobal _ message with
            | Some _ => _ | None => _ end) as [tf | e]; [| discriminate].
  intros [= <-].
  cbn [EntityExtractors.segment EntityExtractors.dealType EntityExtractors.region
       EntityExtractors.urgency].
  rewrite <- (words_iff _ Hs), <- (words_iff _ Hd), <- (words_iff _ Hr),
    <- (words_iff _ Hu).
  repeat split;
    match goal with
    | |- EntityExtractors.present (option_map _ ?o) = _ => now destruct o
    end.
Qed.

Section Substrings.
Import JS.
Local Open Scope string_scope.

Lemma prefix_spec (a s : string) :
  String.prefix a s = true <-> exists post, s = a ++ post.
Proof.
  revert s. induction a as [| c a IH]; intro s.
  - split; [intros _; now exists s | intros _; now destruct s].
  - destruct s as [| y s]; cbn [String.prefix].
    + split; [discriminate | intros [post H]; discriminate H].
    + destruct (ascii_dec c y) as [<- | Hne].
      * rewrite IH. split; intros [post H]; exists post.
        -- cbn. now rewrite H.
        -- cbn in H. now injection H.
      * split; [discriminate | intros [post H]]. cbn in H. injection H as H _.
        now elim Hne.
Qed.

Lemma includes_spec (s a : string) :
  includes s a = true <-> exists pre post, s = pre ++ a ++ post.
Proof.
  induction s as [| c s IH].
  - cbn [includes]. rewrite orb_false_r, prefix_spec. split.
    + intros [post H]. now exists "", post.
    + intros (pre & post & H). destruct pre; [now exists post |]. discriminate H.
  - cbn [includes]. rewrite orb_true_iff, prefix_spec, IH. split.
    + intros [[post H] | (pre & post & H)].
      * now exists "", post.
      * exists (String c pre), post. cbn. now rewrite H.
    + intros (pre & post & H). destruct pre as [| x pre].
      * left. now exists post.
      * right. cbn in H. injection H as _ H. now exists pre, post.
Qed.

Lemma includes_trans (s a b : string) :
  includes s a = true -> includes a b = true -> includes s b = true.
Proof.
  rewrite !includes_spec. intros (p1 & q1 & ->) (p2 & q2 & ->).
  exists (p1 ++ p2), (q2 ++ q1). now rewrite !append_assoc.
Qed.

End Substrings.

(** X28: the keys segment, dealType, region and urgency are present
    exactly when the message shows one of the words of their patterns,
    whatever its case; so a message that shows a word containing "us",
    such as "customer", has a region and counts as having deal
    details. *)
Theorem words_decide_entities (message : string)
        (entities : EntityExtractors.Entities) :
  EntityExtractors.extractAllEntities message = PolicyChecker.Return entities ->
  EntityExtractors.present (EntityExtractors.segment entities)
  = mentions EntityExtractors.segmentWords message /\
  EntityExtractors.present (EntityExtractors.dealType entities)
  = mentions EntityExtractors.dealTypeWords message /\
  EntityExtractors.present (EntityExtractors.region entities)
  = mentions EntityExtractors.regionWords message /\
  EntityExtractors.present (EntityExtractors.urgency entities)
  = mentions EntityExtractors.urgencyWords message /\
  (forall word,
      JS.includes word "us" = true ->
      JS.includes (JS.toLowerCase message) word = true ->
      EntityExtractors.region entities <> None /\
      EntityExtractors.hasDealDetails
        (EntityExtractors.analyzeBusinessContext message entities) = true).
Proof.
  intros He. destruct (entity_presence message entities He) as (Hs & Hd & Hr & Hu).
  do 4 (split; [assumption |]). intros word Hw Hm.
  assert (Hus : mentions EntityExtractors.regionWords message = true).
  { unfold mentions. apply existsb_exists. exists "us". split; [cbn; tauto |].
    exact (includes_trans _ _ _ Hm Hw). }
  rewrite Hus in Hr. split.
  - destruct (EntityExtractors.region entities); [discriminate | discriminate Hr].
  - unfold EntityExtractors.analyzeBusinessContext.
    cbn [EntityExtractors.hasDealDetails]. rewrite Hr. apply orb_true_r.
Qed.

Lemma words_decide_entities_witness :
  exists entities,
    EntityExtractors.extractAllEntities "Our customer asks for a renewal"
    = PolicyChecker.Return entities /\
    EntityExtractors.region entities <> None.
Proof.
  destruct (EntityExtractors.extractAllEntities "Our customer asks for a renewal")
    as [entities | e] eqn:H; [| vm_compute in H; discriminate H].
  exists entities. split; [reflexivity |].
  apply (proj2 (proj2 (proj2 (proj2 (words_decide_entities _ entities H))))
               "customer"); reflexivity.
Defined.

Lemma extractSegment_values (matches : list string) (seg : string) :
  In seg (EntityExtractors.extractSegment matches) ->
  In seg ["smb"; "midmarket"; "largeEnterprise"; "globalAccounts"; "enterprise"].
Proof.
  unfold EntityExtractors.extractSegment. rewrite in_map_iff.
  intros (m & <- & _). cbv zeta. branches; cbn; tauto.
Qed.

Lemma extractDealType_values (matches : list string) (dt : string) :
  In dt (EntityExtractors.extractDealType matches) ->
  In dt ["renewal"; "addon"; "upsell"; "newBusiness"].
Proof.
  unfold EntityExtractors.extractDealType. rewrite in_map_iff.
  intros (m & <- & _). cbv zeta. branches; cbn; tauto.
Qed.

Lemma extractRegion_values (matches : list string) (r : string) :
  In r (EntityExtractors.extractRegion matches) ->
  In r ["emea"; "apac"; "latam"; "namer"].
Proof.
  unfold EntityExtractors.extractRegion. rewrite in_map_iff.
  intros (m & <- & _). cbv zeta. branches; cbn; tauto.
Qed.

(** X29: the segments, deal types and regions extracted from a message
    are names the policy store knows: the region is a key of the
    regional table, and the discount policy of an extracted deal type,
    segment and region exists exactly when the deal type is new
    business or renewal. *)
Theorem extracted_names_resolve (message : string)
        (entities : EntityExtractors.Entities) (seg dt r : string) :
  EntityExtractors.extractAllEntities message = PolicyChecker.Return entities ->
  In seg (valuesOf (EntityExtractors.segment entities)) ->
  In dt (valuesOf (EntityExtractors.dealType entities)) ->
  In r (valuesOf (EntityExtractors.region entities)) ->
  JS.lookup r ROE.regional <> None /\
  (ROE.getDiscountPolicy dt seg (Some r) <> None
   <-> dt = "newBusiness" \/ dt = "renewal").
Proof.
  unfold EntityExtractors.extractAllEntities. cbv zeta.
  destruct (match MessageProcessor.matchGlobal _ message with
            | Some _ => _ | None => _ end) as [tf | e]; [| discriminate].
  intros [= <-].
  cbn [EntityExtractors.segment EntityExtractors.dealType EntityExtractors.region].
  destruct (EntityExtractors.words EntityExtractors.segmentWords message);
    [| intros []].
  destruct (EntityExtractors.words EntityExtractors.dealTypeWords message);
    [| intros _ []].
  destruct (EntityExtractors.words EntityExtractors.regionWords message);
    [| intros _ _ []].
  cbn [option_map valuesOf]. intros Hs Hd Hr.
  apply extractSegment_values in Hs. apply extractDealType_values in Hd.
  apply extractRegion_values in Hr. cbn [In] in Hs, Hd, Hr.
  destruct Hr as [<- | [<- | [<- | [<- | []]]]];
    (split; [discriminate |]);
    destruct Hd as [<- | [<- | [<- | [<- | []]]]];
    destruct Hs as [<- | [<- | [<- | [<- | [<- | []]]]]];
    cbn; (split; [intros H; first [now elim H | tauto]
                 | intros [H | H]; first [discriminate H | discriminate]]).
Qed.

Lemma extracted_names_resolve_witness :
  ROE.getDiscountPolicy "renewal" "enterprise" (Some "emea") <> None.
Proof.
  apply (extracted_names_resolve "Enterprise renewal in Europe"
           {| EntityExtractors.percentage := None;
              EntityExtractors.currency := None;
              EntityExtractors.timeframe := None;
              EntityExtractors.segment := Some ["enterprise"];
              EntityExtractors.dealType := Some ["renewal"];
              EntityExtractors.region := Some ["emea"];
              EntityExtractors.urgency := None |}
           "enterprise" "renewal" "emea").
  - vm_compute. reflexivity.
  - cbn. tauto.
  - cbn. tauto.
  - cbn. tauto.
  - now right.
Defined.

(** X30: a message that shows a stand-alone percentage above 25 suggests
    creating a case, whatever the intent. *)
Theorem steep_percentage_suggests_case (pre digits post : string)
        (intent : EntityExtractors.ResponseType)
        (entities : EntityExtractors.Entities) :
  all JS.isDigit digits = true ->
  digits <> "" ->
  standsAlone pre = true ->
  (25 < JS.decimalValue 0 digits)%Z ->
  EntityExtractors.extractAllEntities (pre ++ digits ++ String "%"%char post)%string
  = PolicyChecker.Return entities ->
  EntityExtractors.shouldSuggestCaseCreation
    intent entities
    (EntityExtractors.analyzeBusinessContext
       (pre ++ digits ++ String "%"%char post)%string entities) = true.
Proof.
  intros Hd Hne Hpre Hbig He.
  assert (Hp : exists vs,
             EntityExtractors.percentage entities = Some vs /\
             In (JS.Num (inject_Z (JS.decimalValue 0 digits))) vs).
  { revert He. unfold EntityExtractors.extractAllEntities. cbv zeta.
    destruct (match MessageProcessor.matchGlobal _ _ with
              | Some _ => _ | None => _ end) as [tf | e]; [| discriminate].
    intros [= <-]. cbn [EntityExtractors.percentage].
    pose proof (percentage_token_matched pre digits post Hd Hne Hpre) as Hin.
    unfold MessageProcessor.extractAllEntities, MessageProcessor.matchGlobal.
    cbn [MessageProcessor.percentage].
    destruct (MessageProcessor.matchAll MessageProcessor.percentageAt 0 _)
      as [| m ms]; [destruct Hin |].
    eexists. split; [reflexivity |].
    rewrite <- (percentage_value digits Hd Hne).
    unfold MessageProcessor.extractPercentage.
    exact (in_map (fun m => JS.parseFloat (JS.replace "%" "" m)) _ _ Hin). }
  destruct Hp as (vs & Hvs & Hin).
  unfold EntityExtractors.shouldSuggestCaseCreation. rewrite Hvs.
  assert (Hex : existsb (fun p => JS.gt p (JS.Num 25)) vs = true).
  { apply existsb_exists. eexists. split; [exact Hin |].
    cbn [JS.gt]. apply Qlt_bool_iff. unfold Qlt. cbn. lia. }
  rewrite Hex. destruct (EntityExtractors.isCaseCreation intent); reflexivity.
Qed.

Lemma steep_percentage_suggests_case_witness :
  exists entities,
    EntityExtractors.extractAllEntities "What is the policy on 30% off?"
    = PolicyChecker.Return entities /\
    EntityExtractors.shouldSuggestCaseCreation
      EntityExtractors.POLICY_LOOKUP entities
      (EntityExtractors.analyzeBusinessContext
         "What is the policy on 30% off?" entities) = true.
Proof.
  destruct (EntityExtractors.extractAllEntities "What is the policy on 30% off?")
    as [entities | e] eqn:H; [| vm_compute in H; discriminate H].
  exists entities. split; [reflexivity |].
  apply (steep_percentage_suggests_case "What is the policy on " "30" " off?"
           EntityExtractors.POLICY_LOOKUP entities).
  - reflexivity.
  - discriminate.
  - reflexivity.
  - reflexivity.
  - exact H.
Defined.

(* ================================================================== *)
(** ** Properties on arguments of any shape *)
(* ================================================================== *)

(** *** Well-formed arguments *)

Lemma getApprovalRequirement_agree (d size : Q) :
  General.getApprovalRequirement (General.Number (JS.Num d))
                                 (General.Number (JS.Num size))
  = ROE.getApprovalRequirement d size.
Proof. reflexivity. Qed.

Lemma lookupOr_agree (table : list (string * Q)) (key : option string) (fallback : Q) :
  General.inherited key = false ->
  General.lookupOr table key fallback = General.Own (JS.lookupOr table key fallback).
Proof.
  intro H. unfold General.lookupOr, JS.lookupOr.
  destruct key as [k |]; [| reflexivity].
  destruct (JS.lookup k table); [reflexivity |]. now rewrite H.
Qed.

(** *** Inherited names *)

Lemma inherited_cases (key : option string) :
  General.inherited key = true ->
  exists k, key = Some k /\ In k General.inheritedNames.
Proof.
  destruct key as [k |]; [| discriminate]. cbn [General.inherited].
  intro H. apply existsb_exists in H. destruct H as (n & Hin & Heq).
  apply String.eqb_eq in Heq. subst n. now exists k.
Qed.

(** No table of the router has an inherited name among its keys. *)
Lemma lookupOr_inherited (key : option string) :
  General.inherited key = true ->
  General.lookupOr CaseRouter.categoryComplexity key 1 = General.Foreign /\
  General.lookupOr CaseRouter.priorityMultiplier key 1 = General.Foreign /\
  General.lookupOr CaseRouter.priorityScore key 2 = General.Foreign.
Proof.
  intro H. destruct (inherited_cases key H) as (k & -> & Hin).
  cbn [General.inheritedNames In] in Hin.
  repeat (destruct Hin as [<- | Hin]; [repeat split |]); destruct Hin.
Qed.

(** *** The numbers of a draft *)

Lemma draftValue_of (d : General.Draft.t) :
  (JS.orZero (JS.parseFloatField (General.Draft.dealValue d)) == draftValue d)%Q.
Proof.
  unfold draftValue. destruct (General.Draft.dealValue d) as [v |]; simpl.
  - apply orZero_Num.
  - reflexivity.
Qed.

Lemma draftDiscount_of (d : General.Draft.t) :
  (JS.orZero (JS.parseFloatField (General.Draft.discountRequested d))
   == draftDiscount d)%Q.
Proof.
  unfold draftDiscount. destruct (General.Draft.discountRequested d) as [v |]; simpl.
  - apply orZero_Num.
  - reflexivity.
Qed.

Lemma draftValue_lt (d : General.Draft.t) (k : Q) :
  JS.Qlt_bool k (JS.orZero (JS.parseFloatField (General.Draft.dealValue d)))
  = JS.Qlt_bool k (draftValue d).
Proof. apply Qlt_bool_compat_r, draftValue_of. Qed.

Lemma draftDiscount_lt (d : General.Draft.t) (k : Q) :
  JS.Qlt_bool k (JS.orZero (JS.parseFloatField (General.Draft.discountRequested d)))
  = JS.Qlt_bool k (draftDiscount d).
Proof. apply Qlt_bool_compat_r, draftDiscount_of. Qed.

Lemma draftDiscount_le (d : General.Draft.t) (k : Q) :
  Qle_bool (JS.orZero (JS.parseFloatField (General.Draft.discountRequested d))) k
  = Qle_bool (draftDiscount d) k.
Proof. apply Qle_bool_compat_l, draftDiscount_of. Qed.

(** *** The analysis of a draft *)

(** The two field reads of the analysis. *)
Lemma andTrim_spec (d : General.Draft.t) :
  General.andTrim "competitorInfo" (General.Draft.competitorInfo d)
  = if strayValue (General.Draft.competitorInfo d)
    then PolicyChecker.Throw "caseData.competitorInfo.trim is not a function"
    else PolicyChecker.Return (namesCompetitor d).
Proof.
  unfold namesCompetitor.
  destruct (General.Draft.competitorInfo d) as [| s | []]; reflexivity.
Qed.

Lemma andIncludes_spec (d : General.Draft.t) (needle : string) :
  General.andIncludes "description" (General.Draft.description d) needle
  = if strayValue (General.Draft.description d)
    then PolicyChecker.Throw "caseData.description.toLowerCase is not a function"
    else PolicyChecker.Return
           (match General.Draft.description d with
            | General.TextOf s =>
                JS.truthyStr s && JS.includes (JS.toLowerCase s) needle
            | _ => false
            end).
Proof.
  destruct (General.Draft.description d) as [| s | []]; reflexivity.
Qed.

(** What the analysis computes, without the list of factors. *)
Lemma analysis_view (d : General.Draft.t) :
  match General.analyzeCaseComplexity d with
  | PolicyChecker.Throw e => PolicyChecker.Throw e
  | PolicyChecker.Return a =>
      PolicyChecker.Return
        (General.complexityScore a, General.autoApprovable a,
         General.complexity a, General.riskLevel a)
  end
  = if strayValue (General.Draft.competitorInfo d)
    then PolicyChecker.Throw "caseData.competitorInfo.trim is not a function"
    else if strayValue (General.Draft.description d)
    then PolicyChecker.Throw "caseData.description.toLowerCase is not a function"
    else
      PolicyChecker.Return
        (runningScore d,
         JS.le (runningScore d) (JS.Num 2)
         && Qle_bool (JS.orZero (JS.parseFloatField
                                   (General.Draft.discountRequested d))) 10,
         fst (tierOf (runningScore d)), snd (tierOf (runningScore d))).
Proof.
  unfold General.analyzeCaseComplexity, runningScore, tierOf. cbv zeta.
  rewrite andTrim_spec, (andIncludes_spec d "multi-year").
  fold (asksMultiYear d).
  repeat match goal with
         | |- context [let '(_, _) := (if ?b then _ else _) in _] => destruct b
         end;
    (destruct (strayValue (General.Draft.competitorInfo d));
     cbn [General.bind]; [reflexivity |]);
    destruct (namesCompetitor d);
    (destruct (strayValue (General.Draft.description d));
     cbn [General.bind]; [reflexivity |]);
    destruct (asksMultiYear d);
    repeat match goal with
           | |- context [let '(_, _) := (if ?b then _ else _) in _] => destruct b
           end; reflexivity.
Qed.

Lemma analysis_of (d : General.Draft.t) :
  strayValue (General.Draft.competitorInfo d)
  || strayValue (General.Draft.description d) = false ->
  exists a,
    General.analyzeCaseComplexity d = PolicyChecker.Return a /\
    General.complexityScore a = runningScore d /\
    General.autoApprovable a
    = JS.le (runningScore d) (JS.Num 2) && Qle_bool (draftDiscount d) 10 /\
    General.complexity a = fst (tierOf (runningScore d)) /\
    General.riskLevel a = snd (tierOf (runningScore d)).
Proof.
  intro H. apply orb_false_iff in H. destruct H as [Hc Hd].
  pose proof (analysis_view d) as V. rewrite Hc, Hd in V.
  destruct (General.analyzeCaseComplexity d) as [a | e]; [| discriminate].
  injection V as H1 H2 H3 H4. exists a.
  rewrite draftDiscount_le in H2. repeat split; assumption.
Qed.

Lemma analysis_fails (d : General.Draft.t) :
  strayValue (General.Draft.competitorInfo d)
  || strayValue (General.Draft.description d) = true ->
  exists error, General.analyzeCaseComplexity d = PolicyChecker.Throw error.
Proof.
  intro H. pose proof (analysis_view d) as V.
  destruct (General.analyzeCaseComplexity d) as [a | e]; [| now exists e].
  exfalso. destruct (strayValue (General.Draft.competitorInfo d)); [discriminate |].
  cbn [orb] in H. rewrite H in V. discriminate.
Qed.

(** The score is the one of the specification. *)
Lemma sizeStep_points (v : Q) :
  ((if JS.Qlt_bool 500000 v then 0 + 3
    else if JS.Qlt_bool 100000 v then 0 + 2
    else if JS.Qlt_bool 25000 v then 0 + 1 else 0) == sizePoints v)%Q.
Proof. unfold sizePoints. repeat destruct (JS.Qlt_bool _ _); ring. Qed.

Lemma discountStep_points (s p : Q) :
  ((if JS.Qlt_bool 30 p then s + 3
    else if JS.Qlt_bool 20 p then s + 2
    else if JS.Qlt_bool 10 p then s + 1 else s) == s + discountPoints p)%Q.
Proof. unfold discountPoints. repeat destruct (JS.Qlt_bool _ _); ring. Qed.

Lemma sizePoints_compat (v v' : Q) : (v == v')%Q -> sizePoints v = sizePoints v'.
Proof.
  intro H. unfold sizePoints. now rewrite !(Qlt_bool_compat_r _ _ _ H).
Qed.

Lemma discountPoints_compat (p p' : Q) :
  (p == p')%Q -> discountPoints p = discountPoints p'.
Proof.
  intro H. unfold discountPoints. now rewrite !(Qlt_bool_compat_r _ _ _ H).
Qed.

Lemma runningScore_formula (d : General.Draft.t) :
  sameNumber (runningScore d) (complexityOf d).
Proof.
  unfold runningScore, complexityOf. cbv zeta.
  set (s := (if JS.Qlt_bool 30 _ then _ else _)%Q).
  assert (Hs : (s == sizePoints (draftValue d) + discountPoints (draftDiscount d))%Q).
  { subst s. rewrite discountStep_points, sizeStep_points.
    rewrite (sizePoints_compat _ _ (draftValue_of d)).
    rewrite (discountPoints_compat _ _ (draftDiscount_of d)). reflexivity. }
  clearbody s.
  destruct (General.inherited (General.Draft.category d)) eqn:Hc;
    destruct (General.inherited (General.Draft.priority d)) eqn:Hp;
    cbn [orb];
    try (destruct (lookupOr_inherited _ Hc) as (-> & _ & _));
    try (destruct (lookupOr_inherited _ Hp) as (_ & -> & _));
    try rewrite (lookupOr_agree _ _ _ Hc);
    try rewrite (lookupOr_agree _ _ _ Hp);
    destruct (namesCompetitor d), (asksMultiYear d);
    cbn [General.add General.times General.plus sameNumber];
    try exact I; rewrite Hs; ring.
Qed.

(** *** Approval level, team and urgency of a draft *)

Lemma determineApprovalLevel_auto (d : General.Draft.t) (a : General.Analysis) :
  General.autoApprovable a = true ->
  let r := General.determineApprovalLevel d a in
  CaseRouter.primaryApprover r = "Auto-approved" /\
  CaseRouter.level r = 1%Z /\
  CaseRouter.timeline r = "Immediate" /\
  (General.riskLevel a <> "high" -> CaseRouter.secondaryApprover r = None).
Proof.
  intro H. unfold General.determineApprovalLevel. cbv zeta. rewrite H.
  cbn [CaseRouter.primaryApprover CaseRouter.level CaseRouter.timeline
       CaseRouter.secondaryApprover].
  repeat split. intro Hr. apply String.eqb_neq in Hr. rewrite Hr. reflexivity.
Qed.

Lemma determineApprovalLevel_by_bracket (d : General.Draft.t) (a : General.Analysis)
      (A : ROE.Approval) :
  General.autoApprovable a = false ->
  (0 < draftDiscount d)%Q ->
  (0 < draftValue d)%Q ->
  ROE.discountApproval
    (ROE.getApprovalRequirement (draftDiscount d) (draftValue d)) = Some A ->
  let r := General.determineApprovalLevel d a in
  CaseRouter.primaryApprover r = ROE.approver A /\
  CaseRouter.timeline r = ROE.timeframe A /\
  CaseRouter.level r = approverLevel (ROE.approver A) /\
  CaseRouter.secondaryApprover r
  = if String.eqb (General.riskLevel a) "high"
       || (4 <=? approverLevel (ROE.approver A))%Z
    then
      if Case.same (General.Draft.category d) "legal" then Some "General Counsel"
      else if JS.Qlt_bool 500000 (draftValue d) then Some "CEO"
      else if JS.includes (ROE.approver A) "Finance" then Some "CFO"
      else None
    else None.
Proof.
  intros Hauto Hd Hv HA.
  unfold General.determineApprovalLevel, General.same. cbv zeta.
  rewrite Hauto, !draftValue_lt, !draftDiscount_lt.
  rewrite (Qlt_bool_true _ _ Hd), (Qlt_bool_true _ _ Hv). cbn [andb].
  rewrite (discountApproval_compat _ (draftDiscount d) _ (draftValue d)
             (draftDiscount_of d)), HA.
  unfold approverLevel.
  destruct (JS.includes (ROE.approver A) "VP" && JS.includes (ROE.approver A) "Finance");
    [repeat split |].
  destruct (JS.includes (ROE.approver A) "VP"); [repeat split |].
  destruct (JS.includes (ROE.approver A) "Director"); [repeat split |].
  destruct (JS.includes (ROE.approver A) "Manager"); repeat split.
Qed.

Lemma assignTeam_spec (d : General.Draft.t) (a : General.Analysis) :
  if General.inherited (General.Draft.category d)
  then General.assignTeam d a
       = PolicyChecker.Throw "Cannot read properties of undefined (reading 'primary')"
  else exists t, General.assignTeam d a = PolicyChecker.Return t.
Proof.
  unfold General.assignTeam. cbv zeta.
  destruct (General.Draft.category d) as [c |]; cbn [General.inherited].
  - destruct (existsb (String.eqb c) General.inheritedNames) eqn:Hi.
    + destruct (inherited_cases (Some c) Hi) as (k & Hk & Hin).
      injection Hk as <-. cbn [General.inheritedNames In] in Hin.
      repeat (destruct Hin as [<- | Hin]; [reflexivity |]); destruct Hin.
    + unfold CaseRouter.categoryTeamMap. cbn [JS.lookup].
      table_cases; cbn; eexists; reflexivity.
  - cbn. eexists; reflexivity.
Qed.

Lemma assessUrgency_spec (d : General.Draft.t) (a : General.Analysis) :
  if strayValue (General.Draft.timeframe d)
     || strayValue (General.Draft.description d)
  then exists error, General.assessUrgency d a = PolicyChecker.Throw error
  else exists u, General.assessUrgency d a = PolicyChecker.Return u.
Proof.
  unfold General.assessUrgency. cbv zeta.
  rewrite !andIncludes_spec.
  destruct (General.Draft.timeframe d) as [| s | []];
    destruct (General.Draft.description d) as [| t | []];
    cbn [General.truthy strayValue orb General.bind];
    repeat first
      [ solve [eexists; reflexivity]
      | match goal with
        | |- context [if ?b then _ else _] => destruct b; cbn [General.bind]
        end ].
Qed.

(** *** The handler of the router *)

Lemma routeCase_fails (d : General.Draft.t) :
  unroutable d = true ->
  exists error,
    General.routeCase d = General.Unrouted error General.generateFallbackRouting.
Proof.
  unfold unroutable, General.routeCase. intro H.
  destruct (strayValue (General.Draft.competitorInfo d)
            || strayValue (General.Draft.description d)) eqn:Ha.
  { destruct (analysis_fails d Ha) as (e & ->). now exists e. }
  destruct (analysis_of d Ha) as (a & -> & _). cbn [General.bind].
  pose proof (assignTeam_spec d a) as Ht.
  destruct (General.inherited (General.Draft.category d)).
  { rewrite Ht. eexists. reflexivity. }
  destruct Ht as (t & ->). cbn [General.bind].
  pose proof (assessUrgency_spec d a) as Hu.
  apply orb_false_iff in Ha. destruct Ha as [Hc Hd].
  cbn [orb] in H. rewrite H, Hd in Hu. cbn [orb] in Hu.
  destruct Hu as (e & ->). now exists e.
Qed.

Lemma routeCase_routes (d : General.Draft.t) :
  unroutable d = false ->
  exists a t u,
    General.analyzeCaseComplexity d = PolicyChecker.Return a /\
    General.complexityScore a = runningScore d /\
    General.autoApprovable a
    = JS.le (runningScore d) (JS.Num 2) && Qle_bool (draftDiscount d) 10 /\
    General.complexity a = fst (tierOf (runningScore d)) /\
    General.riskLevel a = snd (tierOf (runningScore d)) /\
    General.routeCase d
    = General.Routed
        {| CaseRouter.Routing.primaryApprover :=
             CaseRouter.primaryApprover (General.determineApprovalLevel d a);
           CaseRouter.Routing.secondaryApprover :=
             CaseRouter.secondaryApprover (General.determineApprovalLevel d a);
           CaseRouter.Routing.team := CaseRouter.primaryTeam t;
           CaseRouter.Routing.supportingTeams := CaseRouter.supportingTeams t;
           CaseRouter.Routing.approvalLevel :=
             CaseRouter.level (General.determineApprovalLevel d a);
           CaseRouter.Routing.expectedTimeline :=
             CaseRouter.timeline (General.determineApprovalLevel d a);
           CaseRouter.Routing.urgency := General.urgencyLevel u;
           CaseRouter.Routing.escalationPath := General.buildEscalationPath d a |}
        {| CaseRouter.Summary.complexity := General.complexity a;
           CaseRouter.Summary.riskLevel := General.riskLevel a;
           CaseRouter.Summary.precedentAvailable := General.precedentAvailable a;
           CaseRouter.Summary.autoApprovable := General.autoApprovable a |}.
Proof.
  unfold unroutable. intro H.
  apply orb_false_iff in H. destruct H as [H Ht].
  apply orb_false_iff in H. destruct H as [H Hi].
  destruct (analysis_of d H) as (a & Ha & H1 & H2 & H3 & H4).
  apply orb_false_iff in H. destruct H as [Hc Hd].
  pose proof (assignTeam_spec d a) as Hteam. rewrite Hi in Hteam.
  destruct Hteam as (t & Hteam).
  pose proof (assessUrgency_spec d a) as Hu. rewrite Ht, Hd in Hu.
  destruct Hu as (u & Hu).
  exists a, t, u. repeat (split; [assumption |]).
  unfold General.routeCase. rewrite Ha. cbn [General.bind].
  rewrite Hteam. cbn [General.bind]. rewrite Hu. reflexivity.
Qed.

Lemma routeCase_success (d : General.Draft.t) :
  General.success (General.routeCase d) = negb (unroutable d).
Proof.
  destruct (unroutable d) eqn:H.
  - destruct (routeCase_fails d H) as (e & ->). reflexivity.
  - destruct (routeCase_routes d H) as (a & t & u & _ & _ & _ & _ & _ & ->).
    reflexivity.
Qed.

(** *** Auto-approvable drafts *)

Lemma le_atMost (n : JS.jsnum) (q : Q) : JS.le n (JS.Num q) = true <-> atMost n q.
Proof.
  destruct n as [| x]; cbn [JS.le atMost].
  - split; [discriminate | contradiction].
  - apply Qle_bool_iff.
Qed.

Lemma atMost_same (a b : JS.jsnum) (q : Q) :
  sameNumber a b -> (atMost a q <-> atMost b q).
Proof.
  destruct a as [| x], b as [| y]; cbn [sameNumber atMost]; try tauto.
  intro H. now rewrite H.
Qed.

Lemma tierOf_low (n : JS.jsnum) : atMost n 2 -> tierOf n = ("simple", "low").
Proof.
  destruct n as [| x]; cbn [atMost]; [contradiction |]. intro H.
  unfold tierOf. cbn [JS.ge].
  rewrite (Qle_bool_false 8 x), (Qle_bool_false 5 x), (Qle_bool_false 3 x) by lra.
  reflexivity.
Qed.

Lemma routed_is_routable (d : General.Draft.t) (routing : CaseRouter.Routing.t)
      (analysis : CaseRouter.Summary.t) :
  General.routeCase d = General.Routed routing analysis -> unroutable d = false.
Proof.
  intro H. pose proof (routeCase_success d) as S. rewrite H in S.
  cbn [General.success] in S. now destruct (unroutable d).
Qed.

(** C3: the score the analysis computes is the complexity score of the
    specification (no number under a category or a priority that names
    an inherited property), and the analysis marks a draft
    auto-approvable exactly when that score is at most 2 and the
    requested discount at most 10; the router reports a draft
    auto-approvable exactly when it can route it and these two bounds
    hold; it then routes the draft to "Auto-approved", at level 1,
    immediately and without a secondary approver; and the draft discount
    5, value 20000, pricing, low priority is reported auto-approvable. *)
Theorem auto_approvable_iff :
  (forall d : General.Draft.t,
      (forall a,
          General.analyzeCaseComplexity d = PolicyChecker.Return a ->
          sameNumber (General.complexityScore a) (complexityOf d) /\
          (General.autoApprovable a = true
           <-> atMost (General.complexityScore a) 2 /\ (draftDiscount d <= 10)%Q)) /\
      (reportsAutoApprovable d
       <-> unroutable d = false /\ atMost (complexityOf d) 2 /\
           (draftDiscount d <= 10)%Q) /\
      (forall routing analysis,
          General.routeCase d = General.Routed routing analysis ->
          CaseRouter.Summary.autoApprovable analysis = true ->
          CaseRouter.Routing.primaryApprover routing = "Auto-approved" /\
          CaseRouter.Routing.approvalLevel routing = 1%Z /\
          CaseRouter.Routing.expectedTimeline routing = "Immediate" /\
          CaseRouter.Routing.secondaryApprover routing = None))
  /\
  (exists routing analysis,
      General.routeCase smallPricingDraft = General.Routed routing analysis /\
      CaseRouter.Summary.autoApprovable analysis = true /\
      CaseRouter.Routing.primaryApprover routing = "Auto-approved" /\
      CaseRouter.Routing.expectedTimeline routing = "Immediate" /\
      CaseRouter.Routing.secondaryApprover routing = None).
Proof.
  split.
  - intro d.
    assert (Hauto : forall a,
               General.analyzeCaseComplexity d = PolicyChecker.Return a ->
               General.complexityScore a = runningScore d /\
               General.autoApprovable a
               = JS.le (runningScore d) (JS.Num 2) && Qle_bool (draftDiscount d) 10 /\
               General.riskLevel a = snd (tierOf (runningScore d))).
    { intros a Ha.
      destruct (strayValue (General.Draft.competitorInfo d)
                || strayValue (General.Draft.description d)) eqn:Hs.
      - destruct (analysis_fails d Hs) as (e & He). congruence.
      - destruct (analysis_of d Hs) as (a' & Ha' & H1 & H2 & _ & H4).
        assert (a' = a) by congruence. subst a'. repeat split; assumption. }
    split; [| split].
    + intros a Ha. destruct (Hauto a Ha) as (Hs & Hb & _). rewrite Hs, Hb.
      split; [apply runningScore_formula |].
      now rewrite andb_true_iff, le_atMost, Qle_bool_iff.
    + unfold reportsAutoApprovable. split.
      * intros (routing & analysis & Hr & Ha).
        pose proof (routed_is_routable d _ _ Hr) as Hok.
        destruct (routeCase_routes d Hok) as (a & t & u & _ & _ & Hb & _ & _ & Hr').
        rewrite Hr' in Hr. injection Hr as _ <-.
        cbn [CaseRouter.Summary.autoApprovable] in Ha. rewrite Hb in Ha.
        apply andb_true_iff in Ha. destruct Ha as [H1 H2].
        split; [exact Hok |]. split; [| now apply Qle_bool_iff].
        apply (atMost_same _ _ 2 (runningScore_formula d)).
        now apply le_atMost.
      * intros (Hok & Hs & Hd).
        destruct (routeCase_routes d Hok) as (a & t & u & _ & _ & Hb & _ & _ & Hr').
        eexists. eexists. split; [exact Hr' |].
        cbn [CaseRouter.Summary.autoApprovable]. rewrite Hb.
        apply andb_true_iff. split; [| now apply Qle_bool_iff].
        apply le_atMost. now apply (atMost_same _ _ 2 (runningScore_formula d)).
    + intros routing analysis Hr Ha.
      pose proof (routed_is_routable d _ _ Hr) as Hok.
      destruct (routeCase_routes d Hok) as (a & t & u & _ & _ & Hb & _ & Hrisk & Hr').
      rewrite Hr' in Hr. injection Hr as <- <-.
      cbn [CaseRouter.Summary.autoApprovable] in Ha.
      cbn [CaseRouter.Routing.primaryApprover CaseRouter.Routing.approvalLevel
           CaseRouter.Routing.expectedTimeline CaseRouter.Routing.secondaryApprover].
      destruct (determineApprovalLevel_auto d a Ha) as (H1 & H2 & H3 & H4).
      repeat (split; [assumption |]). apply H4.
      rewrite Hb in Ha. apply andb_true_iff in Ha. destruct Ha as [Ha _].
      apply le_atMost in Ha. rewrite Hrisk, (tierOf_low _ Ha). discriminate.
  - eexists. eexists. split; [vm_compute; reflexivity |]. repeat split.
Qed.

(** *** Routing by discount bracket, on any draft *)

Lemma routed_by_bracket (d : General.Draft.t) (A : ROE.Approval) :
  unroutable d = false ->
  (0 < draftValue d)%Q ->
  (10 < draftDiscount d)%Q ->
  ROE.discountApproval
    (ROE.getApprovalRequirement (draftDiscount d) (draftValue d)) = Some A ->
  exists routing analysis,
    General.routeCase d = General.Routed routing analysis /\
    CaseRouter.Routing.primaryApprover routing = ROE.approver A /\
    CaseRouter.Routing.expectedTimeline routing = ROE.timeframe A /\
    CaseRouter.Routing.approvalLevel routing = approverLevel (ROE.approver A) /\
    ((4 <= approverLevel (ROE.approver A))%Z ->
     CaseRouter.Routing.secondaryApprover routing
     = if Case.same (General.Draft.category d) "legal" then Some "General Counsel"
       else if JS.Qlt_bool 500000 (draftValue d) then Some "CEO"
       else if JS.includes (ROE.approver A) "Finance" then Some "CFO"
       else None).
Proof.
  intros Hok Hv Hd HA.
  destruct (routeCase_routes d Hok) as (a & t & u & _ & _ & Hb & _ & _ & Hr).
  assert (Hauto : General.autoApprovable a = false).
  { rewrite Hb, (Qle_bool_false _ _ Hd). apply andb_false_r. }
  destruct (determineApprovalLevel_by_bracket d a A Hauto ltac:(lra) Hv HA)
    as (H1 & H2 & H3 & H4).
  eexists. eexists. split; [exact Hr |].
  cbn [CaseRouter.Routing.primaryApprover CaseRouter.Routing.approvalLevel
       CaseRouter.Routing.expectedTimeline CaseRouter.Routing.secondaryApprover].
  repeat (split; [assumption |]).
  intro H4'. rewrite H4. apply Z.leb_le in H4'. rewrite H4', orb_true_r. reflexivity.
Qed.

(** X2: with a positive deal value and a requested discount of 11 or
    more, a draft the router cannot route (a category that names an
    inherited property, or a competitor, description or timeframe that
    is a truthy value other than a text) gets the fallback routing with
    [success: false]; for every other draft, whatever its category, the
    bracket 11-20, 21-30 or 31+ of the discount decides the approver,
    the level and the timeline, and from 31 on there is a secondary
    approver. *)
Theorem discount_bracket_overrides_category (d : General.Draft.t) :
  (0 < draftValue d)%Q ->
  (11 <= draftDiscount d)%Q ->
  (unroutable d = true ->
   exists error,
     General.routeCase d = General.Unrouted error General.generateFallbackRouting /\
     General.primaryApprover General.generateFallbackRouting = "Sales Manager" /\
     General.approvalLevel General.generateFallbackRouting = 2%Z /\
     General.expectedTimeline General.generateFallbackRouting = "48 hours") /\
  (unroutable d = false ->
   exists routing analysis,
     General.routeCase d = General.Routed routing analysis /\
     ((draftDiscount d <= 20)%Q ->
      CaseRouter.Routing.primaryApprover routing = "Sales Manager" /\
      CaseRouter.Routing.approvalLevel routing = 2%Z /\
      CaseRouter.Routing.expectedTimeline routing = "24 hours") /\
     ((21 <= draftDiscount d <= 30)%Q ->
      CaseRouter.Routing.primaryApprover routing = "Regional Director" /\
      CaseRouter.Routing.approvalLevel routing = 3%Z /\
      CaseRouter.Routing.expectedTimeline routing = "48 hours") /\
     ((31 <= draftDiscount d)%Q ->
      CaseRouter.Routing.primaryApprover routing = "VP Sales + Finance" /\
      CaseRouter.Routing.approvalLevel routing = 5%Z /\
      CaseRouter.Routing.expectedTimeline routing = "72 hours" /\
      CaseRouter.Routing.secondaryApprover routing
      = Some (if Case.same (General.Draft.category d) "legal" then "General Counsel"
              else if JS.Qlt_bool 500000 (draftValue d) then "CEO" else "CFO"))).
Proof.
  intros Hv Hd. split.
  - intro Hbad. destruct (routeCase_fails d Hbad) as (e & He).
    exists e. repeat split. exact He.
  - intro Hok.
    destruct (routeCase_routes d Hok) as (a & t & u & _ & _ & _ & _ & _ & Hr).
    eexists. eexists. split; [exact Hr |].
    destruct (bracket_of (draftDiscount d) (draftValue d)) as (B1 & B2 & B3 & _).
    split; [intros H1 | split; [intros [H1 H2] | intros H3]].
    + destruct (routed_by_bracket d _ Hok Hv ltac:(lra) (B1 ltac:(split; lra)))
        as (r' & a' & Hr' & P1 & P2 & P3 & _).
      rewrite Hr in Hr'. injection Hr' as <- <-. rewrite P1, P2, P3. repeat split.
    + destruct (routed_by_bracket d _ Hok Hv ltac:(lra) (B2 ltac:(split; lra)))
        as (r' & a' & Hr' & P1 & P2 & P3 & _).
      rewrite Hr in Hr'. injection Hr' as <- <-. rewrite P1, P2, P3. repeat split.
    + destruct (routed_by_bracket d _ Hok Hv ltac:(lra) (B3 H3))
        as (r' & a' & Hr' & P1 & P2 & P3 & P4).
      rewrite Hr in Hr'. injection Hr' as <- <-. rewrite P1, P2, P3.
      do 3 (split; [reflexivity |]).
      rewrite P4 by (vm_compute; discriminate). cbn [ROE.approver].
      destruct (Case.same (General.Draft.category d) "legal"); [reflexivity |].
      destruct (JS.Qlt_bool 500000 (draftValue d)); reflexivity.
Qed.

Lemma discount_bracket_overrides_category_witness :
  (0 < draftValue technicalDraft35)%Q /\
  (11 <= draftDiscount technicalDraft35)%Q /\
  unroutable technicalDraft35 = false /\
  exists routing analysis,
    General.routeCase technicalDraft35 = General.Routed routing analysis /\
    CaseRouter.Routing.primaryApprover routing = "VP Sales + Finance".
Proof.
  assert (Hv : (0 < draftValue technicalDraft35)%Q) by reflexivity.
  assert (Hd : (11 <= draftDiscount technicalDraft35)%Q) by (cbn; lra).
  assert (Hok : unroutable technicalDraft35 = false) by reflexivity.
  assert (H31 : (31 <= draftDiscount technicalDraft35)%Q) by (cbn; lra).
  repeat (split; [assumption |]).
  destruct (proj2 (discount_bracket_overrides_category technicalDraft35 Hv Hd) Hok)
    as (routing & analysis & Hr & _ & _ & H3).
  exists routing, analysis. split; [exact Hr | exact (proj1 (H3 H31))].
Defined.

(** *** Escalation, on any draft *)

Lemma runningScore_inherited (d : General.Draft.t) :
  General.inherited (General.Draft.category d)
  || General.inherited (General.Draft.priority d) = true ->
  runningScore d = JS.NaN.
Proof.
  intro H. pose proof (runningScore_formula d) as S.
  unfold complexityOf in S. rewrite H in S.
  destruct (runningScore d); [reflexivity | contradiction].
Qed.

Lemma runningScore_lower (d : General.Draft.t) :
  General.inherited (General.Draft.category d)
  || General.inherited (General.Draft.priority d) = false ->
  exists s,
    runningScore d = JS.Num s /\
    (sizePoints (draftValue d)
     + JS.lookupOr CaseRouter.categoryComplexity (General.Draft.category d) 1
     <= s)%Q.
Proof.
  intro H. pose proof (runningScore_formula d) as S.
  unfold complexityOf in S. rewrite H in S.
  destruct (runningScore d) as [| s]; [contradiction |]. cbn [sameNumber] in S.
  exists s. split; [reflexivity |]. rewrite S.
  pose proof (categoryComplexity_range (General.Draft.category d)).
  pose proof (priorityMultiplier_range (General.Draft.priority d)).
  pose proof (sizePoints_range (draftValue d)).
  pose proof (discountPoints_range (draftDiscount d)).
  destruct (namesCompetitor d), (asksMultiYear d); nra.
Qed.

Lemma tierOf_simple (n : JS.jsnum) :
  String.eqb (fst (tierOf n)) "simple" = negb (JS.ge n (JS.Num 3)).
Proof.
  unfold tierOf. destruct n as [| s]; [reflexivity |]. cbn [JS.ge].
  destruct (Qle_bool 8 s) eqn:H8; destruct (Qle_bool 5 s) eqn:H5;
    destruct (Qle_bool 3 s) eqn:H3; try reflexivity; reflectQ; lra.
Qed.

(** X4: for a draft the router routes, the escalation path contains
    "VP Sales + CEO" exactly when the priority does not name an
    inherited property and the draft is a legal case or a deal above
    500000; a deal above 500000 climbs the whole chain, unless the
    priority names an inherited property: the score is then no number,
    the case counts as simple and the path ends at the Regional
    Director. *)
Theorem escalation_reaches_ceo (d : General.Draft.t)
        (routing : CaseRouter.Routing.t) (analysis : CaseRouter.Summary.t) :
  General.routeCase d = General.Routed routing analysis ->
  let path := CaseRouter.Routing.escalationPath routing in
  (In "VP Sales + CEO" path
   <-> General.inherited (General.Draft.priority d) = false /\
       (General.Draft.category d = Some "legal" \/ (500000 < draftValue d)%Q)) /\
  ((500000 < draftValue d)%Q ->
   path = if General.inherited (General.Draft.priority d)
          then ["Sales Manager"; "Regional Director"]
          else ["Sales Manager"; "Regional Director"; "VP Sales"; "VP Sales + CEO"]).
Proof.
  intros Hr path. subst path.
  pose proof (routed_is_routable d _ _ Hr) as Hok.
  destruct (routeCase_routes d Hok) as (a & t & u & _ & _ & _ & Hcx & Hrisk & Hr').
  rewrite Hr' in Hr. injection Hr as <- _. clear Hr'.
  cbn [CaseRouter.Routing.escalationPath].
  unfold General.buildEscalationPath, General.same. cbv zeta.
  rewrite !draftValue_lt, Hcx, tierOf_simple.
  assert (Hcat : General.inherited (General.Draft.category d) = false).
  { unfold unroutable in Hok. apply orb_false_iff in Hok. destruct Hok as [Hok _].
    apply orb_false_iff in Hok. exact (proj2 Hok). }
  destruct (General.inherited (General.Draft.priority d)) eqn:Hp.
  - rewrite (runningScore_inherited d) by (rewrite Hcat, Hp; reflexivity).
    cbn [JS.ge negb]. split.
    + split; [| intros [H _]; discriminate H].
      destruct (JS.Qlt_bool 100000 (draftValue d)); cbn [app In];
        intros H; repeat (destruct H as [H | H]; [discriminate |]); contradiction.
    + intro H. now rewrite (Qlt_bool_true 100000) by lra.
  - destruct (runningScore_lower d) as (s & Hs & Hlow);
      [rewrite Hcat, Hp; reflexivity |].
    rewrite Hs. cbn [JS.ge].
    pose proof (sizePoints_range (draftValue d)) as Hsz.
    pose proof (categoryComplexity_range (General.Draft.category d)) as Hcw.
    split.
    + rewrite <- same_true, <- Qlt_bool_iff.
      destruct (Qle_bool 3 s) eqn:H3; cbn [negb].
      * destruct (JS.Qlt_bool 250000 (draftValue d) || _),
                 (JS.Qlt_bool 500000 (draftValue d)),
                 (Case.same (General.Draft.category d) "legal");
          cbn [orb app In]; split; intros H; try tauto;
          repeat (destruct H as [H | H]; [discriminate |]); try contradiction;
          try discriminate; destruct H as [_ [H | H]]; discriminate.
      * apply Qle_bool_false_iff in H3. split.
        -- destruct (JS.Qlt_bool 100000 (draftValue d)); cbn [app In];
             intros H; repeat (destruct H as [H | H]; [discriminate |]);
             contradiction.
        -- intros [_ [H | H]]; exfalso.
           ++ apply same_true in H.
              assert (Hw : JS.lookupOr CaseRouter.categoryComplexity
                                       (General.Draft.category d) 1 = 3%Q)
                by (rewrite H; reflexivity).
              rewrite Hw in Hlow. lra.
           ++ apply Qlt_bool_iff in H. rewrite (sizePoints_huge _ H) in Hlow. lra.
    + intro H. rewrite (sizePoints_huge _ H) in Hlow.
      rewrite (Qle_bool_true 3 s) by lra. cbn [negb].
      rewrite (Qlt_bool_true 250000), (Qlt_bool_true 500000) by lra. reflexivity.
Qed.

Lemma escalation_reaches_ceo_witness :
  exists routing analysis,
    General.routeCase constructorPriority = General.Routed routing analysis /\
    CaseRouter.Routing.escalationPath routing = ["Sales Manager"; "Regional Director"] /\
    ~ In "VP Sales + CEO" (CaseRouter.Routing.escalationPath routing).
Proof.
  destruct (General.routeCase constructorPriority) as [routing analysis | e f] eqn:Hr;
    [| vm_compute in Hr; discriminate Hr].
  exists routing, analysis. split; [reflexivity |].
  destruct (escalation_reaches_ceo constructorPriority _ _ Hr) as [Hin Hpath].
  assert (Hv : (500000 < draftValue constructorPriority)%Q) by reflexivity.
  split.
  - rewrite (Hpath Hv). reflexivity.
  - intro H. apply Hin in H. destruct H as [H _]. discriminate H.
Defined.

(** *** Approvals for arguments that are no numbers *)

Lemma getApprovalRequirement_numbers (discountPercent dealSize : General.value)
      (d size : Q) :
  General.toNumber discountPercent = JS.Num d ->
  General.toNumber dealSize = JS.Num size ->
  General.getApprovalRequirement discountPercent dealSize
  = ROE.getApprovalRequirement d size.
Proof.
  intros Hd Hs.
  unfold General.getApprovalRequirement, ROE.getApprovalRequirement,
    ROE.discountApprovalTable, ROE.dealSizeApprovalTable.
  cbn [find fst].
  unfold General.inDiscountRange, General.inSizeRange, ROE.inDiscountRange,
    ROE.inSizeRange.
  rewrite Hd, Hs. reflexivity.
Qed.

Lemma discountApproval_NaN (discountPercent dealSize : General.value) :
  General.toNumber discountPercent = JS.NaN ->
  ROE.discountApproval (General.getApprovalRequirement discountPercent dealSize)
  = None.
Proof.
  intro H.
  unfold General.getApprovalRequirement, ROE.discountApprovalTable.
  cbn [ROE.discountApproval find fst].
  unfold General.inDiscountRange. rewrite H. reflexivity.
Qed.

Lemma sizeApproval_NaN (discountPercent dealSize : General.value) :
  General.toNumber dealSize = JS.NaN ->
  ROE.sizeApproval (General.getApprovalRequirement discountPercent dealSize) = None.
Proof.
  intro H.
  unfold General.getApprovalRequirement, ROE.dealSizeApprovalTable.
  cbn [ROE.sizeApproval find fst].
  unfold General.inSizeRange. rewrite H. reflexivity.
Qed.

Lemma discountApproval_of (discountPercent dealSize : General.value) :
  ROE.discountApproval (General.getApprovalRequirement discountPercent dealSize)
  = match General.toNumber discountPercent with
    | JS.Num d => ROE.discountApproval (ROE.getApprovalRequirement d 0)
    | JS.NaN => None
    end.
Proof.
  destruct (General.toNumber discountPercent) as [| d] eqn:Hd.
  - now apply discountApproval_NaN.
  - unfold General.getApprovalRequirement, ROE.getApprovalRequirement,
      ROE.discountApprovalTable.
    cbn [ROE.discountApproval find fst].
    unfold General.inDiscountRange, ROE.inDiscountRange. rewrite Hd. reflexivity.
Qed.

Lemma sizeApproval_of (discountPercent dealSize : General.value) :
  ROE.sizeApproval (General.getApprovalRequirement discountPercent dealSize)
  = match General.toNumber dealSize with
    | JS.Num size => Some (sizeBracket size)
    | JS.NaN => None
    end.
Proof.
  destruct (General.toNumber dealSize) as [| size] eqn:Hs.
  - now apply sizeApproval_NaN.
  - rewrite <- (sizeApproval_bracket 0 size).
    unfold General.getApprovalRequirement, ROE.getApprovalRequirement,
      ROE.dealSizeApprovalTable.
    cbn [ROE.sizeApproval find fst].
    unfold General.inSizeRange, ROE.inSizeRange. rewrite Hs. reflexivity.
Qed.

Lemma discountApproval_some_iff (discountPercent dealSize : General.value) :
  ROE.discountApproval (General.getApprovalRequirement discountPercent dealSize)
  <> None
  <-> inSomeBracket discountPercent.
Proof.
  rewrite discountApproval_of. unfold inSomeBracket.
  destruct (General.toNumber discountPercent) as [| d].
  - split; [intro H; now elim H | intros (d & Hd & _); discriminate].
  - destruct (discountApproval_resolves d 0) as [Hin Hout].
    destruct (inBracket_decidable d) as [Hb | Hb].
    + destruct (Hin Hb) as (da & ->).
      split; [intros _; now exists d | intros _; discriminate].
    + rewrite (Hout Hb).
      split; [intro H; now elim H |].
      intros (d' & Hd & Hb'). injection Hd as <-. contradiction.
Qed.

Lemma highestLevel_of (discountPercent dealSize : General.value) :
  ROE.highestLevel (General.getApprovalRequirement discountPercent dealSize)
  = if ROE.sameApprover
         (ROE.discountApproval
            (General.getApprovalRequirement discountPercent dealSize))
         (ROE.sizeApproval (General.getApprovalRequirement discountPercent dealSize))
    then ROE.Single (ROE.discountApproval
                       (General.getApprovalRequirement discountPercent dealSize))
    else ROE.Both (ROE.discountApproval
                     (General.getApprovalRequirement discountPercent dealSize))
                  (ROE.sizeApproval
                     (General.getApprovalRequirement discountPercent dealSize)).
Proof. reflexivity. Qed.

(** X8: [getApprovalRequirement] finds a deal-size approval exactly when
    the deal size is a number (for NaN and [undefined] every comparison
    is false), a discount approval exactly when the discount is a number
    in a bracket; [highestLevel] is the single discount approval when
    both tables name the same approver, that is for 11 to 20% below
    50000 and for 21 to 30% between 50000 and 250000, and also when
    neither table answers, and it is then [undefined]; in every other
    case it is the pair of both approvals, either of which may be
    missing. *)
Theorem highest_level_single_iff (discountPercent dealSize : General.value) :
  let req := General.getApprovalRequirement discountPercent dealSize in
  ROE.sizeApproval req
  = match General.toNumber dealSize with
    | JS.Num size => Some (sizeBracket size)
    | JS.NaN => None
    end /\
  (ROE.discountApproval req <> None <-> inSomeBracket discountPercent) /\
  (ROE.highestLevel req = ROE.Single (ROE.discountApproval req)
   <-> (exists d size,
           General.toNumber discountPercent = JS.Num d /\
           General.toNumber dealSize = JS.Num size /\
           ((11 <= d <= 20 /\ size < 50000)
            \/ (21 <= d <= 30 /\ 50000 <= size <= 250000))%Q)
       \/ (~ inSomeBracket discountPercent /\
           General.toNumber dealSize = JS.NaN)) /\
  (ROE.highestLevel req = ROE.Single (ROE.discountApproval req)
   \/ ROE.highestLevel req
      = ROE.Both (ROE.discountApproval req) (ROE.sizeApproval req)).
Proof.
  cbv zeta. split; [apply sizeApproval_of |].
  split; [apply discountApproval_some_iff |].
  split.
  2:{ rewrite highestLevel_of. destruct (ROE.sameApprover _ _); tauto. }
  destruct (General.toNumber dealSize) as [| size] eqn:Hs.
  - rewrite highestLevel_of, (sizeApproval_NaN _ _ Hs).
    pose proof (discountApproval_some_iff discountPercent dealSize) as Hda.
    destruct (ROE.discountApproval
                (General.getApprovalRequirement discountPercent dealSize))
      as [da |]; cbn [ROE.sameApprover].
    + split; [discriminate |].
      intros [(d & s & _ & Hn & _) | [Hno _]]; [discriminate |].
      exfalso. apply Hno, Hda. discriminate.
    + split; [| reflexivity]. intros _. right.
      split; [| reflexivity]. intro Hb. apply Hda in Hb. now elim Hb.
  - destruct (General.toNumber discountPercent) as [| d] eqn:Hd.
    + rewrite highestLevel_of, (discountApproval_NaN _ _ Hd), sizeApproval_of, Hs.
      cbn [ROE.sameApprover]. split; [discriminate |].
      intros [(d & s & Hn & _) | [_ Hn]]; discriminate.
    + rewrite (getApprovalRequirement_numbers _ _ d size Hd Hs).
      destruct (highestLevel_of_numbers d size) as (Hiff & _ & _).
      rewrite Hiff. split.
      * intro H. left. now exists d, size.
      * intros [(d' & s' & Hd' & Hs' & H) | [_ Hn]]; [| discriminate].
        injection Hd' as <-. injection Hs' as <-. exact H.
Qed.

(** *** The quick route for a deal size that is no number *)

(** X20: the quick route for a deal size names the approver and the
    timeline of the deal-size table when the size is a number; for NaN
    and [undefined] it falls back to "Sales Manager" and "24 hours" and
    sets neither flag; in every case it requires an executive exactly
    when the approver is "VP Sales + CEO", and finance exactly when it
    is "VP Sales" or "VP Sales + CEO". *)
Theorem size_route_flags_match_approver (dealValue : General.value) :
  let r := General.getRouteForDealSize dealValue in
  match General.toNumber dealValue with
  | JS.Num size =>
      QuickRoutes.SizeRoute.requiredApprover r = ROE.approver (sizeBracket size) /\
      QuickRoutes.SizeRoute.timeline r = ROE.timeframe (sizeBracket size)
  | JS.NaN =>
      QuickRoutes.SizeRoute.requiredApprover r = "Sales Manager" /\
      QuickRoutes.SizeRoute.timeline r = "24 hours" /\
      QuickRoutes.SizeRoute.requiresFinance r = false /\
      QuickRoutes.SizeRoute.requiresExecutive r = false
  end /\
  (QuickRoutes.SizeRoute.requiresExecutive r = true
   <-> QuickRoutes.SizeRoute.requiredApprover r = "VP Sales + CEO") /\
  (QuickRoutes.SizeRoute.requiresFinance r = true
   <-> QuickRoutes.SizeRoute.requiredApprover r = "VP Sales"
       \/ QuickRoutes.SizeRoute.requiredApprover r = "VP Sales + CEO").
Proof.
  cbv zeta. unfold General.getRouteForDealSize. cbv zeta.
  cbn [QuickRoutes.SizeRoute.requiredApprover QuickRoutes.SizeRoute.timeline
       QuickRoutes.SizeRoute.requiresExecutive QuickRoutes.SizeRoute.requiresFinance].
  rewrite sizeApproval_of.
  destruct (General.toNumber dealValue) as [| size] eqn:Hs; cbn [option_map JS.gt].
  - cbn. repeat split; intros H; try discriminate H.
    destruct H as [H | H]; discriminate H.
  - pose proof (sizeRoute_of_numbers size) as H. cbv zeta in H.
    unfold QuickRoutes.getRouteForDealSize in H. cbv zeta in H.
    cbn [QuickRoutes.SizeRoute.requiredApprover QuickRoutes.SizeRoute.timeline
         QuickRoutes.SizeRoute.requiresExecutive
         QuickRoutes.SizeRoute.requiresFinance] in H.
    rewrite sizeApproval_bracket in H. cbn [option_map] in H.
    destruct H as (H1 & H2 & H3 & H4).
    split; [split; assumption |]. split; assumption.
Qed.

(** *** The approval lookup for arguments that are no numbers *)

Lemma sameApprover_brackets (d size : Q) (da : ROE.Approval) :
  ROE.discountApproval (ROE.getApprovalRequirement d 0) = Some da ->
  String.eqb (ROE.approver (sizeBracket size)) (ROE.approver da) = true ->
  (11 <= d <= 20)%Q /\ (size < 50000)%Q
  \/ (21 <= d <= 30)%Q /\ (50000 <= size <= 250000)%Q.
Proof.
  rewrite discountApproval_brackets. unfold sizeBracket.
  qcase (Qle_bool 0 d); qcase (Qle_bool d 10); qcase (Qle_bool 11 d);
    qcase (Qle_bool d 20); qcase (Qle_bool 21 d); qcase (Qle_bool d 30);
    qcase (Qle_bool 31 d); qcase (JS.Qlt_bool size 50000);
    qcase (Qle_bool size 250000); qcase (Qle_bool size 500000);
    cbn [andb]; intros Hda; try discriminate Hda; injection Hda as <-;
    cbn [ROE.approver]; intro H; try discriminate H;
    first [left; split; lra | right; split; lra].
Qed.

Lemma sameApprover_small (d : Q) :
  (11 <= d <= 20)%Q ->
  exists da,
    ROE.discountApproval (ROE.getApprovalRequirement d 0) = Some da /\
    String.eqb (ROE.approver (sizeBracket 0)) (ROE.approver da) = true.
Proof.
  intro H. destruct (bracket_of d 0) as (B1 & _). rewrite (B1 H).
  eexists. split; reflexivity.
Qed.

(** X24: the approval lookup of the knowledge base answers "No specific
    approval requirements found" exactly when the discount is in no
    bracket and the deal size is no number, which is what
    [quickPolicyLookup('approval_required')] gets without parameters;
    it succeeds exactly when the discount is a number in a bracket and
    the deal size is a number (or [null] with a discount of 11 to 20),
    and then reports both approvals and at least two lines of guidance;
    in every other case it ends in "Error looking up approval
    requirements". *)
Theorem approval_lookup_outcome (discountPercent dealSize : General.value) :
  let answer := General.lookupApprovalRequirements discountPercent dealSize in
  (answer = KnowledgeBase.NoApprovals "No specific approval requirements found"
   <-> ~ inSomeBracket discountPercent /\ General.toNumber dealSize = JS.NaN) /\
  ((exists da sa highest guidance,
       answer = KnowledgeBase.ApprovalsFound da sa highest guidance)
   <-> inSomeBracket discountPercent /\
       ((exists size, dealSize = General.Number (JS.Num size))
        \/ (dealSize = General.Null /\
            exists d, General.toNumber discountPercent = JS.Num d /\
                      (11 <= d <= 20)%Q))) /\
  (forall da sa highest guidance,
      answer = KnowledgeBase.ApprovalsFound da sa highest guidance ->
      da <> None /\ sa <> None /\ (2 <= List.length guidance)%nat) /\
  (answer = KnowledgeBase.NoApprovals "No specific approval requirements found"
   \/ (exists da sa highest guidance,
          answer = KnowledgeBase.ApprovalsFound da sa highest guidance)
   \/ answer = KnowledgeBase.ApprovalLookupFailed
                 "Error looking up approval requirements") /\
  General.quickApprovalLookup None None
  = KnowledgeBase.NoApprovals "No specific approval requirements found".
Proof.
  cbv zeta.
  assert (Hsome := discountApproval_some_iff discountPercent dealSize).
  assert (Hda := discountApproval_of discountPercent dealSize).
  assert (Hsa := sizeApproval_of discountPercent dealSize).
  assert (Hhl := highestLevel_of discountPercent dealSize).
  unfold General.lookupApprovalRequirements, General.generateApprovalGuidance.
  cbv zeta.
  set (req := General.getApprovalRequirement discountPercent dealSize) in *.
  clearbody req. destruct req as [oda osa hl].
  cbn [ROE.discountApproval ROE.sizeApproval ROE.highestLevel] in *. subst hl.
  destruct oda as [da |]; destruct osa as [sa |];
    cbn [ROE.sameApprover General.bind].
  - (* both tables answer *)
    assert (Hb : inSomeBracket discountPercent) by (apply Hsome; discriminate).
    destruct (General.toNumber dealSize) as [| size] eqn:Hs; [discriminate |].
    injection Hsa as ->.
    destruct (General.toNumber discountPercent) as [| d] eqn:Hd;
      [discriminate |].
    destruct (String.eqb (ROE.approver da) (ROE.approver (sizeBracket size)))
      eqn:Esame.
    + (* the same approver: nothing reads the deal size *)
      rewrite String.eqb_sym in Esame. rewrite Esame. cbn [negb General.bind].
      split; [split; [discriminate | intros [Hno _]; contradiction] |].
      split.
      * split; [intros _ | intros _; do 4 eexists; reflexivity].
        split; [exact Hb |].
        destruct dealSize as [| | [| q]]; try discriminate.
        -- right. split; [reflexivity |]. exists d. split; [reflexivity |].
           injection Hs as <-.
           destruct (sameApprover_brackets d 0 da (eq_sym Hda) Esame)
             as [[H _] | [_ [H _]]]; [exact H | exfalso; lra].
        -- left. now exists q.
      * split.
        -- intros ? ? ? ? H. injection H as <- <- _ <-.
           repeat split; try discriminate. simpl. lia.
        -- split; [right; left; do 4 eexists; reflexivity | reflexivity].
    + rewrite String.eqb_sym in Esame. rewrite Esame. cbn [negb].
      destruct dealSize as [| | [| q]]; try discriminate;
        cbn [General.toLocaleString General.bind].
      * (* null *)
        split; [split; [discriminate | intros [Hno _]; contradiction] |].
        split.
        -- split; [intros (? & ? & ? & ? & H); discriminate H |].
           intros [_ [(size' & H) | (_ & d' & Hd' & Hr)]]; [discriminate |].
           exfalso. injection Hd' as <-. injection Hs as <-.
           destruct (sameApprover_small d Hr) as (da' & Hda' & Hsame).
           rewrite <- Hda in Hda'. injection Hda' as <-. congruence.
        -- split; [intros ? ? ? ? H; discriminate H |].
           split; [right; right; reflexivity | reflexivity].
      * (* a number *)
        split; [split; [discriminate | intros [Hno _]; contradiction] |].
        split.
        -- split; [intros _ | intros _; do 4 eexists; reflexivity].
           split; [exact Hb | left; now exists q].
        -- split.
           ++ intros ? ? ? ? H. injection H as <- <- _ <-.
              repeat split; try discriminate. simpl. lia.
           ++ split; [right; left; do 4 eexists; reflexivity | reflexivity].
  - (* a discount approval only *)
    assert (Hb : inSomeBracket discountPercent) by (apply Hsome; discriminate).
    destruct (General.toNumber dealSize) as [| size] eqn:Hs; [| discriminate].
    split; [split; [discriminate | intros [Hno _]; contradiction] |].
    split.
    + split; [intros (? & ? & ? & ? & H); discriminate H |].
      intros [_ [(size' & ->) | (-> & _)]]; discriminate Hs.
    + split; [intros ? ? ? ? H; discriminate H |].
      split; [right; right; reflexivity | reflexivity].
  - (* a deal-size approval only *)
    assert (Hb : ~ inSomeBracket discountPercent).
    { intro Hb. apply Hsome in Hb. now elim Hb. }
    destruct (General.toNumber dealSize) as [| size] eqn:Hs; [discriminate |].
    destruct dealSize as [| | [| q]]; try discriminate Hs;
      cbn [General.toLocaleString General.bind];
      (split; [split; [discriminate | intros [_ H]; cbn in H; discriminate H] |]);
      (split;
       [split; [intros (? & ? & ? & ? & H); discriminate H
               | intros [H _]; contradiction] |]);
      (split; [intros ? ? ? ? H; discriminate H |]);
      (split; [right; right; reflexivity | reflexivity]).
  - (* no approval at all *)
    assert (Hb : ~ inSomeBracket discountPercent).
    { intro Hb. apply Hsome in Hb. now elim Hb. }
    destruct (General.toNumber dealSize) as [| size] eqn:Hs; [| discriminate].
    split; [split; [intros _; split; [exact Hb | reflexivity] | reflexivity] |].
    split.
    + split; [intros (? & ? & ? & ? & H); discriminate H |].
      intros [H _]. contradiction.
    + split; [intros ? ? ? ? H; discriminate H |].
      split; [left; reflexivity | reflexivity].
Qed.

(** *** The lookups on numbers *)

Lemma getRouteForDealSize_agree (dealValue : Q) :
  General.getRouteForDealSize (General.Number (JS.Num dealValue))
  = QuickRoutes.getRouteForDealSize dealValue.
Proof. reflexivity. Qed.

Lemma lookupApprovalRequirements_agree (discountPercent dealSize : Q) :
  General.lookupApprovalRequirements (General.Number (JS.Num discountPercent))
                                     (General.Number (JS.Num dealSize))
  = KnowledgeBase.lookupApprovalRequirements discountPercent dealSize.
Proof.
  unfold General.lookupApprovalRequirements,
    KnowledgeBase.lookupApprovalRequirements. cbv zeta.
  rewrite getApprovalRequirement_agree.
  unfold General.generateApprovalGuidance, KnowledgeBase.generateApprovalGuidance.
  cbv zeta.
  generalize (ROE.getApprovalRequirement discountPercent dealSize).
  intros [oda osa hl].
  cbn [ROE.discountApproval ROE.sizeApproval ROE.highestLevel].
  destruct oda as [da |], osa as [sa |];
    cbn [General.toLocaleString General.shownValue General.bind];
    repeat match goal with
           | |- context [if ?b then _ else _] =>
               destruct b; cbn [General.bind]
           end;
    destruct hl as [x | [a |] [b |]]; reflexivity.
Qed.

(** *** The loop of the checker, on any draft *)

Section LoopOnAnyDraft.
Variable this : General.Checker.
Variable caseData : General.Draft.t.

Lemma returnedOn_cons (n : string) (names : list string) :
  returnedOn this caseData (n :: names)
  = match General.method this n caseData with
    | PolicyChecker.Return r => r :: returnedOn this caseData names
    | PolicyChecker.Throw _ => returnedOn this caseData names
    end.
Proof.
  unfold returnedOn. cbn [flat_map].
  destruct (General.method this n caseData); reflexivity.
Qed.

Lemma loopOn_violations (names : list string) (res : PolicyChecker.Compliance.Results) :
  PolicyChecker.Compliance.violations
    (fold_left (General.runCheck this caseData) names res)
  = PolicyChecker.Compliance.violations res
    ++ flat_map PolicyChecker.violations (returnedOn this caseData names).
Proof.
  revert res. induction names as [| n names IH]; intro res.
  - simpl. now rewrite app_nil_r.
  - cbn [fold_left]. rewrite IH, returnedOn_cons. unfold General.runCheck.
    destruct (General.method this n caseData) as [r | e];
      cbn [PolicyChecker.Compliance.violations flat_map]; [| reflexivity].
    now rewrite app_assoc.
Qed.

Lemma loopOn_warnings (names : list string) (res : PolicyChecker.Compliance.Results) :
  PolicyChecker.Compliance.warnings
    (fold_left (General.runCheck this caseData) names res)
  = PolicyChecker.Compliance.warnings res
    ++ flat_map (warningsOn this caseData) names.
Proof.
  revert res. induction names as [| n names IH]; intro res.
  - simpl. now rewrite app_nil_r.
  - cbn [fold_left flat_map]. rewrite IH. unfold General.runCheck, warningsOn at 2.
    destruct (General.method this n caseData) as [r | e];
      cbn [PolicyChecker.Compliance.warnings]; now rewrite app_assoc.
Qed.

Lemma loopOn_recommendations (names : list string)
      (res : PolicyChecker.Compliance.Results) :
  PolicyChecker.Compliance.recommendations
    (fold_left (General.runCheck this caseData) names res)
  = PolicyChecker.Compliance.recommendations res
    ++ flat_map PolicyChecker.recommendations (returnedOn this caseData names).
Proof.
  revert res. induction names as [| n names IH]; intro res.
  - simpl. now rewrite app_nil_r.
  - cbn [fold_left]. rewrite IH, returnedOn_cons. unfold General.runCheck.
    destruct (General.method this n caseData) as [r | e];
      cbn [PolicyChecker.Compliance.recommendations flat_map]; [| reflexivity].
    now rewrite app_assoc.
Qed.

Lemma loopOn_checks (names : list string) (res : PolicyChecker.Compliance.Results)
      (name : string) (r : PolicyChecker.CheckResult) :
  General.method this name caseData = PolicyChecker.Return r ->
  In name names
  \/ JS.lookup name (PolicyChecker.Compliance.complianceChecks res) = Some r ->
  JS.lookup name
    (PolicyChecker.Compliance.complianceChecks
       (fold_left (General.runCheck this caseData) names res))
  = Some r.
Proof.
  intro Hr. revert res. induction names as [| n names IH]; intros res H.
  - destruct H as [[] | H]. exact H.
  - cbn [fold_left]. apply IH.
    destruct (String.eqb_spec name n) as [-> | Hne].
    + right. unfold General.runCheck. rewrite Hr.
      cbn [PolicyChecker.Compliance.complianceChecks].
      apply lookup_assign_same.
    + destruct H as [[H | H] | H]; [congruence | now left |].
      right. unfold General.runCheck.
      destruct (General.method this n caseData);
        cbn [PolicyChecker.Compliance.complianceChecks];
        [rewrite lookup_assign_other by exact Hne |]; exact H.
Qed.

Lemma In_returnedOn (names : list string) (name : string)
      (r : PolicyChecker.CheckResult) :
  In name names -> General.method this name caseData = PolicyChecker.Return r ->
  In r (returnedOn this caseData names).
Proof.
  intros Hin Hr. unfold returnedOn. apply in_flat_map.
  exists name. split; [exact Hin |]. rewrite Hr. now left.
Qed.

End LoopOnAnyDraft.

(** *** The steps after the loop *)

Lemma assessRisk_spec (d : General.Draft.t) (res : PolicyChecker.Compliance.Results) :
  if riskUnassessable d
  then General.assessRisk d res
       = PolicyChecker.Throw "caseData.description?.toLowerCase is not a function"
  else exists ra, General.assessRisk d res = PolicyChecker.Return ra.
Proof.
  unfold riskUnassessable, General.assessRisk, General.competitiveSituation.
  cbv zeta.
  destruct (General.truthy (General.Draft.competitorInfo d)); cbn [negb andb].
  - eexists. reflexivity.
  - destruct (General.Draft.description d) as [| s | b]; cbn [noText General.bind];
      try reflexivity; eexists; reflexivity.
Qed.

Lemma checkCompliance_spec (this : General.Checker) (d : General.Draft.t) :
  if riskUnassessable d
  then General.checkCompliance this d
       = General.Unchecked "caseData.description?.toLowerCase is not a function"
                           General.generateFallbackCompliance
  else
    exists ra,
      General.assessRisk d (General.runChecks this d) = PolicyChecker.Return ra /\
      General.checkCompliance this d
      = General.Checked
          {| PolicyChecker.Compliance.overallCompliance :=
               PolicyChecker.determineOverallCompliance (General.runChecks this d);
             PolicyChecker.Compliance.score :=
               PolicyChecker.Compliance.score (General.runChecks this d);
             PolicyChecker.Compliance.violations :=
               PolicyChecker.Compliance.violations (General.runChecks this d);
             PolicyChecker.Compliance.warnings :=
               PolicyChecker.Compliance.warnings (General.runChecks this d);
             PolicyChecker.Compliance.recommendations :=
               PolicyChecker.Compliance.recommendations (General.runChecks this d);
             PolicyChecker.Compliance.approvalRequirements :=
               Some (General.getApprovalRequirements d (General.runChecks this d));
             PolicyChecker.Compliance.riskAssessment := Some ra;
             PolicyChecker.Compliance.complianceChecks :=
               PolicyChecker.Compliance.complianceChecks
                 (General.runChecks this d) |}.
Proof.
  pose proof (assessRisk_spec d (General.runChecks this d)) as H.
  unfold General.checkCompliance. cbv zeta.
  destruct (riskUnassessable d).
  - rewrite H. reflexivity.
  - destruct H as (ra & H). exists ra. split; [exact H |]. rewrite H. reflexivity.
Qed.

(** *** Drafts of texts and numbers *)

Lemma lowerOrEmpty_text (name : string) (field : option string) :
  General.lowerOrEmpty name (General.ofText field)
  = PolicyChecker.Return (Case.lowerOrEmpty field).
Proof. destruct field; reflexivity. Qed.

Lemma truthy_text (field : option string) :
  General.truthy (General.ofText field) = Case.truthyText field.
Proof. destruct field; reflexivity. Qed.

Lemma inferSegment_agree (c : Case.CaseData) :
  General.inferSegment (General.ofCase c)
  = PolicyChecker.Return (PolicyChecker.inferSegment c).
Proof.
  unfold General.inferSegment, PolicyChecker.inferSegment, General.ofCase.
  cbn [General.Draft.description General.Draft.customerInfo General.Draft.dealValue].
  rewrite !lowerOrEmpty_text. reflexivity.
Qed.

Lemma inferDealType_agree (c : Case.CaseData) :
  General.inferDealType (General.ofCase c)
  = PolicyChecker.Return (PolicyChecker.inferDealType c).
Proof.
  unfold General.inferDealType, PolicyChecker.inferDealType, General.ofCase.
  cbn [General.Draft.description General.Draft.title].
  rewrite !lowerOrEmpty_text. reflexivity.
Qed.

Lemma description_ofCase (c : Case.CaseData) :
  General.Draft.description (General.ofCase c) = General.ofText (Case.description c).
Proof. reflexivity. Qed.

(** On a draft of texts and numbers every check of the singleton returns
    what the check of [PolicyChecker] returns. *)
Lemma checks_agree (c : Case.CaseData) :
  General.discountCompliance (General.ofCase c)
  = PolicyChecker.Return (PolicyChecker.discountCompliance c) /\
  General.minimumRequirements (General.ofCase c)
  = PolicyChecker.Return (PolicyChecker.minimumRequirements c) /\
  General.approvalWorkflow (General.ofCase c)
  = PolicyChecker.Return (PolicyChecker.approvalWorkflow c) /\
  General.dealStructure (General.ofCase c)
  = PolicyChecker.Return (PolicyChecker.dealStructure c) /\
  General.competitivePolicy (General.ofCase c)
  = PolicyChecker.Return (PolicyChecker.competitivePolicy c) /\
  General.pilotProgramRules (General.ofCase c)
  = PolicyChecker.Return (PolicyChecker.pilotProgramRules c) /\
  General.paymentTerms (General.ofCase c)
  = PolicyChecker.Return (PolicyChecker.paymentTerms c) /\
  General.technicalCompliance (General.ofCase c)
  = PolicyChecker.Return (PolicyChecker.technicalCompliance c) /\
  General.legalCompliance (General.ofCase c)
  = PolicyChecker.Return (PolicyChecker.legalCompliance c).
Proof.
  repeat apply conj.
  - unfold General.discountCompliance, PolicyChecker.discountCompliance.
    rewrite inferSegment_agree, inferDealType_agree. cbn [General.bind].
    unfold General.same. cbn [General.ofCase General.Draft.discountRequested
                              General.Draft.category].
    destruct (negb _ || negb _); [reflexivity |].
    destruct (ROE.getDiscountPolicy _ _ None); reflexivity.
  - unfold General.minimumRequirements, PolicyChecker.minimumRequirements.
    rewrite inferSegment_agree, inferDealType_agree, description_ofCase,
      lowerOrEmpty_text.
    cbn [General.bind].
    destruct (String.eqb (PolicyChecker.inferDealType c) "addon"); reflexivity.
  - reflexivity.
  - unfold General.dealStructure, PolicyChecker.dealStructure.
    rewrite description_ofCase, lowerOrEmpty_text. reflexivity.
  - unfold General.competitivePolicy, PolicyChecker.competitivePolicy,
      General.hasCompetitor, PolicyChecker.hasCompetitor.
    rewrite description_ofCase, lowerOrEmpty_text.
    cbn [General.ofCase General.Draft.competitorInfo General.Draft.priority].
    destruct (Case.competitorInfo c); reflexivity.
  - unfold General.pilotProgramRules, PolicyChecker.pilotProgramRules.
    rewrite description_ofCase, lowerOrEmpty_text, inferSegment_agree.
    cbn [General.bind].
    destruct (_ || _ || _); reflexivity.
  - unfold General.paymentTerms, PolicyChecker.paymentTerms.
    rewrite description_ofCase, lowerOrEmpty_text. reflexivity.
  - unfold General.technicalCompliance, PolicyChecker.technicalCompliance.
    rewrite description_ofCase, lowerOrEmpty_text. unfold General.same.
    cbn [General.ofCase General.Draft.category].
    destruct (negb _); reflexivity.
  - unfold General.legalCompliance, PolicyChecker.legalCompliance.
    rewrite description_ofCase, lowerOrEmpty_text. unfold General.same.
    cbn [General.ofCase General.Draft.category].
    destruct (negb _); reflexivity.
Qed.

Lemma method_agree (c : Case.CaseData) (name : string) :
  General.method General.policyChecker name (General.ofCase c)
  = PolicyChecker.method PolicyChecker.policyChecker name c.
Proof.
  destruct (checks_agree c) as (H1 & H2 & H3 & H4 & H5 & H6 & H7 & H8 & H9).
  unfold General.policyChecker, PolicyChecker.policyChecker,
    General.methods, PolicyChecker.methods.
  cbn [General.method PolicyChecker.method JS.lookup].
  repeat match goal with
         | |- context [String.eqb name ?k] =>
             destruct (String.eqb name k); [assumption |]
         end.
  reflexivity.
Qed.

Lemma runChecks_agree (c : Case.CaseData) :
  General.runChecks General.policyChecker (General.ofCase c)
  = fold_left (PolicyChecker.runCheck PolicyChecker.policyChecker c)
              (PolicyChecker.complianceChecks PolicyChecker.policyChecker)
              PolicyChecker.initialResults.
Proof.
  unfold General.runChecks.
  change (General.complianceChecks General.policyChecker)
    with (PolicyChecker.complianceChecks PolicyChecker.policyChecker).
  generalize PolicyChecker.initialResults.
  induction (PolicyChecker.complianceChecks PolicyChecker.policyChecker)
    as [| n names IH]; intro res; [reflexivity |].
  cbn [fold_left]. rewrite IH. f_equal.
  unfold General.runCheck, PolicyChecker.runCheck. rewrite method_agree.
  reflexivity.
Qed.

Lemma riskUnassessable_text (c : Case.CaseData) :
  riskUnassessable (General.ofCase c) = false.
Proof.
  unfold riskUnassessable.
  cbn [General.ofCase General.Draft.description].
  destruct (Case.description c); cbn [General.ofText noText]; apply andb_false_r.
Qed.

(** On a draft of texts and numbers the singleton answers as
    [PolicyChecker.checkCompliance] says. *)
Lemma checkCompliance_agree (c : Case.CaseData) :
  General.checkCompliance General.policyChecker (General.ofCase c)
  = General.Checked
      (PolicyChecker.compliance
         (PolicyChecker.checkCompliance PolicyChecker.policyChecker c)).
Proof.
  unfold General.checkCompliance, PolicyChecker.checkCompliance. cbv zeta.
  rewrite runChecks_agree.
  unfold General.assessRisk, General.competitiveSituation. cbv zeta.
  cbn [General.ofCase General.Draft.competitorInfo General.Draft.description
       General.Draft.discountRequested General.Draft.dealValue
       General.Draft.category].
  rewrite truthy_text.
  cbn [PolicyChecker.compliance]. unfold PolicyChecker.assessRisk. cbv zeta.
  destruct (Case.truthyText (Case.competitorInfo c)); cbn [General.bind orb].
  - reflexivity.
  - destruct (Case.description c); reflexivity.
Qed.

(** *** The router on a draft of texts and numbers *)

Lemma analyzeCaseComplexity_agree (c : Case.CaseData) :
  ordinaryNames c = true ->
  General.analyzeCaseComplexity (General.ofCase c)
  = PolicyChecker.Return (analysisOf (CaseRouter.analyzeCaseComplexity c)).
Proof.
  unfold ordinaryNames. intro H. apply andb_true_iff in H.
  destruct H as [Hc Hp]. apply negb_true_iff in Hc, Hp.
  unfold General.analyzeCaseComplexity, CaseRouter.analyzeCaseComplexity, analysisOf.
  cbv zeta.
  cbn [General.ofCase General.Draft.category General.Draft.priority
       General.Draft.dealValue General.Draft.discountRequested
       General.Draft.competitorInfo General.Draft.description].
  rewrite (lookupOr_agree _ _ _ Hc), (lookupOr_agree _ _ _ Hp).
  unfold General.checkForPrecedent, CaseRouter.checkForPrecedent, General.same.
  cbn [General.ofCase General.Draft.category].
  match goal with
  | |- context [let '(_, _) := (if JS.Qlt_bool 500000 ?v then ?x else ?y) in _] =>
      generalize (if JS.Qlt_bool 500000 v then x else y); intros [s1 f1]
  end.
  match goal with
  | |- context [let '(_, _) := (if JS.Qlt_bool 30 ?v then ?x else ?y) in _] =>
      generalize (if JS.Qlt_bool 30 v then x else y); intros [s2 f2]
  end.
  cbn [General.add General.times].
  destruct (Case.competitorInfo c) as [ci |], (Case.description c) as [de |];
    cbn [General.ofText General.andTrim General.andIncludes General.bind
         JS.ge JS.le];
    repeat match goal with
           | |- context [let '(_, _) := (if ?b then _ else _) in _] =>
               destruct b; cbn [General.plus General.bind JS.ge JS.le]
           end; reflexivity.
Qed.

Lemma determineApprovalLevel_agree (c : Case.CaseData) (a : CaseRouter.Analysis) :
  General.determineApprovalLevel (General.ofCase c) (analysisOf a)
  = CaseRouter.determineApprovalLevel c a.
Proof. reflexivity. Qed.

Lemma buildEscalationPath_agree (c : Case.CaseData) (a : CaseRouter.Analysis) :
  General.buildEscalationPath (General.ofCase c) (analysisOf a)
  = CaseRouter.buildEscalationPath c a.
Proof. reflexivity. Qed.

Lemma assignTeam_agree (c : Case.CaseData) (a : CaseRouter.Analysis) :
  General.inherited (Case.category c) = false ->
  General.assignTeam (General.ofCase c) (analysisOf a)
  = PolicyChecker.Return (CaseRouter.assignTeam c a).
Proof.
  intro Hc. unfold General.assignTeam, CaseRouter.assignTeam. cbv zeta.
  cbn [General.ofCase General.Draft.category General.Draft.dealValue
       General.Draft.competitorInfo analysisOf General.riskLevel].
  rewrite truthy_text. unfold General.same.
  destruct (Case.category c) as [k |]; [| reflexivity].
  rewrite Hc. unfold CaseRouter.categoryTeamMap. cbn [JS.lookup].
  repeat match goal with
         | |- context [String.eqb k ?l] => destruct (String.eqb k l) eqn:?
         end; reflexivity.
Qed.

Lemma assessUrgency_agree (c : Case.CaseData) (a : CaseRouter.Analysis) :
  General.inherited (Case.priority c) = false ->
  General.assessUrgency (General.ofCase c) (analysisOf a)
  = PolicyChecker.Return
      {| General.urgencyLevel :=
           CaseRouter.urgencyLevel (CaseRouter.assessUrgency c a);
         General.urgencyScore :=
           General.Counted
             (JS.Num (CaseRouter.urgencyScore (CaseRouter.assessUrgency c a))) |}.
Proof.
  intro Hp. unfold General.assessUrgency, CaseRouter.assessUrgency. cbv zeta.
  cbn [General.ofCase General.Draft.priority General.Draft.dealValue
       General.Draft.competitorInfo General.Draft.timeframe
       General.Draft.description].
  rewrite (lookupOr_agree _ _ _ Hp), !truthy_text.
  cbn [General.held General.add CaseRouter.urgencyLevel CaseRouter.urgencyScore].
  destruct (Case.timeframe c) as [tf |], (Case.description c) as [de |];
    cbn [General.ofText General.andIncludes General.bind Case.truthyText
         Case.lowerOrEmpty andb];
    try (destruct (JS.truthyStr de),
           (JS.includes (JS.toLowerCase de) "renewal"),
           (JS.includes (JS.toLowerCase de) "risk");
         cbn [andb General.bind]);
    repeat match goal with
           | |- context [if ?b then _ else _] =>
               lazymatch b with
               | context [if _ then _ else _] => fail
               | _ =>
                   destruct b;
                   cbn [General.add General.bind General.counted JS.ge andb]
               end
           end; reflexivity.
Qed.

(** On a case of texts and numbers whose category and priority name no
    inherited property the handler of the router is not entered, and the
    answer is the one [CaseRouter.routeCase] describes. *)
Lemma routeCase_agree (c : Case.CaseData) :
  ordinaryNames c = true ->
  General.routeCase (General.ofCase c)
  = General.Routed (CaseRouter.routing (CaseRouter.routeCase c))
                   (CaseRouter.analysis (CaseRouter.routeCase c)).
Proof.
  intro H. pose proof H as Hn. unfold ordinaryNames in Hn.
  apply andb_true_iff in Hn. destruct Hn as [Hc Hp].
  apply negb_true_iff in Hc, Hp.
  unfold General.routeCase.
  rewrite (analyzeCaseComplexity_agree c H). cbn [General.bind].
  rewrite (assignTeam_agree c _ Hc). cbn [General.bind].
  rewrite (assessUrgency_agree c _ Hp). cbn [General.bind].
  rewrite determineApprovalLevel_agree, buildEscalationPath_agree.
  reflexivity.
Qed.

(** *** A check that throws, on any draft *)

(** C8 (amended): when a check of the running list throws, the loop of
    [checkCompliance] catches it: the warning "Unable to complete <check>
    check" of medium severity is among the warnings of the loop, every
    check of the list that returns is recorded under its name and its
    findings are aggregated.  The answer is a success exactly when the
    risk assessment after the loop does not throw, that is unless
    [competitorInfo] is falsy and [description] holds a value that is no
    text: then the answer carries the lists of the loop; otherwise the
    outer handler answers with the error and the fallback.  On a draft of
    texts and numbers the risk assessment never throws.  A check that
    does not apply (the discount check on a draft whose category is not
    "pricing", the technical and the legal check on a draft of another
    category) returns the neutral result, compliant, score 100, no
    finding, whatever the other fields hold. *)
Theorem failing_check_is_contained
        (this : General.Checker) (d : General.Draft.t) (failing error : string) :
  In failing (General.complianceChecks this) ->
  General.method this failing d = PolicyChecker.Throw error ->
  let loop := General.runChecks this d in
  let answer := General.checkCompliance this d in
  In {| PolicyChecker.type := "system"; PolicyChecker.severity := "medium";
        PolicyChecker.message :=
          [PolicyChecker.Text "Unable to complete ";
           PolicyChecker.Text failing; PolicyChecker.Text " check"] |}
     (PolicyChecker.Compliance.warnings loop) /\
  (forall name r,
      In name (General.complianceChecks this) ->
      General.method this name d = PolicyChecker.Return r ->
      JS.lookup name (PolicyChecker.Compliance.complianceChecks loop) = Some r /\
      incl (PolicyChecker.violations r) (PolicyChecker.Compliance.violations loop) /\
      incl (PolicyChecker.warnings r) (PolicyChecker.Compliance.warnings loop) /\
      incl (PolicyChecker.recommendations r)
           (PolicyChecker.Compliance.recommendations loop)) /\
  General.succeeded answer = negb (riskUnassessable d) /\
  (riskUnassessable d = false ->
   exists result,
     answer = General.Checked result /\
     PolicyChecker.Compliance.warnings result
     = PolicyChecker.Compliance.warnings loop /\
     PolicyChecker.Compliance.violations result
     = PolicyChecker.Compliance.violations loop /\
     PolicyChecker.Compliance.recommendations result
     = PolicyChecker.Compliance.recommendations loop /\
     PolicyChecker.Compliance.complianceChecks result
     = PolicyChecker.Compliance.complianceChecks loop /\
     PolicyChecker.Compliance.score result = PolicyChecker.Compliance.score loop) /\
  (riskUnassessable d = true ->
   answer
   = General.Unchecked "caseData.description?.toLowerCase is not a function"
                       General.generateFallbackCompliance) /\
  (forall c : Case.CaseData, riskUnassessable (General.ofCase c) = false) /\
  (forall d',
      General.Draft.category d' <> Some "pricing" ->
      General.method General.policyChecker "discountCompliance" d'
      = PolicyChecker.Return (PolicyChecker.fresh "discount_compliance") /\
      PolicyChecker.compliant (PolicyChecker.fresh "discount_compliance") = true /\
      PolicyChecker.score (PolicyChecker.fresh "discount_compliance") = Some 100%Z /\
      PolicyChecker.violations (PolicyChecker.fresh "discount_compliance") = [] /\
      PolicyChecker.warnings (PolicyChecker.fresh "discount_compliance") = []) /\
  (forall d',
      General.Draft.category d' <> Some "technical" ->
      General.technicalCompliance d'
      = PolicyChecker.Return (PolicyChecker.fresh "technical_compliance")) /\
  (forall d',
      General.Draft.category d' <> Some "legal" ->
      General.legalCompliance d'
      = PolicyChecker.Return (PolicyChecker.fresh "legal_compliance")).
Proof.
  intros Hin Hthrow loop answer. subst loop answer.
  assert (Hsame : forall d' literal,
             General.Draft.category d' <> Some literal ->
             General.same (General.Draft.category d') literal = false).
  { intros d' literal Hcat. unfold General.same.
    destruct (General.Draft.category d') as [s |]; [| reflexivity].
    apply String.eqb_neq. congruence. }
  pose proof (checkCompliance_spec this d) as Hanswer.
  unfold General.runChecks.
  rewrite loopOn_warnings, loopOn_violations, loopOn_recommendations.
  cbn [PolicyChecker.initialResults PolicyChecker.Compliance.warnings
       PolicyChecker.Compliance.violations
       PolicyChecker.Compliance.recommendations app].
  split; [| split; [| split; [| split; [| split; [| split; [| split; [| split]]]]]]].
  - apply in_flat_map. exists failing. split; [exact Hin |].
    unfold warningsOn. rewrite Hthrow. now left.
  - intros name r Hname Hr.
    split; [apply loopOn_checks; [exact Hr | now left] |].
    pose proof (In_returnedOn this d _ _ _ Hname Hr) as Hret.
    repeat split; intros x Hx; apply in_flat_map.
    + exists r. now split.
    + exists name. split; [exact Hname |]. unfold warningsOn. now rewrite Hr.
    + exists r. now split.
  - destruct (riskUnassessable d).
    + rewrite Hanswer. reflexivity.
    + destruct Hanswer as (ra & _ & ->). reflexivity.
  - intro Hrisk. rewrite Hrisk in Hanswer. destruct Hanswer as (ra & _ & ->).
    eexists. split; [reflexivity |].
    cbn [PolicyChecker.Compliance.warnings PolicyChecker.Compliance.violations
         PolicyChecker.Compliance.recommendations
         PolicyChecker.Compliance.complianceChecks PolicyChecker.Compliance.score].
    unfold General.runChecks.
    rewrite loopOn_warnings, loopOn_violations, loopOn_recommendations.
    repeat split.
  - intro Hrisk. rewrite Hrisk in Hanswer. exact Hanswer.
  - exact riskUnassessable_text.
  - intros d' Hcat. split; [| repeat split].
    change (General.method General.policyChecker "discountCompliance" d')
      with (General.discountCompliance d').
    unfold General.discountCompliance.
    now rewrite (Hsame d' "pricing" Hcat), orb_true_r.
  - intros d' Hcat. unfold General.technicalCompliance.
    now rewrite (Hsame d' "technical" Hcat).
  - intros d' Hcat. unfold General.legalCompliance.
    now rewrite (Hsame d' "legal" Hcat).
Qed.

Lemma failing_check_is_contained_witness :
  In "paymentTerms" (General.complianceChecks General.policyChecker) /\
  General.method General.policyChecker "paymentTerms"
                 numberAsDescriptionWithCompetitor
  = PolicyChecker.Throw "caseData.description?.toLowerCase is not a function" /\
  General.succeeded
    (General.checkCompliance General.policyChecker
                             numberAsDescriptionWithCompetitor) = true /\
  In {| PolicyChecker.type := "system"; PolicyChecker.severity := "medium";
        PolicyChecker.message :=
          [PolicyChecker.Text "Unable to complete ";
           PolicyChecker.Text "paymentTerms"; PolicyChecker.Text " check"] |}
     (PolicyChecker.Compliance.warnings
        (General.runChecks General.policyChecker
                           numberAsDescriptionWithCompetitor)).
Proof.
  assert (Hin : In "paymentTerms"
                   (General.complianceChecks General.policyChecker))
    by (simpl; tauto).
  assert (Hthrow : General.method General.policyChecker "paymentTerms"
                                  numberAsDescriptionWithCompetitor
                   = PolicyChecker.Throw
                       "caseData.description?.toLowerCase is not a function")
    by reflexivity.
  split; [exact Hin |]. split; [exact Hthrow |].
  destruct (failing_check_is_contained
              General.policyChecker numberAsDescriptionWithCompetitor _ _
              Hin Hthrow)
    as (Hwarn & _ & Hok & _).
  split; [exact Hok | exact Hwarn].
Defined.

(** C8, the counterexample: a draft whose description is a number and
    that names no competitor.  The payment terms check of the singleton
    throws, the loop records the warning, and then the risk assessment
    throws outside the loop: the answer is no success, it is the error
    with the fallback. *)
Lemma failing_check_is_no_success :
  In "paymentTerms" (General.complianceChecks General.policyChecker) /\
  General.method General.policyChecker "paymentTerms" numberAsDescription
  = PolicyChecker.Throw "caseData.description?.toLowerCase is not a function" /\
  In {| PolicyChecker.type := "system"; PolicyChecker.severity := "medium";
        PolicyChecker.message :=
          [PolicyChecker.Text "Unable to complete ";
           PolicyChecker.Text "paymentTerms"; PolicyChecker.Text " check"] |}
     (PolicyChecker.Compliance.warnings
        (General.runChecks General.policyChecker numberAsDescription)) /\
  General.succeeded
    (General.checkCompliance General.policyChecker numberAsDescription) = false /\
  General.checkCompliance General.policyChecker numberAsDescription
  = General.Unchecked "caseData.description?.toLowerCase is not a function"
                      General.generateFallbackCompliance.
Proof.
  repeat apply conj.
  - simpl. tauto.
  - reflexivity.
  - vm_compute. tauto.
  - reflexivity.
  - reflexivity.
Qed.
